(** * Spot-welder firmware: the interlocked pulse sequencer, its command
      parser and its debounced pedal, for the two firmware variants

    Sources:
    - [Blackpill_F411_HAL/src/main.c]      (STM32 HAL variant)   -> [Module Blackpill]
    - [WeldController_STM32/src/main.cpp]  (Arduino-core variant) -> [Module WeldController]

    Both programs are single-threaded control loops over a set of global
    variables.  They are embedded as functions on a [World]: the globals,
    the physical time, and the trace of what the firmware did to the outside
    (lines sent on the serial link, calls of the output driver, writes of the
    volatile busy flag). *)

From Stdlib Require Import ZArith Lia Bool List Ascii String DecimalString
  DecimalPos.
Import ListNotations.
Local Open Scope string_scope.
Local Open Scope list_scope.
Local Open Scope Z_scope.

(** ** Machine integers

    The target is a 32-bit ARM: [int], [long] and [int32_t] are 32 bits wide.
    A value of an unsigned type is a [Z] kept in range by the conversions
    below, which are the C conversions to [uint8_t], [uint16_t] and
    [uint32_t]; [s32] is the conversion to [int32_t]. *)

Definition u8 (z : Z) : Z := z mod 256.
Definition u16 (z : Z) : Z := z mod 65536.
Definition u32 (z : Z) : Z := z mod 4294967296.
Definition s32 (z : Z) : Z :=
  let m := u32 z in if m <? 2147483648 then m else m - 4294967296.

Definition INT_MAX : Z := 2147483647.
Definition INT_MIN : Z := -2147483648.

(** ** The C library and Arduino [String] functions the parsers call *)

Module CLib.

Definition isspace (c : ascii) : bool :=
  let n := Z.of_N (N_of_ascii c) in
  (n =? 32) || ((9 <=? n) && (n <=? 13)).

Definition digit_val (c : ascii) : option Z :=
  let n := Z.of_N (N_of_ascii c) in
  if (48 <=? n) && (n <=? 57) then Some (n - 48) else None.

Fixpoint skip_space (s : string) : string :=
  match s with
  | String c s' => if isspace c then skip_space s' else s
  | EmptyString => s
  end.

Fixpoint scan_digits (acc : Z) (s : string) : Z * string :=
  match s with
  | String c s' =>
      match digit_val c with
      | Some d => scan_digits (10 * acc + d) s'
      | None => (acc, s)
      end
  | EmptyString => (acc, s)
  end.

(** [strtol] saturates at the bounds of [long]. *)
Definition saturate (z : Z) : Z := Z.max INT_MIN (Z.min INT_MAX z).

(** [strtol s] in base 10: leading white space, an optional sign, then at
    least one digit.  [None] when no conversion is possible; otherwise
    the value and the unread rest of the string. *)
Definition strtol (s : string) : option (Z * string) :=
  let s1 := skip_space s in
  let '(neg, s2) :=
    match s1 with
    | String "-" r => (true, r)
    | String "+" r => (false, r)
    | _ => (false, s1)
    end in
  match s2 with
  | String c _ =>
      match digit_val c with
      | Some _ =>
          let '(v, rest) := scan_digits 0 s2 in
          Some (saturate (if neg then - v else v), rest)
      | None => None
      end
  | EmptyString => None
  end.

(** [atoi] and [atol] ([String::toInt] is [atol] of the buffer): the value
    of [strtol], 0 when nothing converts. *)
Definition atoi (s : string) : Z :=
  match strtol s with Some (v, _) => v | None => 0 end.

(** The conversions of [sscanf] with a format ["%d,%d,...,%d"] of [n]
    directives: every [%d] is a [strtol]; the literal comma between two
    directives must be the next character.  The result lists the values
    converted, in order; its length is the number of assignments. *)
Fixpoint scan_fields (n : nat) (s : string) : list Z :=
  match n with
  | O => []
  | S n' =>
      match strtol s with
      | None => []
      | Some (v, rest) =>
          v :: match rest with
               | String "," rest' => scan_fields n' rest'
               | _ => []
               end
      end
  end.

(** [strncmp(line, pat, strlen(pat)) == 0] and [String::startsWith]. *)
Fixpoint starts_with (pat line : string) : bool :=
  match pat, line with
  | EmptyString, _ => true
  | String a pat', String b line' => Ascii.eqb a b && starts_with pat' line'
  | String _ _, EmptyString => false
  end.

(** [line + n], [String::substring(n)]: the string without its first [n]
    characters. *)
Fixpoint drop (n : nat) (s : string) : string :=
  match n, s with
  | O, _ => s
  | S n', String _ s' => drop n' s'
  | S _, EmptyString => EmptyString
  end.

(** [%d], [%lu] and [String(int)]: decimal digits. *)
Definition dec (z : Z) : string := NilZero.string_of_int (Z.to_int z).

(** Position of the first [ch] in [s], counted from [i]. *)
Fixpoint find_char (ch : ascii) (i : Z) (s : string) : Z :=
  match s with
  | EmptyString => -1
  | String c s' => if Ascii.eqb c ch then i else find_char ch (i + 1) s'
  end.

(** [String::indexOf(ch, fromIndex)].  [fromIndex] is an [unsigned int]:
    the caller's [-1 + 1] is 0, and an index at or past the length
    gives -1. *)
Definition indexOf (ch : ascii) (from : Z) (s : string) : Z :=
  let from := u32 from in
  if Z.of_nat (String.length s) <=? from then -1
  else find_char ch from (drop (Z.to_nat from) s).

(** [String::substring(left, right)]: the characters in [left, right),
    bounds swapped when [left > right], [right] cut at the length. *)
Definition substring (lo hi : Z) (s : string) : string :=
  let lo := u32 lo in
  let hi := u32 hi in
  let '(lo, hi) := if hi <? lo then (hi, lo) else (lo, hi) in
  let len := Z.of_nat (String.length s) in
  if len <=? lo then EmptyString
  else
    let hi := if len <? hi then len else hi in
    String.substring (Z.to_nat lo) (Z.to_nat (hi - lo)) s.

End CLib.

Import CLib.

(** ** The state of the firmware and its observable behaviour *)

(** Level of the pedal pin: [GPIO_PIN_RESET] / [LOW] and [GPIO_PIN_SET] /
    [HIGH].  The pedal is wired active low with a pull-up. *)
Inductive Level : Type := LOW | HIGH.

Definition level_eqb (a b : Level) : bool :=
  match a, b with
  | LOW, LOW | HIGH, HIGH => true
  | _, _ => false
  end.

(** The weld parameters (the globals under "Weld Parameters"). *)
Record Params : Type := mkParams {
  weld_mode : Z;            (* uint8_t  *)
  weld_d1_ms : Z;           (* uint16_t *)
  weld_gap1_ms : Z;         (* uint16_t *)
  weld_d2_ms : Z;           (* uint16_t *)
  weld_gap2_ms : Z;         (* uint16_t *)
  weld_d3_ms : Z;           (* uint16_t *)
  weld_power_pct : Z;       (* uint8_t  *)
  preheat_enabled : bool;
  preheat_ms : Z;           (* uint16_t *)
  preheat_pct : Z;          (* uint8_t  *)
  preheat_gap_ms : Z        (* uint16_t *)
}.

(** The interlock state (the globals under "State"). *)
Record Safety : Type := mkSafety {
  welding_now : bool;
  last_weld_ms : Z;         (* uint32_t *)
  armed : bool;
  armed_until_ms : Z;       (* uint32_t *)
  boot_ms : Z               (* uint32_t *)
}.

(** The debounce state of the pedal. *)
Record Pedal : Type := mkPedal {
  pedal_last_raw : Level;
  pedal_stable : Level;
  pedal_last_change_ms : Z  (* uint32_t *)
}.

(** What the firmware does to the outside.  Output-driver calls carry the
    time, in microseconds, at which they are made. *)
Inductive Event : Type :=
| Tx (line : string)        (* uartSend: one line on the link to the ESP32 *)
| PwmOn (t duty : Z)        (* pwmOnDuty: the output driven at [duty]      *)
| PwmOff (t : Z)            (* pwmOff: the output forced off               *)
| Welding (b : bool).       (* a write of the volatile flag welding_now    *)

(** [clock] is the physical time in microseconds since power-on.  The
    millisecond counters of both cores ([HAL_GetTick], [millis]) are its
    millisecond part as a [uint32_t]; [micros] is the clock itself as a
    [uint32_t].  Time passes only in the delay primitives and between two
    calls of the control loop; sending a line takes no time. *)
Record World : Type := mkWorld {
  params : Params;
  safety : Safety;
  pedal : Pedal;
  clock : Z;
  trace : list Event
}.

Definition set_params (p : Params) (w : World) : World :=
  mkWorld p (safety w) (pedal w) (clock w) (trace w).
Definition set_safety (s : Safety) (w : World) : World :=
  mkWorld (params w) s (pedal w) (clock w) (trace w).
Definition set_pedal (p : Pedal) (w : World) : World :=
  mkWorld (params w) (safety w) p (clock w) (trace w).
Definition set_clock (t : Z) (w : World) : World :=
  mkWorld (params w) (safety w) (pedal w) t (trace w).
Definition elapse (us : Z) (w : World) : World :=
  set_clock (clock w + us) w.
Definition emit (e : Event) (w : World) : World :=
  mkWorld (params w) (safety w) (pedal w) (clock w) (trace w ++ [e]).

Definition set_welding_now (b : bool) (w : World) : World :=
  emit (Welding b)
    (set_safety (mkSafety b (last_weld_ms (safety w)) (armed (safety w))
                   (armed_until_ms (safety w)) (boot_ms (safety w))) w).
Definition set_last_weld_ms (t : Z) (w : World) : World :=
  set_safety (mkSafety (welding_now (safety w)) t (armed (safety w))
                (armed_until_ms (safety w)) (boot_ms (safety w))) w.
Definition set_armed (a : bool) (until : Z) (w : World) : World :=
  set_safety (mkSafety (welding_now (safety w)) (last_weld_ms (safety w)) a until
                (boot_ms (safety w))) w.
Definition set_boot_ms (t : Z) (w : World) : World :=
  set_safety (mkSafety (welding_now (safety w)) (last_weld_ms (safety w))
                (armed (safety w)) (armed_until_ms (safety w)) t) w.

Definition set_weld_d1_ms (v : Z) (p : Params) : Params :=
  mkParams (weld_mode p) v (weld_gap1_ms p) (weld_d2_ms p) (weld_gap2_ms p)
    (weld_d3_ms p) (weld_power_pct p) (preheat_enabled p) (preheat_ms p)
    (preheat_pct p) (preheat_gap_ms p).
Definition set_weld_power_pct (v : Z) (p : Params) : Params :=
  mkParams (weld_mode p) (weld_d1_ms p) (weld_gap1_ms p) (weld_d2_ms p)
    (weld_gap2_ms p) (weld_d3_ms p) v (preheat_enabled p) (preheat_ms p)
    (preheat_pct p) (preheat_gap_ms p).
Definition set_pulse (m d1 g1 d2 g2 d3 : Z) (p : Params) : Params :=
  mkParams m d1 g1 d2 g2 d3 (weld_power_pct p) (preheat_enabled p)
    (preheat_ms p) (preheat_pct p) (preheat_gap_ms p).
Definition set_preheat (en : bool) (ms pct gap : Z) (p : Params) : Params :=
  mkParams (weld_mode p) (weld_d1_ms p) (weld_gap1_ms p) (weld_d2_ms p)
    (weld_gap2_ms p) (weld_d3_ms p) (weld_power_pct p) en ms pct gap.

(** Limits and timing: the same constants in both sources. *)
Definition WELD_COOLDOWN_MS : Z := 500.
Definition MAX_WELD_MS : Z := 200.
Definition PEDAL_DEBOUNCE_MS : Z := 40.
Definition BOOT_INHIBIT_MS : Z := 5000.
Definition PWM_MAX : Z := 1023.

(** The defaults of the parameter globals: the same in both sources. *)
Definition default_params : Params :=
  mkParams 1 10 0 0 0 0 100 false 20 30 3.

(** Sequencing of steps that may run out of fuel in a busy-wait. *)
Definition bind {A B : Type} (m : option A) (k : A -> option B) : option B :=
  match m with Some a => k a | None => None end.

Notation "x <- m ;; k" := (bind m (fun x => k))
  (at level 61, m at next level, right associativity).

Definition bool_digit (b : bool) : string := if b then "1" else "0".

(** ** Blackpill_F411_HAL/src/main.c *)

Module Blackpill.
Section Firmware.

(** [ARM_TIMEOUT_MS] is 0 in the source ("0 = disabled").  It is kept
    symbolic so that the branch of [applyArmTimeout] behind it is covered
    too; the source is the instance [ARM_TIMEOUT_MS = 0]. *)
Variable ARM_TIMEOUT_MS : Z.

Definition HAL_MAX_DELAY : Z := 4294967295.

(** [HAL_GetTick]: the SysTick counter, one count per millisecond. *)
Definition HAL_GetTick (w : World) : Z := u32 (clock w / 1000).

(** [uartSend] hands the line and the line end to [HAL_UART_Transmit],
    which blocks while they go out.  The trace keeps the line; the time
    the transmission takes is not modelled, so what is said of the clock
    after a line has been sent holds up to that time. *)
Definition uartSend (s : string) (w : World) : World := emit (Tx s) w.

Definition pwmOff (w : World) : World := emit (PwmOff (clock w)) w.

Definition pwmOnDuty (duty : Z) (w : World) : World :=
  let duty := if PWM_MAX <? duty then PWM_MAX else duty in
  emit (PwmOn (clock w) duty) w.

Definition clamp_params (p : Params) : Params :=
  let mode := weld_mode p in
  let mode := if mode <? 1 then 1 else mode in
  let mode := if 3 <? mode then 3 else mode in
  let d1 := if MAX_WELD_MS <? weld_d1_ms p then MAX_WELD_MS else weld_d1_ms p in
  let d2 := if MAX_WELD_MS <? weld_d2_ms p then MAX_WELD_MS else weld_d2_ms p in
  let d3 := if MAX_WELD_MS <? weld_d3_ms p then MAX_WELD_MS else weld_d3_ms p in
  let power := weld_power_pct p in
  let power := if power <? 50 then 50 else power in
  let power := if 100 <? power then 100 else power in
  let ppct := if 100 <? preheat_pct p then 100 else preheat_pct p in
  let pms := if MAX_WELD_MS <? preheat_ms p then MAX_WELD_MS else preheat_ms p in
  mkParams mode d1 (weld_gap1_ms p) d2 (weld_gap2_ms p) d3 power
    (preheat_enabled p) pms ppct (preheat_gap_ms p).

Definition clampParams (w : World) : World :=
  set_params (clamp_params (params w)) w.

Definition applyArmTimeout (w : World) : World :=
  if ARM_TIMEOUT_MS =? 0 then w
  else if negb (armed (safety w)) then w
  else if armed_until_ms (safety w) =? 0 then w
  else
    let now := HAL_GetTick w in
    if 0 <=? s32 (now - armed_until_ms (safety w)) then
      uartSend "EVENT,ARM_TIMEOUT" (set_armed false 0 w)
    else w.

Definition pctToDuty (pct : Z) : Z :=
  if 100 <=? pct then PWM_MAX else u16 (u32 (pct * PWM_MAX) / 100).

(** [while ((HAL_GetTick() - start) < wait) { }]: the loop polls the
    counter, which the SysTick interrupt advances underneath it.  One
    unfolding of the model stands for the polls of one SysTick period;
    the fuel bounds the number of periods waited for. *)
Fixpoint spin (fuel : nat) (start wait : Z) (w : World) : option World :=
  if u32 (HAL_GetTick w - start) <? wait then
    match fuel with
    | O => None
    | S fuel' => spin fuel' start wait (elapse 1000 w)
    end
  else Some w.

(** [HAL_Delay] of the STM32 HAL: it adds one tick to the delay asked for
    "to guarantee minimum wait", then spins on the counter. *)
Definition HAL_Delay (fuel : nat) (Delay : Z) (w : World) : option World :=
  let tickstart := HAL_GetTick w in
  let wait := if Delay <? HAL_MAX_DELAY then u32 (Delay + 1) else Delay in
  spin fuel tickstart wait w.

Definition delayMsExact (fuel : nat) (ms : Z) (w : World) : option World :=
  if ms =? 0 then Some w
  else
    let ms := if MAX_WELD_MS <? ms then MAX_WELD_MS else ms in
    let start := HAL_GetTick w in
    spin fuel start ms w.

Definition doPulseMsPwm (fuel : nat) (ms duty : Z) (w : World) : option World :=
  if ms =? 0 then Some w
  else
    let ms := if MAX_WELD_MS <? ms then MAX_WELD_MS else ms in
    let w := pwmOnDuty duty w in
    w <- delayMsExact fuel ms w ;;
    Some (pwmOff w).

(** The line of the completion event.  The longest one has 164
    characters: the 256-byte buffer never cuts it. *)
Definition weld_done_line (total_ms : Z) (p : Params) : string :=
  "EVENT,WELD_DONE,total_ms=" ++ dec total_ms
  ++ ",mode=" ++ dec (weld_mode p)
  ++ ",d1=" ++ dec (weld_d1_ms p)
  ++ ",gap1=" ++ dec (weld_gap1_ms p)
  ++ ",d2=" ++ dec (weld_d2_ms p)
  ++ ",gap2=" ++ dec (weld_gap2_ms p)
  ++ ",d3=" ++ dec (weld_d3_ms p)
  ++ ",power_pct=" ++ dec (weld_power_pct p)
  ++ ",preheat_en=" ++ bool_digit (preheat_enabled p)
  ++ ",preheat_ms=" ++ dec (preheat_ms p)
  ++ ",preheat_pct=" ++ dec (preheat_pct p)
  ++ ",preheat_gap_ms=" ++ dec (preheat_gap_ms p).

Definition fireRecipe (fuel : nat) (w : World) : option World :=
  let now_ms := HAL_GetTick w in
  (* Boot inhibit *)
  if u32 (now_ms - boot_ms (safety w)) <? BOOT_INHIBIT_MS then
    Some (uartSend ("DENY,BOOT_INHIBIT,ms="
                    ++ dec (u32 (BOOT_INHIBIT_MS - u32 (now_ms - boot_ms (safety w))))) w)
  else
  (* Arm timeout check *)
  let w := applyArmTimeout w in
  if negb (armed (safety w)) then Some (uartSend "DENY,NOT_ARMED" w)
  else
  (* Already welding check *)
  if welding_now (safety w) then Some (uartSend "DENY,ALREADY_WELDING" w)
  else
  (* Cooldown check *)
  let since := u32 (now_ms - last_weld_ms (safety w)) in
  if since <? WELD_COOLDOWN_MS then
    Some (uartSend ("DENY,COOLDOWN,ms=" ++ dec (u32 (WELD_COOLDOWN_MS - since))) w)
  else
  let w := clampParams w in
  let w := set_welding_now true w in
  let w := uartSend "EVENT,WELD_START" w in
  (* Deadtime / ensure off *)
  let w := pwmOff w in
  w <- HAL_Delay fuel 2 w ;;
  let t0 := HAL_GetTick w in
  (* Preheat pulse *)
  w <- (if preheat_enabled (params w) && (0 <? preheat_ms (params w)) then
          w <- doPulseMsPwm fuel (preheat_ms (params w))
                 (pctToDuty (preheat_pct (params w))) w ;;
          if 0 <? preheat_gap_ms (params w) then
            delayMsExact fuel (preheat_gap_ms (params w)) (pwmOff w)
          else Some w
        else Some w) ;;
  (* Main weld pulses *)
  let mainDuty := pctToDuty (weld_power_pct (params w)) in
  w <- (if 1 <=? weld_mode (params w) then
          doPulseMsPwm fuel (weld_d1_ms (params w)) mainDuty w
        else Some w) ;;
  w <- (if 2 <=? weld_mode (params w) then
          w <- (if negb (weld_gap1_ms (params w) =? 0) then
                  delayMsExact fuel (weld_gap1_ms (params w)) w
                else Some w) ;;
          doPulseMsPwm fuel (weld_d2_ms (params w)) mainDuty w
        else Some w) ;;
  w <- (if 3 <=? weld_mode (params w) then
          w <- (if negb (weld_gap2_ms (params w) =? 0) then
                  delayMsExact fuel (weld_gap2_ms (params w)) w
                else Some w) ;;
          doPulseMsPwm fuel (weld_d3_ms (params w)) mainDuty w
        else Some w) ;;
  let total_ms := u32 (HAL_GetTick w - t0) in
  let w := pwmOff w in
  let w := set_welding_now false w in
  let w := set_last_weld_ms (HAL_GetTick w) w in
  (* Send detailed completion event *)
  Some (uartSend (weld_done_line total_ms (params w)) w).

Definition status_line (w : World) : string :=
  let cd := s32 (s32 WELD_COOLDOWN_MS
                 - s32 (u32 (HAL_GetTick w - last_weld_ms (safety w)))) in
  let cd := if cd <? 0 then 0 else cd in
  "STATUS,armed=" ++ bool_digit (armed (safety w))
  ++ ",cooldown_ms=" ++ dec cd
  ++ ",welding=" ++ bool_digit (welding_now (safety w))
  ++ ",mode=" ++ dec (weld_mode (params w))
  ++ ",power_pct=" ++ dec (weld_power_pct (params w))
  ++ ",preheat_en=" ++ bool_digit (preheat_enabled (params w)).

Definition parseCommand (fuel : nat) (line : string) (w : World) : option World :=
  (* ARM,0 or ARM,1 *)
  if starts_with "ARM," line then
    let v := atoi (drop 4 line) in
    if v =? 1 then
      Some (uartSend "ACK,ARM,1"
              (set_armed true
                 (if ARM_TIMEOUT_MS =? 0 then 0
                  else u32 (HAL_GetTick w + ARM_TIMEOUT_MS)) w))
    else
      Some (uartSend "ACK,ARM,0" (set_armed false 0 w))
  (* CMD,SET,PULSE,<d1> *)
  else if starts_with "CMD,SET,PULSE," line then
    let val := atoi (drop 14 line) in
    if (0 <? val) && (val <=? MAX_WELD_MS) then
      let w := set_params (set_weld_d1_ms (u16 val) (params w)) w in
      Some (uartSend ("ACK,PULSE=" ++ dec (weld_d1_ms (params w))) w)
    else
      Some (uartSend "ERR,PULSE_RANGE" w)
  (* SET_PULSE,mode,d1,gap1,d2,gap2,d3 *)
  else if starts_with "SET_PULSE," line then
    let fields := scan_fields 6 (drop 10 line) in
    let n := Z.of_nat (List.length fields) in
    let v_mode := nth 0 fields 1 in
    let v_d1 := nth 1 fields 0 in
    let v_gap1 := nth 2 fields 0 in
    let v_d2 := nth 3 fields 0 in
    let v_gap2 := nth 4 fields 0 in
    let v_d3 := nth 5 fields 0 in
    if 2 <=? n then
      let w := set_params
                 (set_pulse (u8 v_mode) (u16 v_d1) (u16 v_gap1) (u16 v_d2)
                    (u16 v_gap2) (u16 v_d3) (params w)) w in
      let w := clampParams w in
      Some (uartSend ("ACK,SET_PULSE,mode=" ++ dec (weld_mode (params w))) w)
    else
      Some (uartSend "DENY,BAD_SET_PULSE" w)
  (* CMD,SET,POWER,<value> *)
  else if starts_with "CMD,SET,POWER," line then
    let val := atoi (drop 14 line) in
    if (50 <=? val) && (val <=? 100) then
      let w := set_params (set_weld_power_pct (u8 val) (params w)) w in
      Some (uartSend ("ACK,POWER=" ++ dec (weld_power_pct (params w))) w)
    else
      Some (uartSend "ERR,POWER_RANGE" w)
  (* SET_POWER,<value> *)
  else if starts_with "SET_POWER," line then
    let w := set_params (set_weld_power_pct (u8 (atoi (drop 10 line))) (params w)) w in
    let w := clampParams w in
    Some (uartSend ("ACK,SET_POWER,pct=" ++ dec (weld_power_pct (params w))) w)
  (* SET_PREHEAT,en,ms,pct,gap_ms *)
  else if starts_with "SET_PREHEAT," line then
    let fields := scan_fields 4 (drop 12 line) in
    let n := Z.of_nat (List.length fields) in
    let v_en := nth 0 fields 0 in
    let v_ms := nth 1 fields 0 in
    let v_pct := nth 2 fields 0 in
    let v_gap := nth 3 fields 0 in
    if 3 <=? n then
      let gap := if 4 <=? n then u16 v_gap else preheat_gap_ms (params w) in
      let w := set_params
                 (set_preheat (v_en =? 1) (u16 v_ms) (u8 v_pct) gap (params w)) w in
      let w := clampParams w in
      Some (uartSend ("ACK,SET_PREHEAT,en=" ++ bool_digit (preheat_enabled (params w))) w)
    else
      Some (uartSend "DENY,BAD_SET_PREHEAT" w)
  (* CMD,FIRE *)
  else if String.eqb line "CMD,FIRE" then fireRecipe fuel w
  (* CMD,ENABLE *)
  else if String.eqb line "CMD,ENABLE" then
    Some (uartSend "ACK,ENABLED" (set_armed true (armed_until_ms (safety w)) w))
  (* CMD,DISABLE *)
  else if String.eqb line "CMD,DISABLE" then
    Some (uartSend "ACK,DISABLED" (set_armed false (armed_until_ms (safety w)) w))
  (* STATUS or CMD,STATUS *)
  else if String.eqb line "STATUS" || String.eqb line "CMD,STATUS" then
    Some (uartSend (status_line w) w)
  (* Unknown command *)
  else Some (uartSend "ERR,UNKNOWN_CMD" w).

(** [raw] is the level read from the pedal pin by this call. *)
Definition pollPedal (fuel : nat) (raw : Level) (w : World) : option World :=
  let now := HAL_GetTick w in
  let w :=
    if negb (level_eqb raw (pedal_last_raw (pedal w))) then
      set_pedal (mkPedal raw (pedal_stable (pedal w)) now) w
    else w in
  if PEDAL_DEBOUNCE_MS <=? u32 (now - pedal_last_change_ms (pedal w)) then
    if negb (level_eqb raw (pedal_stable (pedal w))) then
      let prev := pedal_stable (pedal w) in
      let w := set_pedal (mkPedal (pedal_last_raw (pedal w)) raw
                            (pedal_last_change_ms (pedal w))) w in
      (* Falling edge = pedal press *)
      if level_eqb prev HIGH && level_eqb (pedal_stable (pedal w)) LOW then
        fireRecipe fuel (uartSend "EVENT,PEDAL_PRESS" w)
      else Some w
    else Some w
  else Some w.

(** The globals as initialised, at power-on. *)
Definition power_on : World :=
  mkWorld default_params (mkSafety false 0 false 0 0) (mkPedal HIGH HIGH 0) 0 [].

(** [main] up to its loop: the ten blinks, the output forced off, the
    boot time and the pedal state taken, the banner sent.  [r] is the
    level of the pedal pin at that moment. *)
Fixpoint blink (fuel : nat) (n : nat) (w : World) : option World :=
  match n with
  | O => Some w
  | S n' => w <- HAL_Delay fuel 100 w ;; blink fuel n' w
  end.

Definition main_init (fuel : nat) (r : Level) (w : World) : option World :=
  w <- blink fuel 10 w ;;
  let w := pwmOff w in
  let w := set_boot_ms (HAL_GetTick w) w in
  let w := set_pedal (mkPedal r r (boot_ms (safety w))) w in
  Some (uartSend "BOOT,STM32_WELD_BRAIN_PWM_READY" w).

(** One turn of the [while (1)] of [main].  [raw] is the pedal level read
    in this turn, [rx] the line the receive interrupt has completed, if
    any. *)
Definition main_loop (fuel : nat) (raw : Level) (rx : option string) (w : World)
  : option World :=
  w <- pollPedal fuel raw w ;;
  let w := applyArmTimeout w in
  match rx with
  | Some line => parseCommand fuel line w
  | None => Some w
  end.

End Firmware.
End Blackpill.

(** ** WeldController_STM32/src/main.cpp *)

Module WeldController.
Section Firmware.

(** As in the other source, [ARM_TIMEOUT_MS] is 0 there ("0 disables")
    and symbolic here. *)
Variable ARM_TIMEOUT_MS : Z.

(** The clock functions and the delay of the Arduino core. *)
Definition millis (w : World) : Z := u32 (clock w / 1000).
Definition micros (w : World) : Z := u32 (clock w).
Definition delayMicroseconds (us : Z) (w : World) : World := elapse us w.

(** [uartSend] prints the line on [Serial1], the link to the ESP32, and
    echoes it on the USB debug port; the trace keeps the line once.  The
    time the two [println] take is not modelled. *)
Definition uartSend (s : string) (w : World) : World := emit (Tx s) w.

Definition clamp_params (p : Params) : Params :=
  let mode := weld_mode p in
  let mode := if mode <? 1 then 1 else mode in
  let mode := if 3 <? mode then 3 else mode in
  let d1 := if MAX_WELD_MS <? weld_d1_ms p then MAX_WELD_MS else weld_d1_ms p in
  let d2 := if MAX_WELD_MS <? weld_d2_ms p then MAX_WELD_MS else weld_d2_ms p in
  let d3 := if MAX_WELD_MS <? weld_d3_ms p then MAX_WELD_MS else weld_d3_ms p in
  let power := weld_power_pct p in
  let power := if power <? 50 then 50 else power in
  let power := if 100 <? power then 100 else power in
  let ppct := if 100 <? preheat_pct p then 100 else preheat_pct p in
  let pms := if MAX_WELD_MS <? preheat_ms p then MAX_WELD_MS else preheat_ms p in
  mkParams mode d1 (weld_gap1_ms p) d2 (weld_gap2_ms p) d3 power
    (preheat_enabled p) pms ppct (preheat_gap_ms p).

Definition clampParams (w : World) : World :=
  set_params (clamp_params (params w)) w.

Definition applyArmTimeout (w : World) : World :=
  if ARM_TIMEOUT_MS =? 0 then w
  else if negb (armed (safety w)) then w
  else if armed_until_ms (safety w) =? 0 then w
  else if 0 <=? s32 (millis w - armed_until_ms (safety w)) then
    uartSend "EVENT,ARM_TIMEOUT" (set_armed false 0 w)
  else w.

Definition pctToDuty (pct : Z) : Z :=
  if 100 <=? pct then PWM_MAX else u16 (u32 (pct * PWM_MAX) / 100).

(** [analogWrite(pin, 0)] followed by [digitalWrite(pin, LOW)]. *)
Definition pwmOff (w : World) : World := emit (PwmOff (clock w)) w.

Definition pwmOnDuty (duty : Z) (w : World) : World :=
  let duty := if PWM_MAX <? duty then PWM_MAX else duty in
  emit (PwmOn (clock w) duty) w.

Definition delayMsExact (ms : Z) (w : World) : World :=
  if ms =? 0 then w
  else
    let ms := if MAX_WELD_MS <? ms then MAX_WELD_MS else ms in
    delayMicroseconds (u32 (ms * 1000)) w.

Definition doPulseMsPwm (ms duty : Z) (w : World) : World :=
  if ms =? 0 then w
  else
    let ms := if MAX_WELD_MS <? ms then MAX_WELD_MS else ms in
    let w := pwmOnDuty duty w in
    let w := delayMsExact ms w in
    pwmOff w.

Definition weld_done_line (total_us : Z) (p : Params) : string :=
  "EVENT,WELD_DONE,total_us=" ++ dec total_us
  ++ ",mode=" ++ dec (weld_mode p)
  ++ ",d1=" ++ dec (weld_d1_ms p)
  ++ ",gap1=" ++ dec (weld_gap1_ms p)
  ++ ",d2=" ++ dec (weld_d2_ms p)
  ++ ",gap2=" ++ dec (weld_gap2_ms p)
  ++ ",d3=" ++ dec (weld_d3_ms p)
  ++ ",power_pct=" ++ dec (weld_power_pct p)
  ++ ",preheat_en=" ++ dec (if preheat_enabled p then 1 else 0)
  ++ ",preheat_ms=" ++ dec (preheat_ms p)
  ++ ",preheat_pct=" ++ dec (preheat_pct p)
  ++ ",preheat_gap_ms=" ++ dec (preheat_gap_ms p).

Definition fireRecipe (w : World) : World :=
  let now_ms := millis w in
  if u32 (now_ms - boot_ms (safety w)) <? BOOT_INHIBIT_MS then
    uartSend ("DENY,BOOT_INHIBIT,ms="
              ++ dec (u32 (BOOT_INHIBIT_MS - u32 (now_ms - boot_ms (safety w))))) w
  else
  let w := applyArmTimeout w in
  if negb (armed (safety w)) then uartSend "DENY,NOT_ARMED" w
  else
  if welding_now (safety w) then uartSend "DENY,ALREADY_WELDING" w
  else
  let since := u32 (now_ms - last_weld_ms (safety w)) in
  if since <? WELD_COOLDOWN_MS then
    uartSend ("DENY,COOLDOWN,ms=" ++ dec (u32 (WELD_COOLDOWN_MS - since))) w
  else
  let w := clampParams w in
  let w := set_welding_now true w in
  let w := uartSend "EVENT,WELD_START" w in
  (* Deadtime / ensure off *)
  let w := pwmOff w in
  let w := delayMicroseconds 2000 w in
  let t0 := micros w in
  (* Preheat *)
  let w :=
    if preheat_enabled (params w) && (0 <? preheat_ms (params w)) then
      let w := doPulseMsPwm (preheat_ms (params w))
                 (pctToDuty (preheat_pct (params w))) w in
      if 0 <? preheat_gap_ms (params w) then
        delayMsExact (preheat_gap_ms (params w)) (pwmOff w)
      else w
    else w in
  (* Main *)
  let mainDuty := pctToDuty (weld_power_pct (params w)) in
  let w :=
    if 1 <=? weld_mode (params w) then
      doPulseMsPwm (weld_d1_ms (params w)) mainDuty w
    else w in
  let w :=
    if 2 <=? weld_mode (params w) then
      let w := if negb (weld_gap1_ms (params w) =? 0) then
                 delayMsExact (weld_gap1_ms (params w)) w
               else w in
      doPulseMsPwm (weld_d2_ms (params w)) mainDuty w
    else w in
  let w :=
    if 3 <=? weld_mode (params w) then
      let w := if negb (weld_gap2_ms (params w) =? 0) then
                 delayMsExact (weld_gap2_ms (params w)) w
               else w in
      doPulseMsPwm (weld_d3_ms (params w)) mainDuty w
    else w in
  let total_us := u32 (micros w - t0) in
  let w := pwmOff w in
  let w := set_welding_now false w in
  let w := set_last_weld_ms (millis w) w in
  uartSend (weld_done_line total_us (params w)) w.

Definition status_line (w : World) : string :=
  let cd := s32 (s32 WELD_COOLDOWN_MS
                 - s32 (u32 (millis w - last_weld_ms (safety w)))) in
  let cd := if cd <? 0 then 0 else cd in
  "STATUS,armed=" ++ bool_digit (armed (safety w))
  ++ ",cooldown_ms=" ++ dec cd
  ++ ",welding=" ++ dec (if welding_now (safety w) then 1 else 0)
  ++ ",mode=" ++ dec (weld_mode (params w))
  ++ ",power_pct=" ++ dec (weld_power_pct (params w))
  ++ ",preheat_en=" ++ dec (if preheat_enabled (params w) then 1 else 0).

Definition handleCmd (cmd : string) (w : World) : World :=
  if starts_with "ARM," cmd then
    let v := atoi (drop 4 cmd) in
    if v =? 1 then
      uartSend "ACK,ARM,1"
        (set_armed true
           (if ARM_TIMEOUT_MS =? 0 then 0 else u32 (millis w + ARM_TIMEOUT_MS)) w)
    else
      uartSend "ACK,ARM,0" (set_armed false 0 w)
  else if starts_with "SET_PULSE," cmd then
    let fields := scan_fields 6 (drop 10 cmd) in
    let n := Z.of_nat (List.length fields) in
    let v_mode := nth 0 fields 1 in
    let v_d1 := nth 1 fields 0 in
    let v_gap1 := nth 2 fields 0 in
    let v_d2 := nth 3 fields 0 in
    let v_gap2 := nth 4 fields 0 in
    let v_d3 := nth 5 fields 0 in
    if n <? 2 then uartSend "DENY,BAD_SET_PULSE" w
    else
      let w := set_params
                 (set_pulse (u8 v_mode) (u16 v_d1) (u16 v_gap1) (u16 v_d2)
                    (u16 v_gap2) (u16 v_d3) (params w)) w in
      let w := clampParams w in
      uartSend ("ACK,SET_PULSE,mode=" ++ dec (weld_mode (params w))) w
  else if starts_with "SET_POWER," cmd then
    let w := set_params (set_weld_power_pct (u8 (atoi (drop 10 cmd))) (params w)) w in
    let w := clampParams w in
    uartSend ("ACK,SET_POWER,pct=" ++ dec (weld_power_pct (params w))) w
  else if starts_with "SET_PREHEAT," cmd then
    let idx := 12 in
    let c1 := indexOf "," idx cmd in
    let c2 := indexOf "," (c1 + 1) cmd in
    let c3 := indexOf "," (c2 + 1) cmd in
    if (c1 <? 0) || (c2 <? 0) || (c3 <? 0) then uartSend "DENY,BAD_SET_PREHEAT" w
    else
      let en := atoi (substring idx c1 cmd) =? 1 in
      let ms := u16 (atoi (substring (c1 + 1) c2 cmd)) in
      let pct := u8 (atoi (substring (c2 + 1) c3 cmd)) in
      let gap := u16 (atoi (drop (Z.to_nat (c3 + 1)) cmd)) in
      let w := set_params (set_preheat en ms pct gap (params w)) w in
      let w := clampParams w in
      uartSend ("ACK,SET_PREHEAT,en=" ++ dec (if preheat_enabled (params w) then 1 else 0)) w
  else if String.eqb cmd "STATUS" then uartSend (status_line w) w
  else w.

(** [pollUart], on the lines that the characters available in this turn
    complete: each one, trimmed and not empty, is handed to [handleCmd]. *)
Definition pollUart (lines : list string) (w : World) : World :=
  fold_left (fun w line => handleCmd line w) lines w.

Definition pollPedal (raw : Level) (w : World) : World :=
  let now := millis w in
  let w :=
    if negb (level_eqb raw (pedal_last_raw (pedal w))) then
      set_pedal (mkPedal raw (pedal_stable (pedal w)) now) w
    else w in
  if PEDAL_DEBOUNCE_MS <=? u32 (now - pedal_last_change_ms (pedal w)) then
    if negb (level_eqb raw (pedal_stable (pedal w))) then
      let prev := pedal_stable (pedal w) in
      let w := set_pedal (mkPedal (pedal_last_raw (pedal w)) raw
                            (pedal_last_change_ms (pedal w))) w in
      if level_eqb prev HIGH && level_eqb (pedal_stable (pedal w)) LOW then
        fireRecipe w
      else w
    else w
  else w.

(** The globals as initialised, at power-on: this source starts armed. *)
Definition power_on : World :=
  mkWorld default_params (mkSafety false 0 true 0 0) (mkPedal HIGH HIGH 0) 0 [].

(** [setup]; [r] is the level of the pedal pin when it runs. *)
Definition setup (r : Level) (w : World) : World :=
  let w := set_boot_ms (millis w) w in
  let w := set_pedal (mkPedal r r (boot_ms (safety w))) w in
  let w := pwmOff w in
  uartSend "BOOT,STM32_WELD_BRAIN_PWM_READY" w.

Definition loop (lines : list string) (raw : Level) (w : World) : World :=
  let w := pollUart lines w in
  let w := pollPedal raw w in
  applyArmTimeout w.

End Firmware.
End WeldController.

(** ** Reading a trace *)

(** The lines sent, in order. *)
Fixpoint tx_lines (evs : list Event) : list string :=
  match evs with
  | [] => []
  | Tx s :: evs' => s :: tx_lines evs'
  | _ :: evs' => tx_lines evs'
  end.

(** The pulses delivered: every [PwmOn] with the [PwmOff] that ends it,
    as (duty, duration in microseconds). *)
Fixpoint pulses_from (on : option (Z * Z)) (evs : list Event) : list (Z * Z) :=
  match evs with
  | [] => []
  | PwmOn t d :: evs' => pulses_from (Some (t, d)) evs'
  | PwmOff t :: evs' =>
      match on with
      | Some (t0, d) => (d, t - t0) :: pulses_from None evs'
      | None => pulses_from None evs'
      end
  | _ :: evs' => pulses_from on evs'
  end.

Definition pulses (evs : list Event) : list (Z * Z) := pulses_from None evs.

(** The output state a trace ends in: driven since [t] at [d], or off. *)
Fixpoint driven (on : option (Z * Z)) (evs : list Event) : option (Z * Z) :=
  match evs with
  | [] => on
  | PwmOn t d :: evs' => driven (Some (t, d)) evs'
  | PwmOff _ :: evs' => driven None evs'
  | _ :: evs' => driven on evs'
  end.

(** Every call of [fireRecipe] answers with exactly one of these lines: a
    denial or the start event. *)
Definition is_fire_answer (s : string) : bool :=
  starts_with "DENY," s || String.eqb s "EVENT,WELD_START".

Definition fire_answers (evs : list Event) : nat :=
  List.length (filter is_fire_answer (tx_lines evs)).

Definition pedal_presses (evs : list Event) : nat :=
  List.length (filter (String.eqb "EVENT,PEDAL_PRESS") (tx_lines evs)).

(** The globals hold values of their C types. *)
Definition params_in_range (p : Params) : Prop :=
  0 <= weld_mode p < 256 /\
  0 <= weld_d1_ms p < 65536 /\ 0 <= weld_gap1_ms p < 65536 /\
  0 <= weld_d2_ms p < 65536 /\ 0 <= weld_gap2_ms p < 65536 /\
  0 <= weld_d3_ms p < 65536 /\
  0 <= weld_power_pct p < 256 /\
  0 <= preheat_ms p < 65536 /\ 0 <= preheat_pct p < 256 /\
  0 <= preheat_gap_ms p < 65536.

(** A world moved on by a stretch of time and of trace. *)
Definition advance (evs : list Event) (us : Z) (w : World) : World :=
  mkWorld (params w) (safety w) (pedal w) (clock w + us) (trace w ++ evs).

(** One stage of [ms] milliseconds at [duty], started at [t]: nothing for a
    zero duration, else the output on, held for the duration cut at
    [MAX_WELD_MS], and off. *)
Definition stage_us (ms : Z) : Z := 1000 * Z.min ms MAX_WELD_MS.

Definition stage_events (t ms duty : Z) : list Event :=
  if ms =? 0 then []
  else [PwmOn t (Z.min duty PWM_MAX); PwmOff (t + stage_us ms)].

Definition stage_pulse (ms duty : Z) : list (Z * Z) :=
  if ms =? 0 then [] else [(Z.min duty PWM_MAX, stage_us ms)].

(** ** The weld cycle as a script

    What an authorised [fireRecipe] does to the output, read off the
    recipe: the stages to drive, the rests between them and the forced-off
    before the preheat gap. *)
Inductive Step : Type :=
| Drive (ms duty : Z)
| Rest (ms : Z)
| ForceOff.

Definition recipe_steps (p : Params) : list Step :=
  let mainDuty := Blackpill.pctToDuty (weld_power_pct p) in
  (if preheat_enabled p && (0 <? preheat_ms p) then
     Drive (preheat_ms p) (Blackpill.pctToDuty (preheat_pct p))
     :: (if 0 <? preheat_gap_ms p then [ForceOff; Rest (preheat_gap_ms p)] else [])
   else [])
  ++ (if 1 <=? weld_mode p then [Drive (weld_d1_ms p) mainDuty] else [])
  ++ (if 2 <=? weld_mode p then [Rest (weld_gap1_ms p); Drive (weld_d2_ms p) mainDuty] else [])
  ++ (if 3 <=? weld_mode p then [Rest (weld_gap2_ms p); Drive (weld_d3_ms p) mainDuty] else []).

Definition step_events (t : Z) (s : Step) : list Event :=
  match s with
  | Drive ms duty => stage_events t ms duty
  | Rest _ => []
  | ForceOff => [PwmOff t]
  end.

Definition step_us (s : Step) : Z :=
  match s with
  | Drive ms _ => stage_us ms
  | Rest ms => stage_us ms
  | ForceOff => 0
  end.

Definition step_pulse (s : Step) : list (Z * Z) :=
  match s with
  | Drive ms duty => stage_pulse ms duty
  | Rest _ | ForceOff => []
  end.

Fixpoint play_events (t : Z) (steps : list Step) : list Event :=
  match steps with
  | [] => []
  | s :: rest => step_events t s ++ play_events (t + step_us s) rest
  end.

Fixpoint play_us (steps : list Step) : Z :=
  match steps with
  | [] => 0
  | s :: rest => step_us s + play_us rest
  end.

(** What an authorised fire adds to the trace, and the world it ends in.
    [dead] is the dead time before the first stage in microseconds, [done]
    the completion line from the clock at the start and at the end of the
    stages. *)
Definition cycle_events (dead : Z) (done : Z -> Z -> Params -> string) (w : World)
  : list Event :=
  let p := Blackpill.clamp_params (params w) in
  let t0 := clock w + dead in
  let t1 := t0 + play_us (recipe_steps p) in
  [Welding true; Tx "EVENT,WELD_START"; PwmOff (clock w)]
  ++ play_events t0 (recipe_steps p)
  ++ [PwmOff t1; Welding false; Tx (done t0 t1 p)].

Definition cycle (dead : Z) (done : Z -> Z -> Params -> string) (w : World) : World :=
  let p := Blackpill.clamp_params (params w) in
  let t1 := clock w + dead + play_us (recipe_steps p) in
  mkWorld p
    (mkSafety false (u32 (t1 / 1000)) (armed (safety w))
       (armed_until_ms (safety w)) (boot_ms (safety w)))
    (pedal w) t1
    (trace w ++ cycle_events dead done w).

Definition hal_done (t0 t1 : Z) (p : Params) : string :=
  Blackpill.weld_done_line (u32 (u32 (t1 / 1000) - u32 (t0 / 1000))) p.

Definition arduino_done (t0 t1 : Z) (p : Params) : string :=
  WeldController.weld_done_line (u32 (u32 t1 - u32 t0)) p.

(** The four checks of the interlock gate, on a world. *)
Definition boot_elapsed (w : World) : Z :=
  u32 (u32 (clock w / 1000) - boot_ms (safety w)).

Definition since_last_weld (w : World) : Z :=
  u32 (u32 (clock w / 1000) - last_weld_ms (safety w)).

(** The arm timeout has run out: one is configured, the unit is armed with
    a deadline, and the deadline is not in the future. *)
Definition arm_expired (ARM_TIMEOUT_MS : Z) (w : World) : bool :=
  negb (ARM_TIMEOUT_MS =? 0) && armed (safety w)
  && negb (armed_until_ms (safety w) =? 0)
  && (0 <=? s32 (u32 (clock w / 1000) - armed_until_ms (safety w))).

(** The world after the arm-timeout check. *)
Definition after_arm_check (ARM_TIMEOUT_MS : Z) (w : World) : World :=
  if arm_expired ARM_TIMEOUT_MS w then
    emit (Tx "EVENT,ARM_TIMEOUT") (set_armed false 0 w)
  else w.

(** ** The gate as the specification words it (section 4.3)

    [authorize_fire] evaluates the five checks in the order of the
    specification and returns the first denial that applies, with the
    world as the arm-timeout check leaves it. *)
Inductive Denial : Type :=
| BOOT_INHIBIT (ms : Z)
| NOT_ARMED
| ALREADY_WELDING
| COOLDOWN (ms : Z).

Definition denial_line (d : Denial) : string :=
  match d with
  | BOOT_INHIBIT ms => "DENY,BOOT_INHIBIT,ms=" ++ dec ms
  | NOT_ARMED => "DENY,NOT_ARMED"
  | ALREADY_WELDING => "DENY,ALREADY_WELDING"
  | COOLDOWN ms => "DENY,COOLDOWN,ms=" ++ dec ms
  end.

Definition authorize_fire (ARM_TIMEOUT_MS : Z) (w : World) : World * option Denial :=
  if boot_elapsed w <? BOOT_INHIBIT_MS then
    (w, Some (BOOT_INHIBIT (BOOT_INHIBIT_MS - boot_elapsed w)))
  else
    let w := after_arm_check ARM_TIMEOUT_MS w in
    if negb (armed (safety w)) then (w, Some NOT_ARMED)
    else if welding_now (safety w) then (w, Some ALREADY_WELDING)
    else if since_last_weld w <? WELD_COOLDOWN_MS then
      (w, Some (COOLDOWN (WELD_COOLDOWN_MS - since_last_weld w)))
    else (w, None).

(** What a fire request comes to: the line of the first denial, or the
    weld cycle. *)
Definition fire_outcome (dead : Z) (done : Z -> Z -> Params -> string)
    (ARM_TIMEOUT_MS : Z) (w : World) : World :=
  match authorize_fire ARM_TIMEOUT_MS w with
  | (w1, Some d) => emit (Tx (denial_line d)) w1
  | (w1, None) => cycle dead done w1
  end.

(** The events a run has added to the trace. *)
Definition new_events (w w' : World) : list Event :=
  skipn (List.length (trace w)) (trace w').

(** Nothing but output-driver calls. *)
Definition is_pwm (e : Event) : bool :=
  match e with
  | PwmOn _ _ | PwmOff _ => true
  | Tx _ | Welding _ => false
  end.

(** A fire request that changes nothing: the state is as before but for
    the arm state the timeout check may have cleared, the output is not
    touched, the busy flag is not written, and the lines sent do not
    include the start event. *)
Definition rejected (w w' : World) : Prop :=
  params w' = params w /\ pedal w' = pedal w /\
  welding_now (safety w') = welding_now (safety w) /\
  last_weld_ms (safety w') = last_weld_ms (safety w) /\
  forall e, In e (new_events w w') ->
            exists s, e = Tx s /\ s <> "EVENT,WELD_START".

(** A weld cycle bracketed by the busy flag: the flag is written true,
    the start event sent and the output forced off; then only the output
    is driven; then the output is forced off, the flag written false and
    the completion line sent. *)
Definition bracketed (w w' : World) : Prop :=
  exists (body : list Event) (t_end : Z) (line : string),
    forallb is_pwm body = true /\
    new_events w w'
    = Welding true :: Tx "EVENT,WELD_START" :: PwmOff (clock w)
      :: body ++ [PwmOff t_end; Welding false; Tx line] /\
    welding_now (safety w') = false.

(** A unit six seconds after power-on, armed, with the default recipe. *)
Definition idle_armed : World :=
  mkWorld default_params (mkSafety false 0 true 0 0) (mkPedal HIGH HIGH 0) 6000000 [].

(** A unit booted at tick 1000 whose millisecond counter is two seconds
    short of wrapping around. *)
Definition before_wrap : World :=
  mkWorld default_params (mkSafety false 0 true 0 1000) (mkPedal HIGH HIGH 1000)
    4294965296000 [].

(** The pulses a fire of recipe [p] is to deliver: the preheat when it is
    enabled and not empty, then each main stage that the mode includes and
    that is not empty, each at its duty and for its duration cut at
    [MAX_WELD_MS], in microseconds.  The mode and the percentages are the
    clamped ones. *)
Definition expected_pulses (p : Params) : list (Z * Z) :=
  let p' := Blackpill.clamp_params p in
  let mainDuty := Blackpill.pctToDuty (weld_power_pct p') in
  (if preheat_enabled p && (0 <? preheat_ms p) then
     [(Blackpill.pctToDuty (preheat_pct p'), 1000 * Z.min (preheat_ms p) MAX_WELD_MS)]
   else [])
  ++ (if weld_d1_ms p =? 0 then []
      else [(mainDuty, 1000 * Z.min (weld_d1_ms p) MAX_WELD_MS)])
  ++ (if (2 <=? weld_mode p') && negb (weld_d2_ms p =? 0) then
        [(mainDuty, 1000 * Z.min (weld_d2_ms p) MAX_WELD_MS)]
      else [])
  ++ (if (3 <=? weld_mode p') && negb (weld_d3_ms p =? 0) then
        [(mainDuty, 1000 * Z.min (weld_d3_ms p) MAX_WELD_MS)]
      else []).

(** An armed unit past the boot window whose stored durations exceed the
    limit. *)
Definition over_long : World :=
  mkWorld (mkParams 3 500 0 300 7 0 100 true 250 30 3)
    (mkSafety false 0 true 0 0) (mkPedal HIGH HIGH 0) 6000000 [].

(** An armed unit past the boot window, 100 ms after a weld. *)
Definition cooling : World :=
  mkWorld default_params (mkSafety false 5900 true 0 0) (mkPedal HIGH HIGH 0) 6000000 [].

(** ** The command sets of the two parsers *)

(** The lines [parseCommand] has a branch for. *)
Definition hal_recognized (line : string) : bool :=
  starts_with "ARM," line || starts_with "CMD,SET,PULSE," line
  || starts_with "SET_PULSE," line || starts_with "CMD,SET,POWER," line
  || starts_with "SET_POWER," line || starts_with "SET_PREHEAT," line
  || String.eqb line "CMD,FIRE" || String.eqb line "CMD,ENABLE"
  || String.eqb line "CMD,DISABLE" || String.eqb line "STATUS"
  || String.eqb line "CMD,STATUS".

(** The lines [handleCmd] has a branch for. *)
Definition arduino_recognized (cmd : string) : bool :=
  starts_with "ARM," cmd || starts_with "SET_PULSE," cmd
  || starts_with "SET_POWER," cmd || starts_with "SET_PREHEAT," cmd
  || String.eqb cmd "STATUS".

(** The value a clamp to [50, 100] keeps of a percentage. *)
Definition clamp_power (pct : Z) : Z :=
  if pct <? 50 then 50 else if 100 <? pct then 100 else pct.

(** Number of commas in a string. *)
Fixpoint commas (s : string) : nat :=
  match s with
  | EmptyString => O
  | String c s' => if Ascii.eqb c "," then S (commas s') else commas s'
  end.

(** A [SET_PREHEAT] line with the text [rest] after the prefix, and the
    numbers [sscanf] converts from it. *)
Definition preheat_line (rest : string) : string := "SET_PREHEAT," ++ rest.
Definition preheat_fields (rest : string) : list Z := scan_fields 4 rest.

(** ** The debounced trigger as the specification words it (section 4.1)

    [sample raw now p]: a raw level that differs from the last one restarts
    the window; once the raw level has held for the debounce window and
    differs from the stable level it becomes the stable level, and the
    step from inactive ([HIGH]) to active ([LOW]) is a press edge. *)
Definition sample (raw : Level) (now : Z) (p : Pedal) : Pedal * bool :=
  let p1 := if level_eqb raw (pedal_last_raw p) then p
            else mkPedal raw (pedal_stable p) now in
  if (PEDAL_DEBOUNCE_MS <=? u32 (now - pedal_last_change_ms p1))
     && negb (level_eqb raw (pedal_stable p1)) then
    (mkPedal (pedal_last_raw p1) raw (pedal_last_change_ms p1),
     level_eqb (pedal_stable p1) HIGH && level_eqb raw LOW)
  else (p1, false).

(** A sequence of pedal samples: the level read, and the reading of the
    millisecond counter at which it is read.  [debounce_run] folds
    [sample] over it and counts the press edges. *)
Fixpoint debounce_run (samples : list (Level * Z)) (p : Pedal) : Pedal * nat :=
  match samples with
  | [] => (p, O)
  | (raw, t) :: rest =>
      let '(p1, edge) := sample raw (u32 t) p in
      let '(p2, n) := debounce_run rest p1 in
      (p2, ((if edge then 1 else 0) + n)%nat)
  end.

(** The control loop reaches its pedal poll when the millisecond counter
    reads [t]. *)
Definition at_tick (t : Z) (w : World) : World := set_clock (1000 * t) w.

(** The polls of a run of the control loop over a sequence of samples.
    [poll] is [pollPedal] of either variant. *)
Fixpoint pedal_run (poll : Level -> World -> option World)
    (samples : list (Level * Z)) (w : World) : option World :=
  match samples with
  | [] => Some w
  | (raw, t) :: rest =>
      w' <- poll raw (at_tick t w) ;;
      pedal_run poll rest w'
  end.

Definition hal_poll (ARM_TIMEOUT_MS : Z) (fuel : nat) : Level -> World -> option World :=
  Blackpill.pollPedal ARM_TIMEOUT_MS fuel.

Definition arduino_poll (ARM_TIMEOUT_MS : Z) : Level -> World -> option World :=
  fun raw w => Some (WeldController.pollPedal ARM_TIMEOUT_MS raw w).

(** The samples all fall less than the debounce window after the counter
    read [t0], in the order of time: their offsets from [t0] do not
    decrease, from [lo] on. *)
Fixpoint within_window (t0 lo : Z) (samples : list (Level * Z)) : Prop :=
  match samples with
  | [] => True
  | (_, t) :: rest =>
      lo <= u32 (t - t0) < PEDAL_DEBOUNCE_MS /\ within_window t0 (u32 (t - t0)) rest
  end.

(** What one poll does, in terms of [sample]: the pedal state steps as
    [sample] says, the trace grows, by nothing when there is no edge, and
    [edges] counts one more exactly on an edge. *)
Definition poll_follows_sample (poll : Level -> World -> option World)
    (edges : list Event -> nat) : Prop :=
  forall (raw : Level) (w : World),
    params_in_range (params w) ->
    let ps := sample raw (u32 (clock w / 1000)) (pedal w) in
    exists (w' : World) (evs : list Event),
      poll raw w = Some w' /\ params_in_range (params w') /\
      pedal w' = fst ps /\ trace w' = trace w ++ evs /\
      edges evs = (if snd ps then 1 else 0)%nat /\
      (snd ps = false -> evs = []).

(** The debounce contract of a pedal poll, with [edges] counting the
    press edges in a trace: for every world whose parameters hold values
    of their types,
    - a raw change followed by samples inside the debounce window,
      whatever their levels, and then by any samples at the stable level
      (the change has reverted), leaves the stable level and the trace as
      they were;
    - from rest, a raw level that goes active and is sampled active from
      then on, once at least 40 counts later, gives exactly one edge;
    - a poll that reads the inactive level adds nothing to the trace. *)
Definition debounce_contract (poll : Level -> World -> option World)
    (edges : list Event -> nat) : Prop :=
  forall w : World,
    params_in_range (params w) ->
    (forall (raw : Level) (t0 : Z) (rest tail : list (Level * Z)),
        level_eqb raw (pedal_last_raw (pedal w)) = false ->
        within_window t0 0 rest ->
        Forall (fun s => fst s = pedal_stable (pedal w)) tail ->
        exists w',
          pedal_run poll ((raw, t0) :: rest ++ tail) w = Some w' /\
          pedal_stable (pedal w') = pedal_stable (pedal w) /\
          trace w' = trace w)
    /\ (forall (t0 : Z) (rest : list (Level * Z)),
           pedal_last_raw (pedal w) = HIGH ->
           pedal_stable (pedal w) = HIGH ->
           Forall (fun s => fst s = LOW) rest ->
           Exists (fun s => PEDAL_DEBOUNCE_MS <= u32 (snd s - t0)) rest ->
           exists w',
             pedal_run poll ((LOW, t0) :: rest) w = Some w' /\
             edges (new_events w w') = 1%nat /\
             pedal_stable (pedal w') = LOW)
    /\ (exists w', poll HIGH w = Some w' /\ trace w' = trace w).

(** ** Runs of the two variants on the same inputs *)

(** What reaches the control loop: a complete line, or a level read from
    the pedal pin; each with the reading of the millisecond counter at
    which it is handled. *)
Inductive Input : Type :=
| Line (s : string)
| PedalSample (raw : Level).

Definition hal_step (ARM_TIMEOUT_MS : Z) (fuel : nat) (i : Input * Z) (w : World)
  : option World :=
  match fst i with
  | Line s => Blackpill.parseCommand ARM_TIMEOUT_MS fuel s (at_tick (snd i) w)
  | PedalSample raw => Blackpill.pollPedal ARM_TIMEOUT_MS fuel raw (at_tick (snd i) w)
  end.

Definition arduino_step (ARM_TIMEOUT_MS : Z) (i : Input * Z) (w : World) : World :=
  match fst i with
  | Line s => WeldController.handleCmd ARM_TIMEOUT_MS s (at_tick (snd i) w)
  | PedalSample raw => WeldController.pollPedal ARM_TIMEOUT_MS raw (at_tick (snd i) w)
  end.

Fixpoint hal_run (ARM_TIMEOUT_MS : Z) (fuel : nat) (inputs : list (Input * Z))
    (w : World) : option World :=
  match inputs with
  | [] => Some w
  | i :: rest =>
      w' <- hal_step ARM_TIMEOUT_MS fuel i w ;;
      hal_run ARM_TIMEOUT_MS fuel rest w'
  end.

Fixpoint arduino_run (ARM_TIMEOUT_MS : Z) (inputs : list (Input * Z)) (w : World)
  : World :=
  match inputs with
  | [] => w
  | i :: rest => arduino_run ARM_TIMEOUT_MS rest (arduino_step ARM_TIMEOUT_MS i w)
  end.

(** The commands both parsers have and read alike. *)
Definition shared_command (line : string) : bool :=
  starts_with "ARM," line || starts_with "SET_PULSE," line
  || starts_with "SET_POWER," line || String.eqb line "STATUS".

Definition line_input (l : string * Z) : Input * Z := (Line (fst l), snd l).

(** ** The unit between two turns of its control loop *)

(** The recipe is within the limits [clampParams] enforces, the gaps
    within their type. *)
Definition within_limits (p : Params) : Prop :=
  1 <= weld_mode p <= 3 /\
  0 <= weld_d1_ms p <= MAX_WELD_MS /\ 0 <= weld_d2_ms p <= MAX_WELD_MS /\
  0 <= weld_d3_ms p <= MAX_WELD_MS /\
  50 <= weld_power_pct p <= 100 /\
  0 <= preheat_ms p <= MAX_WELD_MS /\ 0 <= preheat_pct p <= 100 /\
  0 <= weld_gap1_ms p < 65536 /\ 0 <= weld_gap2_ms p < 65536 /\
  0 <= preheat_gap_ms p < 65536.

(** The last call of the output driver in the trace, if any, forced the
    output off. *)
Definition output_off (w : World) : Prop := driven None (trace w) = None.

(** A command that sends one line, which is not the start event, and
    touches neither the clock, the pedal, the busy flag, the time of the
    last weld nor the boot time, and keeps the recipe in its type and, if
    it was, within its limits. *)
Definition quiet_update (w w' : World) : Prop :=
  (exists resp, trace w' = trace w ++ [Tx resp]
                /\ String.eqb "EVENT,WELD_START" resp = false) /\
  clock w' = clock w /\ pedal w' = pedal w /\
  welding_now (safety w') = welding_now (safety w) /\
  last_weld_ms (safety w') = last_weld_ms (safety w) /\
  boot_ms (safety w') = boot_ms (safety w) /\
  (params_in_range (params w) -> params_in_range (params w')) /\
  (within_limits (params w) -> within_limits (params w')).

(** The state both loops keep between two turns: the recipe within its
    limits, the busy flag clear, the output off. *)
Definition at_rest (w : World) : Prop :=
  within_limits (params w) /\ welding_now (safety w) = false /\ output_off w.

(** Turns of the two loops.  Each turn comes with the time that has
    passed since the last one, the level the pedal pin reads, and what the
    serial link has delivered: for the HAL variant the line the receive
    interrupt has completed, if any; for the Arduino-core variant the
    lines the characters available complete. *)
Fixpoint hal_turns (ARM_TIMEOUT_MS : Z) (fuel : nat)
    (turns : list (Z * Level * option string)) (w : World) : option World :=
  match turns with
  | [] => Some w
  | (dt, raw, rx) :: rest =>
      w' <- Blackpill.main_loop ARM_TIMEOUT_MS fuel raw rx (elapse dt w) ;;
      hal_turns ARM_TIMEOUT_MS fuel rest w'
  end.

Fixpoint arduino_turns (ARM_TIMEOUT_MS : Z)
    (turns : list (Z * Level * list string)) (w : World) : World :=
  match turns with
  | [] => w
  | (dt, raw, lines) :: rest =>
      arduino_turns ARM_TIMEOUT_MS rest
        (WeldController.loop ARM_TIMEOUT_MS lines raw (elapse dt w))
  end.

(** ** Time and energy of a weld cycle *)


(** The time the stages of recipe [p] take, in milliseconds: each stage
    that runs and each gap before or after it, every one cut at
    [MAX_WELD_MS] by [doPulseMsPwm] and [delayMsExact]. *)
Definition recipe_total_ms (p : Params) : Z :=
  (if preheat_enabled p && (0 <? preheat_ms p) then
     Z.min (preheat_ms p) MAX_WELD_MS + Z.min (preheat_gap_ms p) MAX_WELD_MS
   else 0)
  + (if 1 <=? weld_mode p then Z.min (weld_d1_ms p) MAX_WELD_MS else 0)
  + (if 2 <=? weld_mode p then
       Z.min (weld_gap1_ms p) MAX_WELD_MS + Z.min (weld_d2_ms p) MAX_WELD_MS
     else 0)
  + (if 3 <=? weld_mode p then
       Z.min (weld_gap2_ms p) MAX_WELD_MS + Z.min (weld_d3_ms p) MAX_WELD_MS
     else 0).

(** An armed unit past the boot window whose recipe has a gap longer than
    the limit between its two pulses. *)
Definition long_gap : World :=
  mkWorld (mkParams 2 50 500 50 0 0 100 false 20 30 3)
    (mkSafety false 0 true 0 0) (mkPedal HIGH HIGH 0) 6000000 [].

(** ** The status report and the arm timeout *)

(** The cooldown still to run, in milliseconds. *)
Definition cooldown_left (w : World) : Z :=
  Z.max 0 (WELD_COOLDOWN_MS - since_last_weld w).

(** The line of a status report with [cd] in its cooldown field. *)
Definition status_with (cd : Z) (w : World) : string :=
  "STATUS,armed=" ++ bool_digit (armed (safety w))
  ++ ",cooldown_ms=" ++ dec cd
  ++ ",welding=" ++ bool_digit (welding_now (safety w))
  ++ ",mode=" ++ dec (weld_mode (params w))
  ++ ",power_pct=" ++ dec (weld_power_pct (params w))
  ++ ",preheat_en=" ++ bool_digit (preheat_enabled (params w)).

(** The counts of the millisecond counter between a world and the same
    world [dt] microseconds later. *)
Definition ticks_in (dt : Z) (w : World) : Z :=
  (clock w + dt) / 1000 - clock w / 1000.

(** A unit that last welded three seconds after power-on and has been up
    for 30 days since. *)
Definition long_idle : World :=
  mkWorld default_params (mkSafety false 3000 true 0 0) (mkPedal HIGH HIGH 0)
    2592000000000 [].

(** The deadline [ARM,1] stores when a timeout is configured, and the
    world it leaves. *)
Definition arm_deadline (ARM_TIMEOUT_MS : Z) (w : World) : Z :=
  u32 (u32 (clock w / 1000) + ARM_TIMEOUT_MS).

Definition armed_world (ARM_TIMEOUT_MS : Z) (w : World) : World :=
  emit (Tx "ACK,ARM,1") (set_armed true (arm_deadline ARM_TIMEOUT_MS w) w).

(** ** The receive path of the HAL variant

    The receive interrupt assembles a line, byte by byte, in [rx_line]
    and raises [rx_line_ready]; the loop of [main] hands the buffer to
    [parseCommand] and clears the flag. *)

Definition RX_LINE_MAX : Z := 128.

Record Rx : Type := mkRx {
  rx_line : list ascii;     (* char rx_line[RX_LINE_MAX] *)
  rx_idx : Z;               (* uint8_t *)
  rx_line_ready : bool
}.

(** The statics as initialised: the buffer is zeroed. *)
Definition rx_power_on : Rx := mkRx (repeat zero 128) 0 false.

(** [buf[i] = c].  The index is always inside the buffer in the code
    ([rx_index_in_bounds] below); outside it the model leaves the buffer
    alone. *)
Definition store (i : Z) (c : ascii) (buf : list ascii) : list ascii :=
  if (0 <=? i) && (i <? Z.of_nat (List.length buf)) then
    firstn (Z.to_nat i) buf ++ c :: skipn (S (Z.to_nat i)) buf
  else buf.

(** [HAL_UART_RxCpltCallback], for the byte [rx_byte] just received on
    USART1. *)
Definition HAL_UART_RxCpltCallback (rx_byte : ascii) (r : Rx) : Rx :=
  let c := rx_byte in
  if Ascii.eqb c "010" || Ascii.eqb c "013" then
    if 0 <? rx_idx r then
      mkRx (store (rx_idx r) zero (rx_line r)) 0 true
    else r
  else if rx_idx r <? RX_LINE_MAX - 1 then
    mkRx (store (rx_idx r) c (rx_line r)) (u8 (rx_idx r + 1)) (rx_line_ready r)
  else r.

(** The interrupt taken once for each byte of [bytes], in order. *)
Definition receive (bytes : list ascii) (r : Rx) : Rx :=
  fold_left (fun r c => HAL_UART_RxCpltCallback c r) bytes r.

(** A buffer read as a C string: the characters before the first NUL. *)
Fixpoint cstring (buf : list ascii) : string :=
  match buf with
  | [] => EmptyString
  | c :: rest => if Ascii.eqb c zero then EmptyString else String c (cstring rest)
  end.

(** What the loop finds: the line in the buffer when the flag is up. *)
Definition rx_pending (r : Rx) : option string :=
  if rx_line_ready r then Some (cstring (rx_line r)) else None.

(** One turn of the [while (1)] of [main] with the receive state: the
    pedal poll, the arm-timeout check, then
    [if (rx_line_ready) { parseCommand(rx_line); rx_line_ready = false; }]. *)
Definition main_turn (ARM_TIMEOUT_MS : Z) (fuel : nat) (raw : Level)
    (st : World * Rx) : option (World * Rx) :=
  w' <- Blackpill.main_loop ARM_TIMEOUT_MS fuel raw (rx_pending (snd st)) (fst st) ;;
  Some (w', mkRx (rx_line (snd st)) (rx_idx (snd st)) false).

(** A byte that ends a line, and a byte that can be part of one. *)
Definition is_eol (c : ascii) : bool := Ascii.eqb c "010" || Ascii.eqb c "013".

Definition line_char (c : ascii) : bool := negb (is_eol c) && negb (Ascii.eqb c zero).

(** The buffer is whole and the index leaves room for the terminating
    NUL. *)
Definition rx_ok (r : Rx) : Prop :=
  List.length (rx_line r) = 128%nat /\ 0 <= rx_idx r <= 127.

(** ** The receive path of the Arduino-core variant *)

(** [String::trim]: the string without its leading and trailing white
    space. *)
Fixpoint rtrim (s : string) : string :=
  match s with
  | EmptyString => EmptyString
  | String c s' =>
      match rtrim s' with
      | EmptyString => if isspace c then EmptyString else String c EmptyString
      | t => String c t
      end
  end.

Definition trim (s : string) : string := rtrim (skip_space s).

(** One character of the loop of [pollUart]: [rxLine] is the line being
    assembled. *)
Definition pollUart_char (ARM_TIMEOUT_MS : Z) (ch : ascii) (st : string * World)
  : string * World :=
  let '(rxLine, w) := st in
  if Ascii.eqb ch "013" then (rxLine, w)
  else if Ascii.eqb ch "010" then
    let rxLine := trim rxLine in
    let w := if (0 <? Z.of_nat (String.length rxLine))
             then WeldController.handleCmd ARM_TIMEOUT_MS rxLine w else w in
    (EmptyString, w)
  else
    if Z.of_nat (String.length rxLine) <? 220
    then ((rxLine ++ String ch EmptyString)%string, w)
    else (rxLine, w).

(** [pollUart] on the characters available. *)
Definition pollUart_chars (ARM_TIMEOUT_MS : Z) (chars : list ascii)
    (st : string * World) : string * World :=
  fold_left (fun st ch => pollUart_char ARM_TIMEOUT_MS ch st) chars st.

(** What [pollUart] makes of the text of one line of input: the carriage
    returns dropped, the first 220 characters kept, the white space at
    both ends removed. *)
Fixpoint no_cr (s : string) : string :=
  match s with
  | EmptyString => EmptyString
  | String c s' => if Ascii.eqb c "013" then no_cr s' else String c (no_cr s')
  end.

Fixpoint take (n : nat) (s : string) : string :=
  match n, s with
  | S n', String c s' => String c (take n' s')
  | _, _ => EmptyString
  end.

Definition cooked (s : string) : string := trim (take 220 (no_cr s)).

(** The characters of a sequence of lines, each ended by a line feed. *)
Fixpoint wire (lines : list string) : list ascii :=
  match lines with
  | [] => []
  | l :: rest => list_ascii_of_string l ++ "010"%char :: wire rest
  end.

Fixpoint has_lf (s : string) : bool :=
  match s with
  | EmptyString => false
  | String c s' => Ascii.eqb c "010" || has_lf s'
  end.

(** The lines of [lines] that [pollUart] hands to [handleCmd]. *)
Definition delivered (lines : list string) : list string :=
  filter (fun l => 0 <? Z.of_nat (String.length l)) (map cooked lines).

Fixpoint has_nul (s : string) : bool :=
  match s with
  | EmptyString => false
  | String c s' => Ascii.eqb c zero || has_nul s'
  end.

(** A line of input as the Arduino [String] can hold it: no line feed
    inside it, no NUL. *)
Definition plain_line (l : string) : bool := negb (has_lf l) && negb (has_nul l).

(** ** Command lines as a sender writes them *)

(** The string begins with a decimal digit. *)
Definition starts_digit (s : string) : bool :=
  match s with
  | String c _ => match digit_val c with Some _ => true | None => false end
  | EmptyString => false
  end.

(** The value fits [int]. *)
Definition fits_int (z : Z) : Prop := INT_MIN <= z <= INT_MAX.

Definition set_pulse_line (m d1 g1 d2 g2 d3 : Z) : string :=
  "SET_PULSE," ++ dec m ++ "," ++ dec d1 ++ "," ++ dec g1 ++ ","
  ++ dec d2 ++ "," ++ dec g2 ++ "," ++ dec d3.

Definition set_pulse_short (m d1 : Z) : string :=
  "SET_PULSE," ++ dec m ++ "," ++ dec d1.

Definition set_power_line (pct : Z) : string := "SET_POWER," ++ dec pct.

Definition set_preheat_line (en ms pct gap : Z) : string :=
  "SET_PREHEAT," ++ dec en ++ "," ++ dec ms ++ "," ++ dec pct ++ "," ++ dec gap.

(** The number of weld cycles started in a stretch of trace. *)
Definition weld_starts (evs : list Event) : nat :=
  List.length (filter (String.eqb "EVENT,WELD_START") (tx_lines evs)).

(** ** The debounced level, read off the samples

    A run is a stretch of samples at one raw level: the level, the
    counter value at which it was first read and the value at which it
    was last read.  [runs_from lvl t0 t1] continues a run that began at
    [t0] and was last sampled at [t1]. *)
Fixpoint runs_from (lvl : Level) (t0 t1 : Z) (samples : list (Level * Z))
  : list (Level * (Z * Z)) :=
  match samples with
  | [] => [(lvl, (t0, t1))]
  | (raw, t) :: rest =>
      if level_eqb raw lvl then runs_from lvl t0 t rest
      else (lvl, (t0, t1)) :: runs_from raw t t rest
  end.

(** The raw level has held for the debounce window within the run. *)
Definition held (r : Level * (Z * Z)) : bool :=
  PEDAL_DEBOUNCE_MS <=? snd (snd r) - fst (snd r).

(** The levels the pedal settles at over the samples, in order: those of
    the runs that last for the debounce window.  The first run is the one
    the pedal state is in, begun at its last raw change. *)
Definition settled_levels (p : Pedal) (samples : list (Level * Z)) : list Level :=
  map fst (filter held (runs_from (pedal_last_raw p) (pedal_last_change_ms p)
                          (pedal_last_change_ms p) samples)).

(** The presses in a sequence of settled levels: the steps from released
    ([HIGH]) to pressed ([LOW]), [stable] being the level before the
    first. *)
Fixpoint press_edges (stable : Level) (levels : list Level) : nat :=
  match levels with
  | [] => O
  | l :: rest =>
      ((if level_eqb stable HIGH && level_eqb l LOW then 1 else 0)
       + press_edges l rest)%nat
  end.

(** The counter values of the samples do not decrease, from [t0] on, and
    have not wrapped around. *)
Fixpoint ticks_from (t0 : Z) (samples : list (Level * Z)) : Prop :=
  match samples with
  | [] => True
  | (_, t) :: rest => t0 <= t < 4294967296 /\ ticks_from t rest
  end.

(** The run from [w] to [w'] is a weld cycle that completed when the
    millisecond counter read [ms]: it ends with the output forced off at
    a time of that millisecond, the busy flag cleared and the completion
    line sent. *)
Definition completed_at (w w' : World) (ms : Z) : Prop :=
  exists (evs : list Event) (t_end : Z) (line : string),
    new_events w w' = evs ++ [PwmOff t_end; Welding false; Tx line] /\
    ms = u32 (t_end / 1000).

(** ** The weld cycle in stages

    The part of [fireRecipe] behind the gate, cut at the stage boundaries:
    the start of the cycle up to the dead time, the stages and rests of
    the recipe one by one, and the end of the cycle.  [hal_cycle] and
    [arduino_cycle] put the pieces together again. *)

(** The durations of a step are not negative. *)
Definition step_ok (s : Step) : Prop :=
  match s with
  | Drive ms _ | Rest ms => 0 <= ms
  | ForceOff => True
  end.

(** [clampParams(); welding_now = true; uartSend("EVENT,WELD_START");
    pwmOff();] *)
Definition hal_start (w : World) : World :=
  let w := Blackpill.clampParams w in
  let w := set_welding_now true w in
  let w := Blackpill.uartSend "EVENT,WELD_START" w in
  Blackpill.pwmOff w.

(** One step of the recipe: [doPulseMsPwm], [delayMsExact] or [pwmOff].
    A rest of 0 ms stands for a gap the code skips: [delayMsExact]
    returns at once on 0. *)
Definition hal_stage (fuel : nat) (s : Step) (w : World) : option World :=
  match s with
  | Drive ms duty => Blackpill.doPulseMsPwm fuel ms duty w
  | Rest ms => Blackpill.delayMsExact fuel ms w
  | ForceOff => Some (Blackpill.pwmOff w)
  end.

Fixpoint hal_play (fuel : nat) (steps : list Step) (w : World) : option World :=
  match steps with
  | [] => Some w
  | s :: rest => w' <- hal_stage fuel s w ;; hal_play fuel rest w'
  end.

(** [total_ms = HAL_GetTick() - t0; pwmOff(); welding_now = false;
    last_weld_ms = HAL_GetTick(); uartSend(<completion line>);] *)
Definition hal_finish (t0 : Z) (w : World) : World :=
  let total_ms := u32 (Blackpill.HAL_GetTick w - t0) in
  let w := Blackpill.pwmOff w in
  let w := set_welding_now false w in
  let w := set_last_weld_ms (Blackpill.HAL_GetTick w) w in
  Blackpill.uartSend (Blackpill.weld_done_line total_ms (params w)) w.

(** The start with its dead time, [HAL_Delay(2)]. *)
Definition hal_lead (fuel : nat) (w : World) : option World :=
  Blackpill.HAL_Delay fuel 2 (hal_start w).

Definition hal_end (w1 wN : World) : World :=
  hal_finish (Blackpill.HAL_GetTick w1) wN.

Definition hal_cycle (fuel : nat) (w : World) : option World :=
  w1 <- hal_lead fuel w ;;
  wN <- hal_play fuel (recipe_steps (params w1)) w1 ;;
  Some (hal_end w1 wN).

(** The same pieces of the Arduino-core variant. *)
Definition arduino_start (w : World) : World :=
  let w := WeldController.clampParams w in
  let w := set_welding_now true w in
  let w := WeldController.uartSend "EVENT,WELD_START" w in
  WeldController.pwmOff w.

Definition arduino_stage (s : Step) (w : World) : World :=
  match s with
  | Drive ms duty => WeldController.doPulseMsPwm ms duty w
  | Rest ms => WeldController.delayMsExact ms w
  | ForceOff => WeldController.pwmOff w
  end.

Definition arduino_play (steps : list Step) (w : World) : World :=
  fold_left (fun w s => arduino_stage s w) steps w.

Definition arduino_finish (t0 : Z) (w : World) : World :=
  let total_us := u32 (WeldController.micros w - t0) in
  let w := WeldController.pwmOff w in
  let w := set_welding_now false w in
  let w := set_last_weld_ms (WeldController.millis w) w in
  WeldController.uartSend (WeldController.weld_done_line total_us (params w)) w.

(** The start with its dead time, [delayMicroseconds(2000)]. *)
Definition arduino_lead (w : World) : World :=
  WeldController.delayMicroseconds 2000 (arduino_start w).

Definition arduino_end (w1 wN : World) : World :=
  arduino_finish (WeldController.micros w1) wN.

Definition arduino_cycle (w : World) : World :=
  let w1 := arduino_lead w in
  arduino_end w1 (arduino_play (recipe_steps (params w1)) w1).

(** What the busy flag does for the cycle of a fire granted in [w].
    [fire t] is the fire entry point with the arm timeout [t], [lead] the
    start of the cycle up to the first stage, [play] the run of a list of
    steps, [finish] the end of the cycle.  The cycle runs from the start
    through the steps of the recipe to the end, between the write of the
    flag and its clearing after the output is forced off, and ends with
    the flag down.  At every point between two steps
    - the flag is up;
    - a fire request made there returns, asks for nothing and is answered
      [DENY,ALREADY_WELDING]: always so with no arm timeout configured, as
      in the sources, and otherwise unless the timeout has run out by then,
      which the arm check, coming first, answers with [DENY,NOT_ARMED];
    - the steps that are left and the end of the cycle run from there as
      they would have: the same pulses on the output, and on the link the
      start event, the denial and the completion event of the cycle. *)
Definition busy_through_cycle (ARM_TIMEOUT_MS : Z)
    (fire : Z -> World -> option World)
    (lead : World -> option World)
    (play : list Step -> World -> option World)
    (finish : World -> World -> World) (w : World) : Prop :=
  exists (w1 wN : World) (done : string),
    lead w = Some w1 /\
    play (recipe_steps (params w1)) w1 = Some wN /\
    fire ARM_TIMEOUT_MS w = Some (finish w1 wN) /\
    bracketed w (finish w1 wN) /\
    tx_lines (new_events w (finish w1 wN)) = ["EVENT,WELD_START"; done] /\
    forall pre post : list Step,
      recipe_steps (params w1) = pre ++ post ->
      exists wi wN' : World,
        play pre w1 = Some wi /\
        welding_now (safety wi) = true /\
        fire 0 wi = Some (emit (Tx "DENY,ALREADY_WELDING") wi) /\
        fire ARM_TIMEOUT_MS wi
        = Some (emit (Tx (if arm_expired ARM_TIMEOUT_MS wi then "DENY,NOT_ARMED"
                          else "DENY,ALREADY_WELDING"))
                  (after_arm_check ARM_TIMEOUT_MS wi)) /\
        play post (emit (Tx "DENY,ALREADY_WELDING") wi) = Some wN' /\
        pulses (new_events w (finish w1 wN')) = pulses (new_events w (finish w1 wN)) /\
        tx_lines (new_events w (finish w1 wN'))
        = ["EVENT,WELD_START"; "DENY,ALREADY_WELDING"; done] /\
        welding_now (safety (finish w1 wN')) = false.

(** ** esp32/src/ADS1256.cpp

    The driver of the ADS1256 converter.  Its class declaration
    (ADS1256.h) is not among the sources: the members [_cs], [_drdy] and
    [_spi] are known from their uses, and of the three helpers declared
    there only the calls are known.  [csLow()] and [csHigh()] are kept as
    events of the trace; [drdyLow()] is a parameter, the answer it gives
    at a given time.  The scaling of a reading to volts and amperes is
    floating-point arithmetic and is a parameter too. *)

Module Ads1256.

Definition CMD_WAKEUP : Z := 0.
Definition CMD_RDATA : Z := 1.
Definition CMD_RDATAC : Z := 3.
Definition CMD_SDATAC : Z := 15.
Definition CMD_RREG : Z := 16.
Definition CMD_WREG : Z := 80.
Definition CMD_SELFCAL : Z := 240.
Definition CMD_RESET : Z := 254.

Definition REG_STATUS : Z := 0.
Definition REG_MUX : Z := 1.
Definition REG_ADCON : Z := 2.
Definition REG_DRATE : Z := 3.

(** What the driver does to the outside. *)
Inductive Bus : Type :=
| PinModes                  (* pinMode(_cs, OUTPUT); pinMode(_drdy, INPUT) *)
| BeginTransaction          (* _spi->beginTransaction(1 MHz, MSBFIRST, SPI_MODE1) *)
| EndTransaction            (* _spi->endTransaction() *)
| CsLow                     (* csLow()  *)
| CsHigh                    (* csHigh() *)
| Transfer (out : Z)        (* _spi->transfer(out) *)
| Delay (us : Z)            (* delay(ms) and delayMicroseconds(us), in microseconds *)
| Println (s : string).     (* Serial.println(s) *)

(** The driver object and its surroundings: whether [_spi] is set, the
    bytes the converter will shift out on the coming transfers (0 once
    they run out), the time in microseconds, and the trace.  Time passes
    in [delay] and [delayMicroseconds] only: the transfers themselves are
    taken to cost none. *)
Record Adc : Type := mkAdc {
  attached : bool;          (* _spi != nullptr *)
  miso : list Z;
  clock_us : Z;
  bus : list Bus
}.

(** A driver as constructed: [_spi(nullptr)]. *)
Definition constructed (incoming : list Z) : Adc := mkAdc false incoming 0 [].

Definition log (e : Bus) (a : Adc) : Adc :=
  mkAdc (attached a) (miso a) (clock_us a) (bus a ++ [e]).

Definition millis (a : Adc) : Z := u32 (clock_us a / 1000).

Definition delayMicroseconds (us : Z) (a : Adc) : Adc :=
  mkAdc (attached a) (miso a) (clock_us a + us) (bus a ++ [Delay us]).

Definition delay (ms : Z) (a : Adc) : Adc := delayMicroseconds (1000 * ms) a.

Definition csLow (a : Adc) : Adc := log CsLow a.
Definition csHigh (a : Adc) : Adc := log CsHigh a.

(** [_spi->transfer(out)]: one byte out, one byte in. *)
Definition transfer (out : Z) (a : Adc) : Z * Adc :=
  (u8 (hd 0 (miso a)),
   mkAdc (attached a) (tl (miso a)) (clock_us a) (bus a ++ [Transfer (u8 out)])).

Definition sendCommand (cmd : Z) (a : Adc) : Adc :=
  if negb (attached a) then a
  else
    let a := log BeginTransaction a in
    let a := csLow a in
    let a := snd (transfer cmd a) in
    let a := csHigh a in
    log EndTransaction a.

Definition writeRegister (reg value : Z) (a : Adc) : Adc :=
  if negb (attached a) then a
  else
    let a := log BeginTransaction a in
    let a := csLow a in
    let a := snd (transfer (Z.lor CMD_WREG (Z.land reg 15)) a) in
    let a := snd (transfer 0 a) in
    let a := snd (transfer value a) in
    let a := csHigh a in
    let a := log EndTransaction a in
    delayMicroseconds 5 a.

Definition readRegister (reg : Z) (a : Adc) : Z * Adc :=
  if negb (attached a) then (0, a)
  else
    let a := log BeginTransaction a in
    let a := csLow a in
    let a := snd (transfer (Z.lor CMD_RREG (Z.land reg 15)) a) in
    let a := snd (transfer 0 a) in
    let a := delayMicroseconds 5 a in
    let '(v, a) := transfer 255 a in
    let a := csHigh a in
    (v, log EndTransaction a).

(** The 24 bits of a reading, sign-extended to [long] (32 bits on the
    ESP32). *)
Definition sign_extend (b0 b1 b2 : Z) : Z :=
  let raw := Z.lor (Z.lor (Z.shiftl b0 16) (Z.shiftl b1 8)) b2 in
  if negb (Z.land raw 8388608 =? 0) then s32 (Z.lor raw 4278190080) else raw.

Definition readData (a : Adc) : Z * Adc :=
  if negb (attached a) then (0, a)
  else
    let a := log BeginTransaction a in
    let a := csLow a in
    let '(b0, a) := transfer 255 a in
    let '(b1, a) := transfer 255 a in
    let '(b2, a) := transfer 255 a in
    let a := csHigh a in
    let a := log EndTransaction a in
    (sign_extend b0 b1 b2, a).

Definition startContinuous (ch : Z) (a : Adc) : Adc :=
  if negb (attached a) then a
  else
    let a := sendCommand CMD_SDATAC a in
    let a := delayMicroseconds 5 a in
    let a := writeRegister REG_MUX 35 a in
    let a := delayMicroseconds 10 a in
    sendCommand CMD_RDATAC a.

Definition stopContinuous (a : Adc) : Adc :=
  if negb (attached a) then a else sendCommand CMD_SDATAC a.

Definition switchToVoltageChannel (a : Adc) : Adc :=
  if negb (attached a) then a
  else
    let a := sendCommand CMD_SDATAC a in
    let a := delayMicroseconds 5 a in
    let a := writeRegister REG_MUX 1 a in
    let a := delayMicroseconds 5 a in
    sendCommand CMD_RDATAC a.

Definition switchToCurrentChannel (a : Adc) : Adc :=
  if negb (attached a) then a
  else
    let a := sendCommand CMD_SDATAC a in
    let a := delayMicroseconds 5 a in
    let a := writeRegister REG_MUX 35 a in
    let a := delayMicroseconds 5 a in
    sendCommand CMD_RDATAC a.

Section Surroundings.

(** [drdyLow()] at a given time. *)
Variable drdyLow : Z -> bool.

(** The scaling of a reading, in floating point. *)
Variable F : Type.
Variable volts_of_raw : Z -> F.
Variable amps_of_raw : Z -> F.

(** [while (!drdyLow() && (millis() - t0) < 1000) delay(1);] *)
Fixpoint wait_ready (fuel : nat) (t0 : Z) (a : Adc) : option Adc :=
  if negb (drdyLow (clock_us a)) && (u32 (millis a - t0) <? 1000) then
    match fuel with
    | O => None
    | S fuel' => wait_ready fuel' t0 (delay 1 a)
    end
  else Some a.

(** [begin(spi)]: the result and the driver after it. *)
Definition begin (fuel : nat) (a : Adc) : option (bool * Adc) :=
  let a := mkAdc true (miso a) (clock_us a) (bus a) in
  let a := log PinModes a in
  let a := csHigh a in
  (* Reset sequence *)
  let a := sendCommand CMD_SDATAC a in
  let a := delay 2 a in
  let a := sendCommand CMD_RESET a in
  let a := delay 5 a in
  let a := sendCommand CMD_SDATAC a in
  let a := delay 5 a in
  (* Configure: 30 kSPS, PGA=1, differential mode *)
  let a := writeRegister REG_DRATE 240 a in
  let a := writeRegister REG_ADCON 0 a in
  let a := writeRegister REG_MUX 35 a in
  (* Self-calibration *)
  let a := sendCommand CMD_SELFCAL a in
  let t0 := millis a in
  match wait_ready fuel t0 a with
  | None => None
  | Some a => Some (true, log (Println "ADS1256: initialized at 30kSPS") a)
  end.

(** [readVoltageFast(volts)] and [readCurrentFast(amps)]: [None] stands
    for [false], with the reference left as it was; [Some v] for [true],
    with [v] stored. *)
Definition readVoltageFast (a : Adc) : option F * Adc :=
  if negb (attached a) then (None, a)
  else if negb (drdyLow (clock_us a)) then (None, a)
  else let '(raw, a) := readData a in (Some (volts_of_raw raw), a).

Definition readCurrentFast (a : Adc) : option F * Adc :=
  if negb (attached a) then (None, a)
  else if negb (drdyLow (clock_us a)) then (None, a)
  else let '(raw, a) := readData a in (Some (amps_of_raw raw), a).

(** The calls a user of the driver makes. *)
Inductive Call : Type :=
| CallStartContinuous (ch : Z)
| CallStopContinuous
| CallSwitchToVoltageChannel
| CallSwitchToCurrentChannel
| CallReadVoltageFast
| CallReadCurrentFast
| CallSendCommand (cmd : Z)
| CallWriteRegister (reg value : Z)
| CallReadRegister (reg : Z)
| CallReadData
| CallWait (us : Z).

Definition call (c : Call) (a : Adc) : Adc :=
  match c with
  | CallStartContinuous ch => startContinuous ch a
  | CallStopContinuous => stopContinuous a
  | CallSwitchToVoltageChannel => switchToVoltageChannel a
  | CallSwitchToCurrentChannel => switchToCurrentChannel a
  | CallReadVoltageFast => snd (readVoltageFast a)
  | CallReadCurrentFast => snd (readCurrentFast a)
  | CallSendCommand cmd => sendCommand cmd a
  | CallWriteRegister reg value => writeRegister reg value a
  | CallReadRegister reg => snd (readRegister reg a)
  | CallReadData => snd (readData a)
  | CallWait us => mkAdc (attached a) (miso a) (clock_us a + us) (bus a)
  end.

Definition calls (cs : list Call) (a : Adc) : Adc :=
  fold_left (fun a c => call c a) cs a.

End Surroundings.

(** The bytes shifted out, in order. *)
Fixpoint transfers (evs : list Bus) : list Z :=
  match evs with
  | [] => []
  | Transfer out :: evs' => out :: transfers evs'
  | _ :: evs' => transfers evs'
  end.

(** The chip select frames the transfers: [csLow] is called only while
    the chip is not selected, a byte is shifted only while it is, and the
    trace ends with the chip not selected.  [sel] is whether it is
    selected at the start. *)
Fixpoint framed (sel : bool) (evs : list Bus) : bool :=
  match evs with
  | [] => negb sel
  | CsLow :: evs' => negb sel && framed true evs'
  | CsHigh :: evs' => framed false evs'
  | Transfer _ :: evs' => sel && framed sel evs'
  | _ :: evs' => framed sel evs'
  end.

(** The value of 24 bits read as a two's-complement number. *)
Definition signed24 (u : Z) : Z := if u <? 8388608 then u else u - 16777216.

End Ads1256.

(** * Properties *)

(** ** Machine arithmetic *)

Lemma u32_range (z : Z) : 0 <= u32 z < 4294967296.
Proof. unfold u32. apply Z.mod_pos_bound. lia. Qed.

Lemma u32_small (z : Z) : 0 <= z < 4294967296 -> u32 z = z.
Proof. intros H. unfold u32. apply Z.mod_small. exact H. Qed.

Lemma u32_idem (z : Z) : u32 (u32 z) = u32 z.
Proof. apply u32_small, u32_range. Qed.

Lemma u32_add_l (a b : Z) : u32 (u32 a + b) = u32 (a + b).
Proof. unfold u32. apply Zplus_mod_idemp_l. Qed.

Lemma u32_sub_l (a b : Z) : u32 (u32 a - b) = u32 (a - b).
Proof. unfold u32. apply Zminus_mod_idemp_l. Qed.

Lemma u16_small (z : Z) : 0 <= z < 65536 -> u16 z = z.
Proof. intros H. unfold u16. apply Z.mod_small. exact H. Qed.

Lemma u8_small (z : Z) : 0 <= z < 256 -> u8 z = z.
Proof. intros H. unfold u8. apply Z.mod_small. exact H. Qed.

Lemma u8_range (z : Z) : 0 <= u8 z < 256.
Proof. unfold u8. apply Z.mod_pos_bound. lia. Qed.

Lemma u16_range (z : Z) : 0 <= u16 z < 65536.
Proof. unfold u16. apply Z.mod_pos_bound. lia. Qed.

(** ** Worlds *)

Lemma advance_nil (w : World) : advance [] 0 w = w.
Proof.
  destruct w as [p s d c tr]. unfold advance. simpl.
  rewrite Z.add_0_r, app_nil_r. reflexivity.
Qed.

Lemma advance_advance (e1 e2 : list Event) (u1 u2 : Z) (w : World) :
  advance e2 u2 (advance e1 u1 w) = advance (e1 ++ e2) (u1 + u2) w.
Proof.
  unfold advance. simpl. rewrite Z.add_assoc, app_assoc. reflexivity.
Qed.

Lemma elapse_advance (us : Z) (w : World) : elapse us w = advance [] us w.
Proof. unfold elapse, set_clock, advance. rewrite app_nil_r. reflexivity. Qed.

Lemma emit_advance (e : Event) (w : World) : emit e w = advance [e] 0 w.
Proof. unfold emit, advance. rewrite Z.add_0_r. reflexivity. Qed.

(** ** The busy-wait of the HAL variant *)

Section BusyWait.

Import Blackpill.

Lemma HAL_GetTick_elapse (k : Z) (w : World) :
  HAL_GetTick (elapse (1000 * k) w) = u32 (HAL_GetTick w + k).
Proof.
  unfold HAL_GetTick, elapse, set_clock. cbn [clock].
  rewrite (Z.mul_comm 1000 k), Z.div_add by lia.
  symmetry. apply u32_add_l.
Qed.

(** The loop ends, and it ends exactly when the counter has advanced by
    [wait]: [k] counts are already behind, the fuel covers the rest. *)
Lemma spin_ends (fuel : nat) : forall (start wait k : Z) (w : World),
  0 <= k <= wait -> wait < 4294967296 ->
  u32 (HAL_GetTick w - start) = k ->
  (Z.to_nat (wait - k) <= fuel)%nat ->
  spin fuel start wait w = Some (elapse (1000 * (wait - k)) w).
Proof.
  induction fuel as [|fuel IH]; intros start wait k w Hk Hw Hpos Hfuel.
  - assert (wait = k) by lia. subst wait.
    cbn [spin]. rewrite Hpos, Z.ltb_irrefl, Z.sub_diag.
    rewrite elapse_advance. f_equal. symmetry. apply advance_nil.
  - cbn [spin]. rewrite Hpos.
    destruct (Z.ltb_spec k wait) as [Hlt|Hge].
    + rewrite (IH start wait (k + 1)); try lia.
      * f_equal. rewrite !elapse_advance, advance_advance. cbn [app].
        f_equal. lia.
      * change (elapse 1000 w) with (elapse (1000 * 1) w).
        rewrite HAL_GetTick_elapse, u32_sub_l.
        replace (HAL_GetTick w + 1 - start) with ((HAL_GetTick w - start) + 1) by lia.
        rewrite <- u32_add_l, Hpos. apply u32_small. lia.
    + assert (wait = k) by lia. subst wait.
      rewrite Z.sub_diag, elapse_advance. f_equal. symmetry. apply advance_nil.
Qed.

Lemma spin_from_now (fuel : nat) (wait : Z) (w : World) :
  0 <= wait < 4294967296 -> (Z.to_nat wait <= fuel)%nat ->
  spin fuel (HAL_GetTick w) wait w = Some (elapse (1000 * wait) w).
Proof.
  intros Hw Hfuel.
  rewrite (spin_ends fuel (HAL_GetTick w) wait 0 w).
  - now rewrite Z.sub_0_r.
  - lia.
  - lia.
  - rewrite Z.sub_diag. reflexivity.
  - now rewrite Z.sub_0_r.
Qed.

(** Without enough fuel the model of the loop gives up: the result of
    [spin] is a result of the loop, not of the fuel. *)
Lemma spin_short_of_fuel (w : World) :
  spin 1 (HAL_GetTick w) 2 w = None.
Proof.
  cbn [spin]. rewrite Z.sub_diag. change (u32 0 <? 2) with true. cbv iota.
  change (elapse 1000 w) with (elapse (1000 * 1) w).
  rewrite HAL_GetTick_elapse, u32_sub_l.
  replace (HAL_GetTick w + 1 - HAL_GetTick w) with 1 by lia.
  reflexivity.
Qed.

End BusyWait.

(** ** Stages and rests, in both variants *)

Lemma stage_us_0 : stage_us 0 = 0.
Proof. reflexivity. Qed.

Lemma stage_us_clamped (ms : Z) :
  stage_us (if MAX_WELD_MS <? ms then MAX_WELD_MS else ms) = stage_us ms.
Proof.
  unfold stage_us, MAX_WELD_MS. destruct (Z.ltb_spec 200 ms); f_equal; lia.
Qed.

Lemma stage_us_range (ms : Z) : 0 <= ms -> 0 <= stage_us ms <= 200000.
Proof. unfold stage_us, MAX_WELD_MS. lia. Qed.

Lemma clamp_min (hi v : Z) : (if hi <? v then hi else v) = Z.min v hi.
Proof. destruct (Z.ltb_spec hi v); lia. Qed.

Section Stages.

Variable fuel : nat.
Hypothesis enough : (200 <= fuel)%nat.

Lemma hal_delay_2 (w : World) :
  Blackpill.HAL_Delay fuel 2 w = Some (advance [] 3000 w).
Proof.
  unfold Blackpill.HAL_Delay. change (2 <? Blackpill.HAL_MAX_DELAY) with true.
  cbv iota. change (u32 (2 + 1)) with 3.
  rewrite spin_from_now, elapse_advance by (cbn; lia).
  reflexivity.
Qed.

Lemma hal_delayMsExact (ms : Z) (w : World) :
  0 <= ms ->
  Blackpill.delayMsExact fuel ms w = Some (advance [] (stage_us ms) w).
Proof.
  intros Hms. unfold Blackpill.delayMsExact.
  destruct (Z.eqb_spec ms 0) as [->|Hnz].
  - rewrite stage_us_0, advance_nil. reflexivity.
  - rewrite clamp_min, spin_from_now, elapse_advance.
    + reflexivity.
    + unfold MAX_WELD_MS. lia.
    + unfold MAX_WELD_MS. lia.
Qed.

Lemma hal_doPulseMsPwm (ms duty : Z) (w : World) :
  0 <= ms ->
  Blackpill.doPulseMsPwm fuel ms duty w
  = Some (advance (stage_events (clock w) ms duty) (stage_us ms) w).
Proof.
  intros Hms. unfold Blackpill.doPulseMsPwm, stage_events.
  destruct (Z.eqb_spec ms 0) as [->|Hnz].
  - rewrite stage_us_0, advance_nil. reflexivity.
  - rewrite hal_delayMsExact by (rewrite clamp_min; unfold MAX_WELD_MS; lia).
    cbn [bind]. rewrite stage_us_clamped.
    unfold Blackpill.pwmOff, Blackpill.pwmOnDuty.
    rewrite !emit_advance, !advance_advance, clamp_min.
    cbn [clock advance app]. rewrite !Z.add_0_r, !Z.add_0_l. reflexivity.
Qed.

End Stages.

Lemma arduino_delayMsExact (ms : Z) (w : World) :
  0 <= ms ->
  WeldController.delayMsExact ms w = advance [] (stage_us ms) w.
Proof.
  intros Hms. unfold WeldController.delayMsExact, WeldController.delayMicroseconds.
  destruct (Z.eqb_spec ms 0) as [->|Hnz].
  - rewrite stage_us_0, advance_nil. reflexivity.
  - rewrite clamp_min, elapse_advance. f_equal.
    unfold stage_us. rewrite u32_small; unfold MAX_WELD_MS; lia.
Qed.

Lemma arduino_doPulseMsPwm (ms duty : Z) (w : World) :
  0 <= ms ->
  WeldController.doPulseMsPwm ms duty w
  = advance (stage_events (clock w) ms duty) (stage_us ms) w.
Proof.
  intros Hms. unfold WeldController.doPulseMsPwm, stage_events.
  destruct (Z.eqb_spec ms 0) as [->|Hnz].
  - rewrite stage_us_0, advance_nil. reflexivity.
  - rewrite arduino_delayMsExact by (rewrite clamp_min; unfold MAX_WELD_MS; lia).
    rewrite stage_us_clamped.
    unfold WeldController.pwmOff, WeldController.pwmOnDuty.
    rewrite !emit_advance, !advance_advance, clamp_min.
    cbn [clock advance app]. rewrite !Z.add_0_r, !Z.add_0_l. reflexivity.
Qed.

(** ** The interlock gate and the weld cycle *)

Lemma clamp_params_same :
  WeldController.clamp_params = Blackpill.clamp_params.
Proof. reflexivity. Qed.

Lemma clamp_params_range (p : Params) :
  params_in_range p -> params_in_range (Blackpill.clamp_params p).
Proof.
  unfold params_in_range, Blackpill.clamp_params, MAX_WELD_MS.
  intros H. cbn [weld_mode weld_d1_ms weld_gap1_ms weld_d2_ms weld_gap2_ms
    weld_d3_ms weld_power_pct preheat_ms preheat_pct preheat_gap_ms].
  repeat match goal with
         | |- context [if ?a <? ?b then _ else _] => destruct (Z.ltb_spec a b)
         end; lia.
Qed.

Lemma clamp_params_mode (p : Params) :
  1 <= weld_mode (Blackpill.clamp_params p) <= 3.
Proof.
  unfold Blackpill.clamp_params. cbn [weld_mode].
  repeat match goal with
         | |- context [if ?a <? ?b then _ else _] => destruct (Z.ltb_spec a b)
         end; lia.
Qed.

Section Gate.

Variable ARM_TIMEOUT_MS : Z.

Lemma hal_applyArmTimeout (w : World) :
  Blackpill.applyArmTimeout ARM_TIMEOUT_MS w = after_arm_check ARM_TIMEOUT_MS w.
Proof.
  unfold Blackpill.applyArmTimeout, after_arm_check, arm_expired,
    Blackpill.HAL_GetTick, Blackpill.uartSend.
  destruct (ARM_TIMEOUT_MS =? 0); [reflexivity|].
  destruct (armed (safety w)); [|reflexivity].
  destruct (armed_until_ms (safety w) =? 0); reflexivity.
Qed.

Lemma arduino_applyArmTimeout (w : World) :
  WeldController.applyArmTimeout ARM_TIMEOUT_MS w = after_arm_check ARM_TIMEOUT_MS w.
Proof.
  unfold WeldController.applyArmTimeout, after_arm_check, arm_expired,
    WeldController.millis, WeldController.uartSend.
  destruct (ARM_TIMEOUT_MS =? 0); [reflexivity|].
  destruct (armed (safety w)); [|reflexivity].
  destruct (armed_until_ms (safety w) =? 0); reflexivity.
Qed.

(** The arm check changes nothing but the arm state and the trace. *)
Lemma after_arm_check_armed (w : World) :
  armed (safety (after_arm_check ARM_TIMEOUT_MS w)) = true ->
  after_arm_check ARM_TIMEOUT_MS w = w.
Proof.
  unfold after_arm_check. destruct (arm_expired ARM_TIMEOUT_MS w).
  - cbn. discriminate.
  - reflexivity.
Qed.

Lemma after_arm_check_frame (w : World) :
  let w1 := after_arm_check ARM_TIMEOUT_MS w in
  params w1 = params w /\ pedal w1 = pedal w /\ clock w1 = clock w /\
  welding_now (safety w1) = welding_now (safety w) /\
  last_weld_ms (safety w1) = last_weld_ms (safety w) /\
  boot_ms (safety w1) = boot_ms (safety w).
Proof.
  unfold after_arm_check. destruct (arm_expired ARM_TIMEOUT_MS w); cbn; auto 10.
Qed.

End Gate.

Ltac world_norm :=
  cbn [params safety pedal clock trace advance emit elapse set_clock
       set_params set_safety set_pedal set_welding_now set_last_weld_ms
       set_armed welding_now last_weld_ms armed armed_until_ms boot_ms
       Blackpill.clampParams Blackpill.uartSend Blackpill.pwmOff
       WeldController.clampParams WeldController.uartSend WeldController.pwmOff
       WeldController.delayMicroseconds bind].

(** Equality of two worlds, traces or events that differ only in how
    their times are summed. *)
(** The same, leaving every [let] in place. *)
Ltac world_norm_lets :=
  cbn beta iota delta
      [params safety pedal clock trace advance emit elapse set_clock
       set_params set_safety set_pedal set_welding_now set_last_weld_ms
       set_armed welding_now last_weld_ms armed armed_until_ms boot_ms
       Blackpill.clampParams Blackpill.uartSend Blackpill.pwmOff
       WeldController.clampParams WeldController.uartSend WeldController.pwmOff
       WeldController.delayMicroseconds bind].

Ltac world_unfold :=
  cbv beta iota zeta delta
      [params safety pedal clock trace advance emit elapse set_clock
       set_params set_safety set_pedal set_welding_now set_last_weld_ms
       set_armed welding_now last_weld_ms armed armed_until_ms boot_ms
       Blackpill.clampParams Blackpill.uartSend Blackpill.pwmOff
       WeldController.clampParams WeldController.uartSend WeldController.pwmOff
       WeldController.delayMicroseconds bind].

Section Cycle.

Variable ARM_TIMEOUT_MS : Z.
Variable fuel : nat.
Hypothesis enough : (200 <= fuel)%nat.

Lemma hal_gap (g : Z) (w : World) :
  0 <= g ->
  (if negb (g =? 0) then Blackpill.delayMsExact fuel g w else Some w)
  = Some (advance [] (stage_us g) w).
Proof.
  intros Hg. destruct (Z.eqb_spec g 0) as [->|Hnz]; cbn [negb].
  - rewrite stage_us_0, advance_nil. reflexivity.
  - apply hal_delayMsExact; assumption.
Qed.

Lemma hal_fire_granted (w : World) :
  params_in_range (params w) ->
  BOOT_INHIBIT_MS <= boot_elapsed w ->
  after_arm_check ARM_TIMEOUT_MS w = w ->
  armed (safety w) = true ->
  welding_now (safety w) = false ->
  WELD_COOLDOWN_MS <= since_last_weld w ->
  Blackpill.fireRecipe ARM_TIMEOUT_MS fuel w = Some (cycle 3000 hal_done w).
Proof.
  intros Hr Hboot Harm Ha Hw Hcd.
  unfold Blackpill.fireRecipe. cbv zeta.
  rewrite hal_applyArmTimeout, Harm, Ha, Hw. cbn [negb].
  change (u32 (Blackpill.HAL_GetTick w - boot_ms (safety w))) with (boot_elapsed w).
  change (u32 (Blackpill.HAL_GetTick w - last_weld_ms (safety w))) with (since_last_weld w).
  rewrite (proj2 (Z.ltb_ge _ _) Hboot), (proj2 (Z.ltb_ge _ _) Hcd).
  clear Hboot Harm Ha Hw Hcd.
  destruct w as [p [wn lw ar au bt] pd c tr]. cbn [params] in Hr.
  rewrite hal_delay_2 by assumption. world_norm.
  pose proof (clamp_params_range _ Hr) as (R1 & R2 & R3 & R4 & R5 & R6 & R7 & R8 & R9 & R10).
  pose proof (clamp_params_mode p) as Hm.
  unfold cycle, cycle_events, hal_done, recipe_steps, Blackpill.HAL_GetTick. cbv zeta.
  pose proof (proj2 (Z.leb_le 1 _) (proj1 Hm)) as H1.
  repeat (world_norm; rewrite ?H1;
          first [ rewrite hal_doPulseMsPwm by (assumption || lia)
                | rewrite hal_gap by (assumption || lia)
                | rewrite hal_delayMsExact by (assumption || lia)
                | match goal with
                  | |- context [if ?c then _ else _] => destruct c
                  end ]).
  all: world_unfold.
  all: cbn [app play_events play_us step_events step_us].
  all: rewrite ?app_nil_r, ?Z.add_assoc, ?Z.add_0_r.
  all: repeat (progress (rewrite <- ?app_assoc; cbn [app])).
  all: reflexivity.
Qed.
End Cycle.

(** Unfold one [let] whose value holds no [let] itself. *)
Ltac peel_let :=
  match goal with
  | |- context C [let x := ?V in @?B x] =>
      lazymatch V with
      | context [let y := _ in _] => fail
      | _ => idtac
      end;
      let t := eval cbv beta in (B V) in
      let g := context C [t] in
      change g
  end.

Section CycleA.

Variable ARM_TIMEOUT_MS : Z.

Lemma arduino_gap (g : Z) (w : World) :
  0 <= g ->
  (if negb (g =? 0) then WeldController.delayMsExact g w else w)
  = advance [] (stage_us g) w.
Proof.
  intros Hg. destruct (Z.eqb_spec g 0) as [->|Hnz]; cbn [negb].
  - rewrite stage_us_0, advance_nil. reflexivity.
  - apply arduino_delayMsExact; assumption.
Qed.

Lemma arduino_fire_granted (w : World) :
  params_in_range (params w) ->
  BOOT_INHIBIT_MS <= boot_elapsed w ->
  after_arm_check ARM_TIMEOUT_MS w = w ->
  armed (safety w) = true ->
  welding_now (safety w) = false ->
  WELD_COOLDOWN_MS <= since_last_weld w ->
  WeldController.fireRecipe ARM_TIMEOUT_MS w = cycle 2000 arduino_done w.
Proof.
  intros Hr Hboot Harm Ha Hw Hcd.
  cbv beta delta [WeldController.fireRecipe].
  peel_let.
  change (u32 (WeldController.millis w - boot_ms (safety w))) with (boot_elapsed w).
  rewrite (proj2 (Z.ltb_ge _ _) Hboot).
  rewrite arduino_applyArmTimeout, Harm. peel_let. rewrite Ha, Hw. cbn beta iota delta [negb].
  change (u32 (WeldController.millis w - last_weld_ms (safety w))) with (since_last_weld w).
  peel_let.
  rewrite (proj2 (Z.ltb_ge _ _) Hcd).
  clear Hboot Harm Ha Hw Hcd.
  destruct w as [p [wn lw ar au bt] pd c tr]. cbn [params] in Hr.
  pose proof (clamp_params_range _ Hr) as (R1 & R2 & R3 & R4 & R5 & R6 & R7 & R8 & R9 & R10).
  pose proof (clamp_params_mode p) as Hm.
  pose proof (proj2 (Z.leb_le 1 _) (proj1 Hm)) as H1.
  repeat (world_norm_lets; rewrite ?clamp_params_same, ?H1;
          first [ rewrite arduino_doPulseMsPwm by (assumption || lia)
                | rewrite arduino_gap by (assumption || lia)
                | rewrite arduino_delayMsExact by (assumption || lia)
                | match goal with
                  | |- context [if ?c then _ else _] => destruct c eqn:?
                  end
                | peel_let ]).
  all: unfold cycle, cycle_events, arduino_done, recipe_steps, WeldController.micros,
         WeldController.millis.
  all: world_unfold.
  all: change WeldController.pctToDuty with Blackpill.pctToDuty.
  all: change WeldController.clamp_params with Blackpill.clamp_params.
  all: repeat match goal with
              | H : _ = _ |- _ => rewrite !H; clear H
              end.
  all: cbn [app play_events play_us step_events step_us].
  all: rewrite ?app_nil_r, ?Z.add_assoc, ?Z.add_0_r.
  all: repeat (progress (rewrite <- ?app_assoc; cbn [app])).
  all: reflexivity.
Qed.

End CycleA.

(** ** A fire request is answered as the gate of the specification decides *)

Section Outcome.

Variable ARM_TIMEOUT_MS : Z.

Lemma boot_elapsed_range (w : World) : 0 <= boot_elapsed w < 4294967296.
Proof. apply u32_range. Qed.

Lemma since_last_weld_range (w : World) : 0 <= since_last_weld w < 4294967296.
Proof. apply u32_range. Qed.

Lemma authorize_fire_granted (w w1 : World) :
  authorize_fire ARM_TIMEOUT_MS w = (w1, None) ->
  w1 = w /\ BOOT_INHIBIT_MS <= boot_elapsed w /\
  after_arm_check ARM_TIMEOUT_MS w = w /\
  armed (safety w) = true /\ welding_now (safety w) = false /\
  WELD_COOLDOWN_MS <= since_last_weld w.
Proof.
  unfold authorize_fire.
  destruct (Z.ltb_spec (boot_elapsed w) BOOT_INHIBIT_MS) as [Hb|Hb]; [discriminate|].
  destruct (armed (safety (after_arm_check ARM_TIMEOUT_MS w))) eqn:Ha;
    cbn [negb]; [|discriminate].
  apply after_arm_check_armed in Ha as Hsame. rewrite Hsame in *.
  destruct (welding_now (safety w)) eqn:Hw; [discriminate|].
  destruct (Z.ltb_spec (since_last_weld w) WELD_COOLDOWN_MS) as [Hc|Hc]; [discriminate|].
  intros E. inversion E. subst w1. auto 10.
Qed.

Lemma hal_fire_denied (fuel : nat) (w w1 : World) (d : Denial) :
  authorize_fire ARM_TIMEOUT_MS w = (w1, Some d) ->
  Blackpill.fireRecipe ARM_TIMEOUT_MS fuel w = Some (emit (Tx (denial_line d)) w1).
Proof.
  unfold authorize_fire, Blackpill.fireRecipe. cbv zeta.
  rewrite hal_applyArmTimeout.
  change (u32 (Blackpill.HAL_GetTick w - boot_ms (safety w))) with (boot_elapsed w).
  destruct (Z.ltb_spec (boot_elapsed w) BOOT_INHIBIT_MS) as [Hb|Hb].
  - intros E. inversion E. subst. cbn [denial_line].
    rewrite u32_small; [reflexivity|].
    pose proof (boot_elapsed_range w1). unfold BOOT_INHIBIT_MS in *. lia.
  - pose proof (after_arm_check_frame ARM_TIMEOUT_MS w) as (_ & _ & Hclk & _ & Hlw & _).
    cbv zeta in Hclk, Hlw.
    assert (Hs : u32 (Blackpill.HAL_GetTick w
                      - last_weld_ms (safety (after_arm_check ARM_TIMEOUT_MS w)))
                 = since_last_weld (after_arm_check ARM_TIMEOUT_MS w)).
    { unfold since_last_weld, Blackpill.HAL_GetTick. rewrite Hclk. reflexivity. }
    rewrite Hs.
    destruct (armed (safety (after_arm_check ARM_TIMEOUT_MS w))); cbn [negb].
    + destruct (welding_now (safety (after_arm_check ARM_TIMEOUT_MS w))).
      * intros E. inversion E. reflexivity.
      * destruct (Z.ltb_spec (since_last_weld (after_arm_check ARM_TIMEOUT_MS w))
                    WELD_COOLDOWN_MS) as [Hc|Hc]; [|discriminate].
        intros E. inversion E. subst. cbn [denial_line].
        rewrite u32_small; [reflexivity|].
        pose proof (since_last_weld_range (after_arm_check ARM_TIMEOUT_MS w)).
        unfold WELD_COOLDOWN_MS in *. lia.
    + intros E. inversion E. reflexivity.
Qed.

Lemma hal_fire_outcome (fuel : nat) (w : World) :
  (200 <= fuel)%nat -> params_in_range (params w) ->
  Blackpill.fireRecipe ARM_TIMEOUT_MS fuel w
  = Some (fire_outcome 3000 hal_done ARM_TIMEOUT_MS w).
Proof.
  intros Hf Hr. unfold fire_outcome.
  destruct (authorize_fire ARM_TIMEOUT_MS w) as [w1 [d|]] eqn:E.
  - apply hal_fire_denied. exact E.
  - apply authorize_fire_granted in E as (-> & Hb & Harm & Ha & Hw & Hc).
    apply hal_fire_granted; assumption.
Qed.

Lemma arduino_fire_denied (w w1 : World) (d : Denial) :
  authorize_fire ARM_TIMEOUT_MS w = (w1, Some d) ->
  WeldController.fireRecipe ARM_TIMEOUT_MS w = emit (Tx (denial_line d)) w1.
Proof.
  unfold authorize_fire.
  cbv beta delta [WeldController.fireRecipe]. peel_let.
  rewrite arduino_applyArmTimeout.
  change (u32 (WeldController.millis w - boot_ms (safety w))) with (boot_elapsed w).
  destruct (Z.ltb_spec (boot_elapsed w) BOOT_INHIBIT_MS) as [Hb|Hb].
  - intros E. inversion E. subst. cbn [denial_line].
    rewrite u32_small; [reflexivity|].
    pose proof (boot_elapsed_range w1). unfold BOOT_INHIBIT_MS in *. lia.
  - pose proof (after_arm_check_frame ARM_TIMEOUT_MS w) as (_ & _ & Hclk & _ & Hlw & _).
    cbv zeta in Hclk, Hlw.
    peel_let.
    assert (Hs : u32 (WeldController.millis w
                      - last_weld_ms (safety (after_arm_check ARM_TIMEOUT_MS w)))
                 = since_last_weld (after_arm_check ARM_TIMEOUT_MS w)).
    { unfold since_last_weld, WeldController.millis. rewrite Hclk. reflexivity. }
    rewrite Hs. peel_let.
    destruct (armed (safety (after_arm_check ARM_TIMEOUT_MS w)));
      cbn beta iota delta [negb].
    + destruct (welding_now (safety (after_arm_check ARM_TIMEOUT_MS w))).
      * intros E. inversion E. reflexivity.
      * destruct (Z.ltb_spec (since_last_weld (after_arm_check ARM_TIMEOUT_MS w))
                    WELD_COOLDOWN_MS) as [Hc|Hc]; [|discriminate].
        intros E. inversion E. subst. cbn [denial_line].
        rewrite u32_small; [reflexivity|].
        pose proof (since_last_weld_range (after_arm_check ARM_TIMEOUT_MS w)).
        unfold WELD_COOLDOWN_MS in *. lia.
    + intros E. inversion E. reflexivity.
Qed.

Lemma arduino_fire_outcome (w : World) :
  params_in_range (params w) ->
  WeldController.fireRecipe ARM_TIMEOUT_MS w
  = fire_outcome 2000 arduino_done ARM_TIMEOUT_MS w.
Proof.
  intros Hr. unfold fire_outcome.
  destruct (authorize_fire ARM_TIMEOUT_MS w) as [w1 [d|]] eqn:E.
  - apply arduino_fire_denied. exact E.
  - apply authorize_fire_granted in E as (-> & Hb & Harm & Ha & Hw & Hc).
    apply arduino_fire_granted; assumption.
Qed.

End Outcome.

(** ** Reading the trace of a weld cycle *)

Lemma new_events_app (w w' : World) (evs : list Event) :
  trace w' = trace w ++ evs -> new_events w w' = evs.
Proof.
  intros H. unfold new_events. rewrite H, skipn_app, skipn_all, Nat.sub_diag.
  reflexivity.
Qed.

Lemma new_events_emit (e : Event) (w : World) : new_events w (emit e w) = [e].
Proof. apply new_events_app. reflexivity. Qed.

Lemma pulses_play (steps : list Step) : forall (t : Z) (rest : list Event),
  pulses_from None (play_events t steps ++ rest)
  = flat_map step_pulse steps ++ pulses_from None rest.
Proof.
  induction steps as [|s steps IH]; intros t rest; [reflexivity|].
  cbn [play_events flat_map]. rewrite <- !app_assoc.
  destruct s as [ms duty|ms|]; cbn [step_events step_pulse step_us].
  - unfold stage_events, stage_pulse.
    destruct (ms =? 0); cbn [app pulses_from]; rewrite IH; [reflexivity|].
    do 2 f_equal. lia.
  - cbn [app]. apply IH.
  - cbn [app pulses_from]. apply IH.
Qed.

Lemma play_events_pwm (steps : list Step) : forall t : Z,
  forallb is_pwm (play_events t steps) = true.
Proof.
  induction steps as [|s steps IH]; intros t; [reflexivity|].
  cbn [play_events]. rewrite forallb_app, IH, andb_true_r.
  destruct s as [ms duty|ms|]; cbn [step_events]; try reflexivity.
  unfold stage_events. destruct (ms =? 0); reflexivity.
Qed.

Lemma cycle_pulses (dead : Z) (done : Z -> Z -> Params -> string) (w : World) :
  pulses (new_events w (cycle dead done w))
  = flat_map step_pulse (recipe_steps (Blackpill.clamp_params (params w))).
Proof.
  rewrite (new_events_app w (cycle dead done w) (cycle_events dead done w) eq_refl).
  unfold pulses, cycle_events. cbv zeta.
  cbn [app pulses_from]. rewrite pulses_play. cbn [pulses_from].
  apply app_nil_r.
Qed.

Lemma cycle_tx_lines (dead : Z) (done : Z -> Z -> Params -> string) (w : World) :
  tx_lines (new_events w (cycle dead done w))
  = ["EVENT,WELD_START";
     done (clock w + dead)
       (clock w + dead + play_us (recipe_steps (Blackpill.clamp_params (params w))))
       (Blackpill.clamp_params (params w))].
Proof.
  rewrite (new_events_app w (cycle dead done w) (cycle_events dead done w) eq_refl).
  unfold cycle_events. cbv zeta. cbn [app tx_lines].
  set (steps := recipe_steps _).
  pose proof (play_events_pwm steps (clock w + dead)) as Hp.
  induction (play_events (clock w + dead) steps) as [|e evs IH]; [reflexivity|].
  cbn [forallb] in Hp. apply andb_prop in Hp as [He Hp].
  destruct e; try discriminate; cbn [app tx_lines]; apply IH; exact Hp.
Qed.

(** ** Claims on the interlock gate and the weld cycle *)

Lemma idle_armed_in_range : params_in_range (params idle_armed).
Proof. unfold params_in_range. cbn. lia. Qed.

Lemma emit_rejected (w : World) (s : string) :
  s <> "EVENT,WELD_START" -> rejected w (emit (Tx s) w).
Proof.
  intros Hs. unfold rejected. rewrite new_events_emit. cbn.
  repeat split; try reflexivity.
  intros e [<-|[]]. exists s. split; [reflexivity|exact Hs].
Qed.

Lemma denial_line_not_start (d : Denial) : denial_line d <> "EVENT,WELD_START".
Proof. destruct d; cbn; discriminate. Qed.

Section GateClaims.

Variable ARM_TIMEOUT_MS : Z.
Variable fuel : nat.
Variable w : World.
Hypothesis enough : (200 <= fuel)%nat.
Hypothesis in_range : params_in_range (params w).

(** C1.  A fire request is answered as [authorize_fire] decides: the
    checks are made in the order boot inhibit, arm timeout, armed, busy,
    cooldown, the first denial that applies is the one sent, with the
    remaining milliseconds where the specification gives them, and the
    weld cycle runs when none applies.  In particular a request inside
    the boot-inhibit window is answered [BOOT_INHIBIT] whatever the rest
    of the state, and a request that finds the unit busy is answered
    [ALREADY_WELDING] whatever the time since the last weld. *)
Theorem fire_gate_order :
  (Blackpill.fireRecipe ARM_TIMEOUT_MS fuel w
   = Some (fire_outcome 3000 hal_done ARM_TIMEOUT_MS w)
   /\ WeldController.fireRecipe ARM_TIMEOUT_MS w
      = fire_outcome 2000 arduino_done ARM_TIMEOUT_MS w)
  /\ (boot_elapsed w < BOOT_INHIBIT_MS ->
      let line := ("DENY,BOOT_INHIBIT,ms=" ++ dec (BOOT_INHIBIT_MS - boot_elapsed w))%string in
      Blackpill.fireRecipe ARM_TIMEOUT_MS fuel w = Some (emit (Tx line) w)
      /\ WeldController.fireRecipe ARM_TIMEOUT_MS w = emit (Tx line) w)
  /\ (BOOT_INHIBIT_MS <= boot_elapsed w ->
      armed (safety (after_arm_check ARM_TIMEOUT_MS w)) = true ->
      welding_now (safety w) = true ->
      Blackpill.fireRecipe ARM_TIMEOUT_MS fuel w
      = Some (emit (Tx "DENY,ALREADY_WELDING") w)
      /\ WeldController.fireRecipe ARM_TIMEOUT_MS w
         = emit (Tx "DENY,ALREADY_WELDING") w).
Proof.
  split; [|split].
  - split.
    + apply hal_fire_outcome; assumption.
    + apply arduino_fire_outcome; assumption.
  - intros Hb line.
    assert (E : authorize_fire ARM_TIMEOUT_MS w
                = (w, Some (BOOT_INHIBIT (BOOT_INHIBIT_MS - boot_elapsed w)))).
    { unfold authorize_fire. now rewrite (proj2 (Z.ltb_lt _ _) Hb). }
    split.
    + apply (hal_fire_denied _ _ _ _ _ E).
    + apply (arduino_fire_denied _ _ _ _ E).
  - intros Hb Ha Hw.
    assert (E : authorize_fire ARM_TIMEOUT_MS w = (w, Some ALREADY_WELDING)).
    { unfold authorize_fire. rewrite (proj2 (Z.ltb_ge _ _) Hb). cbv zeta.
      pose proof (after_arm_check_armed _ _ Ha) as Hs.
      rewrite Hs in Ha |- *. now rewrite Ha, Hw. }
    split.
    + apply (hal_fire_denied _ _ _ _ _ E).
    + apply (arduino_fire_denied _ _ _ _ E).
Qed.

End GateClaims.

Lemma fire_gate_order_witness :
  Blackpill.fireRecipe 0 200 idle_armed
  = Some (fire_outcome 3000 hal_done 0 idle_armed).
Proof.
  apply (fire_gate_order 0 200 idle_armed).
  - apply Nat.le_refl.
  - unfold params_in_range. cbn. lia.
Defined.

Lemma pctToDuty_range (pct : Z) : 0 <= pct -> 0 <= Blackpill.pctToDuty pct <= PWM_MAX.
Proof.
  intros H. unfold Blackpill.pctToDuty, PWM_MAX, u16, u32.
  destruct (Z.leb_spec 100 pct); [lia|].
  rewrite (Z.mod_small (pct * 1023)) by lia.
  assert (0 <= pct * 1023 / 100 < 1023).
  { split; [apply Z.div_pos; lia|apply Z.div_lt_upper_bound; lia]. }
  rewrite Z.mod_small; lia.
Qed.

Lemma stage_pulse_expected (d duty : Z) :
  0 <= d -> 0 <= duty <= PWM_MAX ->
  stage_pulse (Z.min d MAX_WELD_MS) duty
  = if d =? 0 then [] else [(duty, 1000 * Z.min d MAX_WELD_MS)].
Proof.
  intros Hd Hduty. unfold stage_pulse, stage_us, MAX_WELD_MS.
  destruct (Z.eqb_spec d 0) as [->|Hnz]; [reflexivity|].
  destruct (Z.eqb_spec (Z.min d 200) 0); [lia|].
  do 2 f_equal; lia.
Qed.

Lemma recipe_pulses_expected (p : Params) :
  params_in_range p ->
  flat_map step_pulse (recipe_steps (Blackpill.clamp_params p)) = expected_pulses p.
Proof.
  intros Hr.
  pose proof (clamp_params_range _ Hr) as (R1 & R2 & R3 & R4 & R5 & R6 & R7 & R8 & R9 & R10).
  pose proof (clamp_params_mode p) as Hm.
  destruct Hr as (Q1 & Q2 & Q3 & Q4 & Q5 & Q6 & Q7 & Q8 & Q9 & Q10).
  unfold expected_pulses, recipe_steps. cbv zeta.
  set (p' := Blackpill.clamp_params p) in *.
  assert (Hd1 : weld_d1_ms p' = Z.min (weld_d1_ms p) MAX_WELD_MS) by apply clamp_min.
  assert (Hd2 : weld_d2_ms p' = Z.min (weld_d2_ms p) MAX_WELD_MS) by apply clamp_min.
  assert (Hd3 : weld_d3_ms p' = Z.min (weld_d3_ms p) MAX_WELD_MS) by apply clamp_min.
  assert (Hpm : preheat_ms p' = Z.min (preheat_ms p) MAX_WELD_MS) by apply clamp_min.
  assert (Hen : preheat_enabled p' = preheat_enabled p) by reflexivity.
  assert (Hpos : (0 <? preheat_ms p') = (0 <? preheat_ms p)).
  { rewrite Hpm. unfold MAX_WELD_MS.
    destruct (Z.ltb_spec 0 (preheat_ms p)), (Z.ltb_spec 0 (Z.min (preheat_ms p) 200));
      try reflexivity; lia. }
  pose proof (pctToDuty_range (weld_power_pct p') ltac:(lia)) as Hmain.
  pose proof (pctToDuty_range (preheat_pct p') ltac:(lia)) as Hpre.
  rewrite Hen, Hpos, (proj2 (Z.leb_le 1 _) (proj1 Hm)).
  rewrite !flat_map_app. f_equal; [|f_equal; [|f_equal]].
  - destruct (preheat_enabled p && (0 <? preheat_ms p)) eqn:E; [|reflexivity].
    apply andb_prop in E as [_ E]. apply Z.ltb_lt in E.
    cbn [flat_map step_pulse].
    rewrite Hpm, stage_pulse_expected by lia.
    destruct (Z.eqb_spec (preheat_ms p) 0); [lia|].
    destruct (0 <? preheat_gap_ms p'); reflexivity.
  - cbn [flat_map step_pulse]. rewrite Hd1, stage_pulse_expected by lia.
    apply app_nil_r.
  - destruct (2 <=? weld_mode p'); [|reflexivity].
    cbn [flat_map step_pulse andb app]. rewrite Hd2, stage_pulse_expected by lia.
    rewrite app_nil_r. destruct (weld_d2_ms p =? 0); reflexivity.
  - destruct (3 <=? weld_mode p'); [|reflexivity].
    cbn [flat_map step_pulse andb app]. rewrite Hd3, stage_pulse_expected by lia.
    rewrite app_nil_r. destruct (weld_d3_ms p =? 0); reflexivity.
Qed.


Section CycleClaims.

Variable ARM_TIMEOUT_MS : Z.
Variable fuel : nat.
Variable w : World.
Hypothesis enough : (200 <= fuel)%nat.
Hypothesis in_range : params_in_range (params w).

Lemma cycle_bracketed (dead : Z) (done : Z -> Z -> Params -> string) :
  bracketed w (cycle dead done w).
Proof.
  unfold bracketed.
  exists (play_events (clock w + dead)
            (recipe_steps (Blackpill.clamp_params (params w)))).
  eexists. eexists. split; [apply play_events_pwm|]. split; [|reflexivity].
  rewrite (new_events_app w (cycle dead done w) (cycle_events dead done w) eq_refl).
  reflexivity.
Qed.

Lemma denied_rejected (w1 : World) (d : Denial) :
  authorize_fire ARM_TIMEOUT_MS w = (w1, Some d) ->
  rejected w (emit (Tx (denial_line d)) w1).
Proof.
  intros E.
  assert (Hw1 : w1 = w \/ w1 = emit (Tx "EVENT,ARM_TIMEOUT") (set_armed false 0 w)).
  { revert E. unfold authorize_fire, after_arm_check.
    destruct (boot_elapsed w <? BOOT_INHIBIT_MS); [intros E; inversion E; auto|].
    destruct (arm_expired ARM_TIMEOUT_MS w); cbv zeta;
      repeat match goal with
             | |- context [if ?c then _ else _] => destruct c
             end; intros E; inversion E; auto. }
  destruct Hw1 as [->| ->].
  - apply emit_rejected, denial_line_not_start.
  - unfold rejected.
    rewrite (new_events_app w _ [Tx "EVENT,ARM_TIMEOUT"; Tx (denial_line d)])
      by (cbn; now rewrite <- app_assoc).
    cbn. repeat split; try reflexivity.
    intros e [<-|[<-|[]]]; eexists; (split; [reflexivity|]).
    + discriminate.
    + apply denial_line_not_start.
Qed.

End CycleClaims.

(** C5.  [SET_PULSE,1,65546] and then a fire: the claim has the first
    stage cut to 200 ms in the pulse and in [WELD_DONE]; the code drives
    the output for 10 ms and reports [d1=10], in both variants.  The
    duration asked for is cut to the 16 bits of [weld_d1_ms] before
    [clampParams] sees it: 65546 becomes 10, which the clamp keeps. *)
Theorem stage_duration_cut_before_clamping (ARM_TIMEOUT_MS : Z) (fuel : nat)
    (w : World) :
  (exists ws : World,
     Blackpill.parseCommand ARM_TIMEOUT_MS fuel "SET_PULSE,1,65546" w = Some ws
     /\ WeldController.handleCmd ARM_TIMEOUT_MS "SET_PULSE,1,65546" w = ws
     /\ weld_d1_ms (params ws) = 10
     /\ new_events w ws = [Tx "ACK,SET_PULSE,mode=1"])
  /\ (exists ws wh : World,
        Blackpill.parseCommand 0 200 "SET_PULSE,1,65546" idle_armed = Some ws
        /\ Blackpill.fireRecipe 0 200 ws = Some wh
        /\ pulses (new_events ws wh) = [(1023, 10000)]
        /\ tx_lines (new_events ws wh)
           = ["EVENT,WELD_START";
              "EVENT,WELD_DONE,total_ms=10,mode=1,d1=10,gap1=0,d2=0,gap2=0,d3=0,power_pct=100,preheat_en=0,preheat_ms=20,preheat_pct=30,preheat_gap_ms=3"])
  /\ (let ws := WeldController.handleCmd 0 "SET_PULSE,1,65546" idle_armed in
      let wa := WeldController.fireRecipe 0 ws in
      pulses (new_events ws wa) = [(1023, 10000)]
      /\ tx_lines (new_events ws wa)
         = ["EVENT,WELD_START";
            "EVENT,WELD_DONE,total_us=10000,mode=1,d1=10,gap1=0,d2=0,gap2=0,d3=0,power_pct=100,preheat_en=0,preheat_ms=20,preheat_pct=30,preheat_gap_ms=3"]).
Proof.
  split; [|split].
  - eexists. split; [reflexivity|]. split; [reflexivity|]. split; [reflexivity|].
    apply new_events_app. reflexivity.
  - eexists. eexists. split; [reflexivity|]. split; [vm_compute; reflexivity|].
    split; vm_compute; reflexivity.
  - cbv zeta. split; vm_compute; reflexivity.
Qed.

(** Within the 16 bits of the globals a duration asked for above the
    limit is cut to 200 ms: [SET_PULSE,1,500] fires for 200 ms. *)
Example stage_duration_clamped_in_range :
  exists ws wh : World,
    Blackpill.parseCommand 0 200 "SET_PULSE,1,500" idle_armed = Some ws
    /\ Blackpill.fireRecipe 0 200 ws = Some wh
    /\ pulses (new_events ws wh) = [(1023, 200000)]
    /\ tx_lines (new_events ws wh)
       = ["EVENT,WELD_START";
          "EVENT,WELD_DONE,total_ms=200,mode=1,d1=200,gap1=0,d2=0,gap2=0,d3=0,power_pct=100,preheat_en=0,preheat_ms=20,preheat_pct=30,preheat_gap_ms=3"].
Proof.
  eexists. eexists. split; [reflexivity|]. split; [vm_compute; reflexivity|].
  split; vm_compute; reflexivity.
Qed.

Lemma recipe_play_nonneg (p : Params) :
  params_in_range p -> 0 <= play_us (recipe_steps p).
Proof.
  intros (Q1 & Q2 & Q3 & Q4 & Q5 & Q6 & Q7 & Q8 & Q9 & Q10).
  pose proof (stage_us_range (preheat_ms p)). pose proof (stage_us_range (preheat_gap_ms p)).
  pose proof (stage_us_range (weld_d1_ms p)). pose proof (stage_us_range (weld_d2_ms p)).
  pose proof (stage_us_range (weld_d3_ms p)). pose proof (stage_us_range (weld_gap1_ms p)).
  pose proof (stage_us_range (weld_gap2_ms p)).
  unfold recipe_steps. cbv zeta.
  destruct (preheat_enabled p && (0 <? preheat_ms p));
    destruct (0 <? preheat_gap_ms p);
    destruct (1 <=? weld_mode p); destruct (2 <=? weld_mode p);
    destruct (3 <=? weld_mode p);
    cbn [app play_us step_us]; lia.
Qed.

Section CooldownClaims.

Variable ARM_TIMEOUT_MS : Z.
Variable w : World.
Hypothesis in_range : params_in_range (params w).
Hypothesis granted : authorize_fire ARM_TIMEOUT_MS w = (w, None).
Hypothesis boot_behind : 0 <= boot_ms (safety w) <= clock w / 1000.

(** The cycle stamps its completion with the counter as it reads when
    the output is forced off for the last time. *)
Lemma cycle_completed_at (dead : Z) (done : Z -> Z -> Params -> string) :
  completed_at w (cycle dead done w) (last_weld_ms (safety (cycle dead done w))).
Proof.
  unfold completed_at.
  set (t1 := clock w + dead + play_us (recipe_steps (Blackpill.clamp_params (params w)))).
  exists ([Welding true; Tx "EVENT,WELD_START"; PwmOff (clock w)]
          ++ play_events (clock w + dead)
               (recipe_steps (Blackpill.clamp_params (params w)))), t1.
  eexists. split.
  - rewrite (new_events_app w (cycle dead done w) (cycle_events dead done w) eq_refl).
    unfold cycle_events. cbv zeta. rewrite <- app_assoc. reflexivity.
  - unfold cycle. cbn [safety last_weld_ms]. fold t1. reflexivity.
Qed.

(** The gate after a weld cycle.  [w1] is the world the cycle leaves,
    [w2] the same world [dt] microseconds later, with the millisecond
    counter not yet wrapped around and the unit armed: the boot check and
    the busy check pass, and the cooldown is counted from the counter
    value the cycle stored on completion. *)
Lemma gate_after_cycle (dead dt : Z) (done : Z -> Z -> Params -> string) :
  0 <= dead -> 0 <= dt ->
  let w1 := cycle dead done w in
  let w2 := elapse dt w1 in
  let gone := clock w2 / 1000 - last_weld_ms (safety w1) in
  clock w2 / 1000 < 4294967296 ->
  armed (safety (after_arm_check ARM_TIMEOUT_MS w2)) = true ->
  params_in_range (params w2)
  /\ 0 <= gone
  /\ authorize_fire ARM_TIMEOUT_MS w2
     = (w2, if gone <? WELD_COOLDOWN_MS
            then Some (COOLDOWN (WELD_COOLDOWN_MS - gone)) else None).
Proof.
  intros Hdead Hdt w1 w2 gone Hwrap Harm.
  apply authorize_fire_granted in granted as (_ & Hboot & _ & _ & _ & _).
  pose proof (recipe_play_nonneg _ (clamp_params_range _ in_range)) as Hplay.
  assert (Hc1 : clock w1 = clock w + dead + play_us (recipe_steps (Blackpill.clamp_params (params w))))
    by reflexivity.
  assert (Hc2 : clock w2 = clock w1 + dt) by reflexivity.
  assert (Hm1 : clock w / 1000 <= clock w1 / 1000) by (apply Z.div_le_mono; lia).
  assert (Hm2 : clock w1 / 1000 <= clock w2 / 1000) by (apply Z.div_le_mono; lia).
  assert (Hlw : last_weld_ms (safety w1) = clock w1 / 1000).
  { unfold w1, cycle. cbn [safety last_weld_ms clock]. rewrite <- Hc1.
    apply u32_small. lia. }
  assert (Hb2 : boot_elapsed w2 = clock w2 / 1000 - boot_ms (safety w)).
  { unfold boot_elapsed. change (boot_ms (safety w2)) with (boot_ms (safety w)).
    rewrite u32_sub_l. apply u32_small. lia. }
  assert (Hb : boot_elapsed w = clock w / 1000 - boot_ms (safety w)).
  { unfold boot_elapsed. rewrite u32_sub_l. apply u32_small. lia. }
  assert (Hs2 : since_last_weld w2 = gone).
  { unfold since_last_weld. change (last_weld_ms (safety w2)) with (last_weld_ms (safety w1)).
    unfold gone. rewrite Hlw, u32_sub_l. apply u32_small. lia. }
  split; [apply clamp_params_range; exact in_range|].
  split; [unfold gone; rewrite Hlw; lia|].
  unfold authorize_fire.
  rewrite (proj2 (Z.ltb_ge _ _)) by (rewrite Hb2; rewrite Hb in Hboot; lia).
  cbv zeta. rewrite (after_arm_check_armed _ _ Harm) in Harm |- *.
  rewrite Harm. cbn [negb]. change (welding_now (safety w2)) with false. cbv iota.
  rewrite Hs2. destruct (gone <? WELD_COOLDOWN_MS); reflexivity.
Qed.

Variable fuel : nat.
Hypothesis enough : (200 <= fuel)%nat.

(** C7.  The first request is granted and its cycle runs to completion:
    the output is forced off for the last time, the flag is cleared and
    [last_weld_ms] takes the value of the millisecond counter, before the
    completion event is sent.  The second request is made [dt]
    microseconds after the first has returned, before the counter wraps
    around, with the unit armed.  [gone] is the number of milliseconds
    the counter has advanced since the completion.  With [gone < 500] the
    second request is answered [DENY,COOLDOWN,ms=500-gone] and nothing
    else changes; with [500 <= gone] it is granted and a second cycle
    runs.  Both variants. *)
Theorem cooldown_after_completion (dt : Z) :
  0 <= dt ->
  exists w1h w1a : World,
    Blackpill.fireRecipe ARM_TIMEOUT_MS fuel w = Some w1h
    /\ WeldController.fireRecipe ARM_TIMEOUT_MS w = w1a
    /\ completed_at w w1h (last_weld_ms (safety w1h))
    /\ completed_at w w1a (last_weld_ms (safety w1a))
    /\ (let w2 := elapse dt w1h in
        let gone := clock w2 / 1000 - last_weld_ms (safety w1h) in
        clock w2 / 1000 < 4294967296 ->
        armed (safety (after_arm_check ARM_TIMEOUT_MS w2)) = true ->
        (gone < 500 ->
         Blackpill.fireRecipe ARM_TIMEOUT_MS fuel w2
         = Some (emit (Tx ("DENY,COOLDOWN,ms=" ++ dec (500 - gone))) w2))
        /\ (500 <= gone ->
            exists w3,
              Blackpill.fireRecipe ARM_TIMEOUT_MS fuel w2 = Some w3
              /\ bracketed w2 w3))
    /\ (let w2 := elapse dt w1a in
        let gone := clock w2 / 1000 - last_weld_ms (safety w1a) in
        clock w2 / 1000 < 4294967296 ->
        armed (safety (after_arm_check ARM_TIMEOUT_MS w2)) = true ->
        (gone < 500 ->
         WeldController.fireRecipe ARM_TIMEOUT_MS w2
         = emit (Tx ("DENY,COOLDOWN,ms=" ++ dec (500 - gone))) w2)
        /\ (500 <= gone ->
            bracketed w2 (WeldController.fireRecipe ARM_TIMEOUT_MS w2))).
Proof.
  intros Hdt.
  pose proof (hal_fire_outcome ARM_TIMEOUT_MS fuel w enough in_range) as Hh.
  pose proof (arduino_fire_outcome ARM_TIMEOUT_MS w in_range) as Ha.
  unfold fire_outcome in Hh, Ha. rewrite granted in Hh, Ha.
  exists (cycle 3000 hal_done w), (cycle 2000 arduino_done w).
  split; [exact Hh|]. split; [exact Ha|].
  split; [apply cycle_completed_at|].
  split; [apply cycle_completed_at|].
  split.
  - intros w2 gone Hwrap Harm.
    destruct (gate_after_cycle 3000 dt hal_done ltac:(lia) Hdt Hwrap Harm)
      as (Hr & Hgone & Hauth).
    fold w2 gone in Hr, Hauth.
    pose proof (hal_fire_outcome ARM_TIMEOUT_MS fuel w2 enough Hr) as Hf.
    unfold fire_outcome in Hf. rewrite Hauth in Hf. unfold WELD_COOLDOWN_MS in Hf.
    split.
    + intros Hlt. rewrite (proj2 (Z.ltb_lt _ _) Hlt) in Hf. exact Hf.
    + intros Hge. rewrite (proj2 (Z.ltb_ge _ _) Hge) in Hf.
      eexists. split; [exact Hf|]. apply cycle_bracketed.
  - intros w2 gone Hwrap Harm.
    destruct (gate_after_cycle 2000 dt arduino_done ltac:(lia) Hdt Hwrap Harm)
      as (Hr & Hgone & Hauth).
    fold w2 gone in Hr, Hauth.
    pose proof (arduino_fire_outcome ARM_TIMEOUT_MS w2 Hr) as Hf.
    unfold fire_outcome in Hf. rewrite Hauth in Hf. unfold WELD_COOLDOWN_MS in Hf.
    split.
    + intros Hlt. rewrite (proj2 (Z.ltb_lt _ _) Hlt) in Hf. exact Hf.
    + intros Hge. rewrite (proj2 (Z.ltb_ge _ _) Hge) in Hf.
      rewrite Hf. apply cycle_bracketed.
Qed.

End CooldownClaims.

Lemma cooldown_after_completion_witness :
  exists w1 : World,
    Blackpill.fireRecipe 0 200 idle_armed = Some w1
    /\ Blackpill.fireRecipe 0 200 (elapse 100000 w1)
       = Some (emit (Tx "DENY,COOLDOWN,ms=400") (elapse 100000 w1))
    /\ exists w3, Blackpill.fireRecipe 0 200 (elapse 600000 w1) = Some w3
                  /\ bracketed (elapse 600000 w1) w3.
Proof.
  assert (Hr : params_in_range (params idle_armed)) by (unfold params_in_range; cbn; lia).
  assert (Hb : 0 <= boot_ms (safety idle_armed) <= clock idle_armed / 1000)
    by (vm_compute; split; discriminate).
  destruct (cooldown_after_completion 0 idle_armed Hr eq_refl Hb 200 (Nat.le_refl 200)
              100000 ltac:(lia)) as (w1 & w1a & Hh & _ & _ & _ & Hshort & _).
  destruct (cooldown_after_completion 0 idle_armed Hr eq_refl Hb 200 (Nat.le_refl 200)
              600000 ltac:(lia)) as (w1' & w1a' & Hh' & _ & _ & _ & Hlong & _).
  assert (E : w1' = w1) by congruence. subst w1'.
  assert (Ew : w1 = cycle 3000 hal_done idle_armed).
  { rewrite (hal_fire_outcome 0 200 idle_armed (Nat.le_refl 200) Hr) in Hh.
    inversion Hh. reflexivity. }
  exists w1. split; [exact Hh|]. split.
  - cbv zeta in Hshort. subst w1.
    destruct Hshort as (Hd & _); [vm_compute; reflexivity|reflexivity|].
    apply Hd. vm_compute. reflexivity.
  - cbv zeta in Hlong. subst w1.
    destruct Hlong as (_ & Hg); [vm_compute; reflexivity|reflexivity|].
    apply Hg. vm_compute. discriminate.
Defined.

(** Where the counter does wrap around.  A unit booted at tick 1000 welds
    two seconds before its millisecond counter wraps; 3.5 s after the
    completion the counter has wrapped past the boot time, and the boot
    check, which comes first, denies for another five seconds. *)
Example boot_inhibit_returns_at_counter_wrap :
  exists w1 : World,
    Blackpill.fireRecipe 0 200 before_wrap = Some w1 /\
    tx_lines (new_events before_wrap w1)
    = ["EVENT,WELD_START";
       "EVENT,WELD_DONE,total_ms=10,mode=1,d1=10,gap1=0,d2=0,gap2=0,d3=0,power_pct=100,preheat_en=0,preheat_ms=20,preheat_pct=30,preheat_gap_ms=3"] /\
    let w2 := elapse 3500000 w1 in
    armed (safety w2) = true /\ welding_now (safety w2) = false /\
    since_last_weld w2 = 3500 /\
    Blackpill.fireRecipe 0 200 w2 = Some (emit (Tx "DENY,BOOT_INHIBIT,ms=4487") w2) /\
    WeldController.fireRecipe 0 w2 = emit (Tx "DENY,BOOT_INHIBIT,ms=4487") w2.
Proof.
  eexists. split; [vm_compute; reflexivity|].
  split; [vm_compute; reflexivity|].
  cbv zeta. repeat split; vm_compute; reflexivity.
Qed.

(** ** Claims on the command parsers *)

Lemma starts_with_app (pat s : string) :
  starts_with pat s = true -> s = (pat ++ drop (String.length pat) s)%string.
Proof.
  revert s. induction pat as [|a pat IH]; intros s H; [reflexivity|].
  destruct s as [|b s]; [discriminate|].
  cbn [starts_with] in H. apply andb_prop in H as [Hab Hs].
  apply Ascii.eqb_eq in Hab. subst b.
  cbn [String.length drop append]. f_equal. apply IH. exact Hs.
Qed.

Lemma bool_digit_dec (b : bool) : dec (if b then 1 else 0) = bool_digit b.
Proof. destruct b; reflexivity. Qed.

(** C10.  The HAL variant has the legacy commands [CMD,SET,PULSE,<d1>] and
    [CMD,SET,POWER,<v>], which reject instead of clamping: a value outside
    (0, 200], respectively [50, 100], is answered [ERR,PULSE_RANGE],
    respectively [ERR,POWER_RANGE], and leaves the world as it was but for
    that line; a value inside is stored and acknowledged. *)
Theorem legacy_set_commands_reject (ARM_TIMEOUT_MS : Z) (fuel : nat)
    (rest : string) (w : World) :
  let val := atoi rest in
  Blackpill.parseCommand ARM_TIMEOUT_MS fuel ("CMD,SET,PULSE," ++ rest) w
  = Some (if (0 <? val) && (val <=? 200) then
            emit (Tx ("ACK,PULSE=" ++ dec val))
              (set_params (set_weld_d1_ms val (params w)) w)
          else emit (Tx "ERR,PULSE_RANGE") w)
  /\ Blackpill.parseCommand ARM_TIMEOUT_MS fuel ("CMD,SET,POWER," ++ rest) w
     = Some (if (50 <=? val) && (val <=? 100) then
               emit (Tx ("ACK,POWER=" ++ dec val))
                 (set_params (set_weld_power_pct val (params w)) w)
             else emit (Tx "ERR,POWER_RANGE") w).
Proof.
  intros val. split.
  - unfold Blackpill.parseCommand.
    change (starts_with "ARM," ("CMD,SET,PULSE," ++ rest)) with false.
    change (starts_with "CMD,SET,PULSE," ("CMD,SET,PULSE," ++ rest)) with true.
    change (drop 14 ("CMD,SET,PULSE," ++ rest)) with rest.
    cbv iota zeta. fold val. unfold MAX_WELD_MS.
    destruct ((0 <? val) && (val <=? 200)) eqn:E; [|reflexivity].
    apply andb_prop in E as [E1 E2]. apply Z.ltb_lt in E1. apply Z.leb_le in E2.
    rewrite u16_small by lia. reflexivity.
  - unfold Blackpill.parseCommand.
    change (starts_with "ARM," ("CMD,SET,POWER," ++ rest)) with false.
    change (starts_with "CMD,SET,PULSE," ("CMD,SET,POWER," ++ rest)) with false.
    change (starts_with "SET_PULSE," ("CMD,SET,POWER," ++ rest)) with false.
    change (starts_with "CMD,SET,POWER," ("CMD,SET,POWER," ++ rest)) with true.
    change (drop 14 ("CMD,SET,POWER," ++ rest)) with rest.
    cbv iota zeta. fold val.
    destruct ((50 <=? val) && (val <=? 100)) eqn:E; [|reflexivity].
    apply andb_prop in E as [E1 E2]. apply Z.leb_le in E1. apply Z.leb_le in E2.
    rewrite u8_small by lia. reflexivity.
Qed.

Example legacy_pulse_zero_rejected :
  Blackpill.parseCommand 0 200 "CMD,SET,PULSE,0" idle_armed
  = Some (emit (Tx "ERR,PULSE_RANGE") idle_armed).
Proof. reflexivity. Qed.

Example legacy_power_accepted :
  option_map (fun w => (weld_power_pct (params w), tx_lines (trace w)))
    (Blackpill.parseCommand 0 200 "CMD,SET,POWER,75" idle_armed)
  = Some (75, ["ACK,POWER=75"]).
Proof. reflexivity. Qed.

Lemma clamp_params_power (v : Z) (p : Params) :
  weld_power_pct (Blackpill.clamp_params (set_weld_power_pct v p)) = clamp_power v.
Proof.
  unfold clamp_power. cbn. destruct (v <? 50); reflexivity.
Qed.

(** What [SET_POWER,<pct>] stores, in both variants: the clamp of the
    low byte of the number read. *)
Lemma set_power_stored (ARM_TIMEOUT_MS : Z) (fuel : nat) (rest : string) (w : World) :
  let stored := clamp_power (u8 (atoi rest)) in
  let w' := emit (Tx ("ACK,SET_POWER,pct=" ++ dec stored))
              (set_params (Blackpill.clamp_params
                             (set_weld_power_pct (u8 (atoi rest)) (params w))) w) in
  Blackpill.parseCommand ARM_TIMEOUT_MS fuel ("SET_POWER," ++ rest) w = Some w'
  /\ WeldController.handleCmd ARM_TIMEOUT_MS ("SET_POWER," ++ rest) w = w'
  /\ weld_power_pct (params w') = stored.
Proof.
  intros stored w'. split; [|split].
  - unfold Blackpill.parseCommand.
    change (starts_with "ARM," ("SET_POWER," ++ rest)) with false.
    change (starts_with "CMD,SET,PULSE," ("SET_POWER," ++ rest)) with false.
    change (starts_with "SET_PULSE," ("SET_POWER," ++ rest)) with false.
    change (starts_with "CMD,SET,POWER," ("SET_POWER," ++ rest)) with false.
    change (starts_with "SET_POWER," ("SET_POWER," ++ rest)) with true.
    change (drop 10 ("SET_POWER," ++ rest)) with rest.
    cbv iota zeta. unfold Blackpill.uartSend, Blackpill.clampParams.
    cbn [params set_params]. rewrite clamp_params_power. reflexivity.
  - unfold WeldController.handleCmd.
    change (starts_with "ARM," ("SET_POWER," ++ rest)) with false.
    change (starts_with "SET_PULSE," ("SET_POWER," ++ rest)) with false.
    change (starts_with "SET_POWER," ("SET_POWER," ++ rest)) with true.
    change (drop 10 ("SET_POWER," ++ rest)) with rest.
    cbv iota zeta. unfold WeldController.uartSend, WeldController.clampParams.
    cbn [params set_params]. rewrite clamp_params_same, clamp_params_power.
    reflexivity.
  - unfold w'. cbn [params emit set_params]. apply clamp_params_power.
Qed.

(** Where the number read fits a byte, [SET_POWER] does clamp it. *)
Lemma set_power_clamps_a_byte (ARM_TIMEOUT_MS : Z) (fuel : nat) (rest : string)
    (w : World) :
  0 <= atoi rest < 256 ->
  exists w',
    Blackpill.parseCommand ARM_TIMEOUT_MS fuel ("SET_POWER," ++ rest) w = Some w'
    /\ WeldController.handleCmd ARM_TIMEOUT_MS ("SET_POWER," ++ rest) w = w'
    /\ weld_power_pct (params w') = clamp_power (atoi rest)
    /\ new_events w w' = [Tx ("ACK,SET_POWER,pct=" ++ dec (clamp_power (atoi rest)))].
Proof.
  intros Hb.
  destruct (set_power_stored ARM_TIMEOUT_MS fuel rest w) as (Hh & Ha & Hs).
  cbv zeta in Hh, Ha, Hs. rewrite (u8_small _ Hb) in Hh, Ha, Hs.
  eexists. split; [exact Hh|]. split; [exact Ha|]. split; [exact Hs|].
  apply new_events_app. reflexivity.
Qed.

(** C4.  [SET_POWER,320]: the claim has 100 stored, the code stores 64 and
    acknowledges 64, in both variants.  The number is cut to its low byte
    before it is clamped: 320 becomes 64, which the clamp keeps. *)
Theorem set_power_truncates_before_clamping (ARM_TIMEOUT_MS : Z) (fuel : nat)
    (w : World) :
  exists w',
    Blackpill.parseCommand ARM_TIMEOUT_MS fuel "SET_POWER,320" w = Some w'
    /\ WeldController.handleCmd ARM_TIMEOUT_MS "SET_POWER,320" w = w'
    /\ weld_power_pct (params w') = 64
    /\ new_events w w' = [Tx "ACK,SET_POWER,pct=64"].
Proof.
  destruct (set_power_stored ARM_TIMEOUT_MS fuel "320" w) as (Hh & Ha & Hs).
  cbv zeta in Hh, Ha, Hs.
  change (clamp_power (u8 (atoi "320"))) with 64 in Hh, Ha, Hs.
  eexists. split; [exact Hh|]. split; [exact Ha|]. split; [exact Hs|].
  apply new_events_app. reflexivity.
Qed.

Example set_power_negative :
  option_map (fun w => (weld_power_pct (params w), tx_lines (trace w)))
    (Blackpill.parseCommand 0 200 "SET_POWER,-5" idle_armed)
  = Some (100, ["ACK,SET_POWER,pct=100"]).
Proof. reflexivity. Qed.

(** C8, as stated, fails on the code: the Arduino-core variant sends
    nothing in answer to a line it does not recognise. *)
Lemma unknown_line_unanswered :
  hal_recognized "FOO" = false /\
  Blackpill.parseCommand 0 200 "FOO" idle_armed
  = Some (emit (Tx "ERR,UNKNOWN_CMD") idle_armed) /\
  WeldController.handleCmd 0 "FOO" idle_armed = idle_armed /\
  tx_lines (new_events idle_armed (WeldController.handleCmd 0 "FOO" idle_armed)) = [].
Proof. repeat split; reflexivity. Qed.

Section ParserClaims.

Variable ARM_TIMEOUT_MS : Z.
Variable fuel : nat.
Variable w : World.
Hypothesis enough : (200 <= fuel)%nat.
Hypothesis in_range : params_in_range (params w).

Local Ltac answered H :=
  eexists; split; [reflexivity|];
  split; [intros _; eexists; apply new_events_app; reflexivity|];
  split; [intros ->; vm_compute in H; discriminate|];
  let Hrec := fresh in
  intros Hrec; unfold hal_recognized in Hrec; rewrite ?H in Hrec;
  cbn [orb] in Hrec; rewrite ?orb_true_r in Hrec; discriminate.

(** C8, amended.  [parseCommand] of the HAL variant returns for every
    line; for every line but [CMD,FIRE] it sends exactly one line, for
    [CMD,FIRE] it sends the lines of the fire request, and a line it has
    no branch for is answered [ERR,UNKNOWN_CMD] and changes nothing
    else.  [handleCmd] of the Arduino-core variant sends exactly one
    line for a line it has a branch for, and does nothing at all for any
    other line, [CMD,FIRE] included. *)
Theorem every_line_answered (line : string) :
  (exists w',
     Blackpill.parseCommand ARM_TIMEOUT_MS fuel line w = Some w'
     /\ (line <> "CMD,FIRE" -> exists resp, new_events w w' = [Tx resp])
     /\ (line = "CMD,FIRE" -> w' = fire_outcome 3000 hal_done ARM_TIMEOUT_MS w)
     /\ (hal_recognized line = false -> w' = emit (Tx "ERR,UNKNOWN_CMD") w))
  /\ (arduino_recognized line = true ->
      exists resp,
        new_events w (WeldController.handleCmd ARM_TIMEOUT_MS line w) = [Tx resp])
  /\ (arduino_recognized line = false ->
      WeldController.handleCmd ARM_TIMEOUT_MS line w = w).
Proof.
  split; [|split].
  - unfold Blackpill.parseCommand. cbv zeta.
    destruct (starts_with "ARM," line) eqn:H1.
    { destruct (atoi (drop 4 line) =? 1); answered H1. }
    destruct (starts_with "CMD,SET,PULSE," line) eqn:H2.
    { destruct ((0 <? atoi (drop 14 line)) && _); answered H2. }
    destruct (starts_with "SET_PULSE," line) eqn:H3.
    { destruct (2 <=? _); answered H3. }
    destruct (starts_with "CMD,SET,POWER," line) eqn:H4.
    { destruct ((50 <=? atoi (drop 14 line)) && _); answered H4. }
    destruct (starts_with "SET_POWER," line) eqn:H5.
    { answered H5. }
    destruct (starts_with "SET_PREHEAT," line) eqn:H6.
    { destruct (3 <=? _); answered H6. }
    destruct (String.eqb line "CMD,FIRE") eqn:H7.
    { apply String.eqb_eq in H7. subst line.
      eexists. split; [apply hal_fire_outcome; assumption|].
      split; [intros H; now elim H|]. split; [reflexivity|].
      intros H. vm_compute in H. discriminate. }
    apply String.eqb_neq in H7.
    destruct (String.eqb line "CMD,ENABLE") eqn:H8.
    { eexists; split; [reflexivity|].
      split; [intros _; eexists; apply new_events_app; reflexivity|].
      split; [intros E; now elim H7|].
      intros Hrec. unfold hal_recognized in Hrec. rewrite H8 in Hrec.
      rewrite ?orb_true_r in Hrec. discriminate. }
    destruct (String.eqb line "CMD,DISABLE") eqn:H9.
    { eexists; split; [reflexivity|].
      split; [intros _; eexists; apply new_events_app; reflexivity|].
      split; [intros E; now elim H7|].
      intros Hrec. unfold hal_recognized in Hrec. rewrite H9 in Hrec.
      rewrite ?orb_true_r in Hrec. discriminate. }
    destruct (String.eqb line "STATUS" || String.eqb line "CMD,STATUS") eqn:H10.
    { eexists; split; [reflexivity|].
      split; [intros _; eexists; apply new_events_app; reflexivity|].
      split; [intros E; now elim H7|].
      intros Hrec. unfold hal_recognized in Hrec.
      rewrite <- orb_assoc, H10 in Hrec.
      rewrite ?orb_true_r in Hrec. discriminate. }
    eexists; split; [reflexivity|].
    split; [intros _; eexists; apply new_events_app; reflexivity|].
    split; [intros E; now elim H7|]. reflexivity.
  - unfold arduino_recognized, WeldController.handleCmd. cbv zeta.
    destruct (starts_with "ARM," line).
    { intros _. destruct (atoi (drop 4 line) =? 1);
        eexists; apply new_events_app; reflexivity. }
    destruct (starts_with "SET_PULSE," line).
    { intros _. destruct (_ <? 2); eexists; apply new_events_app; reflexivity. }
    destruct (starts_with "SET_POWER," line).
    { intros _. eexists; apply new_events_app; reflexivity. }
    destruct (starts_with "SET_PREHEAT," line).
    { intros _. destruct ((_ <? 0) || _ || _);
        eexists; apply new_events_app; reflexivity. }
    destruct (String.eqb line "STATUS"); [|discriminate].
    intros _. eexists; apply new_events_app; reflexivity.
  - unfold arduino_recognized, WeldController.handleCmd. cbv zeta.
    destruct (starts_with "ARM," line); [discriminate|].
    destruct (starts_with "SET_PULSE," line); [discriminate|].
    destruct (starts_with "SET_POWER," line); [discriminate|].
    destruct (starts_with "SET_PREHEAT," line); [discriminate|].
    destruct (String.eqb line "STATUS"); [discriminate|]. reflexivity.
Qed.

End ParserClaims.

Lemma every_line_answered_witness :
  exists w',
    Blackpill.parseCommand 0 200 "STATUS" idle_armed = Some w'
    /\ exists resp, new_events idle_armed w' = [Tx resp].
Proof.
  destruct (every_line_answered 0 200 idle_armed) with (line := "STATUS")
    as [(w' & Hp & Hone & _) _].
  - apply Nat.le_refl.
  - unfold params_in_range. cbn. lia.
  - exists w'. split; [exact Hp|]. apply Hone. discriminate.
Defined.

(** *** [indexOf] and the count of commas *)

Lemma drop_drop (a b : nat) (s : string) : drop a (drop b s) = drop (b + a) s.
Proof.
  revert s. induction b as [|b IH]; intros s; [reflexivity|].
  destruct s as [|c s]; cbn [drop Nat.add].
  - destruct a; reflexivity.
  - apply IH.
Qed.

Lemma drop_length (n : nat) (s : string) :
  String.length (drop n s) = (String.length s - n)%nat.
Proof.
  revert s. induction n as [|n IH]; intros s; cbn [drop].
  - now rewrite Nat.sub_0_r.
  - destruct s as [|c s]; [reflexivity|]. cbn [String.length Nat.sub]. apply IH.
Qed.

Lemma drop_all (n : nat) (s : string) :
  (String.length s <= n)%nat -> drop n s = EmptyString.
Proof.
  intros H. pose proof (drop_length n s) as Hl.
  destruct (drop n s); [reflexivity|]. cbn [String.length] in Hl. lia.
Qed.

Lemma find_char_commas (s : string) : forall i : Z,
  match commas s with
  | O => find_char "," i s = -1
  | S n => exists k : nat,
      (k < String.length s)%nat /\ find_char "," i s = i + Z.of_nat k /\
      commas (drop (S k) s) = n
  end.
Proof.
  induction s as [|c s IH]; intros i; [reflexivity|].
  cbn [commas find_char]. destruct (Ascii.eqb c ",").
  - exists O. cbn [String.length drop]. repeat split; lia.
  - specialize (IH (i + 1)). destruct (commas s) as [|n]; [exact IH|].
    destruct IH as (k & Hk & Hf & Hc). exists (S k).
    cbn [String.length]. repeat split; [lia|lia|exact Hc].
Qed.

Lemma indexOf_commas (s : string) (n : nat) :
  (n <= 1000)%nat ->
  match commas (drop n s) with
  | O => indexOf "," (Z.of_nat n) s = -1
  | S m => exists j : nat,
      indexOf "," (Z.of_nat n) s = Z.of_nat j /\
      (n <= j < String.length s)%nat /\ commas (drop (S j) s) = m
  end.
Proof.
  intros Hn. unfold indexOf. rewrite u32_small by lia.
  destruct (Z.leb_spec (Z.of_nat (String.length s)) (Z.of_nat n)) as [Hle|Hgt].
  - rewrite drop_all by lia. reflexivity.
  - rewrite Nat2Z.id.
    pose proof (find_char_commas (drop n s) (Z.of_nat n)) as H.
    destruct (commas (drop n s)) as [|m]; [exact H|].
    destruct H as (k & Hk & Hf & Hc). rewrite drop_length in Hk.
    exists (n + k)%nat. rewrite Hf, drop_drop in *.
    repeat split; try lia.
    replace (S (n + k)) with (n + S k)%nat by lia. exact Hc.
Qed.

(** C9, as stated, fails on the code: the Arduino-core variant denies a
    [SET_PREHEAT] line with three fields, which the claim has accepted. *)
Lemma set_preheat_three_fields_denied :
  WeldController.handleCmd 0 "SET_PREHEAT,1,20,50" idle_armed
  = emit (Tx "DENY,BAD_SET_PREHEAT") idle_armed
  /\ option_map (fun w => (tx_lines (new_events idle_armed w),
                           preheat_enabled (params w), preheat_ms (params w),
                           preheat_pct (params w), preheat_gap_ms (params w)))
       (Blackpill.parseCommand 0 200 "SET_PREHEAT,1,20,50" idle_armed)
     = Some (["ACK,SET_PREHEAT,en=1"], true, 20, 50, 3).
Proof. split; reflexivity. Qed.

Section PreheatClaims.

Variable ARM_TIMEOUT_MS : Z.
Variable fuel : nat.
Variable rest : string.
Variable w : World.

Lemma hal_set_preheat :
  Blackpill.parseCommand ARM_TIMEOUT_MS fuel (preheat_line rest) w
  = Some (if 3 <=? Z.of_nat (List.length (preheat_fields rest)) then
            let gap := if 4 <=? Z.of_nat (List.length (preheat_fields rest))
                       then u16 (nth 3 (preheat_fields rest) 0)
                       else preheat_gap_ms (params w) in
            let p' := Blackpill.clamp_params
                        (set_preheat (nth 0 (preheat_fields rest) 0 =? 1)
                           (u16 (nth 1 (preheat_fields rest) 0))
                           (u8 (nth 2 (preheat_fields rest) 0)) gap (params w)) in
            emit (Tx ("ACK,SET_PREHEAT,en=" ++ bool_digit (preheat_enabled p')))
              (set_params p' w)
          else emit (Tx "DENY,BAD_SET_PREHEAT") w).
Proof.
  unfold Blackpill.parseCommand, preheat_line.
  change (starts_with "ARM," ("SET_PREHEAT," ++ rest)) with false.
  change (starts_with "CMD,SET,PULSE," ("SET_PREHEAT," ++ rest)) with false.
  change (starts_with "SET_PULSE," ("SET_PREHEAT," ++ rest)) with false.
  change (starts_with "CMD,SET,POWER," ("SET_PREHEAT," ++ rest)) with false.
  change (starts_with "SET_POWER," ("SET_PREHEAT," ++ rest)) with false.
  change (starts_with "SET_PREHEAT," ("SET_PREHEAT," ++ rest)) with true.
  change (drop 12 ("SET_PREHEAT," ++ rest)) with rest.
  cbv iota zeta. fold (preheat_fields rest).
  destruct (3 <=? Z.of_nat (List.length (preheat_fields rest))); reflexivity.
Qed.

End PreheatClaims.

Section PreheatFieldCount.

Variable ARM_TIMEOUT_MS : Z.
Variable fuel : nat.
Variable rest : string.
Variable w : World.

(** C9, amended.  In the HAL variant a [SET_PREHEAT] line of which fewer
    than three fields convert is answered [DENY,BAD_SET_PREHEAT] and
    changes nothing else.  One of which exactly three convert, with a
    duration that fits 16 bits and a percentage that fits 8 bits, is
    acknowledged with the flag, stores the flag (whether the first field
    is 1), the duration or 200 if it is more, and the percentage or 100
    if it is more, and keeps [preheat_gap_ms].  In the Arduino-core
    variant a [SET_PREHEAT] line (of at most 220 characters, as [pollUart]
    delivers them) needs three commas after the prefix: with fewer, so
    with three fields, it is answered [DENY,BAD_SET_PREHEAT] and changes
    nothing else; with three or more it is acknowledged. *)
Theorem set_preheat_field_count :
  ((List.length (preheat_fields rest) < 3)%nat ->
   Blackpill.parseCommand ARM_TIMEOUT_MS fuel (preheat_line rest) w
   = Some (emit (Tx "DENY,BAD_SET_PREHEAT") w))
  /\ (forall en ms pct : Z,
        preheat_fields rest = [en; ms; pct] ->
        0 <= ms < 65536 -> 0 <= pct < 256 ->
        exists w',
          Blackpill.parseCommand ARM_TIMEOUT_MS fuel (preheat_line rest) w = Some w'
          /\ new_events w w' = [Tx ("ACK,SET_PREHEAT,en=" ++ bool_digit (en =? 1))]
          /\ preheat_enabled (params w') = (en =? 1)
          /\ preheat_ms (params w') = Z.min ms 200
          /\ preheat_pct (params w') = Z.min pct 100
          /\ preheat_gap_ms (params w') = preheat_gap_ms (params w))
  /\ ((String.length (preheat_line rest) <= 220)%nat -> (commas rest < 3)%nat ->
      WeldController.handleCmd ARM_TIMEOUT_MS (preheat_line rest) w
      = emit (Tx "DENY,BAD_SET_PREHEAT") w)
  /\ ((String.length (preheat_line rest) <= 220)%nat -> (3 <= commas rest)%nat ->
      exists en : bool,
        new_events w (WeldController.handleCmd ARM_TIMEOUT_MS (preheat_line rest) w)
        = [Tx ("ACK,SET_PREHEAT,en=" ++ bool_digit en)]).
Proof.
  split; [|split; [|split]].
  - intros Hn. rewrite hal_set_preheat.
    destruct (Z.leb_spec 3 (Z.of_nat (List.length (preheat_fields rest))));
      [lia|reflexivity].
  - intros en ms pct Hf Hms Hpct. rewrite hal_set_preheat, Hf. cbv iota zeta.
    cbn [List.length nth].
    change (3 <=? Z.of_nat 3) with true. change (4 <=? Z.of_nat 3) with false.
    cbv iota. rewrite (u16_small ms Hms), (u8_small pct Hpct).
    eexists. split; [reflexivity|].
    split; [apply new_events_app; reflexivity|].
    cbn [params emit set_params Blackpill.clamp_params set_preheat
         preheat_enabled preheat_ms preheat_pct preheat_gap_ms].
    split; [reflexivity|]. split; [apply clamp_min|]. split; [apply clamp_min|].
    reflexivity.
  - intros Hlen Hc. unfold WeldController.handleCmd, preheat_line in *.
    change (starts_with "ARM," ("SET_PREHEAT," ++ rest)) with false.
    change (starts_with "SET_PULSE," ("SET_PREHEAT," ++ rest)) with false.
    change (starts_with "SET_POWER," ("SET_PREHEAT," ++ rest)) with false.
    change (starts_with "SET_PREHEAT," ("SET_PREHEAT," ++ rest)) with true.
    cbv iota zeta.
    pose proof (indexOf_commas ("SET_PREHEAT," ++ rest) 12 ltac:(lia)) as H1.
    change (drop 12 ("SET_PREHEAT," ++ rest)) with rest in H1.
    change (Z.of_nat 12) with 12 in H1.
    destruct (commas rest) as [|m1]; [rewrite H1; reflexivity|].
    destruct H1 as (j1 & -> & Hj1 & Hc1).
    pose proof (indexOf_commas ("SET_PREHEAT," ++ rest) (S j1) ltac:(lia)) as H2.
    rewrite Hc1 in H2.
    replace (Z.of_nat j1 + 1) with (Z.of_nat (S j1)) by lia.
    destruct m1 as [|m2].
    { rewrite H2. rewrite orb_true_r. reflexivity. }
    destruct H2 as (j2 & -> & Hj2 & Hc2).
    pose proof (indexOf_commas ("SET_PREHEAT," ++ rest) (S j2) ltac:(lia)) as H3.
    rewrite Hc2 in H3.
    replace (Z.of_nat j2 + 1) with (Z.of_nat (S j2)) by lia.
    destruct m2 as [|m3]; [|lia].
    rewrite H3. rewrite orb_true_r. reflexivity.
  - intros Hlen Hc. unfold WeldController.handleCmd, preheat_line in *.
    change (starts_with "ARM," ("SET_PREHEAT," ++ rest)) with false.
    change (starts_with "SET_PULSE," ("SET_PREHEAT," ++ rest)) with false.
    change (starts_with "SET_POWER," ("SET_PREHEAT," ++ rest)) with false.
    change (starts_with "SET_PREHEAT," ("SET_PREHEAT," ++ rest)) with true.
    cbv iota zeta.
    pose proof (indexOf_commas ("SET_PREHEAT," ++ rest) 12 ltac:(lia)) as H1.
    change (drop 12 ("SET_PREHEAT," ++ rest)) with rest in H1.
    change (Z.of_nat 12) with 12 in H1.
    destruct (commas rest) as [|[|[|m]]]; try lia.
    destruct H1 as (j1 & -> & Hj1 & Hc1).
    pose proof (indexOf_commas ("SET_PREHEAT," ++ rest) (S j1) ltac:(lia)) as H2.
    rewrite Hc1 in H2.
    replace (Z.of_nat j1 + 1) with (Z.of_nat (S j1)) by lia.
    destruct H2 as (j2 & -> & Hj2 & Hc2).
    pose proof (indexOf_commas ("SET_PREHEAT," ++ rest) (S j2) ltac:(lia)) as H3.
    rewrite Hc2 in H3.
    replace (Z.of_nat j2 + 1) with (Z.of_nat (S j2)) by lia.
    destruct H3 as (j3 & -> & Hj3 & Hc3).
    rewrite !(proj2 (Z.ltb_ge _ _)) by lia. cbn [orb].
    eexists. rewrite bool_digit_dec.
    apply new_events_app. reflexivity.
Qed.

End PreheatFieldCount.

Lemma set_preheat_field_count_witness :
  (Blackpill.parseCommand 0 200 "SET_PREHEAT,1,2" idle_armed
   = Some (emit (Tx "DENY,BAD_SET_PREHEAT") idle_armed)
   /\ WeldController.handleCmd 0 "SET_PREHEAT,1,2" idle_armed
      = emit (Tx "DENY,BAD_SET_PREHEAT") idle_armed)
  /\ (exists w',
        Blackpill.parseCommand 0 200 "SET_PREHEAT,1,250,40" idle_armed = Some w'
        /\ preheat_ms (params w') = 200 /\ preheat_pct (params w') = 40
        /\ preheat_gap_ms (params w') = 3)
  /\ WeldController.handleCmd 0 "SET_PREHEAT,1,250,40" idle_armed
     = emit (Tx "DENY,BAD_SET_PREHEAT") idle_armed.
Proof.
  split; [|split].
  - destruct (set_preheat_field_count 0 200 "1,2" idle_armed) as (H1 & _ & H3 & _).
    split.
    + apply H1. cbn. lia.
    + apply H3; cbn; lia.
  - destruct (set_preheat_field_count 0 200 "1,250,40" idle_armed) as (_ & H2 & _).
    destruct (H2 1 250 40 eq_refl ltac:(lia) ltac:(lia))
      as (w' & Hp & _ & _ & Hms & Hpct & Hgap).
    exists w'. split; [exact Hp|]. split; [exact Hms|]. split; [exact Hpct|exact Hgap].
  - destruct (set_preheat_field_count 0 200 "1,250,40" idle_armed) as (_ & _ & H3 & _).
    apply H3; cbn; lia.
Defined.

(** ** The debounce *)

Lemma u32_sub_r (a b : Z) : u32 (a - u32 b) = u32 (a - b).
Proof. unfold u32. apply Zminus_mod_idemp_r. Qed.

Lemma u32_add_r (a b : Z) : u32 (a + u32 b) = u32 (a + b).
Proof. unfold u32. apply Zplus_mod_idemp_r. Qed.

Lemma level_eqb_refl (l : Level) : level_eqb l l = true.
Proof. destruct l; reflexivity. Qed.

Lemma level_eqb_eq (a b : Level) : level_eqb a b = true <-> a = b.
Proof. destruct a, b; cbn; split; congruence. Qed.

(** A release never gives an edge. *)
Lemma sample_release (now : Z) (p : Pedal) : snd (sample HIGH now p) = false.
Proof.
  unfold sample. cbv zeta.
  destruct (_ && _); cbn [snd]; [|reflexivity].
  now rewrite andb_false_r.
Qed.

Lemma debounce_run_app (a b : list (Level * Z)) : forall p : Pedal,
  debounce_run (a ++ b) p
  = let '(p1, n1) := debounce_run a p in
    let '(p2, n2) := debounce_run b p1 in
    (p2, (n1 + n2)%nat).
Proof.
  induction a as [|[raw t] a IH]; intros p; cbn [app debounce_run].
  - destruct (debounce_run b p). reflexivity.
  - destruct (sample raw (u32 t) p) as [p1 edge]. rewrite IH.
    destruct (debounce_run a p1) as [p2 n]. destruct (debounce_run b p2).
    f_equal. lia.
Qed.

(** Samples at the stable level commit nothing. *)
Lemma stable_level_quiet (tail : list (Level * Z)) : forall p : Pedal,
  Forall (fun s => fst s = pedal_stable p) tail ->
  snd (debounce_run tail p) = O /\
  pedal_stable (fst (debounce_run tail p)) = pedal_stable p.
Proof.
  induction tail as [|[raw t] tail IH]; intros p Hall; [split; reflexivity|].
  inversion Hall as [|? ? Hraw Hrest]; subst. cbn [fst] in Hraw. subst raw.
  cbn [debounce_run]. unfold sample. cbv zeta.
  destruct (level_eqb (pedal_stable p) (pedal_last_raw p));
    cbn [pedal_stable pedal_last_change_ms pedal_last_raw];
    rewrite level_eqb_refl, andb_false_r.
  - destruct (IH p Hrest) as [H1 H2].
    destruct (debounce_run tail p) as [p2 n]. cbn [fst snd] in *.
    subst n. split; [reflexivity|exact H2].
  - set (p1 := mkPedal _ _ _). destruct (IH p1 Hrest) as [H1 H2].
    destruct (debounce_run tail p1) as [p2 n]. cbn [fst snd] in *.
    subst n. split; [reflexivity|exact H2].
Qed.

Section Window.

Variable t0 : Z.

(** Inside the window nothing is committed: the last raw change lies
    [k] counts after [t0], no later than the samples to come. *)
Lemma window_quiet (rest : list (Level * Z)) : forall (p : Pedal) (lo k : Z),
  0 <= k <= lo ->
  pedal_last_change_ms p = u32 (t0 + k) ->
  within_window t0 lo rest ->
  snd (debounce_run rest p) = O /\
  pedal_stable (fst (debounce_run rest p)) = pedal_stable p.
Proof.
  induction rest as [|[raw t] rest IH]; intros p lo k Hk Hlc Hw; [split; reflexivity|].
  cbn [within_window] in Hw. destruct Hw as [Ho Hw].
  cbn [debounce_run]. unfold sample. cbv zeta.
  unfold PEDAL_DEBOUNCE_MS in *.
  destruct (level_eqb raw (pedal_last_raw p)) eqn:Hraw.
  - assert (Hd : u32 (u32 t - pedal_last_change_ms p) = u32 (t - t0) - k).
    { rewrite Hlc, u32_sub_r, u32_sub_l.
      replace (t - (t0 + k)) with (t - t0 - k) by lia.
      rewrite <- u32_sub_l. apply u32_small.
      pose proof (u32_range (t - t0)). lia. }
    rewrite Hd. destruct (Z.leb_spec 40 (u32 (t - t0) - k)); [lia|].
    cbn [andb].
    specialize (IH p (u32 (t - t0)) k ltac:(lia) Hlc Hw).
    destruct (debounce_run rest p) as [p2 n]. cbn [fst snd] in *.
    destruct IH as [-> ->]. split; reflexivity.
  - cbn [pedal_last_change_ms pedal_stable pedal_last_raw].
    rewrite Z.sub_diag. change (40 <=? u32 0) with false. cbn [andb].
    set (p1 := mkPedal raw (pedal_stable p) (u32 t)).
    specialize (IH p1 (u32 (t - t0)) (u32 (t - t0))).
    destruct IH as [IH1 IH2]; [lia| |exact Hw|].
    + cbn [p1 pedal_last_change_ms]. rewrite u32_add_r. f_equal. lia.
    + destruct (debounce_run rest p1) as [p2 n]. cbn [fst snd] in *.
      subst n. split; [reflexivity|exact IH2].
Qed.

(** A raw change at [t0] followed by samples inside the window, whatever
    their levels: no edge, the stable level as before. *)
Lemma bounce_is_quiet (raw : Level) (rest : list (Level * Z)) (p : Pedal) :
  level_eqb raw (pedal_last_raw p) = false ->
  within_window t0 0 rest ->
  snd (debounce_run ((raw, t0) :: rest) p) = O /\
  pedal_stable (fst (debounce_run ((raw, t0) :: rest) p)) = pedal_stable p.
Proof.
  intros Hraw Hw. cbn [debounce_run]. unfold sample. cbv zeta.
  rewrite Hraw. cbn [pedal_last_change_ms pedal_stable pedal_last_raw].
  rewrite Z.sub_diag. change (PEDAL_DEBOUNCE_MS <=? u32 0) with false. cbn [andb].
  set (p1 := mkPedal raw (pedal_stable p) (u32 t0)).
  destruct (window_quiet rest p1 0 0) as [H1 H2]; [lia| |exact Hw|].
  - cbn [p1 pedal_last_change_ms]. now rewrite Z.add_0_r.
  - destruct (debounce_run rest p1) as [p2 n]. cbn [fst snd] in *.
    subst n. split; [reflexivity|exact H2].
Qed.

(** The same, with the raw level back at the stable level afterwards. *)
Lemma glitch_is_filtered (raw : Level) (rest tail : list (Level * Z)) (p : Pedal) :
  level_eqb raw (pedal_last_raw p) = false ->
  within_window t0 0 rest ->
  Forall (fun s => fst s = pedal_stable p) tail ->
  snd (debounce_run ((raw, t0) :: rest ++ tail) p) = O /\
  pedal_stable (fst (debounce_run ((raw, t0) :: rest ++ tail) p)) = pedal_stable p.
Proof.
  intros Hraw Hw Htail.
  change ((raw, t0) :: rest ++ tail) with (((raw, t0) :: rest) ++ tail).
  rewrite debounce_run_app.
  destruct (bounce_is_quiet raw rest p Hraw Hw) as [H1 H2].
  destruct (debounce_run ((raw, t0) :: rest) p) as [p1 n1]. cbn [fst snd] in *.
  subst n1. rewrite <- H2 in Htail |- *.
  destruct (stable_level_quiet tail p1 Htail) as [H3 H4].
  destruct (debounce_run tail p1) as [p2 n2]. cbn [fst snd] in *.
  subst n2. split; [reflexivity|exact H4].
Qed.

(** Once the press is committed, further active samples change nothing. *)
Lemma held_is_quiet (rest : list (Level * Z)) (lc : Z) :
  Forall (fun s => fst s = LOW) rest ->
  debounce_run rest (mkPedal LOW LOW lc) = (mkPedal LOW LOW lc, O).
Proof.
  induction rest as [|[raw t] rest IH]; intros Hall; [reflexivity|].
  inversion Hall as [|? ? Hraw Hrest]; subst. cbn [fst] in Hraw. subst raw.
  cbn [debounce_run]. unfold sample. cbv zeta.
  cbn [pedal_last_raw pedal_stable level_eqb negb].
  rewrite andb_false_r. rewrite (IH Hrest). reflexivity.
Qed.

(** While the press is pending, active samples commit it at the first
    one that comes 40 counts or more after [t0], once. *)
Lemma pending_commits_once (rest : list (Level * Z)) :
  Forall (fun s => fst s = LOW) rest ->
  Exists (fun s => PEDAL_DEBOUNCE_MS <= u32 (snd s - t0)) rest ->
  debounce_run rest (mkPedal LOW HIGH (u32 t0)) = (mkPedal LOW LOW (u32 t0), 1%nat).
Proof.
  induction rest as [|[raw t] rest IH]; intros Hall Hex; [inversion Hex|].
  inversion Hall as [|? ? Hraw Hrest]; subst. cbn [fst] in Hraw. subst raw.
  cbn [debounce_run]. unfold sample. cbv zeta.
  cbn [pedal_last_raw pedal_stable pedal_last_change_ms level_eqb negb].
  rewrite u32_sub_r, u32_sub_l, andb_true_r.
  destruct (Z.leb_spec PEDAL_DEBOUNCE_MS (u32 (t - t0))) as [Hge|Hlt].
  - rewrite (held_is_quiet rest _ Hrest). reflexivity.
  - inversion Hex as [? ? Hhere|? ? Hlater]; subst.
    + cbn [snd] in Hhere. lia.
    + rewrite (IH Hrest Hlater). reflexivity.
Qed.

(** A press from rest: the raw level goes active at [t0] and stays
    active, with a sample 40 counts or more after [t0]: one edge. *)
Lemma press_gives_one_edge (rest : list (Level * Z)) (lc : Z) :
  Forall (fun s => fst s = LOW) rest ->
  Exists (fun s => PEDAL_DEBOUNCE_MS <= u32 (snd s - t0)) rest ->
  debounce_run ((LOW, t0) :: rest) (mkPedal HIGH HIGH lc)
  = (mkPedal LOW LOW (u32 t0), 1%nat).
Proof.
  intros Hall Hex. cbn [debounce_run]. unfold sample. cbv zeta.
  cbn [pedal_last_raw pedal_stable pedal_last_change_ms level_eqb negb].
  rewrite Z.sub_diag. change (PEDAL_DEBOUNCE_MS <=? u32 0) with false. cbn [andb].
  rewrite (pending_commits_once rest Hall Hex). reflexivity.
Qed.

End Window.

Lemma set_pedal_same (w : World) : set_pedal (pedal w) w = w.
Proof. destruct w; reflexivity. Qed.

Lemma fire_answers_app (a b : list Event) :
  fire_answers (a ++ b) = (fire_answers a + fire_answers b)%nat.
Proof.
  unfold fire_answers.
  assert (H : tx_lines (a ++ b) = tx_lines a ++ tx_lines b).
  { induction a as [|e a IH]; [reflexivity|].
    destruct e; cbn [app tx_lines]; rewrite IH; reflexivity. }
  rewrite H, filter_app. apply length_app.
Qed.

Lemma pedal_presses_app (a b : list Event) :
  pedal_presses (a ++ b) = (pedal_presses a + pedal_presses b)%nat.
Proof.
  unfold pedal_presses.
  assert (H : tx_lines (a ++ b) = tx_lines a ++ tx_lines b).
  { induction a as [|e a IH]; [reflexivity|].
    destruct e; cbn [app tx_lines]; rewrite IH; reflexivity. }
  rewrite H, filter_app. apply length_app.
Qed.

Section FireCounts.

Variable ARM_TIMEOUT_MS : Z.
Variable dead : Z.
Variable done : Z -> Z -> Params -> string.
Hypothesis done_is_no_answer :
  forall t0 t1 p, is_fire_answer (done t0 t1 p) = false.
Hypothesis done_is_no_press :
  forall t0 t1 p, String.eqb "EVENT,PEDAL_PRESS" (done t0 t1 p) = false.

(** A fire request leaves the pedal alone and the parameters in range,
    and sends exactly one answer: a denial or the start event. *)
Lemma fire_outcome_counts (w : World) :
  params_in_range (params w) ->
  let w' := fire_outcome dead done ARM_TIMEOUT_MS w in
  params_in_range (params w') /\ pedal w' = pedal w /\
  exists evs, trace w' = trace w ++ evs /\
              fire_answers evs = 1%nat /\ pedal_presses evs = O.
Proof.
  intros Hr w'. unfold w', fire_outcome.
  destruct (authorize_fire ARM_TIMEOUT_MS w) as [w1 [d|]] eqn:E.
  - assert (Hw1 : w1 = w \/ w1 = emit (Tx "EVENT,ARM_TIMEOUT") (set_armed false 0 w)).
    { revert E. unfold authorize_fire, after_arm_check.
      destruct (boot_elapsed w <? BOOT_INHIBIT_MS); [intros E; inversion E; auto|].
      destruct (arm_expired ARM_TIMEOUT_MS w); cbv zeta;
        repeat match goal with
               | |- context [if ?c then _ else _] => destruct c
               end; intros E; inversion E; auto. }
    assert (Hd : is_fire_answer (denial_line d) = true
                 /\ String.eqb "EVENT,PEDAL_PRESS" (denial_line d) = false).
    { destruct d; split; reflexivity. }
    destruct Hd as [Hd1 Hd2].
    destruct Hw1 as [->| ->]; (split; [exact Hr|split; [reflexivity|]]).
    + exists [Tx (denial_line d)]. split; [reflexivity|].
      unfold fire_answers, pedal_presses. cbn [tx_lines filter].
      rewrite Hd1, Hd2. split; reflexivity.
    + exists [Tx "EVENT,ARM_TIMEOUT"; Tx (denial_line d)].
      split; [cbn; now rewrite <- app_assoc|].
      unfold fire_answers, pedal_presses. cbn [tx_lines filter].
      change (is_fire_answer "EVENT,ARM_TIMEOUT") with false.
      change (String.eqb "EVENT,PEDAL_PRESS" "EVENT,ARM_TIMEOUT") with false.
      cbv iota. rewrite Hd1, Hd2. split; reflexivity.
  - apply authorize_fire_granted in E as (-> & _).
    split; [apply clamp_params_range; exact Hr|]. split; [reflexivity|].
    exists (cycle_events dead done w). split; [reflexivity|].
    pose proof (cycle_tx_lines dead done w) as Ht.
    rewrite (new_events_app w (cycle dead done w) (cycle_events dead done w) eq_refl) in Ht.
    unfold fire_answers, pedal_presses. rewrite Ht. cbn [filter].
    rewrite done_is_no_answer, done_is_no_press. split; reflexivity.
Qed.

End FireCounts.

Lemma hal_done_is_no_answer (t0 t1 : Z) (p : Params) :
  is_fire_answer (hal_done t0 t1 p) = false.
Proof. reflexivity. Qed.

Lemma hal_done_is_no_press (t0 t1 : Z) (p : Params) :
  String.eqb "EVENT,PEDAL_PRESS" (hal_done t0 t1 p) = false.
Proof. reflexivity. Qed.

Lemma arduino_done_is_no_answer (t0 t1 : Z) (p : Params) :
  is_fire_answer (arduino_done t0 t1 p) = false.
Proof. reflexivity. Qed.

Lemma arduino_done_is_no_press (t0 t1 : Z) (p : Params) :
  String.eqb "EVENT,PEDAL_PRESS" (arduino_done t0 t1 p) = false.
Proof. reflexivity. Qed.

(** [pollPedal] is [sample] on the pedal state, with the fire entry
    point called on an edge. *)
Lemma hal_pollPedal_sample (ARM_TIMEOUT_MS : Z) (fuel : nat) (raw : Level) (w : World) :
  Blackpill.pollPedal ARM_TIMEOUT_MS fuel raw w
  = let ps := sample raw (u32 (clock w / 1000)) (pedal w) in
    if snd ps then
      Blackpill.fireRecipe ARM_TIMEOUT_MS fuel
        (emit (Tx "EVENT,PEDAL_PRESS") (set_pedal (fst ps) w))
    else Some (set_pedal (fst ps) w).
Proof.
  unfold Blackpill.pollPedal, sample, Blackpill.HAL_GetTick, Blackpill.uartSend.
  cbv zeta.
  destruct (level_eqb raw (pedal_last_raw (pedal w)));
    cbn [negb pedal set_pedal pedal_last_change_ms pedal_stable pedal_last_raw];
    destruct (PEDAL_DEBOUNCE_MS <=? _); cbn [andb];
    try (destruct (level_eqb raw (pedal_stable (pedal w))); cbn [negb]);
    cbn [fst snd]; rewrite ?set_pedal_same; try reflexivity;
    destruct (level_eqb (pedal_stable (pedal w)) HIGH && level_eqb raw LOW);
    reflexivity.
Qed.

Lemma arduino_pollPedal_sample (ARM_TIMEOUT_MS : Z) (raw : Level) (w : World) :
  WeldController.pollPedal ARM_TIMEOUT_MS raw w
  = let ps := sample raw (u32 (clock w / 1000)) (pedal w) in
    if snd ps then
      WeldController.fireRecipe ARM_TIMEOUT_MS (set_pedal (fst ps) w)
    else set_pedal (fst ps) w.
Proof.
  unfold WeldController.pollPedal, sample, WeldController.millis.
  cbv zeta.
  destruct (level_eqb raw (pedal_last_raw (pedal w)));
    cbn [negb pedal set_pedal pedal_last_change_ms pedal_stable pedal_last_raw];
    destruct (PEDAL_DEBOUNCE_MS <=? _); cbn [andb];
    try (destruct (level_eqb raw (pedal_stable (pedal w))); cbn [negb]);
    cbn [fst snd]; rewrite ?set_pedal_same; try reflexivity;
    destruct (level_eqb (pedal_stable (pedal w)) HIGH && level_eqb raw LOW);
    reflexivity.
Qed.

Section Runs.

Variable poll : Level -> World -> option World.
Variable edges : list Event -> nat.
Hypothesis edges_app :
  forall a b, edges (a ++ b) = (edges a + edges b)%nat.
Hypothesis edges_nil : edges [] = O.

Hypothesis poll_ok : poll_follows_sample poll edges.

Lemma run_follows_debounce (samples : list (Level * Z)) : forall w : World,
  params_in_range (params w) ->
  exists (w' : World) (evs : list Event),
    pedal_run poll samples w = Some w' /\ params_in_range (params w') /\
    pedal w' = fst (debounce_run samples (pedal w)) /\
    trace w' = trace w ++ evs /\
    edges evs = snd (debounce_run samples (pedal w)) /\
    (snd (debounce_run samples (pedal w)) = O -> evs = []).
Proof.
  induction samples as [|[raw t] rest IH]; intros w Hr.
  - exists w, []. cbn. rewrite app_nil_r. auto 10.
  - cbn [pedal_run debounce_run].
    destruct (poll_ok raw (at_tick t w) Hr) as (w1 & e1 & Hp & Hr1 & Hped & Htr & He & Hq).
    cbv zeta in Hped, He, Hq.
    assert (Htick : u32 (clock (at_tick t w) / 1000) = u32 t).
    { unfold at_tick, set_clock. cbn [clock].
      rewrite Z.mul_comm, Z.div_mul by lia. reflexivity. }
    rewrite Htick in Hped, He, Hq.
    change (pedal (at_tick t w)) with (pedal w) in Hped, He, Hq.
    change (trace (at_tick t w)) with (trace w) in Htr.
    rewrite Hp. cbn [bind].
    destruct (sample raw (u32 t) (pedal w)) as [p1 edge]. cbn [fst snd] in *.
    destruct (IH w1 Hr1) as (w2 & e2 & Hrun & Hr2 & Hped2 & Htr2 & He2 & Hq2).
    rewrite Hped in Hped2, He2, Hq2.
    destruct (debounce_run rest p1) as [p2 n]. cbn [fst snd] in *.
    exists w2, (e1 ++ e2).
    split; [exact Hrun|]. split; [exact Hr2|]. split; [exact Hped2|].
    split; [rewrite Htr2, Htr; now rewrite app_assoc|].
    split; [rewrite edges_app, He, He2; reflexivity|].
    intros Hz. destruct edge; [discriminate|]. cbn in Hz.
    rewrite (Hq eq_refl), (Hq2 Hz). reflexivity.
Qed.

Lemma run_meets_contract : debounce_contract poll edges.
Proof.
  intros w Hr. split; [|split].
  - intros raw t0 rest tail Hraw Hwin Htail.
    destruct (run_follows_debounce ((raw, t0) :: rest ++ tail) w Hr)
      as (w' & evs & Hrun & _ & Hped & Htr & _ & Hq).
    destruct (glitch_is_filtered t0 raw rest tail (pedal w) Hraw Hwin Htail)
      as [Hn Hst].
    exists w'. split; [exact Hrun|]. split.
    + rewrite Hped. exact Hst.
    + rewrite Htr, (Hq Hn). apply app_nil_r.
  - intros t0 rest Hlast Hstable Hall Hex.
    destruct (run_follows_debounce ((LOW, t0) :: rest) w Hr)
      as (w' & evs & Hrun & _ & Hped & Htr & He & _).
    assert (Hp : pedal w = mkPedal HIGH HIGH (pedal_last_change_ms (pedal w))).
    { destruct (pedal w); cbn in *; subst; reflexivity. }
    rewrite Hp, (press_gives_one_edge t0 rest _ Hall Hex) in Hped, He.
    exists w'. split; [exact Hrun|]. split.
    + rewrite (new_events_app w w' evs Htr). exact He.
    + rewrite Hped. reflexivity.
  - destruct (poll_ok HIGH w Hr) as (w' & evs & Hp & _ & _ & Htr & _ & Hq).
    cbv zeta in Hq. exists w'. split; [exact Hp|].
    rewrite Htr, (Hq (sample_release _ _)). apply app_nil_r.
Qed.

End Runs.

Section PollSpecs.

Variable ARM_TIMEOUT_MS : Z.
Variable fuel : nat.
Hypothesis enough : (200 <= fuel)%nat.

Lemma hal_poll_ok :
  poll_follows_sample (hal_poll ARM_TIMEOUT_MS fuel) pedal_presses
  /\ poll_follows_sample (hal_poll ARM_TIMEOUT_MS fuel) fire_answers.
Proof.
  assert (H : forall raw w,
             params_in_range (params w) ->
             let ps := sample raw (u32 (clock w / 1000)) (pedal w) in
             exists w' evs,
               hal_poll ARM_TIMEOUT_MS fuel raw w = Some w' /\
               params_in_range (params w') /\ pedal w' = fst ps /\
               trace w' = trace w ++ evs /\
               pedal_presses evs = (if snd ps then 1 else 0)%nat /\
               fire_answers evs = (if snd ps then 1 else 0)%nat /\
               (snd ps = false -> evs = [])).
  { intros raw w Hr ps. unfold hal_poll. rewrite hal_pollPedal_sample.
    fold ps. cbv zeta. destruct ps as [p1 edge]. cbn [fst snd].
    destruct edge.
    - set (w1 := emit (Tx "EVENT,PEDAL_PRESS") (set_pedal p1 w)).
      rewrite (hal_fire_outcome ARM_TIMEOUT_MS fuel w1 enough Hr).
      destruct (fire_outcome_counts ARM_TIMEOUT_MS 3000 hal_done
                  hal_done_is_no_answer hal_done_is_no_press w1 Hr)
        as (Hr' & Hped & evs & Htr & Ha & Hp).
      eexists. exists (Tx "EVENT,PEDAL_PRESS" :: evs).
      split; [reflexivity|]. split; [exact Hr'|]. split; [exact Hped|].
      split; [rewrite Htr; cbn; now rewrite <- app_assoc|].
      change (Tx "EVENT,PEDAL_PRESS" :: evs) with ([Tx "EVENT,PEDAL_PRESS"] ++ evs).
      rewrite pedal_presses_app, fire_answers_app, Ha, Hp.
      repeat split. discriminate.
    - exists (set_pedal p1 w), []. cbn. rewrite app_nil_r. auto 10. }
  split; intros raw w Hr ps;
    destruct (H raw w Hr) as (w' & evs & H1 & H2 & H3 & H4 & H5 & H6 & H7);
    exists w', evs; auto 10.
Qed.

Lemma arduino_poll_ok :
  poll_follows_sample (arduino_poll ARM_TIMEOUT_MS) fire_answers.
Proof.
  intros raw w Hr ps. unfold arduino_poll. rewrite arduino_pollPedal_sample.
  fold ps. cbv zeta. destruct ps as [p1 edge]. cbn [fst snd].
  destruct edge.
  - rewrite (arduino_fire_outcome ARM_TIMEOUT_MS (set_pedal p1 w) Hr).
    destruct (fire_outcome_counts ARM_TIMEOUT_MS 2000 arduino_done
                arduino_done_is_no_answer arduino_done_is_no_press
                (set_pedal p1 w) Hr)
      as (Hr' & Hped & evs & Htr & Ha & Hp).
    eexists. exists evs.
    split; [reflexivity|]. split; [exact Hr'|]. split; [exact Hped|].
    split; [exact Htr|]. split; [exact Ha|]. discriminate.
  - exists (set_pedal p1 w), []. cbn. rewrite app_nil_r. auto 10.
Qed.

End PollSpecs.

Lemma press_edges_same (l : Level) (rest : list Level) :
  press_edges l (l :: rest) = press_edges l rest.
Proof. cbn [press_edges]. destruct l; reflexivity. Qed.

Lemma last_cons_default {A : Type} (x : A) (l : list A) (d d' : A) :
  last (x :: l) d = last (x :: l) d'.
Proof.
  revert x. induction l as [|y l IH]; intros x; [reflexivity|].
  change (last (y :: l) d = last (y :: l) d'). apply IH.
Qed.

Lemma last_cons_same {A : Type} (x : A) (l : list A) :
  last (x :: l) x = last l x.
Proof. destruct l as [|y l]; [reflexivity|]. apply (last_cons_default y l x x). Qed.

(** A run that has already lasted for the window is among the settled
    ones, whatever follows. *)
Lemma first_run_held (samples : list (Level * Z)) : forall (lvl : Level) (t0 t1 : Z),
  PEDAL_DEBOUNCE_MS <= t1 - t0 -> ticks_from t1 samples ->
  exists tl : list Level,
    map fst (filter held (runs_from lvl t0 t1 samples)) = lvl :: tl.
Proof.
  induction samples as [|[raw t] rest IH]; intros lvl t0 t1 Hheld Hticks.
  - cbn [runs_from filter]. unfold held at 1. cbn [fst snd].
    rewrite (proj2 (Z.leb_le _ _) Hheld). exists []. reflexivity.
  - cbn [ticks_from] in Hticks. destruct Hticks as [Ht Hrest].
    cbn [runs_from]. destruct (level_eqb raw lvl).
    + apply IH; [lia|exact Hrest].
    + cbn [filter]. unfold held at 1. cbn [fst snd].
      rewrite (proj2 (Z.leb_le _ _) Hheld). cbn [map fst]. eexists. reflexivity.
Qed.

(** The debounce of the code against the runs of the samples: the press
    edges it gives are the presses among the settled levels, and the
    stable level it ends at is the last settled one.  [lvl], [t0], [t1]
    describe the run the pedal state is in; a run that has lasted for the
    window has been committed. *)
Lemma debounce_run_settles (samples : list (Level * Z)) :
  forall (lvl stable : Level) (t0 t1 : Z),
    0 <= t0 <= t1 -> t1 < 4294967296 -> ticks_from t1 samples ->
    (PEDAL_DEBOUNCE_MS <= t1 - t0 -> stable = lvl) ->
    let res := debounce_run samples (mkPedal lvl stable t0) in
    let levels := map fst (filter held (runs_from lvl t0 t1 samples)) in
    snd res = press_edges stable levels
    /\ pedal_stable (fst res) = last levels stable.
Proof.
  induction samples as [|[raw t] rest IH]; intros lvl stable t0 t1 Ht0 Ht1 Hticks Hinv.
  - cbn [debounce_run runs_from filter fst snd]. unfold held. cbn [fst snd].
    destruct (Z.leb_spec PEDAL_DEBOUNCE_MS (t1 - t0)) as [Hh|Hh].
    + rewrite (Hinv Hh). cbn [map fst last pedal_stable].
      split; [|reflexivity]. symmetry. apply (press_edges_same lvl []).
    + split; reflexivity.
  - cbn [ticks_from] in Hticks. destruct Hticks as [Ht Hrest].
    cbn [debounce_run runs_from]. unfold sample. cbv zeta.
    cbn [pedal_last_raw pedal_stable pedal_last_change_ms].
    rewrite (u32_small t) by lia.
    destruct (level_eqb raw lvl) eqn:Hraw.
    + apply level_eqb_eq in Hraw. subst raw.
      cbn [pedal_last_raw pedal_stable pedal_last_change_ms].
      rewrite (u32_small (t - t0)) by lia.
      destruct (Z.leb_spec PEDAL_DEBOUNCE_MS (t - t0)) as [Hh|Hh]; cbn [andb].
      * destruct (level_eqb lvl stable) eqn:Hs; cbn [negb].
        -- apply level_eqb_eq in Hs. subst stable.
           specialize (IH lvl lvl t0 t ltac:(lia) ltac:(lia) Hrest (fun _ => eq_refl)).
           cbv zeta in IH.
           destruct (debounce_run rest (mkPedal lvl lvl t0)) as [p2 n].
           cbn [fst snd] in *. exact IH.
        -- specialize (IH lvl lvl t0 t ltac:(lia) ltac:(lia) Hrest (fun _ => eq_refl)).
           cbv zeta in IH.
           destruct (first_run_held rest lvl t0 t Hh Hrest) as [tl Htl].
           rewrite Htl in IH |- *.
           destruct (debounce_run rest (mkPedal lvl lvl t0)) as [p2 n].
           cbn [fst snd] in *. destruct IH as [IHn IHs]. split.
           ++ rewrite IHn, press_edges_same. reflexivity.
           ++ rewrite IHs. apply last_cons_default.
      * assert (Hinv' : PEDAL_DEBOUNCE_MS <= t - t0 -> stable = lvl) by lia.
        specialize (IH lvl stable t0 t ltac:(lia) ltac:(lia) Hrest Hinv').
        cbv zeta in IH.
        destruct (debounce_run rest (mkPedal lvl stable t0)) as [p2 n].
        cbn [fst snd] in *. exact IH.
    + cbn [pedal_last_raw pedal_stable pedal_last_change_ms].
      rewrite Z.sub_diag. change (PEDAL_DEBOUNCE_MS <=? u32 0) with false. cbn [andb].
      assert (Hinv' : PEDAL_DEBOUNCE_MS <= t - t -> stable = raw)
        by (unfold PEDAL_DEBOUNCE_MS; lia).
      specialize (IH raw stable t t ltac:(lia) ltac:(lia) Hrest Hinv').
      cbv zeta in IH.
      destruct (debounce_run rest (mkPedal raw stable t)) as [p2 n].
      cbn [fst snd] in *. cbn [filter].
      change (held (lvl, (t0, t1))) with (PEDAL_DEBOUNCE_MS <=? t1 - t0).
      destruct (Z.leb_spec PEDAL_DEBOUNCE_MS (t1 - t0)) as [Hh|Hh].
      * pose proof (Hinv Hh) as Es. subst stable. cbn [map fst].
        rewrite press_edges_same, last_cons_same. exact IH.
      * exact IH.
Qed.

Section Settling.

Variable poll : Level -> World -> option World.
Variable edges : list Event -> nat.
Hypothesis edges_app :
  forall a b, edges (a ++ b) = (edges a + edges b)%nat.
Hypothesis edges_nil : edges [] = O.
Hypothesis poll_ok : poll_follows_sample poll edges.

Lemma run_settles (samples : list (Level * Z)) (w : World) :
  params_in_range (params w) ->
  0 <= pedal_last_change_ms (pedal w) < 4294967296 ->
  ticks_from (pedal_last_change_ms (pedal w)) samples ->
  exists w',
    pedal_run poll samples w = Some w' /\
    edges (new_events w w')
    = press_edges (pedal_stable (pedal w)) (settled_levels (pedal w) samples) /\
    pedal_stable (pedal w')
    = last (settled_levels (pedal w) samples) (pedal_stable (pedal w)).
Proof.
  intros Hr Hc Hticks.
  destruct (run_follows_debounce poll edges edges_app edges_nil poll_ok samples w Hr)
    as (w' & evs & Hrun & _ & Hped & Htr & He & _).
  unfold settled_levels.
  destruct (pedal w) as [lvl stable c]. cbn [pedal_last_raw pedal_stable pedal_last_change_ms] in *.
  assert (Hinv : PEDAL_DEBOUNCE_MS <= c - c -> stable = lvl)
    by (unfold PEDAL_DEBOUNCE_MS; lia).
  destruct (debounce_run_settles samples lvl stable c c ltac:(lia) ltac:(lia) Hticks Hinv)
    as [Hn Hs].
  exists w'. split; [exact Hrun|]. split.
  - rewrite (new_events_app w w' evs Htr), He. exact Hn.
  - rewrite Hped. exact Hs.
Qed.

End Settling.

Section DebounceClaims.

Variable ARM_TIMEOUT_MS : Z.
Variable fuel : nat.
Hypothesis enough : (200 <= fuel)%nat.

(** C6.  Over every sequence of pedal samples taken at counter values
    that do not decrease, from any pedal state whose last raw change is
    not later than the first sample, the press edges are the presses
    among the settled levels, and the stable level ends at the last
    settled one.  The settled levels are those of the runs of equal
    samples that last 40 ms or more from the first sample to the last: a
    raw change that reverts before 40 ms is no such run, so it neither
    changes the stable level nor gives an edge; a run at the pressed level
    that lasts 40 ms gives exactly one edge when the level settled before
    it is the released one, however long it is held; a run at the
    released level gives none, and makes the next press count again.  An
    edge is one [EVENT,PEDAL_PRESS] and one fire request in the HAL
    variant, one fire request in the Arduino-core variant, which has no
    pedal event.  Both variants also meet [debounce_contract], which
    spells out the three cases for samples within the window of a
    counter that may wrap. *)
Theorem pedal_debounce_contract :
  (forall (w : World) (samples : list (Level * Z)),
      params_in_range (params w) ->
      0 <= pedal_last_change_ms (pedal w) < 4294967296 ->
      ticks_from (pedal_last_change_ms (pedal w)) samples ->
      let levels := settled_levels (pedal w) samples in
      let presses := press_edges (pedal_stable (pedal w)) levels in
      (exists w',
          pedal_run (hal_poll ARM_TIMEOUT_MS fuel) samples w = Some w' /\
          pedal_presses (new_events w w') = presses /\
          fire_answers (new_events w w') = presses /\
          pedal_stable (pedal w') = last levels (pedal_stable (pedal w)))
      /\ (exists w',
             pedal_run (arduino_poll ARM_TIMEOUT_MS) samples w = Some w' /\
             fire_answers (new_events w w') = presses /\
             pedal_stable (pedal w') = last levels (pedal_stable (pedal w))))
  /\ debounce_contract (hal_poll ARM_TIMEOUT_MS fuel) pedal_presses
  /\ debounce_contract (hal_poll ARM_TIMEOUT_MS fuel) fire_answers
  /\ debounce_contract (arduino_poll ARM_TIMEOUT_MS) fire_answers.
Proof.
  destruct (hal_poll_ok ARM_TIMEOUT_MS fuel enough) as [Hp Ha].
  pose proof (arduino_poll_ok ARM_TIMEOUT_MS) as Hd.
  split; [|split; [|split]].
  - intros w samples Hr Hc Hticks levels presses.
    destruct (run_settles _ _ pedal_presses_app eq_refl Hp samples w Hr Hc Hticks)
      as (w1 & Hrun1 & He1 & Hs1).
    destruct (run_settles _ _ fire_answers_app eq_refl Ha samples w Hr Hc Hticks)
      as (w2 & Hrun2 & He2 & Hs2).
    destruct (run_settles _ _ fire_answers_app eq_refl Hd samples w Hr Hc Hticks)
      as (w3 & Hrun3 & He3 & Hs3).
    assert (E : w2 = w1) by congruence. subst w2.
    split.
    + exists w1. auto.
    + exists w3. auto.
  - apply run_meets_contract; [apply pedal_presses_app|reflexivity|exact Hp].
  - apply run_meets_contract; [apply fire_answers_app|reflexivity|exact Ha].
  - apply run_meets_contract; [apply fire_answers_app|reflexivity|exact Hd].
Qed.

End DebounceClaims.

(** Two actuations with a bounce in between, on the code: the pedal goes
    down and is held, comes up with a bounce and stays up, and goes down
    again 0.6 s later.  Two settled presses, two edges. *)
Lemma pedal_debounce_contract_witness :
  exists w',
    pedal_run (hal_poll 0 200)
      [(LOW, 7000); (LOW, 7045); (LOW, 7100);
       (HIGH, 7300); (LOW, 7310); (HIGH, 7320); (HIGH, 7400);
       (LOW, 7700); (LOW, 7750)]
      idle_armed = Some w'
    /\ pedal_presses (new_events idle_armed w') = 2%nat
    /\ fire_answers (new_events idle_armed w') = 2%nat
    /\ pedal_stable (pedal w') = LOW.
Proof.
  destruct (pedal_debounce_contract 0 200 (Nat.le_refl 200)) as (H & _).
  destruct (H idle_armed
              [(LOW, 7000); (LOW, 7045); (LOW, 7100);
               (HIGH, 7300); (LOW, 7310); (HIGH, 7320); (HIGH, 7400);
               (LOW, 7700); (LOW, 7750)])
    as [(w' & Hrun & Hp & Hf & Hs) _].
  - unfold params_in_range. cbn. lia.
  - cbn. lia.
  - cbn. lia.
  - exists w'. split; [exact Hrun|]. split; [exact Hp|]. split; [exact Hf|exact Hs].
Defined.

(** The same run, evaluated: each of the two presses sends its event and
    fires. *)
Example two_presses_fire_twice :
  option_map (fun w => tx_lines (trace w))
    (pedal_run (hal_poll 0 200)
       [(LOW, 7000); (LOW, 7045); (LOW, 7100);
        (HIGH, 7300); (LOW, 7310); (HIGH, 7320); (HIGH, 7400);
        (LOW, 7700); (LOW, 7750)]
       idle_armed)
  = Some ["EVENT,PEDAL_PRESS"; "EVENT,WELD_START";
          "EVENT,WELD_DONE,total_ms=10,mode=1,d1=10,gap1=0,d2=0,gap2=0,d3=0,power_pct=100,preheat_en=0,preheat_ms=20,preheat_pct=30,preheat_gap_ms=3";
          "EVENT,PEDAL_PRESS"; "EVENT,WELD_START";
          "EVENT,WELD_DONE,total_ms=10,mode=1,d1=10,gap1=0,d2=0,gap2=0,d3=0,power_pct=100,preheat_en=0,preheat_ms=20,preheat_pct=30,preheat_gap_ms=3"].
Proof. vm_compute. reflexivity. Qed.

(** A bounce that comes back within 40 ms, run on the code. *)
Example bounce_is_silent :
  option_map (fun w => (pedal_stable (pedal w), trace w))
    (pedal_run (hal_poll 0 200) [(LOW, 7000); (LOW, 7010); (HIGH, 7030); (HIGH, 7100)]
       idle_armed)
  = Some (HIGH, []).
Proof. vm_compute. reflexivity. Qed.

(** A press held, run on the code: the event, then the weld it fires. *)
Example press_fires_once :
  option_map (fun w => tx_lines (trace w))
    (pedal_run (hal_poll 0 200) [(LOW, 7000); (LOW, 7020); (LOW, 7045); (LOW, 7060)]
       idle_armed)
  = Some ["EVENT,PEDAL_PRESS"; "EVENT,WELD_START";
          "EVENT,WELD_DONE,total_ms=10,mode=1,d1=10,gap1=0,d2=0,gap2=0,d3=0,power_pct=100,preheat_en=0,preheat_ms=20,preheat_pct=30,preheat_gap_ms=3"].
Proof. vm_compute. reflexivity. Qed.

(** ** The two variants side by side *)

(** C3, as stated, fails on the code.  From the same world, on the same
    inputs, the variants answer differently: an unknown line and
    [CMD,FIRE] are answered by the HAL variant only, and a pedal press is
    announced by the HAL variant only.  They do not even start alike: the
    HAL variant powers on disarmed, the other armed. *)
Lemma variants_differ :
  option_map (fun w => tx_lines (trace w))
    (hal_run 0 200 [(Line "FOO", 6000)] idle_armed) = Some ["ERR,UNKNOWN_CMD"]
  /\ tx_lines (trace (arduino_run 0 [(Line "FOO", 6000)] idle_armed)) = []
  /\ option_map (fun w => tx_lines (trace w))
       (hal_run 0 200 [(Line "CMD,FIRE", 4000)] idle_armed)
     = Some ["DENY,BOOT_INHIBIT,ms=1000"]
  /\ tx_lines (trace (arduino_run 0 [(Line "CMD,FIRE", 4000)] idle_armed)) = []
  /\ option_map (fun w => tx_lines (trace w))
       (hal_run 0 200 [(PedalSample LOW, 4000); (PedalSample LOW, 4050)] idle_armed)
     = Some ["EVENT,PEDAL_PRESS"; "DENY,BOOT_INHIBIT,ms=950"]
  /\ tx_lines (trace (arduino_run 0 [(PedalSample LOW, 4000); (PedalSample LOW, 4050)]
                        idle_armed))
     = ["DENY,BOOT_INHIBIT,ms=950"]
  /\ armed (safety Blackpill.power_on) = false
  /\ armed (safety WeldController.power_on) = true.
Proof. repeat split; vm_compute; reflexivity. Qed.

Section Variants.

Variable ARM_TIMEOUT_MS : Z.
Variable fuel : nat.

Lemma shared_command_agrees (line : string) (w : World) :
  shared_command line = true ->
  Blackpill.parseCommand ARM_TIMEOUT_MS fuel line w
  = Some (WeldController.handleCmd ARM_TIMEOUT_MS line w).
Proof.
  unfold shared_command. intros Hs.
  destruct (starts_with "ARM," line) eqn:H1.
  { unfold Blackpill.parseCommand, WeldController.handleCmd. rewrite H1.
    destruct (atoi (drop 4 line) =? 1); reflexivity. }
  destruct (starts_with "SET_PULSE," line) eqn:H2.
  { apply starts_with_app in H2. cbn [String.length] in H2.
    set (rest := drop 10 line) in *. rewrite H2.
    unfold Blackpill.parseCommand, WeldController.handleCmd.
    change (starts_with "ARM," ("SET_PULSE," ++ rest)) with false.
    change (starts_with "CMD,SET,PULSE," ("SET_PULSE," ++ rest)) with false.
    change (starts_with "SET_PULSE," ("SET_PULSE," ++ rest)) with true.
    change (drop 10 ("SET_PULSE," ++ rest)) with rest.
    cbv iota zeta.
    destruct (Z.leb_spec 2 (Z.of_nat (List.length (scan_fields 6 rest))));
      destruct (Z.ltb_spec (Z.of_nat (List.length (scan_fields 6 rest))) 2);
      try lia; reflexivity. }
  destruct (starts_with "SET_POWER," line) eqn:H3.
  { apply starts_with_app in H3. cbn [String.length] in H3.
    set (rest := drop 10 line) in *. rewrite H3.
    destruct (set_power_stored ARM_TIMEOUT_MS fuel rest w) as (Hh & Ha & _).
    cbv zeta in Hh, Ha. rewrite Hh, Ha. reflexivity. }
  cbn [orb] in Hs. apply String.eqb_eq in Hs. subst line.
  unfold Blackpill.parseCommand, WeldController.handleCmd.
  cbn [starts_with Ascii.eqb Bool.eqb andb String.eqb orb].
  cbv iota.
  unfold Blackpill.status_line, WeldController.status_line,
    Blackpill.HAL_GetTick, WeldController.millis, Blackpill.uartSend,
    WeldController.uartSend.
  rewrite !bool_digit_dec. reflexivity.
Qed.

Lemma shared_lines_agree (lines : list (string * Z)) : forall w : World,
  Forall (fun l => shared_command (fst l) = true) lines ->
  hal_run ARM_TIMEOUT_MS fuel (map line_input lines) w
  = Some (arduino_run ARM_TIMEOUT_MS (map line_input lines) w).
Proof.
  induction lines as [|l lines IH]; intros w Hall; [reflexivity|].
  inversion Hall as [|? ? Hl Hrest]; subst.
  cbn [map hal_run arduino_run]. unfold hal_step, arduino_step, line_input.
  cbn [fst snd]. rewrite (shared_command_agrees _ _ Hl). cbn [bind].
  apply IH. exact Hrest.
Qed.

Variable w : World.
Hypothesis enough : (200 <= fuel)%nat.
Hypothesis in_range : params_in_range (params w).

(** C3, amended.  From the same world the two variants agree on the
    part of the contract they share: a sequence of lines that begin
    [ARM,], [SET_PULSE,] or [SET_POWER,] or are [STATUS] gets the same
    answers and leaves the same world; a fire request that the gate
    denies gets the same denial and leaves the same world; a fire
    request that the gate grants stores the same recipe and delivers the
    same pulses; a pedal sample leaves the same debounce state. *)
Theorem variants_agree_on_shared_part :
  (forall lines : list (string * Z),
      Forall (fun l => shared_command (fst l) = true) lines ->
      hal_run ARM_TIMEOUT_MS fuel (map line_input lines) w
      = Some (arduino_run ARM_TIMEOUT_MS (map line_input lines) w))
  /\ (forall w1 d,
         authorize_fire ARM_TIMEOUT_MS w = (w1, Some d) ->
         Blackpill.fireRecipe ARM_TIMEOUT_MS fuel w
         = Some (WeldController.fireRecipe ARM_TIMEOUT_MS w))
  /\ (authorize_fire ARM_TIMEOUT_MS w = (w, None) ->
      exists wh,
        Blackpill.fireRecipe ARM_TIMEOUT_MS fuel w = Some wh /\
        params wh = params (WeldController.fireRecipe ARM_TIMEOUT_MS w) /\
        pulses (new_events w wh)
        = pulses (new_events w (WeldController.fireRecipe ARM_TIMEOUT_MS w)))
  /\ (forall raw,
         exists wh,
           Blackpill.pollPedal ARM_TIMEOUT_MS fuel raw w = Some wh /\
           pedal wh = pedal (WeldController.pollPedal ARM_TIMEOUT_MS raw w)).
Proof.
  split; [|split; [|split]].
  - intros lines Hall. apply shared_lines_agree. exact Hall.
  - intros w1 d E.
    rewrite (hal_fire_denied _ _ _ _ _ E), (arduino_fire_denied _ _ _ _ E).
    reflexivity.
  - intros E.
    pose proof (hal_fire_outcome ARM_TIMEOUT_MS fuel w enough in_range) as Hh.
    pose proof (arduino_fire_outcome ARM_TIMEOUT_MS w in_range) as Ha.
    unfold fire_outcome in Hh, Ha. rewrite E in Hh, Ha.
    exists (cycle 3000 hal_done w). rewrite Ha.
    split; [exact Hh|]. split; [reflexivity|].
    now rewrite !cycle_pulses.
  - intros raw.
    destruct (hal_poll_ok ARM_TIMEOUT_MS fuel enough) as [_ Hh].
    destruct (Hh raw w in_range) as (wh & _ & Hp & _ & Hped & _).
    destruct (arduino_poll_ok ARM_TIMEOUT_MS raw w in_range)
      as (wa & _ & Hpa & _ & Hpeda & _).
    unfold hal_poll in Hp. unfold arduino_poll in Hpa. inversion Hpa; subst wa.
    exists wh. split; [exact Hp|]. rewrite Hped, Hpeda. reflexivity.
Qed.

End Variants.

Lemma variants_agree_on_shared_part_witness :
  hal_run 0 200
    (map line_input [("SET_PULSE,2,20,5,30,0,0", 6000); ("STATUS", 6001)]) idle_armed
  = Some (arduino_run 0
            (map line_input [("SET_PULSE,2,20,5,30,0,0", 6000); ("STATUS", 6001)])
            idle_armed).
Proof.
  destruct (variants_agree_on_shared_part 0 200 idle_armed) as [H _].
  - apply Nat.le_refl.
  - unfold params_in_range. cbn. lia.
  - apply H. repeat constructor.
Defined.

(** The scenario of the specification: the recipe set, then reported. *)
Example set_pulse_then_status :
  option_map (fun w => tx_lines (trace w))
    (hal_run 0 200
       (map line_input [("SET_PULSE,2,20,5,30,0,0", 6000); ("STATUS", 6001)])
       idle_armed)
  = Some ["ACK,SET_PULSE,mode=2";
          "STATUS,armed=1,cooldown_ms=0,welding=0,mode=2,power_pct=100,preheat_en=0"].
Proof. vm_compute. reflexivity. Qed.

(** * Further properties of the code *)

(** ** What every run of the control loop keeps *)

Lemma within_limits_in_range (p : Params) : within_limits p -> params_in_range p.
Proof. unfold within_limits, params_in_range, MAX_WELD_MS. lia. Qed.

Lemma clamp_params_limits (p : Params) :
  params_in_range p -> within_limits (Blackpill.clamp_params p).
Proof.
  unfold params_in_range, within_limits, Blackpill.clamp_params, MAX_WELD_MS.
  intros H. cbn [weld_mode weld_d1_ms weld_gap1_ms weld_d2_ms weld_gap2_ms
    weld_d3_ms weld_power_pct preheat_ms preheat_pct preheat_gap_ms].
  repeat match goal with
         | |- context [if ?a <? ?b then _ else _] => destruct (Z.ltb_spec a b)
         end; lia.
Qed.

Lemma clamp_params_fixes (p : Params) :
  within_limits p -> Blackpill.clamp_params p = p.
Proof.
  unfold within_limits, Blackpill.clamp_params, MAX_WELD_MS. intros H.
  destruct p as [m d1 g1 d2 g2 d3 pw pe pm pp pg].
  cbn [weld_mode weld_d1_ms weld_gap1_ms weld_d2_ms weld_gap2_ms
    weld_d3_ms weld_power_pct preheat_enabled preheat_ms preheat_pct
    preheat_gap_ms] in *.
  repeat match goal with
         | |- context [if ?a <? ?b then _ else _] =>
             lazymatch a with
             | context [if _ then _ else _] => fail
             | _ => lazymatch b with
                    | context [if _ then _ else _] => fail
                    | _ => destruct (Z.ltb_spec a b); try lia
                    end
             end
         end.
  reflexivity.
Qed.

Lemma driven_app (a b : list Event) : forall on,
  driven on (a ++ b) = driven (driven on a) b.
Proof.
  induction a as [|e a IH]; intros on; [reflexivity|].
  destruct e; cbn [app driven]; apply IH.
Qed.

Lemma driven_pwm_free (evs : list Event) : forall on,
  forallb (fun e => negb (is_pwm e)) evs = true -> driven on evs = on.
Proof.
  induction evs as [|e evs IH]; intros on H; [reflexivity|].
  cbn [forallb] in H. apply andb_prop in H as [He H].
  destruct e; cbn in He; try discriminate; cbn [driven]; apply IH; exact H.
Qed.

Lemma cycle_events_off (dead : Z) (done : Z -> Z -> Params -> string) (w : World) :
  forall on, driven on (cycle_events dead done w) = None.
Proof.
  intros on. unfold cycle_events. cbv zeta.
  rewrite !driven_app. reflexivity.
Qed.

Lemma set_pulse_in_range (m d1 g1 d2 g2 d3 : Z) (p : Params) :
  params_in_range p ->
  params_in_range (set_pulse (u8 m) (u16 d1) (u16 g1) (u16 d2) (u16 g2) (u16 d3) p).
Proof.
  unfold params_in_range. cbn.
  pose proof (u8_range m). pose proof (u16_range d1). pose proof (u16_range g1).
  pose proof (u16_range d2). pose proof (u16_range g2). pose proof (u16_range d3).
  lia.
Qed.

Lemma set_preheat_in_range (en : bool) (ms pct gap : Z) (p : Params) :
  params_in_range p -> 0 <= gap < 65536 ->
  params_in_range (set_preheat en (u16 ms) (u8 pct) gap p).
Proof.
  unfold params_in_range. cbn.
  pose proof (u16_range ms). pose proof (u8_range pct). lia.
Qed.

Lemma set_power_in_range (v : Z) (p : Params) :
  params_in_range p -> params_in_range (set_weld_power_pct (u8 v) p).
Proof.
  unfold params_in_range. cbn. pose proof (u8_range v). lia.
Qed.

Lemma quiet_emit (s : string) (w : World) :
  String.eqb "EVENT,WELD_START" s = false -> quiet_update w (emit (Tx s) w).
Proof. intros Hs. unfold quiet_update. cbn [trace emit]. eauto 12. Qed.

Lemma quiet_armed (s : string) (a : bool) (u : Z) (w : World) :
  String.eqb "EVENT,WELD_START" s = false ->
  quiet_update w (emit (Tx s) (set_armed a u w)).
Proof. intros Hs. unfold quiet_update. cbn [trace emit set_armed set_safety]. eauto 12. Qed.

Lemma quiet_clamped (s : string) (p : Params) (w : World) :
  String.eqb "EVENT,WELD_START" s = false ->
  (params_in_range (params w) -> params_in_range p) ->
  quiet_update w
    (emit (Tx s)
       (set_params (Blackpill.clamp_params (params (set_params p w)))
          (set_params p w))).
Proof.
  intros Hs H. unfold quiet_update. cbn.
  split; [eexists; split; [reflexivity|exact Hs]|].
  do 5 (split; [reflexivity|]). split.
  - intros Hr. apply clamp_params_range, H, Hr.
  - intros Hl. apply clamp_params_limits, H, within_limits_in_range, Hl.
Qed.

Lemma quiet_set_d1 (s : string) (v : Z) (w : World) :
  String.eqb "EVENT,WELD_START" s = false ->
  0 < v <= 200 ->
  quiet_update w (emit (Tx s) (set_params (set_weld_d1_ms v (params w)) w)).
Proof.
  intros Hs Hv. unfold quiet_update. cbn.
  split; [eexists; split; [reflexivity|exact Hs]|].
  do 5 (split; [reflexivity|]).
  unfold params_in_range, within_limits, MAX_WELD_MS. cbn. split; intros; lia.
Qed.

Lemma quiet_set_power (s : string) (v : Z) (w : World) :
  String.eqb "EVENT,WELD_START" s = false ->
  50 <= v <= 100 ->
  quiet_update w (emit (Tx s) (set_params (set_weld_power_pct v (params w)) w)).
Proof.
  intros Hs Hv. unfold quiet_update. cbn.
  split; [eexists; split; [reflexivity|exact Hs]|].
  do 5 (split; [reflexivity|]).
  unfold params_in_range, within_limits, MAX_WELD_MS. cbn. split; intros; lia.
Qed.

Section Frames.

Variable ARM_TIMEOUT_MS : Z.
Variable fuel : nat.
Hypothesis enough : (200 <= fuel)%nat.

Lemma hal_parse_frame (line : string) (w : World) :
  params_in_range (params w) ->
  exists w',
    Blackpill.parseCommand ARM_TIMEOUT_MS fuel line w = Some w' /\
    (w' = fire_outcome 3000 hal_done ARM_TIMEOUT_MS w \/ quiet_update w w').
Proof.
  intros Hr. unfold Blackpill.parseCommand. cbv zeta.
  unfold Blackpill.uartSend, Blackpill.clampParams.
  destruct (starts_with "ARM," line).
  { destruct (atoi (drop 4 line) =? 1);
      eexists; (split; [reflexivity|right; apply quiet_armed; reflexivity]). }
  destruct (starts_with "CMD,SET,PULSE," line).
  { destruct ((0 <? atoi (drop 14 line)) && _) eqn:E;
      (eexists; split; [reflexivity|right]); [|apply quiet_emit; reflexivity].
    apply andb_prop in E as [E1 E2]. apply Z.ltb_lt in E1. apply Z.leb_le in E2.
    unfold MAX_WELD_MS in E2. rewrite u16_small by lia.
    cbn [params set_params]. apply quiet_set_d1; [reflexivity|lia]. }
  destruct (starts_with "SET_PULSE," line).
  { destruct (2 <=? _); (eexists; split; [reflexivity|right]); [|apply quiet_emit; reflexivity].
    apply quiet_clamped; [reflexivity|]. apply set_pulse_in_range. }
  destruct (starts_with "CMD,SET,POWER," line).
  { destruct ((50 <=? atoi (drop 14 line)) && _) eqn:E;
      (eexists; split; [reflexivity|right]); [|apply quiet_emit; reflexivity].
    apply andb_prop in E as [E1 E2]. apply Z.leb_le in E1. apply Z.leb_le in E2.
    rewrite u8_small by lia.
    cbn [params set_params]. apply quiet_set_power; [reflexivity|lia]. }
  destruct (starts_with "SET_POWER," line).
  { eexists; split; [reflexivity|right].
    apply quiet_clamped; [reflexivity|]. apply set_power_in_range. }
  destruct (starts_with "SET_PREHEAT," line).
  { destruct (3 <=? _); (eexists; split; [reflexivity|right]); [|apply quiet_emit; reflexivity].
    apply quiet_clamped; [reflexivity|]. intros Hp.
    apply set_preheat_in_range; [exact Hp|].
    destruct (4 <=? _); [apply u16_range|].
    unfold params_in_range in Hp. lia. }
  destruct (String.eqb line "CMD,FIRE").
  { eexists. split; [apply hal_fire_outcome; assumption|left; reflexivity]. }
  destruct (String.eqb line "CMD,ENABLE").
  { eexists; (split; [reflexivity|right; apply quiet_armed; reflexivity]). }
  destruct (String.eqb line "CMD,DISABLE").
  { eexists; (split; [reflexivity|right; apply quiet_armed; reflexivity]). }
  destruct (String.eqb line "STATUS" || String.eqb line "CMD,STATUS");
    eexists; (split; [reflexivity|right; apply quiet_emit; reflexivity]).
Qed.

Lemma arduino_handle_frame (line : string) (w : World) :
  let w' := WeldController.handleCmd ARM_TIMEOUT_MS line w in
  w' = w \/ quiet_update w w'.
Proof.
  unfold WeldController.handleCmd. cbv zeta.
  unfold WeldController.uartSend, WeldController.clampParams.
  rewrite clamp_params_same.
  destruct (starts_with "ARM," line).
  { destruct (atoi (drop 4 line) =? 1); right; apply quiet_armed; reflexivity. }
  destruct (starts_with "SET_PULSE," line).
  { destruct (_ <? 2); right; [apply quiet_emit; reflexivity|].
    apply quiet_clamped; [reflexivity|]. apply set_pulse_in_range. }
  destruct (starts_with "SET_POWER," line).
  { right. apply quiet_clamped; [reflexivity|]. apply set_power_in_range. }
  destruct (starts_with "SET_PREHEAT," line).
  { destruct ((_ <? 0) || _ || _); right; [apply quiet_emit; reflexivity|].
    apply quiet_clamped; [reflexivity|]. intros Hp.
    apply set_preheat_in_range; [exact Hp|apply u16_range]. }
  destruct (String.eqb line "STATUS"); [right; apply quiet_emit; reflexivity|left; reflexivity].
Qed.

End Frames.

Lemma at_rest_quiet (w w' : World) : at_rest w -> quiet_update w w' -> at_rest w'.
Proof.
  intros (Hl & Hw & Ho) ((resp & Ht & _) & _ & _ & Hw' & _ & _ & _ & Hl').
  split; [|split].
  - apply Hl', Hl.
  - rewrite Hw'. exact Hw.
  - unfold output_off in *. rewrite Ht, driven_app, Ho. reflexivity.
Qed.

Lemma at_rest_frame (w w' : World) :
  params w' = params w -> welding_now (safety w') = welding_now (safety w) ->
  (exists evs, trace w' = trace w ++ evs
               /\ forallb (fun e => negb (is_pwm e)) evs = true) ->
  at_rest w -> at_rest w'.
Proof.
  intros Hp Hw (evs & Ht & Hq) (Hl & Hb & Ho). split; [|split].
  - rewrite Hp. exact Hl.
  - rewrite Hw. exact Hb.
  - unfold output_off in *. rewrite Ht, driven_app, Ho.
    apply driven_pwm_free. exact Hq.
Qed.

Lemma at_rest_elapse (dt : Z) (w : World) : at_rest w -> at_rest (elapse dt w).
Proof.
  apply at_rest_frame; try reflexivity.
  exists []. cbn. now rewrite app_nil_r.
Qed.

Lemma at_rest_set_pedal (p : Pedal) (w : World) : at_rest w -> at_rest (set_pedal p w).
Proof.
  apply at_rest_frame; try reflexivity.
  exists []. cbn. now rewrite app_nil_r.
Qed.

Lemma at_rest_emit (s : string) (w : World) : at_rest w -> at_rest (emit (Tx s) w).
Proof.
  apply at_rest_frame; try reflexivity.
  exists [Tx s]. split; reflexivity.
Qed.

Lemma at_rest_arm_check (ARM_TIMEOUT_MS : Z) (w : World) :
  at_rest w -> at_rest (after_arm_check ARM_TIMEOUT_MS w).
Proof.
  unfold after_arm_check. destruct (arm_expired ARM_TIMEOUT_MS w); [|auto].
  apply at_rest_frame; try reflexivity.
  exists [Tx "EVENT,ARM_TIMEOUT"]. split; reflexivity.
Qed.

(** A fire request, granted or denied, leaves the unit at rest.  The
    output is off after it whatever it was before. *)
Lemma at_rest_fire_outcome (dead : Z) (done : Z -> Z -> Params -> string)
    (ARM_TIMEOUT_MS : Z) (w : World) :
  at_rest w -> at_rest (fire_outcome dead done ARM_TIMEOUT_MS w).
Proof.
  intros Hrest. unfold fire_outcome.
  destruct (authorize_fire ARM_TIMEOUT_MS w) as [w1 [d|]] eqn:E.
  - assert (Hw1 : w1 = w \/ w1 = after_arm_check ARM_TIMEOUT_MS w).
    { revert E. unfold authorize_fire.
      destruct (boot_elapsed w <? BOOT_INHIBIT_MS); [intros E; inversion E; auto|].
      cbv zeta.
      repeat match goal with
             | |- context [if ?c then _ else _] => destruct c
             end; intros E; inversion E; auto. }
    apply at_rest_emit.
    destruct Hw1 as [->| ->]; [exact Hrest|apply at_rest_arm_check, Hrest].
  - apply authorize_fire_granted in E as (-> & _).
    destruct Hrest as (Hl & Hw & Ho). split; [|split].
    + apply clamp_params_limits, within_limits_in_range, Hl.
    + reflexivity.
    + unfold output_off, cycle. cbn [trace].
      rewrite driven_app. apply cycle_events_off.
Qed.

Section LoopInvariant.

Variable ARM_TIMEOUT_MS : Z.
Variable fuel : nat.
Hypothesis enough : (200 <= fuel)%nat.

Lemma hal_parse_rest (line : string) (w : World) :
  at_rest w ->
  exists w', Blackpill.parseCommand ARM_TIMEOUT_MS fuel line w = Some w' /\ at_rest w'.
Proof.
  intros Hrest.
  destruct (hal_parse_frame ARM_TIMEOUT_MS fuel enough line w)
    as (w' & Hp & [->|Hq]).
  - apply within_limits_in_range, Hrest.
  - eexists. split; [exact Hp|]. apply at_rest_fire_outcome, Hrest.
  - exists w'. split; [exact Hp|]. apply (at_rest_quiet w); assumption.
Qed.

Lemma arduino_handle_rest (line : string) (w : World) :
  at_rest w -> at_rest (WeldController.handleCmd ARM_TIMEOUT_MS line w).
Proof.
  intros Hrest.
  destruct (arduino_handle_frame ARM_TIMEOUT_MS line w) as [->|Hq].
  - exact Hrest.
  - apply (at_rest_quiet w); assumption.
Qed.

Lemma hal_poll_rest (raw : Level) (w : World) :
  at_rest w ->
  exists w', Blackpill.pollPedal ARM_TIMEOUT_MS fuel raw w = Some w' /\ at_rest w'.
Proof.
  intros Hrest. rewrite hal_pollPedal_sample. cbv zeta.
  destruct (snd (sample raw (u32 (clock w / 1000)) (pedal w))).
  - rewrite hal_fire_outcome.
    + eexists. split; [reflexivity|].
      apply at_rest_fire_outcome, at_rest_emit, at_rest_set_pedal, Hrest.
    + exact enough.
    + apply within_limits_in_range, Hrest.
  - eexists. split; [reflexivity|]. apply at_rest_set_pedal, Hrest.
Qed.

Lemma arduino_poll_rest (raw : Level) (w : World) :
  at_rest w -> at_rest (WeldController.pollPedal ARM_TIMEOUT_MS raw w).
Proof.
  intros Hrest. rewrite arduino_pollPedal_sample. cbv zeta.
  destruct (snd (sample raw (u32 (clock w / 1000)) (pedal w))).
  - rewrite arduino_fire_outcome.
    + apply at_rest_fire_outcome, at_rest_set_pedal, Hrest.
    + apply within_limits_in_range, Hrest.
  - apply at_rest_set_pedal, Hrest.
Qed.

Lemma hal_main_loop_rest (raw : Level) (rx : option string) (w : World) :
  at_rest w ->
  exists w', Blackpill.main_loop ARM_TIMEOUT_MS fuel raw rx w = Some w' /\ at_rest w'.
Proof.
  intros Hrest. unfold Blackpill.main_loop.
  destruct (hal_poll_rest raw w Hrest) as (w1 & -> & H1). cbn [bind]. cbv zeta.
  rewrite hal_applyArmTimeout.
  apply (at_rest_arm_check ARM_TIMEOUT_MS) in H1.
  destruct rx as [line|].
  - apply hal_parse_rest, H1.
  - eexists. split; [reflexivity|exact H1].
Qed.

Lemma arduino_pollUart_rest (lines : list string) : forall w : World,
  at_rest w -> at_rest (WeldController.pollUart ARM_TIMEOUT_MS lines w).
Proof.
  unfold WeldController.pollUart.
  induction lines as [|l lines IH]; intros w Hrest; [exact Hrest|].
  cbn [fold_left]. apply IH, arduino_handle_rest, Hrest.
Qed.

Lemma arduino_loop_rest (lines : list string) (raw : Level) (w : World) :
  at_rest w -> at_rest (WeldController.loop ARM_TIMEOUT_MS lines raw w).
Proof.
  intros Hrest. unfold WeldController.loop. cbv zeta.
  rewrite arduino_applyArmTimeout.
  apply at_rest_arm_check, arduino_poll_rest, arduino_pollUart_rest, Hrest.
Qed.

Lemma hal_delay_ends (ms : Z) (w : World) :
  0 <= ms < 199 ->
  Blackpill.HAL_Delay fuel ms w = Some (elapse (1000 * (ms + 1)) w).
Proof.
  intros Hms. unfold Blackpill.HAL_Delay, Blackpill.HAL_MAX_DELAY. cbv zeta.
  rewrite (proj2 (Z.ltb_lt _ _)) by lia.
  rewrite u32_small by lia. apply spin_from_now; lia.
Qed.

Lemma hal_blink_ends (n : nat) : forall w : World,
  Blackpill.blink fuel n w = Some (elapse (101000 * Z.of_nat n) w).
Proof.
  induction n as [|n IH]; intros w.
  - cbn [Blackpill.blink]. rewrite elapse_advance, Z.mul_0_r, advance_nil.
    reflexivity.
  - cbn [Blackpill.blink]. rewrite hal_delay_ends by lia. cbn [bind].
    rewrite IH. rewrite !elapse_advance, advance_advance. cbn [app].
    do 2 f_equal. lia.
Qed.

Lemma hal_main_init_rest (r : Level) (w : World) :
  within_limits (params w) -> welding_now (safety w) = false ->
  exists w0, Blackpill.main_init fuel r w = Some w0 /\ at_rest w0.
Proof.
  intros Hl Hw. unfold Blackpill.main_init. rewrite hal_blink_ends.
  cbn [bind]. cbv zeta. eexists. split; [reflexivity|].
  split; [|split].
  - exact Hl.
  - exact Hw.
  - unfold output_off. cbn [trace Blackpill.uartSend emit set_pedal set_boot_ms
      set_safety Blackpill.pwmOff elapse set_clock].
    rewrite <- app_assoc, driven_app. reflexivity.
Qed.

Lemma arduino_setup_rest (r : Level) (w : World) :
  within_limits (params w) -> welding_now (safety w) = false ->
  at_rest (WeldController.setup r w).
Proof.
  intros Hl Hw. unfold WeldController.setup. cbv zeta. split; [|split].
  - exact Hl.
  - exact Hw.
  - unfold output_off. cbn [trace WeldController.uartSend emit set_pedal
      set_boot_ms set_safety WeldController.pwmOff].
    rewrite <- app_assoc, driven_app. reflexivity.
Qed.

Lemma hal_turns_rest (turns : list (Z * Level * option string)) : forall w : World,
  at_rest w ->
  exists w', hal_turns ARM_TIMEOUT_MS fuel turns w = Some w' /\ at_rest w'.
Proof.
  induction turns as [|[[dt raw] rx] turns IH]; intros w Hrest.
  - exists w. split; [reflexivity|exact Hrest].
  - cbn [hal_turns].
    destruct (hal_main_loop_rest raw rx (elapse dt w) (at_rest_elapse dt w Hrest))
      as (w1 & -> & H1).
    cbn [bind]. apply IH, H1.
Qed.

Lemma arduino_turns_rest (turns : list (Z * Level * list string)) : forall w : World,
  at_rest w -> at_rest (arduino_turns ARM_TIMEOUT_MS turns w).
Proof.
  induction turns as [|[[dt raw] lines] turns IH]; intros w Hrest.
  - exact Hrest.
  - cbn [arduino_turns]. apply IH, arduino_loop_rest, at_rest_elapse, Hrest.
Qed.

(** From power-on, through [main] up to its loop or [setup], and through
    any number of turns of the loop, whatever the pedal reads and
    whatever lines arrive, each turn ends with the recipe within the limits
    of [clampParams], the busy flag clear and the output forced off.  The
    HAL loop, with its busy-waits, comes to the end of every turn. *)
Theorem loop_rests_between_turns (r : Level) :
  (forall turns : list (Z * Level * option string),
      exists w0 w',
        Blackpill.main_init fuel r Blackpill.power_on = Some w0 /\
        hal_turns ARM_TIMEOUT_MS fuel turns w0 = Some w' /\
        at_rest w0 /\ at_rest w')
  /\ (forall turns : list (Z * Level * list string),
         at_rest (arduino_turns ARM_TIMEOUT_MS turns
                    (WeldController.setup r WeldController.power_on))).
Proof.
  assert (Hd : within_limits default_params).
  { unfold within_limits, MAX_WELD_MS. cbn. lia. }
  split.
  - intros turns.
    destruct (hal_main_init_rest r Blackpill.power_on Hd eq_refl) as (w0 & H0 & Hr0).
    destruct (hal_turns_rest turns w0 Hr0) as (w' & H' & Hr').
    exists w0, w'. auto.
  - intros turns. apply arduino_turns_rest, arduino_setup_rest; [exact Hd|reflexivity].
Qed.

End LoopInvariant.

Lemma loop_rests_between_turns_witness :
  exists w0 w',
    Blackpill.main_init 200 HIGH Blackpill.power_on = Some w0 /\
    hal_turns 0 200
      [(7000000, HIGH, Some "ARM,1"); (1000, LOW, None); (50000, LOW, None)] w0
    = Some w' /\
    at_rest w0 /\ at_rest w'.
Proof.
  destruct (loop_rests_between_turns 0 200 (Nat.le_refl 200) HIGH) as [H _].
  apply H.
Defined.

(** The run of the witness welds: the pedal press is debounced and
    fires. *)
Example armed_press_welds :
  option_map (fun w => tx_lines (trace w))
    (w0 <- Blackpill.main_init 200 HIGH Blackpill.power_on ;;
     hal_turns 0 200
       [(7000000, HIGH, Some "ARM,1"); (1000, LOW, None); (50000, LOW, None)] w0)
  = Some ["BOOT,STM32_WELD_BRAIN_PWM_READY"; "ACK,ARM,1"; "EVENT,PEDAL_PRESS";
          "EVENT,WELD_START";
          "EVENT,WELD_DONE,total_ms=10,mode=1,d1=10,gap1=0,d2=0,gap2=0,d3=0,power_pct=100,preheat_en=0,preheat_ms=20,preheat_pct=30,preheat_gap_ms=3"].
Proof. vm_compute. reflexivity. Qed.

(** ** The duty of a percentage *)

Lemma pctToDuty_below (x : Z) :
  0 <= x < 100 ->
  Blackpill.pctToDuty x = x * 1023 / 100 /\ 0 <= x * 1023 / 100 < 1023.
Proof.
  intros Hx. unfold Blackpill.pctToDuty, PWM_MAX, u16, u32.
  destruct (Z.leb_spec 100 x); [lia|].
  assert (0 <= x * 1023 / 100 < 1023).
  { split; [apply Z.div_pos; lia|apply Z.div_lt_upper_bound; lia]. }
  rewrite (Z.mod_small (x * 1023)) by lia.
  rewrite Z.mod_small by lia. auto.
Qed.

Lemma pctToDuty_full (x : Z) : 100 <= x -> Blackpill.pctToDuty x = 1023.
Proof.
  intros Hx. unfold Blackpill.pctToDuty, PWM_MAX.
  destruct (Z.leb_spec 100 x); [reflexivity|lia].
Qed.

Lemma pctToDuty_le (a b : Z) :
  0 <= a <= b -> Blackpill.pctToDuty a <= Blackpill.pctToDuty b.
Proof.
  intros H. destruct (Z.lt_ge_cases b 100) as [Hb|Hb].
  - destruct (pctToDuty_below a ltac:(lia)) as [-> Ra].
    destruct (pctToDuty_below b ltac:(lia)) as [-> Rb].
    apply Z.div_le_mono; lia.
  - rewrite (pctToDuty_full b Hb).
    destruct (Z.lt_ge_cases a 100) as [Ha|Ha].
    + destruct (pctToDuty_below a ltac:(lia)) as [-> Ra]. lia.
    + rewrite (pctToDuty_full a Ha). lia.
Qed.

(** [pctToDuty] never exceeds full scale, reaches it exactly from 100
    percent on, is 0 at 0 percent and never decreases when the percentage
    grows; both sources compute the same duty. *)
Theorem pctToDuty_monotone (a b : Z) :
  0 <= a <= b ->
  Blackpill.pctToDuty a <= Blackpill.pctToDuty b
  /\ 0 <= Blackpill.pctToDuty a <= PWM_MAX
  /\ (Blackpill.pctToDuty a = PWM_MAX <-> 100 <= a)
  /\ (a = 0 -> Blackpill.pctToDuty a = 0)
  /\ WeldController.pctToDuty a = Blackpill.pctToDuty a.
Proof.
  intros H.
  assert (Hrange : 0 <= Blackpill.pctToDuty a <= 1023
                   /\ (Blackpill.pctToDuty a = 1023 <-> 100 <= a)).
  { destruct (Z.lt_ge_cases a 100) as [Hlt|Hge].
    - destruct (pctToDuty_below a ltac:(lia)) as [-> Rx]. lia.
    - rewrite (pctToDuty_full a Hge). lia. }
  unfold PWM_MAX.
  split; [apply pctToDuty_le, H|].
  split; [apply Hrange|]. split; [apply Hrange|]. split.
  - intros ->. reflexivity.
  - reflexivity.
Qed.

Lemma pctToDuty_monotone_witness :
  Blackpill.pctToDuty 50 <= Blackpill.pctToDuty 100.
Proof. apply (pctToDuty_monotone 50 100). lia. Defined.

(** ** [clampParams] as a projection *)

(** On values of the globals' types [clampParams] lands within the
    limits, changes nothing that is within them already (so a second call
    changes nothing), and never touches the gaps or the preheat flag; a
    recipe it leaves alone is within the limits. *)
Theorem clampParams_projects (w : World) :
  params_in_range (params w) ->
  let w1 := Blackpill.clampParams w in
  within_limits (params w1)
  /\ Blackpill.clampParams w1 = w1
  /\ WeldController.clampParams w = w1
  /\ (within_limits (params w) <-> w1 = w)
  /\ weld_gap1_ms (params w1) = weld_gap1_ms (params w)
  /\ weld_gap2_ms (params w1) = weld_gap2_ms (params w)
  /\ preheat_gap_ms (params w1) = preheat_gap_ms (params w)
  /\ preheat_enabled (params w1) = preheat_enabled (params w)
  /\ safety w1 = safety w /\ pedal w1 = pedal w /\ trace w1 = trace w.
Proof.
  intros Hr w1.
  pose proof (clamp_params_limits _ Hr) as Hl.
  split; [exact Hl|]. split.
  { unfold w1, Blackpill.clampParams. cbn [params set_params].
    rewrite (clamp_params_fixes _ Hl). reflexivity. }
  split; [reflexivity|]. split; [|repeat split].
  split.
  - intros H. unfold w1, Blackpill.clampParams.
    rewrite (clamp_params_fixes _ H). destruct w; reflexivity.
  - intros H. rewrite <- H. exact Hl.
Qed.

Lemma clampParams_projects_witness :
  within_limits (params (Blackpill.clampParams over_long)).
Proof.
  apply (clampParams_projects over_long). unfold params_in_range. cbn. lia.
Defined.

(** ** The cooldown in the status report *)

Lemma status_lines_same (w : World) :
  WeldController.status_line w = Blackpill.status_line w.
Proof.
  unfold WeldController.status_line, Blackpill.status_line,
    WeldController.millis, Blackpill.HAL_GetTick.
  rewrite !bool_digit_dec. reflexivity.
Qed.

Lemma status_line_cd (w : World) :
  Blackpill.status_line w
  = status_with
      (let cd := s32 (s32 WELD_COOLDOWN_MS - s32 (since_last_weld w)) in
       if cd <? 0 then 0 else cd) w.
Proof. reflexivity. Qed.

Lemma s32_small (z : Z) : -2147483648 <= z < 2147483648 -> s32 z = z.
Proof.
  intros H. unfold s32, u32.
  destruct (Z.lt_ge_cases z 0).
  - replace (z mod 4294967296) with (z + 4294967296).
    + destruct (Z.ltb_spec (z + 4294967296) 2147483648); lia.
    + apply Z.mod_unique with (q := -1); lia.
  - rewrite Z.mod_small by lia.
    destruct (Z.ltb_spec z 2147483648); lia.
Qed.

Lemma s32_high (z : Z) : 2147483648 <= z < 4294967296 -> s32 z = z - 4294967296.
Proof.
  intros H. unfold s32, u32. rewrite Z.mod_small by lia.
  destruct (Z.ltb_spec z 2147483648); lia.
Qed.

Section StatusReport.

Variable ARM_TIMEOUT_MS : Z.
Variable fuel : nat.
Variable w : World.

(** While the last weld is less than 2^31 ms back, the cooldown a
    status report prints is the one the gate applies: 500 ms less the
    time since the last weld, 0 from 500 ms on; a fire request that fails
    on the cooldown alone is denied with the same number.  Both variants
    print the same line. *)
Theorem status_reports_gate_cooldown :
  since_last_weld w < 2147483648 ->
  Blackpill.status_line w = status_with (cooldown_left w) w
  /\ WeldController.status_line w = status_with (cooldown_left w) w
  /\ (cooldown_left w = 0 <-> WELD_COOLDOWN_MS <= since_last_weld w)
  /\ (BOOT_INHIBIT_MS <= boot_elapsed w ->
      armed (safety (after_arm_check ARM_TIMEOUT_MS w)) = true ->
      welding_now (safety w) = false ->
      0 < cooldown_left w ->
      Blackpill.fireRecipe ARM_TIMEOUT_MS fuel w
      = Some (emit (Tx ("DENY,COOLDOWN,ms=" ++ dec (cooldown_left w))) w)).
Proof.
  intros Hs.
  pose proof (since_last_weld_range w) as Hr.
  assert (Hcd : (let cd := s32 (s32 WELD_COOLDOWN_MS - s32 (since_last_weld w)) in
                 if cd <? 0 then 0 else cd) = cooldown_left w).
  { cbv zeta. unfold cooldown_left, WELD_COOLDOWN_MS.
    change (s32 500) with 500.
    rewrite (s32_small (since_last_weld w)) by lia.
    rewrite s32_small by lia.
    destruct (Z.ltb_spec (500 - since_last_weld w) 0); lia. }
  split; [rewrite status_line_cd, Hcd; reflexivity|].
  split; [rewrite status_lines_same, status_line_cd, Hcd; reflexivity|].
  split; [unfold cooldown_left, WELD_COOLDOWN_MS; lia|].
  intros Hb Ha Hw Hc.
  assert (Hlt : since_last_weld w < WELD_COOLDOWN_MS).
  { unfold cooldown_left in Hc. lia. }
  replace (cooldown_left w) with (WELD_COOLDOWN_MS - since_last_weld w)
    by (unfold cooldown_left; lia).
  apply (hal_fire_denied ARM_TIMEOUT_MS fuel w w
           (COOLDOWN (WELD_COOLDOWN_MS - since_last_weld w))).
  - unfold authorize_fire. rewrite (proj2 (Z.ltb_ge _ _) Hb). cbv zeta.
    pose proof (after_arm_check_armed _ _ Ha) as Hsame.
    rewrite Hsame in Ha |- *. rewrite Ha, Hw. cbn [negb].
    now rewrite (proj2 (Z.ltb_lt _ _) Hlt).
Qed.

(** When the last weld is more than 2^31 + 500 ms back (24.8 days), the
    status report prints a cooldown that is not there: the difference of
    the counters is read as a negative number, so the line shows 500 plus
    what is left to 2^32 ms, although the gate no longer applies a
    cooldown. *)
Theorem status_overstates_cooldown :
  2147483648 + 500 < since_last_weld w ->
  Blackpill.status_line w
  = status_with (4294967296 + 500 - since_last_weld w) w
  /\ WeldController.status_line w = Blackpill.status_line w
  /\ 500 < 4294967296 + 500 - since_last_weld w
  /\ cooldown_left w = 0.
Proof.
  intros Hs.
  pose proof (since_last_weld_range w) as Hr.
  split; [|split; [apply status_lines_same|]].
  - rewrite status_line_cd. f_equal. cbv zeta. unfold WELD_COOLDOWN_MS.
    change (s32 500) with 500.
    rewrite (s32_high (since_last_weld w)) by lia.
    rewrite s32_small by lia.
    destruct (Z.ltb_spec (500 - (since_last_weld w - 4294967296)) 0); lia.
  - unfold cooldown_left, WELD_COOLDOWN_MS. lia.
Qed.

End StatusReport.

Lemma status_reports_gate_cooldown_witness :
  Blackpill.status_line cooling
  = "STATUS,armed=1,cooldown_ms=400,welding=0,mode=1,power_pct=100,preheat_en=0".
Proof.
  destruct (status_reports_gate_cooldown 0 200 cooling) as [H _].
  - vm_compute. reflexivity.
  - rewrite H. reflexivity.
Defined.

Lemma status_overstates_cooldown_witness :
  Blackpill.status_line long_idle
  = "STATUS,armed=1,cooldown_ms=1702970796,welding=0,mode=1,power_pct=100,preheat_en=0".
Proof.
  destruct (status_overstates_cooldown long_idle) as [H _].
  - vm_compute. reflexivity.
  - rewrite H. reflexivity.
Defined.

(** ** Time and energy of a weld cycle *)

Lemma play_us_app (a b : list Step) : play_us (a ++ b) = play_us a + play_us b.
Proof. induction a as [|s a IH]; cbn [app play_us]; lia. Qed.

Lemma recipe_play_us (p : Params) :
  params_in_range p -> play_us (recipe_steps p) = 1000 * recipe_total_ms p.
Proof.
  intros (Q1 & Q2 & Q3 & Q4 & Q5 & Q6 & Q7 & Q8 & Q9 & Q10).
  unfold recipe_steps, recipe_total_ms. cbv zeta. rewrite !play_us_app.
  assert (H0 : Z.min 0 MAX_WELD_MS = 0) by reflexivity.
  destruct (preheat_enabled p && (0 <? preheat_ms p));
    destruct (1 <=? weld_mode p); destruct (2 <=? weld_mode p);
    destruct (3 <=? weld_mode p);
    try destruct (Z.ltb_spec 0 (preheat_gap_ms p));
    cbn [play_us step_us]; unfold stage_us;
    try (replace (preheat_gap_ms p) with 0 by lia; rewrite H0); lia.
Qed.

Lemma recipe_total_range (p : Params) :
  within_limits p -> 0 <= recipe_total_ms p <= 1400.
Proof.
  unfold within_limits, recipe_total_ms, MAX_WELD_MS. intros H.
  destruct (preheat_enabled p && (0 <? preheat_ms p));
    destruct (1 <=? weld_mode p); destruct (2 <=? weld_mode p);
    destruct (3 <=? weld_mode p); lia.
Qed.




Section CycleTime.

Variable ARM_TIMEOUT_MS : Z.
Variable fuel : nat.
Variable w : World.
Hypothesis enough : (200 <= fuel)%nat.
Hypothesis in_range : params_in_range (params w).


End CycleTime.



Section OnTime.

Variable ARM_TIMEOUT_MS : Z.
Variable fuel : nat.
Variable w : World.
Hypothesis enough : (200 <= fuel)%nat.
Hypothesis in_range : params_in_range (params w).


End OnTime.


(** ** The busy flag through a weld cycle *)

Lemma recipe_steps_ok (p : Params) :
  params_in_range p -> Forall step_ok (recipe_steps p).
Proof.
  intros (Q1 & Q2 & Q3 & Q4 & Q5 & Q6 & Q7 & Q8 & Q9 & Q10).
  unfold recipe_steps. cbv zeta.
  repeat (apply Forall_app; split).
  - destruct (preheat_enabled p && (0 <? preheat_ms p)); [|constructor].
    constructor; [cbn; lia|].
    destruct (0 <? preheat_gap_ms p); repeat constructor; cbn; lia.
  - destruct (1 <=? weld_mode p); repeat constructor; cbn; lia.
  - destruct (2 <=? weld_mode p); repeat constructor; cbn; lia.
  - destruct (3 <=? weld_mode p); repeat constructor; cbn; lia.
Qed.

Lemma play_events_app (a b : list Step) : forall t : Z,
  play_events t (a ++ b) = play_events t a ++ play_events (t + play_us a) b.
Proof.
  induction a as [|s a IH]; intros t; cbn [app play_events play_us].
  - now rewrite Z.add_0_r.
  - rewrite IH, <- app_assoc, Z.add_assoc. reflexivity.
Qed.

Lemma play_us_nonneg (steps : list Step) :
  Forall step_ok steps -> 0 <= play_us steps.
Proof.
  induction 1 as [|s steps Hs _ IH]; cbn [play_us]; [lia|].
  destruct s as [ms duty|ms|]; cbn [step_us step_ok] in *;
    try pose proof (stage_us_range ms Hs); lia.
Qed.

Section StagesOfTheCycle.

Variable fuel : nat.
Hypothesis enough : (200 <= fuel)%nat.

Lemma hal_stage_closed (s : Step) (w : World) :
  step_ok s ->
  hal_stage fuel s w = Some (advance (step_events (clock w) s) (step_us s) w).
Proof.
  destruct s as [ms duty|ms|]; cbn [step_ok hal_stage step_events step_us]; intros Hs.
  - apply hal_doPulseMsPwm; assumption.
  - apply hal_delayMsExact; assumption.
  - unfold Blackpill.pwmOff. rewrite emit_advance. reflexivity.
Qed.

Lemma hal_play_closed (steps : list Step) : forall w : World,
  Forall step_ok steps ->
  hal_play fuel steps w
  = Some (advance (play_events (clock w) steps) (play_us steps) w).
Proof.
  induction steps as [|s steps IH]; intros w Hok; cbn [hal_play play_events play_us].
  - now rewrite advance_nil.
  - inversion Hok as [|? ? Hs Hrest]; subst.
    rewrite hal_stage_closed by assumption. cbn [bind].
    rewrite IH by assumption. rewrite advance_advance. reflexivity.
Qed.

End StagesOfTheCycle.

Lemma arduino_stage_closed (s : Step) (w : World) :
  step_ok s ->
  arduino_stage s w = advance (step_events (clock w) s) (step_us s) w.
Proof.
  destruct s as [ms duty|ms|]; cbn [step_ok arduino_stage step_events step_us]; intros Hs.
  - apply arduino_doPulseMsPwm; assumption.
  - apply arduino_delayMsExact; assumption.
  - unfold WeldController.pwmOff. rewrite emit_advance. reflexivity.
Qed.

Lemma arduino_play_closed (steps : list Step) : forall w : World,
  Forall step_ok steps ->
  arduino_play steps w = advance (play_events (clock w) steps) (play_us steps) w.
Proof.
  unfold arduino_play.
  induction steps as [|s steps IH]; intros w Hok; cbn [fold_left play_events play_us].
  - now rewrite advance_nil.
  - inversion Hok as [|? ? Hs Hrest]; subst.
    rewrite arduino_stage_closed by assumption.
    rewrite IH by assumption. rewrite advance_advance. reflexivity.
Qed.

Lemma pulses_from_skip_tx (a b : list Event) (s : string) : forall on,
  pulses_from on (a ++ Tx s :: b) = pulses_from on (a ++ b).
Proof.
  induction a as [|e a IH]; intros on; [reflexivity|].
  destruct e; cbn [app pulses_from]; try apply IH.
  destruct on as [[t0 d]|]; [f_equal|]; apply IH.
Qed.

Lemma tx_lines_pwm (evs : list Event) : forallb is_pwm evs = true -> tx_lines evs = [].
Proof.
  induction evs as [|e evs IH]; [reflexivity|].
  cbn [forallb]. intros H. apply andb_prop in H as [He H].
  destruct e; try discriminate; cbn [tx_lines]; apply IH; exact H.
Qed.

Lemma tx_lines_append (a b : list Event) : tx_lines (a ++ b) = tx_lines a ++ tx_lines b.
Proof.
  induction a as [|e a IH]; [reflexivity|].
  destruct e; cbn [app tx_lines]; rewrite IH; reflexivity.
Qed.

Lemma arm_expired_off (w : World) : arm_expired 0 w = false.
Proof. reflexivity. Qed.

Section BusyFlag.

Variable ARM_TIMEOUT_MS : Z.
Variable dead : Z.
Variable done : Z -> Z -> Params -> string.
Variable fire : Z -> World -> option World.
Variable lead : World -> option World.
Variable play : list Step -> World -> option World.
Variable finish : World -> World -> World.

Hypothesis dead_range : 0 <= dead <= 3000.
Hypothesis fire_outcome_ok : forall (t : Z) (w : World),
  params_in_range (params w) -> fire t w = Some (fire_outcome dead done t w).
Hypothesis lead_closed : forall w : World,
  lead w = Some (advance [] dead (hal_start w)).
Hypothesis play_closed : forall (steps : list Step) (w : World),
  Forall step_ok steps ->
  play steps w = Some (advance (play_events (clock w) steps) (play_us steps) w).
Hypothesis finish_closed : forall w1 wN : World,
  finish w1 wN
  = emit (Tx (done (clock w1) (clock wN) (params wN)))
      (set_last_weld_ms (u32 (clock wN / 1000))
         (set_welding_now false (emit (PwmOff (clock wN)) wN))).

Variable w : World.
Hypothesis in_range : params_in_range (params w).
Hypothesis granted : authorize_fire ARM_TIMEOUT_MS w = (w, None).
Hypothesis no_wrap : boot_elapsed w < 4294965296.

Lemma busy_through_cycle_closed :
  busy_through_cycle ARM_TIMEOUT_MS fire lead play finish w.
Proof.
  pose proof (authorize_fire_granted _ _ _ granted) as (_ & Hboot & _ & Harmed & Hidle & _).
  set (p' := Blackpill.clamp_params (params w)).
  set (steps := recipe_steps p').
  assert (Hr' : params_in_range p') by (apply clamp_params_range; exact in_range).
  assert (Hok : Forall step_ok steps) by (apply recipe_steps_ok; exact Hr').
  set (w1 := advance [] dead (hal_start w)).
  assert (Hp1 : params w1 = p') by reflexivity.
  set (wN := advance (play_events (clock w1) steps) (play_us steps) w1).
  assert (Hcycle : finish w1 wN = cycle dead done w).
  { rewrite finish_closed. unfold wN, w1, hal_start, cycle, cycle_events. cbv zeta.
    fold p' steps. destruct w as [p s pd c tr]. world_unfold.
    rewrite ?app_nil_r. repeat (progress (rewrite <- ?app_assoc; cbn [app])). reflexivity. }
  exists w1, wN, (done (clock w + dead) (clock w + dead + play_us steps) p').
  split; [apply lead_closed|].
  split; [rewrite Hp1; apply play_closed; exact Hok|].
  split.
  { rewrite (fire_outcome_ok _ _ in_range). unfold fire_outcome. rewrite granted.
    now rewrite Hcycle. }
  split; [rewrite Hcycle; apply cycle_bracketed|].
  split; [rewrite Hcycle; apply cycle_tx_lines|].
  intros pre post Hsplit. rewrite Hp1 in Hsplit. fold steps in Hsplit.
  assert (Hokp : Forall step_ok pre /\ Forall step_ok post).
  { rewrite Hsplit in Hok. apply Forall_app in Hok. exact Hok. }
  destruct Hokp as [Hpre Hpost].
  pose proof (play_us_nonneg _ Hpre) as Hpre0.
  pose proof (play_us_nonneg _ Hpost) as Hpost0.
  assert (Htot : play_us pre + play_us post <= 1400000).
  { rewrite <- play_us_app, <- Hsplit. unfold steps.
    rewrite (recipe_play_us _ Hr').
    pose proof (recipe_total_range _ (clamp_params_limits _ in_range)). fold p' in H. lia. }
  set (wi := advance (play_events (clock w1) pre) (play_us pre) w1).
  set (deny := Tx "DENY,ALREADY_WELDING").
  set (wN' := advance (play_events (clock wi) post) (play_us post) (emit deny wi)).
  assert (Hflag : welding_now (safety wi) = true) by reflexivity.
  assert (Hri : params_in_range (params wi)) by exact Hr'.
  assert (Hai : armed (safety wi) = true) by exact Harmed.
  assert (Hbi : BOOT_INHIBIT_MS <= boot_elapsed wi).
  { assert (Hc : clock wi = clock w + (dead + play_us pre)).
    { unfold wi, w1, hal_start. destruct w. world_unfold. lia. }
    unfold boot_elapsed in *. rewrite Hc.
    change (boot_ms (safety wi)) with (boot_ms (safety w)).
    set (a := clock w / 1000) in *.
    set (k := (clock w + (dead + play_us pre)) / 1000 - a).
    assert (Hk : 0 <= k <= 1404).
    { unfold k, a.
      pose proof (Z.div_le_mono (clock w) (clock w + (dead + play_us pre)) 1000).
      pose proof (Z.div_le_mono (clock w + (dead + play_us pre)) (clock w + 1000 * 1404) 1000).
      rewrite (Z.mul_comm 1000 1404), Z.div_add in H0 by lia. lia. }
    replace ((clock w + (dead + play_us pre)) / 1000) with (a + k) by (unfold k; lia).
    rewrite u32_sub_l in Hboot, no_wrap |- *.
    replace (a + k - boot_ms (safety w)) with (a - boot_ms (safety w) + k) by lia.
    rewrite <- u32_add_l, u32_small; unfold BOOT_INHIBIT_MS in *; lia. }
  assert (Hgate0 : authorize_fire 0 wi = (wi, Some ALREADY_WELDING)).
  { unfold authorize_fire. rewrite (proj2 (Z.ltb_ge _ _) Hbi). cbv zeta.
    change (after_arm_check 0 wi) with wi. rewrite Hai, Hflag. reflexivity. }
  assert (Hgate : authorize_fire ARM_TIMEOUT_MS wi
                  = (after_arm_check ARM_TIMEOUT_MS wi,
                     Some (if arm_expired ARM_TIMEOUT_MS wi then NOT_ARMED
                           else ALREADY_WELDING))).
  { unfold authorize_fire. rewrite (proj2 (Z.ltb_ge _ _) Hbi). cbv zeta.
    unfold after_arm_check. destruct (arm_expired ARM_TIMEOUT_MS wi).
    - reflexivity.
    - rewrite Hai, Hflag. reflexivity. }
  exists wi, wN'.
  split; [apply play_closed; exact Hpre|].
  split; [exact Hflag|].
  split.
  { rewrite (fire_outcome_ok _ _ Hri). unfold fire_outcome. rewrite Hgate0. reflexivity. }
  split.
  { rewrite (fire_outcome_ok _ _ Hri). unfold fire_outcome. rewrite Hgate.
    destruct (arm_expired ARM_TIMEOUT_MS wi); reflexivity. }
  split; [apply play_closed; exact Hpost|].
  assert (Hev : new_events w (finish w1 wN')
                = [Welding true; Tx "EVENT,WELD_START"; PwmOff (clock w)]
                  ++ play_events (clock w + dead) pre
                  ++ deny :: play_events (clock w + dead + play_us pre) post
                  ++ [PwmOff (clock w + dead + play_us steps); Welding false;
                      Tx (done (clock w + dead) (clock w + dead + play_us steps) p')]).
  { apply new_events_app. rewrite finish_closed.
    unfold wN', wi, w1, hal_start, deny. destruct w as [p s pd c tr]. world_unfold.
    fold p' steps. rewrite Hsplit at 1 2. rewrite play_us_app.
    rewrite ?app_nil_r, ?Z.add_0_r, ?Z.add_assoc.
    repeat (progress (rewrite <- ?app_assoc; cbn [app])). reflexivity. }
  assert (Hev0 : new_events w (finish w1 wN)
                 = [Welding true; Tx "EVENT,WELD_START"; PwmOff (clock w)]
                   ++ play_events (clock w + dead) pre
                   ++ play_events (clock w + dead + play_us pre) post
                   ++ [PwmOff (clock w + dead + play_us steps); Welding false;
                       Tx (done (clock w + dead) (clock w + dead + play_us steps) p')]).
  { rewrite Hcycle.
    rewrite (new_events_app w (cycle dead done w) (cycle_events dead done w) eq_refl).
    unfold cycle_events. cbv zeta. fold p' steps.
    rewrite Hsplit at 1. rewrite play_events_app, <- !app_assoc. reflexivity. }
  split.
  { rewrite Hev, Hev0. unfold pulses.
    rewrite !(app_assoc [Welding true; Tx "EVENT,WELD_START"; PwmOff (clock w)]
                (play_events (clock w + dead) pre)).
    apply pulses_from_skip_tx. }
  split.
  { rewrite Hev. rewrite !tx_lines_append.
    rewrite (tx_lines_pwm _ (play_events_pwm pre _)).
    change (deny :: play_events (clock w + dead + play_us pre) post
            ++ [PwmOff (clock w + dead + play_us steps); Welding false;
                Tx (done (clock w + dead) (clock w + dead + play_us steps) p')])
      with ([deny] ++ play_events (clock w + dead + play_us pre) post
            ++ [PwmOff (clock w + dead + play_us steps); Welding false;
                Tx (done (clock w + dead) (clock w + dead + play_us steps) p')]).
    rewrite !tx_lines_append.
    rewrite (tx_lines_pwm _ (play_events_pwm post _)). reflexivity. }
  rewrite finish_closed. reflexivity.
Qed.

End BusyFlag.

Section BusyClaims.

Variable ARM_TIMEOUT_MS : Z.
Variable fuel : nat.
Variable w : World.
Hypothesis enough : (200 <= fuel)%nat.
Hypothesis in_range : params_in_range (params w).

(** C2.  The busy flag brackets the weld cycle and shuts out a second
    fire.  A request that finds the flag up, in whatever state, is
    rejected in both variants: no start event, no call of the output
    driver, no write of the flag, the parameters and the time of the last
    weld unchanged.  A request that is granted runs the cycle
    of [hal_cycle], respectively [arduino_cycle]: the flag is written
    before the output is first touched and cleared after it is forced off
    for the last time, and between any two steps of the recipe the flag
    is up and a fire request made there is answered
    [DENY,ALREADY_WELDING], after which the cycle goes on to deliver the
    pulses it would have delivered and to send its one completion event
    ([busy_through_cycle]).  The millisecond counter is taken not to wrap
    around past the boot time within two seconds of the request. *)
Theorem busy_flag_excludes_second_fire :
  (welding_now (safety w) = true ->
   exists w',
     Blackpill.fireRecipe ARM_TIMEOUT_MS fuel w = Some w' /\
     WeldController.fireRecipe ARM_TIMEOUT_MS w = w' /\
     rejected w w')
  /\ (authorize_fire ARM_TIMEOUT_MS w = (w, None) ->
      boot_elapsed w < 4294965296 ->
      Blackpill.fireRecipe ARM_TIMEOUT_MS fuel w = hal_cycle fuel w
      /\ WeldController.fireRecipe ARM_TIMEOUT_MS w = arduino_cycle w
      /\ busy_through_cycle ARM_TIMEOUT_MS
           (fun t => Blackpill.fireRecipe t fuel)
           (hal_lead fuel) (hal_play fuel) hal_end w
      /\ busy_through_cycle ARM_TIMEOUT_MS
           (fun t w => Some (WeldController.fireRecipe t w))
           (fun w => Some (arduino_lead w))
           (fun steps w => Some (arduino_play steps w)) arduino_end w).
Proof.
  split.
  - intros Hw.
    destruct (authorize_fire ARM_TIMEOUT_MS w) as [w1 [d|]] eqn:E.
    + exists (emit (Tx (denial_line d)) w1).
      split; [apply hal_fire_denied; exact E|].
      split; [apply arduino_fire_denied; exact E|].
      apply (denied_rejected ARM_TIMEOUT_MS); exact E.
    + apply authorize_fire_granted in E as (_ & _ & _ & _ & Hw' & _).
      rewrite Hw in Hw'. discriminate.
  - intros Hgranted Hwrap.
    assert (Hh : busy_through_cycle ARM_TIMEOUT_MS
                   (fun t => Blackpill.fireRecipe t fuel)
                   (hal_lead fuel) (hal_play fuel) hal_end w).
    { apply (busy_through_cycle_closed ARM_TIMEOUT_MS 3000 hal_done); try assumption.
      - lia.
      - intros t w0 Hr. cbv beta. apply hal_fire_outcome; assumption.
      - intros w0. unfold hal_lead. apply hal_delay_2. exact enough.
      - intros steps w0 Hok. apply hal_play_closed; assumption.
      - intros w1 wN. reflexivity. }
    assert (Ha : busy_through_cycle ARM_TIMEOUT_MS
                   (fun t w => Some (WeldController.fireRecipe t w))
                   (fun w => Some (arduino_lead w))
                   (fun steps w => Some (arduino_play steps w)) arduino_end w).
    { apply (busy_through_cycle_closed ARM_TIMEOUT_MS 2000 arduino_done); try assumption.
      - lia.
      - intros t w0 Hr. cbv beta. f_equal. apply arduino_fire_outcome; assumption.
      - intros w0. unfold arduino_lead, WeldController.delayMicroseconds.
        rewrite elapse_advance. reflexivity.
      - intros steps w0 Hok. f_equal. apply arduino_play_closed; assumption.
      - intros w1 wN. reflexivity. }
    split; [|split; [|split; [exact Hh|exact Ha]]].
    + destruct Hh as (w1 & wN & done & Hl & Hp & Hf & _).
      unfold hal_cycle. rewrite Hl. cbn [bind]. rewrite Hp. exact Hf.
    + destruct Ha as (w1 & wN & done & Hl & Hp & Hf & _).
      inversion Hl; subst w1. inversion Hp; subst wN. inversion Hf as [Hf'].
      rewrite Hf'. reflexivity.
Qed.

End BusyClaims.

(** Between the two stages of a double pulse, on the code: the flag is
    up, and a fire request is answered [DENY,ALREADY_WELDING]. *)
Lemma busy_flag_excludes_second_fire_witness :
  exists w1 wi : World,
    hal_lead 200 long_gap = Some w1
    /\ hal_play 200 [Drive 50 1023; Rest 500] w1 = Some wi
    /\ welding_now (safety wi) = true
    /\ Blackpill.fireRecipe 0 200 wi = Some (emit (Tx "DENY,ALREADY_WELDING") wi).
Proof.
  destruct (busy_flag_excludes_second_fire 0 200 long_gap) as [_ H].
  - apply Nat.le_refl.
  - unfold params_in_range. cbn. lia.
  - destruct H as (_ & _ & (w1 & wN & done & Hl & _ & _ & _ & _ & Hmid) & _).
    + reflexivity.
    + vm_compute. reflexivity.
    + assert (E : w1 = advance [] 3000 (hal_start long_gap)).
      { unfold hal_lead in Hl. rewrite (hal_delay_2 200 (Nat.le_refl 200)) in Hl.
        inversion Hl. reflexivity. }
      destruct (Hmid [Drive 50 1023; Rest 500] [Drive 50 1023])
        as (wi & _ & Hp & Hflag & Hdeny & _).
      { rewrite E. reflexivity. }
      exists w1, wi. auto.
Defined.

Section Duty.

Variable ARM_TIMEOUT_MS : Z.
Variable fuel : nat.
Variable w : World.
Hypothesis enough : (200 <= fuel)%nat.
Hypothesis in_range : params_in_range (params w).

Lemma expected_duties (p : Params) :
  params_in_range p ->
  Forall (fun pu => 0 <= fst pu <= PWM_MAX) (expected_pulses p)
  /\ (preheat_enabled p = false ->
      Forall (fun pu =>
                fst pu = Blackpill.pctToDuty (weld_power_pct (Blackpill.clamp_params p))
                /\ 511 <= fst pu)
        (expected_pulses p)).
Proof.
  intros Hr.
  pose proof (clamp_params_limits _ Hr) as Hl.
  set (p' := Blackpill.clamp_params p) in *.
  assert (Hmain : 511 <= Blackpill.pctToDuty (weld_power_pct p') <= PWM_MAX).
  { unfold within_limits in Hl.
    split.
    - change 511 with (Blackpill.pctToDuty 50). apply pctToDuty_le. lia.
    - apply pctToDuty_range. lia. }
  assert (Hpre : 0 <= Blackpill.pctToDuty (preheat_pct p') <= PWM_MAX).
  { unfold within_limits in Hl. apply pctToDuty_range. lia. }
  unfold expected_pulses. cbv zeta. fold p'. split.
  - apply Forall_app; split; [|apply Forall_app; split; [|apply Forall_app; split]];
      repeat match goal with
             | |- Forall _ (if ?c then _ else _) => destruct c
             | |- Forall _ [] => constructor
             | |- Forall _ (_ :: _) => constructor; [cbn [fst]; lia|]
             end.
  - intros ->. cbn [andb app].
    apply Forall_app; split; [|apply Forall_app; split];
      repeat match goal with
             | |- Forall _ (if ?c then _ else _) => destruct c
             | |- Forall _ [] => constructor
             | |- Forall _ (_ :: _) => constructor; [cbn [fst]; split; [reflexivity|lia]|]
             end.
Qed.

(** Every pulse of a granted fire is driven at a duty within the scale
    of the timer, 0 to 1023.  Without preheat all pulses of the cycle have
    one duty, that of the clamped power setting, which is 511 (50 %) at
    least. *)
Theorem pulse_duty_within_scale :
  authorize_fire ARM_TIMEOUT_MS w = (w, None) ->
  exists wh : World,
    Blackpill.fireRecipe ARM_TIMEOUT_MS fuel w = Some wh /\
    pulses (new_events w (WeldController.fireRecipe ARM_TIMEOUT_MS w))
    = pulses (new_events w wh) /\
    Forall (fun pu => 0 <= fst pu <= PWM_MAX) (pulses (new_events w wh)) /\
    (preheat_enabled (params w) = false ->
     Forall (fun pu =>
               fst pu = Blackpill.pctToDuty (weld_power_pct (params wh))
               /\ 511 <= fst pu)
       (pulses (new_events w wh))).
Proof.
  intros E.
  pose proof (hal_fire_outcome ARM_TIMEOUT_MS fuel w enough in_range) as Hh.
  pose proof (arduino_fire_outcome ARM_TIMEOUT_MS w in_range) as Ha.
  unfold fire_outcome in Hh, Ha. rewrite E in Hh, Ha.
  exists (cycle 3000 hal_done w). rewrite Ha.
  split; [exact Hh|].
  rewrite !cycle_pulses, recipe_pulses_expected by exact in_range.
  split; [reflexivity|].
  destruct (expected_duties (params w) in_range) as [H1 H2].
  split; [exact H1|exact H2].
Qed.

End Duty.

Lemma pulse_duty_within_scale_witness :
  exists wh : World,
    Blackpill.fireRecipe 0 200 idle_armed = Some wh /\
    Forall (fun pu => 0 <= fst pu <= PWM_MAX) (pulses (new_events idle_armed wh)).
Proof.
  destruct (pulse_duty_within_scale 0 200 idle_armed) as (wh & Hh & _ & H & _).
  - apply Nat.le_refl.
  - unfold params_in_range. cbn. lia.
  - reflexivity.
  - exists wh. split; [exact Hh|exact H].
Defined.

(** ** The arm timeout *)

Lemma s32_u32 (z : Z) : s32 (u32 z) = s32 z.
Proof. unfold s32. now rewrite u32_idem. Qed.

Lemma s32_diff (a b : Z) : s32 (u32 a - u32 b) = s32 (a - b).
Proof. rewrite <- s32_u32, u32_sub_l, u32_sub_r, s32_u32. reflexivity. Qed.

Lemma tick_elapse (dt : Z) (w : World) :
  Blackpill.HAL_GetTick (elapse dt w)
  = u32 (Blackpill.HAL_GetTick w + ticks_in dt w).
Proof.
  unfold Blackpill.HAL_GetTick, ticks_in, elapse, set_clock. cbn [clock].
  rewrite u32_add_l. f_equal. lia.
Qed.

Section ArmTimeout.

Variable ARM_TIMEOUT_MS : Z.
Variable fuel : nat.
Variable w : World.

Lemma arm_1 :
  ARM_TIMEOUT_MS <> 0 ->
  Blackpill.parseCommand ARM_TIMEOUT_MS fuel "ARM,1" w = Some (armed_world ARM_TIMEOUT_MS w)
  /\ WeldController.handleCmd ARM_TIMEOUT_MS "ARM,1" w = armed_world ARM_TIMEOUT_MS w.
Proof.
  intros HT. unfold Blackpill.parseCommand, WeldController.handleCmd.
  cbn [starts_with Ascii.eqb Bool.eqb andb].
  change (atoi (drop 4 "ARM,1") =? 1) with true. cbv iota zeta.
  rewrite (proj2 (Z.eqb_neq _ _) HT). split; reflexivity.
Qed.

Lemma arm_check_later (dt : Z) :
  ARM_TIMEOUT_MS <> 0 -> arm_deadline ARM_TIMEOUT_MS w <> 0 ->
  Blackpill.applyArmTimeout ARM_TIMEOUT_MS (elapse dt (armed_world ARM_TIMEOUT_MS w))
  = if 0 <=? s32 (ticks_in dt w - ARM_TIMEOUT_MS) then
      emit (Tx "EVENT,ARM_TIMEOUT") (set_armed false 0 (elapse dt (armed_world ARM_TIMEOUT_MS w)))
    else elapse dt (armed_world ARM_TIMEOUT_MS w).
Proof.
  intros HT Hd. unfold Blackpill.applyArmTimeout.
  rewrite (proj2 (Z.eqb_neq _ _) HT).
  change (armed (safety (elapse dt (armed_world ARM_TIMEOUT_MS w)))) with true.
  change (armed_until_ms (safety (elapse dt (armed_world ARM_TIMEOUT_MS w)))) with (arm_deadline ARM_TIMEOUT_MS w).
  cbn [negb]. rewrite (proj2 (Z.eqb_neq _ _) Hd). cbv zeta.
  change (Blackpill.HAL_GetTick (elapse dt (armed_world ARM_TIMEOUT_MS w)))
    with (Blackpill.HAL_GetTick (elapse dt w)).
  rewrite tick_elapse. unfold arm_deadline. fold (Blackpill.HAL_GetTick w).
  rewrite s32_diff.
  replace (Blackpill.HAL_GetTick w + ticks_in dt w
           - (Blackpill.HAL_GetTick w + ARM_TIMEOUT_MS))
    with (ticks_in dt w - ARM_TIMEOUT_MS) by lia.
  reflexivity.
Qed.

(** When the counter plus the timeout is 0 modulo 2^32 at the moment of
    [ARM,1], the deadline stored is 0, which [applyArmTimeout] reads as
    "no deadline": the unit is armed and the timeout never disarms it. *)
Theorem arm_deadline_zero_never_expires :
  ARM_TIMEOUT_MS <> 0 ->
  u32 (Blackpill.HAL_GetTick w + ARM_TIMEOUT_MS) = 0 ->
  exists w1 : World,
    Blackpill.parseCommand ARM_TIMEOUT_MS fuel "ARM,1" w = Some w1 /\
    WeldController.handleCmd ARM_TIMEOUT_MS "ARM,1" w = w1 /\
    armed (safety w1) = true /\
    forall dt : Z,
      Blackpill.applyArmTimeout ARM_TIMEOUT_MS (elapse dt w1) = elapse dt w1
      /\ WeldController.applyArmTimeout ARM_TIMEOUT_MS (elapse dt w1) = elapse dt w1.
Proof.
  intros HT Hd. destruct (arm_1 HT) as [Hh Ha].
  exists (armed_world ARM_TIMEOUT_MS w). split; [exact Hh|]. split; [exact Ha|].
  split; [reflexivity|].
  intros dt. change WeldController.applyArmTimeout with Blackpill.applyArmTimeout.
  assert (H : Blackpill.applyArmTimeout ARM_TIMEOUT_MS (elapse dt (armed_world ARM_TIMEOUT_MS w))
              = elapse dt (armed_world ARM_TIMEOUT_MS w)).
  { unfold Blackpill.applyArmTimeout.
    rewrite (proj2 (Z.eqb_neq _ _) HT).
    change (armed (safety (elapse dt (armed_world ARM_TIMEOUT_MS w)))) with true.
    change (armed_until_ms (safety (elapse dt (armed_world ARM_TIMEOUT_MS w)))) with (arm_deadline ARM_TIMEOUT_MS w).
    unfold arm_deadline. fold (Blackpill.HAL_GetTick w). rewrite Hd. reflexivity. }
  auto.
Qed.

(** [CMD,ENABLE] of the HAL variant arms the unit and leaves the deadline
    as it finds it, as [CMD,DISABLE] does when it disarms.  With no
    deadline pending (after [ARM,0], after an expiry, or from power-on)
    the unit is armed for good: no later arm-timeout check disarms it,
    whatever timeout is configured. *)
Theorem enable_sets_no_deadline :
  exists w1 w0 : World,
    Blackpill.parseCommand ARM_TIMEOUT_MS fuel "CMD,ENABLE" w = Some w1 /\
    Blackpill.parseCommand ARM_TIMEOUT_MS fuel "CMD,DISABLE" w = Some w0 /\
    armed (safety w1) = true /\ armed (safety w0) = false /\
    armed_until_ms (safety w1) = armed_until_ms (safety w) /\
    armed_until_ms (safety w0) = armed_until_ms (safety w) /\
    new_events w w1 = [Tx "ACK,ENABLED"] /\
    new_events w w0 = [Tx "ACK,DISABLED"] /\
    (armed_until_ms (safety w) = 0 ->
     forall dt : Z,
       Blackpill.applyArmTimeout ARM_TIMEOUT_MS (elapse dt w1) = elapse dt w1).
Proof.
  eexists. eexists.
  split; [reflexivity|]. split; [reflexivity|].
  split; [reflexivity|]. split; [reflexivity|].
  split; [reflexivity|]. split; [reflexivity|].
  split; [apply new_events_app; reflexivity|].
  split; [apply new_events_app; reflexivity|].
  intros H0 dt. unfold Blackpill.applyArmTimeout.
  destruct (ARM_TIMEOUT_MS =? 0); [reflexivity|].
  cbn [armed safety elapse set_clock Blackpill.uartSend emit set_armed set_safety
       negb armed_until_ms].
  rewrite H0. reflexivity.
Qed.

End ArmTimeout.

Section ArmDeadline.

Variable ARM_TIMEOUT_MS : Z.
Variable fuel : nat.
Variable w : World.

(** With a timeout of [T] ms configured (0 < T < 2^31) and a deadline,
    the counter plus [T] modulo 2^32, that is not 0, a unit armed by
    [ARM,1] is checked [n] counts later.  With [n < T] the check leaves it
    armed.  With [T <= n < T + 2^31] the check disarms it, with one
    [EVENT,ARM_TIMEOUT], and no later check does anything until the unit
    is armed again.  With [T + 2^31 <= n < T + 2^32] the signed
    difference to the deadline is negative again: a check that comes so
    late, with none before it, leaves the unit armed. *)
Theorem arm_expires_at_deadline (dt : Z) :
  0 < ARM_TIMEOUT_MS < 2147483648 ->
  u32 (Blackpill.HAL_GetTick w + ARM_TIMEOUT_MS) <> 0 ->
  0 <= dt ->
  exists w1 : World,
    Blackpill.parseCommand ARM_TIMEOUT_MS fuel "ARM,1" w = Some w1 /\
    WeldController.handleCmd ARM_TIMEOUT_MS "ARM,1" w = w1 /\
    armed (safety w1) = true /\
    let w2 := elapse dt w1 in
    (ticks_in dt w < ARM_TIMEOUT_MS ->
     Blackpill.applyArmTimeout ARM_TIMEOUT_MS w2 = w2
     /\ WeldController.applyArmTimeout ARM_TIMEOUT_MS w2 = w2)
    /\ (ARM_TIMEOUT_MS <= ticks_in dt w < ARM_TIMEOUT_MS + 2147483648 ->
        let w3 := emit (Tx "EVENT,ARM_TIMEOUT") (set_armed false 0 w2) in
        Blackpill.applyArmTimeout ARM_TIMEOUT_MS w2 = w3
        /\ WeldController.applyArmTimeout ARM_TIMEOUT_MS w2 = w3
        /\ forall dt' : Z,
             Blackpill.applyArmTimeout ARM_TIMEOUT_MS (elapse dt' w3) = elapse dt' w3)
    /\ (ARM_TIMEOUT_MS + 2147483648 <= ticks_in dt w < ARM_TIMEOUT_MS + 4294967296 ->
        Blackpill.applyArmTimeout ARM_TIMEOUT_MS w2 = w2
        /\ WeldController.applyArmTimeout ARM_TIMEOUT_MS w2 = w2).
Proof.
  intros HT Hd Hdt.
  assert (HT0 : ARM_TIMEOUT_MS <> 0) by lia.
  destruct (arm_1 ARM_TIMEOUT_MS fuel w HT0) as [Hh Ha].
  exists (armed_world ARM_TIMEOUT_MS w). split; [exact Hh|]. split; [exact Ha|].
  split; [reflexivity|]. cbv zeta.
  assert (He : 0 <= ticks_in dt w).
  { unfold ticks_in. pose proof (Z.div_le_mono (clock w) (clock w + dt) 1000). lia. }
  change WeldController.applyArmTimeout with Blackpill.applyArmTimeout.
  rewrite (arm_check_later ARM_TIMEOUT_MS w dt HT0 Hd).
  split; [|split].
  - intros Hlt. rewrite s32_small by lia.
    destruct (Z.leb_spec 0 (ticks_in dt w - ARM_TIMEOUT_MS)); [lia|]. auto.
  - intros Hge. rewrite s32_small by lia.
    destruct (Z.leb_spec 0 (ticks_in dt w - ARM_TIMEOUT_MS)); [|lia].
    split; [reflexivity|]. split; [reflexivity|].
    intros dt'. unfold Blackpill.applyArmTimeout.
    rewrite (proj2 (Z.eqb_neq _ _) HT0). reflexivity.
  - intros Hlate. rewrite s32_high by lia.
    destruct (Z.leb_spec 0 (ticks_in dt w - ARM_TIMEOUT_MS - 4294967296)); [lia|]. auto.
Qed.

End ArmDeadline.

Lemma arm_expires_at_deadline_witness :
  Blackpill.applyArmTimeout 30000
    (elapse 30000000
       (emit (Tx "ACK,ARM,1") (set_armed true 36000 idle_armed)))
  = emit (Tx "EVENT,ARM_TIMEOUT")
      (set_armed false 0
         (elapse 30000000
            (emit (Tx "ACK,ARM,1") (set_armed true 36000 idle_armed)))).
Proof.
  destruct (arm_expires_at_deadline 30000 200 idle_armed 30000000)
    as (w1 & Hh & _ & _ & _ & H & _).
  - lia.
  - vm_compute. discriminate.
  - lia.
  - assert (E : w1 = emit (Tx "ACK,ARM,1") (set_armed true 36000 idle_armed)).
    { vm_compute in Hh. inversion Hh. reflexivity. }
    rewrite <- E. apply H. vm_compute. split; [discriminate|reflexivity].
Defined.

Lemma arm_deadline_zero_never_expires_witness :
  exists w1 : World,
    Blackpill.parseCommand 4294961296 200 "ARM,1" idle_armed = Some w1 /\
    armed (safety w1) = true /\
    Blackpill.applyArmTimeout 4294961296 (elapse 5000000000000 w1)
    = elapse 5000000000000 w1.
Proof.
  destruct (arm_deadline_zero_never_expires 4294961296 200 idle_armed)
    as (w1 & Hh & _ & Ha & H).
  - discriminate.
  - reflexivity.
  - exists w1. split; [exact Hh|]. split; [exact Ha|]. apply H.
Defined.

(** ** The receive path of the HAL variant *)

Lemma store_length (i : Z) (c : ascii) (buf : list ascii) :
  List.length (store i c buf) = List.length buf.
Proof.
  unfold store.
  destruct (Z.leb_spec 0 i); cbn [andb]; [|reflexivity].
  destruct (Z.ltb_spec i (Z.of_nat (List.length buf))); [|reflexivity].
  rewrite length_app. cbn [List.length]. rewrite length_firstn, length_skipn. lia.
Qed.

Lemma store_app (pre rest : list ascii) (x c : ascii) :
  store (Z.of_nat (List.length pre)) c (pre ++ x :: rest) = pre ++ c :: rest.
Proof.
  unfold store. rewrite length_app. cbn [List.length].
  rewrite (proj2 (Z.leb_le _ _)) by lia.
  rewrite (proj2 (Z.ltb_lt _ _)) by lia. cbn [andb].
  rewrite Nat2Z.id.
  rewrite firstn_app, firstn_all, Nat.sub_diag. cbn [firstn].
  rewrite app_nil_r. f_equal.
  change (S (List.length pre)) with (1 + List.length pre)%nat.
  rewrite <- skipn_skipn.
  rewrite skipn_app, skipn_all, Nat.sub_diag. reflexivity.
Qed.

Lemma rx_callback_ok (c : ascii) (r : Rx) :
  rx_ok r -> rx_ok (HAL_UART_RxCpltCallback c r).
Proof.
  intros [Hlen Hidx]. unfold HAL_UART_RxCpltCallback, rx_ok, RX_LINE_MAX. cbv zeta.
  destruct (Ascii.eqb c "010" || Ascii.eqb c "013").
  - destruct (0 <? rx_idx r); cbn [rx_line rx_idx]; [|auto].
    rewrite store_length. split; [exact Hlen|lia].
  - destruct (Z.ltb_spec (rx_idx r) (128 - 1)); cbn [rx_line rx_idx]; [|auto].
    rewrite store_length, u8_small by lia. split; [exact Hlen|lia].
Qed.

(** The index of the receive buffer never passes 127: the store of a
    character falls at 126 at most and the store of the terminating NUL
    at 127 at most, inside the 128 bytes, whatever bytes arrive and
    however long a line is. *)
Theorem rx_index_in_bounds (bytes : list ascii) (r : Rx) :
  rx_ok r -> rx_ok (receive bytes r).
Proof.
  unfold receive. revert r.
  induction bytes as [|c bytes IH]; intros r Hok; [exact Hok|].
  cbn [fold_left]. apply IH, rx_callback_ok, Hok.
Qed.

Lemma rx_index_in_bounds_witness :
  rx_ok (receive (repeat "A"%char 300 ++ ["010"%char]) rx_power_on).
Proof.
  apply rx_index_in_bounds. split; [reflexivity|cbn; lia].
Defined.

Lemma receive_app (a b : list ascii) (r : Rx) :
  receive (a ++ b) r = receive b (receive a r).
Proof. unfold receive. apply fold_left_app. Qed.

Lemma receive_cons (c : ascii) (cs : list ascii) (r : Rx) :
  receive (c :: cs) r = receive cs (HAL_UART_RxCpltCallback c r).
Proof. reflexivity. Qed.

Lemma receive_chars (cs : list ascii) : forall (pre rest : list ascii) (ready : bool),
  forallb (fun c => negb (is_eol c)) cs = true ->
  (List.length pre + List.length cs <= 127)%nat ->
  (List.length cs < List.length rest)%nat ->
  receive cs (mkRx (pre ++ rest) (Z.of_nat (List.length pre)) ready)
  = mkRx (pre ++ cs ++ skipn (List.length cs) rest)
      (Z.of_nat (List.length pre + List.length cs)) ready.
Proof.
  induction cs as [|c cs IH]; intros pre rest ready Hcs Hlen Hrest.
  - cbn [receive fold_left List.length app skipn]. now rewrite Nat.add_0_r.
  - cbn [forallb] in Hcs. apply andb_prop in Hcs as [Hc Hcs].
    cbn [List.length] in Hlen, Hrest.
    destruct rest as [|x rest]; [cbn in Hrest; lia|]. cbn [List.length] in Hrest.
    rewrite receive_cons. unfold HAL_UART_RxCpltCallback. cbv zeta.
    unfold is_eol in Hc. apply negb_true_iff in Hc. rewrite Hc.
    cbn [rx_idx rx_line rx_line_ready]. unfold RX_LINE_MAX.
    rewrite (proj2 (Z.ltb_lt _ _)) by lia.
    rewrite store_app, u8_small by lia.
    replace (Z.of_nat (List.length pre) + 1)
      with (Z.of_nat (List.length (pre ++ [c])))
      by (rewrite length_app; cbn [List.length]; lia).
    replace (pre ++ c :: rest) with ((pre ++ [c]) ++ rest)
      by (rewrite <- app_assoc; reflexivity).
    rewrite IH.
    + rewrite length_app. cbn [List.length app skipn].
      rewrite <- app_assoc. cbn [app]. do 2 f_equal. lia.
    + exact Hcs.
    + rewrite length_app. cbn [List.length]. lia.
    + lia.
Qed.

(** With the buffer full, characters are dropped. *)
Lemma receive_full (cs : list ascii) (r : Rx) :
  forallb (fun c => negb (is_eol c)) cs = true ->
  rx_idx r = 127 -> receive cs r = r.
Proof.
  intros Hcs Hidx.
  induction cs as [|c cs IH]; [reflexivity|].
  cbn [forallb] in Hcs. apply andb_prop in Hcs as [Hc Hcs].
  rewrite receive_cons. unfold HAL_UART_RxCpltCallback. cbv zeta.
  unfold is_eol in Hc. apply negb_true_iff in Hc. rewrite Hc, Hidx.
  change (127 <? RX_LINE_MAX - 1) with false. cbv iota. apply IH. exact Hcs.
Qed.

Lemma forallb_firstn {A : Type} (f : A -> bool) (n : nat) (l : list A) :
  forallb f l = true -> forallb f (firstn n l) = true.
Proof.
  revert n. induction l as [|x l IH]; intros [|n] H; try reflexivity.
  cbn [forallb firstn] in *. apply andb_prop in H as [Hx H].
  now rewrite Hx, IH.
Qed.

Lemma forallb_skipn {A : Type} (f : A -> bool) (n : nat) (l : list A) :
  forallb f l = true -> forallb f (skipn n l) = true.
Proof.
  revert n. induction l as [|x l IH]; intros [|n] H; try reflexivity; [exact H|].
  cbn [forallb skipn] in *. apply andb_prop in H as [_ H]. now apply IH.
Qed.

(** From an empty line, the characters of a line: the first 127 are in
    the buffer, the rest dropped. *)
Lemma receive_line_chars (cs : list ascii) (r : Rx) :
  rx_ok r -> rx_idx r = 0 ->
  forallb (fun c => negb (is_eol c)) cs = true ->
  let kept := firstn 127 cs in
  receive cs r
  = mkRx (kept ++ skipn (List.length kept) (rx_line r))
      (Z.of_nat (List.length kept)) (rx_line_ready r).
Proof.
  intros [Hlen _] Hidx Hcs kept.
  rewrite <- (firstn_skipn 127 cs) at 1. rewrite receive_app. fold kept.
  assert (Hk : (List.length kept <= 127)%nat) by apply firstn_le_length.
  destruct r as [buf idx ready]. cbn [rx_idx rx_line rx_line_ready] in *. subst idx.
  pose proof (receive_chars kept [] buf ready (forallb_firstn _ 127 cs Hcs)) as H.
  cbn [List.length app Nat.add] in H. change (Z.of_nat 0) with 0 in H.
  rewrite H by lia. clear H.
  destruct (Nat.eq_dec (List.length kept) 127) as [E|E].
  - apply receive_full; [apply forallb_skipn, Hcs|].
    cbn [rx_idx]. lia.
  - assert (Hs : skipn 127 cs = []).
    { apply skipn_all2. unfold kept in *. rewrite length_firstn in E. lia. }
    rewrite Hs. reflexivity.
Qed.

Lemma cstring_app (cs rest : list ascii) :
  forallb (fun c => negb (Ascii.eqb c zero)) cs = true ->
  cstring (cs ++ zero :: rest) = string_of_list_ascii cs.
Proof.
  induction cs as [|c cs IH]; intros H; [reflexivity|].
  cbn [forallb] in H. apply andb_prop in H as [Hc H].
  apply negb_true_iff in Hc.
  cbn [app cstring string_of_list_ascii]. rewrite Hc. f_equal. apply IH, H.
Qed.

Lemma line_char_split (cs : list ascii) :
  forallb line_char cs = true ->
  forallb (fun c => negb (is_eol c)) cs = true
  /\ forallb (fun c => negb (Ascii.eqb c zero)) cs = true.
Proof.
  induction cs as [|c cs IH]; intros H; [auto|].
  cbn [forallb] in *. apply andb_prop in H as [Hc H].
  unfold line_char in Hc. apply andb_prop in Hc as [H1 H2].
  destruct (IH H) as [I1 I2]. now rewrite H1, H2, I1, I2.
Qed.

(** The world after a complete line: its first 127 characters, the NUL
    behind them, the index back at 0 and the flag up. *)
Lemma receive_line (cs : list ascii) (t : ascii) (r : Rx) :
  rx_ok r -> rx_idx r = 0 -> cs <> [] ->
  forallb (fun c => negb (is_eol c)) cs = true -> is_eol t = true ->
  let kept := firstn 127 cs in
  exists x rest,
    skipn (List.length kept) (rx_line r) = x :: rest /\
    receive (cs ++ [t]) r = mkRx (kept ++ zero :: rest) 0 true.
Proof.
  intros Hok Hidx Hne Hcs Ht kept.
  assert (Hk : (0 < List.length kept <= 127)%nat).
  { unfold kept. rewrite length_firstn. destruct cs; [congruence|cbn [List.length]; lia]. }
  destruct Hok as [Hlen Hi].
  destruct (skipn (List.length kept) (rx_line r)) as [|x rest] eqn:Hs.
  { apply (f_equal (@List.length ascii)) in Hs. rewrite length_skipn in Hs.
    cbn [List.length] in Hs. lia. }
  exists x, rest. split; [reflexivity|].
  rewrite receive_app, (receive_line_chars cs r (conj Hlen Hi) Hidx Hcs).
  fold kept. rewrite Hs.
  unfold receive. cbn [fold_left]. unfold HAL_UART_RxCpltCallback. cbv zeta.
  unfold is_eol in Ht. rewrite Ht. cbn [rx_idx rx_line].
  rewrite (proj2 (Z.ltb_lt _ _)) by lia.
  rewrite store_app. reflexivity.
Qed.

Section Receive.

Variable ARM_TIMEOUT_MS : Z.
Variable fuel : nat.

(** A line received from an empty buffer reaches the parser as it was
    sent, cut to its first 127 characters: after the bytes of the line
    (none of them CR, LF or NUL) and a CR or LF, the flag is up and the
    buffer reads as those characters; a second end-of-line byte, as in
    CR LF, changes nothing; and the next turn of the loop hands that line
    to [parseCommand] and takes the flag down. *)
Theorem rx_delivers_line (cs : list ascii) (t : ascii) (r : Rx) :
  rx_ok r -> rx_idx r = 0 -> cs <> [] ->
  forallb line_char cs = true -> is_eol t = true ->
  let line := string_of_list_ascii (firstn 127 cs) in
  let r' := receive (cs ++ [t]) r in
  rx_pending r' = Some line
  /\ rx_idx r' = 0
  /\ (forall t', is_eol t' = true -> receive [t'] r' = r')
  /\ forall (raw : Level) (w : World),
       main_turn ARM_TIMEOUT_MS fuel raw (w, r')
       = (w' <- Blackpill.main_loop ARM_TIMEOUT_MS fuel raw (Some line) w ;;
          Some (w', mkRx (rx_line r') 0 false)).
Proof.
  intros Hok Hidx Hne Hcs Ht line r'.
  destruct (line_char_split cs Hcs) as [Heol Hnul].
  destruct (receive_line cs t r Hok Hidx Hne Heol Ht) as (x & rest & _ & Hr).
  assert (Hp : rx_pending r' = Some line).
  { unfold r', rx_pending. rewrite Hr. cbn [rx_line_ready rx_line].
    rewrite cstring_app by (apply forallb_firstn, Hnul). reflexivity. }
  split; [exact Hp|]. split; [unfold r'; rewrite Hr; reflexivity|]. split.
  - intros t' Ht'. unfold r'. rewrite Hr. unfold receive. cbn [fold_left].
    unfold HAL_UART_RxCpltCallback. cbv zeta. unfold is_eol in Ht'. rewrite Ht'.
    reflexivity.
  - intros raw w. unfold main_turn. cbn [fst snd]. rewrite Hp.
    unfold r'. rewrite Hr. reflexivity.
Qed.

(** The buffer is not guarded by the flag.  A byte that arrives after a
    line is complete and before the loop has taken it is stored at the
    head of the buffer: the line the loop then hands to [parseCommand]
    is the pending line with its first character replaced by that
    byte. *)
Theorem rx_byte_overwrites_pending_line (cs : list ascii) (t c : ascii) (r : Rx) :
  rx_ok r -> rx_idx r = 0 -> cs <> [] ->
  forallb line_char cs = true -> is_eol t = true -> line_char c = true ->
  let r' := receive (cs ++ [t; c]) r in
  rx_pending r'
  = Some (String c (string_of_list_ascii (tl (firstn 127 cs))))
  /\ rx_idx r' = 1.
Proof.
  intros Hok Hidx Hne Hcs Ht Hc r'.
  destruct (line_char_split cs Hcs) as [Heol Hnul].
  destruct (receive_line cs t r Hok Hidx Hne Heol Ht) as (x & rest & _ & Hr).
  unfold r'. change (cs ++ [t; c]) with (cs ++ [t] ++ [c]).
  rewrite app_assoc, receive_app, Hr.
  unfold receive. cbn [fold_left]. unfold HAL_UART_RxCpltCallback. cbv zeta.
  unfold line_char, is_eol in Hc. apply andb_prop in Hc as [Hc1 Hc2].
  apply negb_true_iff in Hc1. apply negb_true_iff in Hc2. rewrite Hc1.
  cbn [rx_idx rx_line rx_line_ready]. change (0 <? RX_LINE_MAX - 1) with true.
  cbv iota. unfold rx_pending. cbn [rx_line_ready rx_line rx_idx].
  destruct (firstn 127 cs) as [|k kept] eqn:Hk.
  { destruct cs; [congruence|discriminate]. }
  split; [|reflexivity].
  change (store 0 c ((k :: kept) ++ zero :: rest))
    with (store (Z.of_nat (List.length (@nil ascii))) c ([] ++ k :: kept ++ zero :: rest)).
  rewrite store_app. cbn [app cstring tl]. rewrite Hc2. do 2 f_equal.
  apply cstring_app.
  assert (H : forallb (fun c => negb (Ascii.eqb c zero)) (k :: kept) = true).
  { rewrite <- Hk. apply forallb_firstn, Hnul. }
  cbn [forallb] in H. apply andb_prop in H as [_ H]. exact H.
Qed.

End Receive.

Lemma rx_delivers_line_witness :
  rx_pending (receive (list_ascii_of_string "ARM,1" ++ ["013"%char]) rx_power_on)
  = Some "ARM,1".
Proof.
  apply (rx_delivers_line 0 200 (list_ascii_of_string "ARM,1") "013" rx_power_on).
  - split; [reflexivity|cbn; lia].
  - reflexivity.
  - discriminate.
  - reflexivity.
  - reflexivity.
Defined.

Lemma rx_byte_overwrites_pending_line_witness :
  rx_pending
    (receive (list_ascii_of_string "ARM,0" ++ ["010"%char; "C"%char]) rx_power_on)
  = Some "CRM,0".
Proof.
  apply (rx_byte_overwrites_pending_line (list_ascii_of_string "ARM,0") "010" "C"
           rx_power_on).
  - split; [reflexivity|cbn; lia].
  - reflexivity.
  - discriminate.
  - reflexivity.
  - reflexivity.
  - reflexivity.
Defined.

(** ** The receive path of the Arduino-core variant *)

Lemma pollUart_chars_app (ARM_TIMEOUT_MS : Z) (a b : list ascii) (st : string * World) :
  pollUart_chars ARM_TIMEOUT_MS (a ++ b) st
  = pollUart_chars ARM_TIMEOUT_MS b (pollUart_chars ARM_TIMEOUT_MS a st).
Proof. unfold pollUart_chars. apply fold_left_app. Qed.

Lemma append_assoc (a b c : string) : ((a ++ b) ++ c = a ++ (b ++ c))%string.
Proof. induction a as [|x a IH]; cbn [append]; [reflexivity|now rewrite IH]. Qed.

Lemma append_nil_r (a : string) : (a ++ "")%string = a.
Proof. induction a as [|x a IH]; cbn [append]; [reflexivity|now rewrite IH]. Qed.

Lemma length_append (a b : string) :
  String.length (a ++ b) = (String.length a + String.length b)%nat.
Proof. induction a as [|x a IH]; cbn [append String.length]; [reflexivity|now rewrite IH]. Qed.

Lemma no_cr_app (a b : string) : no_cr (a ++ b) = (no_cr a ++ no_cr b)%string.
Proof.
  induction a as [|x a IH]; cbn [append no_cr]; [reflexivity|].
  destruct (Ascii.eqb x "013"); cbn [append]; now rewrite IH.
Qed.

Lemma length_take (n : nat) : forall s : string,
  String.length (take n s) = Nat.min n (String.length s).
Proof.
  induction n as [|n IH]; intros [|c s]; cbn [take String.length]; try reflexivity.
  now rewrite IH.
Qed.

Lemma take_snoc (n : nat) : forall (s : string) (c : ascii),
  take n (s ++ String c "")
  = if (String.length s <? n)%nat then (take n s ++ String c "")%string
    else take n s.
Proof.
  induction n as [|n IH]; intros s c.
  - destruct s; reflexivity.
  - destruct s as [|x s]; [destruct n; reflexivity|].
    cbn [append take String.length]. rewrite IH.
    change (S (String.length s) <? S n)%nat with (String.length s <? n)%nat.
    destruct (String.length s <? n)%nat; reflexivity.
Qed.

Section PollUart.

Variable ARM_TIMEOUT_MS : Z.

(** The characters of a text without line feed grow [rxLine], which is
    the text so far without its carriage returns, cut at 220. *)
Lemma pollUart_text (s : string) : forall (p : string) (w : World),
  has_lf s = false ->
  pollUart_chars ARM_TIMEOUT_MS (list_ascii_of_string s) (take 220 (no_cr p), w)
  = (take 220 (no_cr (p ++ s)), w).
Proof.
  induction s as [|c s IH]; intros p w Hlf.
  - rewrite append_nil_r. reflexivity.
  - cbn [has_lf] in Hlf. apply orb_false_elim in Hlf as [Hc Hlf].
    cbn [list_ascii_of_string]. unfold pollUart_chars. cbn [fold_left].
    fold (pollUart_chars ARM_TIMEOUT_MS (list_ascii_of_string s)).
    replace (p ++ String c s)%string with ((p ++ String c "") ++ s)%string
      by (rewrite append_assoc; reflexivity).
    rewrite <- (IH (p ++ String c "")%string w Hlf). f_equal.
    unfold pollUart_char. rewrite Hc, no_cr_app. cbn [no_cr].
    destruct (Ascii.eqb c "013").
    + now rewrite append_nil_r.
    + rewrite take_snoc, length_take.
      destruct (Nat.ltb_spec (String.length (no_cr p)) 220);
        destruct (Z.ltb_spec (Z.of_nat (Nat.min 220 (String.length (no_cr p)))) 220);
        try lia; reflexivity.
Qed.

Lemma pollUart_line (s : string) (w : World) :
  has_lf s = false ->
  pollUart_chars ARM_TIMEOUT_MS (list_ascii_of_string s ++ ["010"%char]) (EmptyString, w)
  = (EmptyString,
     if 0 <? Z.of_nat (String.length (cooked s))
     then WeldController.handleCmd ARM_TIMEOUT_MS (cooked s) w else w).
Proof.
  intros Hlf. rewrite pollUart_chars_app.
  change (EmptyString, w) with (take 220 (no_cr ""), w).
  rewrite (pollUart_text s "" w Hlf). reflexivity.
Qed.

Lemma pollUart_wire (lines : list string) : forall w : World,
  forallb (fun l => negb (has_lf l)) lines = true ->
  pollUart_chars ARM_TIMEOUT_MS (wire lines) (EmptyString, w)
  = (EmptyString, WeldController.pollUart ARM_TIMEOUT_MS (delivered lines) w).
Proof.
  induction lines as [|l lines IH]; intros w H; [reflexivity|].
  cbn [forallb] in H. apply andb_prop in H as [Hl H].
  apply negb_true_iff in Hl.
  cbn [wire]. change (list_ascii_of_string l ++ "010"%char :: wire lines)
    with (list_ascii_of_string l ++ ["010"%char] ++ wire lines).
  rewrite app_assoc, pollUart_chars_app, (pollUart_line l w Hl), (IH _ H).
  unfold delivered. cbn [map filter].
  destruct (0 <? Z.of_nat (String.length (cooked l))); reflexivity.
Qed.

End PollUart.

Lemma length_skip_space (s : string) :
  (String.length (skip_space s) <= String.length s)%nat.
Proof.
  induction s as [|c s IH]; cbn [skip_space String.length]; [lia|].
  destruct (isspace c); cbn [String.length]; lia.
Qed.

Lemma length_rtrim (s : string) : (String.length (rtrim s) <= String.length s)%nat.
Proof.
  induction s as [|c s IH]; cbn [rtrim String.length]; [lia|].
  destruct (rtrim s); [destruct (isspace c)|]; cbn [String.length] in *; lia.
Qed.

Lemma rtrim_idem (s : string) : rtrim (rtrim s) = rtrim s.
Proof.
  induction s as [|c s IH]; [reflexivity|].
  cbn [rtrim]. destruct (rtrim s) as [|x t] eqn:E.
  - destruct (isspace c) eqn:Ec; [reflexivity|]. cbn [rtrim]. now rewrite Ec.
  - cbn [rtrim]. cbn [rtrim] in IH. destruct (rtrim t) as [|y u].
    + destruct (isspace x); [discriminate|]. f_equal. exact IH.
    + f_equal. exact IH.
Qed.

Lemma skip_space_head (s : string) :
  skip_space s = EmptyString
  \/ exists c r, skip_space s = String c r /\ isspace c = false.
Proof.
  induction s as [|c s IH]; [left; reflexivity|].
  cbn [skip_space]. destruct (isspace c) eqn:E; [exact IH|].
  right. exists c, s. auto.
Qed.

Lemma trim_idem (s : string) : trim (trim s) = trim s.
Proof.
  unfold trim. destruct (skip_space_head s) as [->|(c & r & -> & Hc)]; [reflexivity|].
  assert (H : exists t, rtrim (String c r) = String c t).
  { cbn [rtrim]. destruct (rtrim r); [rewrite Hc|]; eauto. }
  destruct H as [t Ht].
  assert (Hs : skip_space (rtrim (String c r)) = rtrim (String c r)).
  { rewrite Ht. cbn [skip_space]. now rewrite Hc. }
  rewrite Hs. apply rtrim_idem.
Qed.

Lemma length_cooked (s : string) : (String.length (cooked s) <= 220)%nat.
Proof.
  unfold cooked, trim.
  pose proof (length_rtrim (skip_space (take 220 (no_cr s)))).
  pose proof (length_skip_space (take 220 (no_cr s))).
  rewrite length_take in *. lia.
Qed.

(** [pollUart] assembles the characters of the link into lines and
    hands them to [handleCmd]: from an empty [rxLine], the characters of a
    sequence of lines, each ended by a line feed, have the effect of
    [handleCmd] on each line in turn, the line taken without its carriage
    returns, cut at 220 characters and then trimmed of white space at
    both ends, and skipped when nothing is left of it.  So every line
    handed over is not empty, has at most 220 characters and is trimmed.
    A line whose characters come in two polls is assembled all the
    same. *)
Theorem pollUart_assembles_lines (ARM_TIMEOUT_MS : Z) (lines : list string)
    (w : World) :
  forallb plain_line lines = true ->
  pollUart_chars ARM_TIMEOUT_MS (wire lines) (EmptyString, w)
  = (EmptyString, WeldController.pollUart ARM_TIMEOUT_MS (delivered lines) w)
  /\ Forall (fun l => (0 < String.length l <= 220)%nat /\ trim l = l)
       (delivered lines)
  /\ forall (a b : list ascii),
       wire lines = a ++ b ->
       pollUart_chars ARM_TIMEOUT_MS b
         (pollUart_chars ARM_TIMEOUT_MS a (EmptyString, w))
       = (EmptyString, WeldController.pollUart ARM_TIMEOUT_MS (delivered lines) w).
Proof.
  intros Hp.
  assert (Hlf : forallb (fun l => negb (has_lf l)) lines = true).
  { clear w. induction lines as [|l ls IH]; [reflexivity|].
    cbn [forallb] in *. apply andb_prop in Hp as [Hl Hp].
    unfold plain_line in Hl. apply andb_prop in Hl as [Hl _].
    now rewrite Hl, IH. }
  split; [apply pollUart_wire, Hlf|]. split.
  - unfold delivered. apply Forall_forall. intros l Hl.
    apply filter_In in Hl as [Hin Hpos]. apply in_map_iff in Hin as (s & <- & _).
    apply Z.ltb_lt in Hpos. pose proof (length_cooked s).
    split; [lia|]. unfold cooked. apply trim_idem.
  - intros a b E. rewrite <- pollUart_chars_app, <- E. apply pollUart_wire, Hlf.
Qed.

Lemma pollUart_assembles_lines_witness :
  pollUart_chars 0
    (wire [String "013" ""; "  STATUS "; String "A" (String "013" "RM,0")])
    (EmptyString, idle_armed)
  = (EmptyString, WeldController.pollUart 0 ["STATUS"; "ARM,0"] idle_armed).
Proof.
  apply (pollUart_assembles_lines 0
           [String "013" ""; "  STATUS "; String "A" (String "013" "RM,0")]
           idle_armed).
  reflexivity.
Defined.

(** ** Numbers printed and read back *)

Lemma scan_digits_stop (acc : Z) (rest : string) :
  starts_digit rest = false -> scan_digits acc rest = (acc, rest).
Proof.
  destruct rest as [|c rest]; [reflexivity|].
  cbn [starts_digit scan_digits]. destruct (digit_val c); [discriminate|reflexivity].
Qed.

Ltac digit_step :=
  cbn [NilEmpty.string_of_uint append scan_digits];
  match goal with
  | |- context [digit_val ?c] =>
      let v := eval vm_compute in (digit_val c) in
      change (digit_val c) with v
  end;
  cbv iota.

Lemma scan_uint_acc (d : Decimal.uint) : forall (acc : positive) (rest : string),
  starts_digit rest = false ->
  scan_digits (Zpos acc) (NilEmpty.string_of_uint d ++ rest)
  = (Zpos (Pos.of_uint_acc d acc), rest).
Proof.
  induction d; intros acc rest Hrest;
    [apply scan_digits_stop; exact Hrest|..];
    digit_step; cbn [Pos.of_uint_acc];
    rewrite <- (IHd _ rest Hrest); f_equal; lia.
Qed.

Lemma scan_uint (d : Decimal.uint) : forall rest : string,
  starts_digit rest = false ->
  scan_digits 0 (NilEmpty.string_of_uint d ++ rest) = (Z.of_N (Pos.of_uint d), rest).
Proof.
  induction d; intros rest Hrest;
    [apply scan_digits_stop; exact Hrest| |..];
    digit_step; cbn [Pos.of_uint].
  - change (10 * 0 + 0) with 0. apply IHd, Hrest.
  - apply (scan_uint_acc d 1 rest Hrest).
  - apply (scan_uint_acc d 2 rest Hrest).
  - apply (scan_uint_acc d 3 rest Hrest).
  - apply (scan_uint_acc d 4 rest Hrest).
  - apply (scan_uint_acc d 5 rest Hrest).
  - apply (scan_uint_acc d 6 rest Hrest).
  - apply (scan_uint_acc d 7 rest Hrest).
  - apply (scan_uint_acc d 8 rest Hrest).
  - apply (scan_uint_acc d 9 rest Hrest).
Qed.

Lemma uint_head (d : Decimal.uint) :
  d <> Decimal.Nil ->
  exists c s, NilEmpty.string_of_uint d = String c s /\ starts_digit (String c s) = true.
Proof.
  destruct d; [congruence|..]; intros _; eexists; eexists; split; reflexivity.
Qed.

Lemma strtol_digits (c : ascii) (s : string) :
  starts_digit (String c s) = true ->
  strtol (String c s)
  = (let '(v, rest) := scan_digits 0 (String c s) in Some (saturate v, rest))
  /\ strtol (String "-" (String c s))
     = (let '(v, rest) := scan_digits 0 (String c s) in Some (saturate (- v), rest)).
Proof.
  cbn [starts_digit]. intros H.
  destruct c as [[|] [|] [|] [|] [|] [|] [|] [|]];
    try (vm_compute in H; discriminate); split; reflexivity.
Qed.

Lemma saturate_fits (z : Z) : fits_int z -> saturate z = z.
Proof. unfold fits_int, saturate, INT_MIN, INT_MAX. lia. Qed.

Lemma dec_pos (p : positive) : dec (Zpos p) = NilEmpty.string_of_uint (Pos.to_uint p).
Proof.
  unfold dec. cbn [Z.to_int NilZero.string_of_int].
  unfold NilZero.string_of_uint.
  pose proof (DecimalPos.Unsigned.to_uint_nonnil p) as H.
  destruct (Pos.to_uint p); [congruence|..]; reflexivity.
Qed.

Lemma dec_neg (p : positive) :
  dec (Zneg p) = String "-" (NilEmpty.string_of_uint (Pos.to_uint p)).
Proof.
  unfold dec. cbn [Z.to_int NilZero.string_of_int].
  unfold NilZero.string_of_uint.
  pose proof (DecimalPos.Unsigned.to_uint_nonnil p) as H.
  destruct (Pos.to_uint p); [congruence|..]; reflexivity.
Qed.

(** [strtol] reads back what [%d] prints. *)
Lemma strtol_dec (z : Z) (rest : string) :
  fits_int z -> starts_digit rest = false ->
  strtol (dec z ++ rest) = Some (z, rest).
Proof.
  intros Hz Hrest. destruct z as [|p|p].
  - change (dec 0) with "0". cbn [append].
    destruct (strtol_digits "0" rest eq_refl) as [-> _].
    cbn [scan_digits]. change (digit_val "0") with (Some 0). cbv iota.
    change (10 * 0 + 0) with 0. rewrite (scan_digits_stop 0 rest Hrest).
    reflexivity.
  - rewrite dec_pos.
    destruct (uint_head (Pos.to_uint p) (DecimalPos.Unsigned.to_uint_nonnil p))
      as (c & s & E & Hd).
    pose proof (scan_uint (Pos.to_uint p) rest Hrest) as Hs.
    rewrite DecimalPos.Unsigned.of_to in Hs.
    rewrite E in *. cbn [append] in *.
    destruct (strtol_digits c (s ++ rest) Hd) as [-> _].
    rewrite Hs. cbn [Z.of_N]. now rewrite saturate_fits.
  - rewrite dec_neg.
    destruct (uint_head (Pos.to_uint p) (DecimalPos.Unsigned.to_uint_nonnil p))
      as (c & s & E & Hd).
    pose proof (scan_uint (Pos.to_uint p) rest Hrest) as Hs.
    rewrite DecimalPos.Unsigned.of_to in Hs.
    rewrite E in *. cbn [append] in *.
    destruct (strtol_digits c (s ++ rest) Hd) as [_ ->].
    rewrite Hs. cbn [Z.of_N]. change (- Z.pos p) with (Z.neg p).
    now rewrite saturate_fits.
Qed.

Lemma atoi_dec (z : Z) : fits_int z -> atoi (dec z) = z.
Proof.
  intros Hz. unfold atoi.
  rewrite <- (append_nil_r (dec z)), (strtol_dec z "" Hz eq_refl). reflexivity.
Qed.

Lemma scan_fields_last (n : nat) (z : Z) :
  fits_int z -> scan_fields (S n) (dec z) = [z].
Proof.
  intros Hz. cbn [scan_fields].
  rewrite <- (append_nil_r (dec z)), (strtol_dec z "" Hz eq_refl). reflexivity.
Qed.

Lemma scan_fields_more (n : nat) (z : Z) (rest : string) :
  fits_int z ->
  scan_fields (S n) (dec z ++ String "," rest) = z :: scan_fields n rest.
Proof.
  intros Hz. cbn [scan_fields].
  rewrite (strtol_dec z (String "," rest) Hz eq_refl). reflexivity.
Qed.

(** ** A pedal held down at power-up *)

Section HeldAtBoot.

Variable ARM_TIMEOUT_MS : Z.
Variable fuel : nat.
Hypothesis enough : (200 <= fuel)%nat.

(** A pedal that is down when the unit starts is taken as the stable
    level: [main] and [setup] read it into both [pedal_last_raw] and
    [pedal_stable].  However long it is then held and however often it is
    polled, no press edge comes of it: the polls send nothing, request no
    fire and leave the output alone.  Only a release and a new press
    fire. *)
Theorem pedal_held_at_boot_never_fires (samples : list (Level * Z)) (w : World) :
  params_in_range (params w) ->
  Forall (fun s => fst s = LOW) samples ->
  (exists w0 w',
      Blackpill.main_init fuel LOW w = Some w0 /\
      pedal_run (hal_poll ARM_TIMEOUT_MS fuel) samples w0 = Some w' /\
      trace w' = trace w0 /\ pedal w' = pedal w0 /\
      pedal_stable (pedal w0) = LOW)
  /\ (let w0 := WeldController.setup LOW w in
      exists w',
        pedal_run (arduino_poll ARM_TIMEOUT_MS) samples w0 = Some w' /\
        trace w' = trace w0 /\ pedal w' = pedal w0 /\
        pedal_stable (pedal w0) = LOW).
Proof.
  intros Hr Hall.
  destruct (hal_poll_ok ARM_TIMEOUT_MS fuel enough) as [Hh _].
  pose proof (arduino_poll_ok ARM_TIMEOUT_MS) as Ha.
  split.
  - unfold Blackpill.main_init. rewrite (hal_blink_ends fuel enough).
    cbn [bind]. cbv zeta. eexists.
    match goal with
    | |- exists w', Some ?x = Some _ /\ _ => set (w0 := x)
    end.
    destruct (run_follows_debounce (hal_poll ARM_TIMEOUT_MS fuel) pedal_presses
                pedal_presses_app eq_refl Hh samples w0 Hr)
      as (w' & evs & Hrun & _ & Hped & Htr & _ & Hq).
    change (pedal w0)
      with (mkPedal LOW LOW (boot_ms (safety w0))) in Hped, Hq.
    rewrite (held_is_quiet samples _ Hall) in Hped, Hq. cbn [fst snd] in Hped, Hq.
    exists w'. split; [reflexivity|]. split; [exact Hrun|].
    split; [rewrite Htr, (Hq eq_refl); apply app_nil_r|].
    split; [exact Hped|reflexivity].
  - cbv zeta. set (w0 := WeldController.setup LOW w).
    destruct (run_follows_debounce (arduino_poll ARM_TIMEOUT_MS) fire_answers
                fire_answers_app eq_refl Ha samples w0 Hr)
      as (w' & evs & Hrun & _ & Hped & Htr & _ & Hq).
    change (pedal w0)
      with (mkPedal LOW LOW (boot_ms (safety w0))) in Hped, Hq.
    rewrite (held_is_quiet samples _ Hall) in Hped, Hq. cbn [fst snd] in Hped, Hq.
    exists w'. split; [exact Hrun|].
    split; [rewrite Htr, (Hq eq_refl); apply app_nil_r|].
    split; [exact Hped|reflexivity].
Qed.

End HeldAtBoot.

Lemma pedal_held_at_boot_never_fires_witness :
  exists w0 w',
    Blackpill.main_init 200 LOW Blackpill.power_on = Some w0 /\
    pedal_run (hal_poll 0 200) [(LOW, 2000); (LOW, 7000); (LOW, 9000)] w0 = Some w' /\
    trace w' = trace w0.
Proof.
  destruct (pedal_held_at_boot_never_fires 0 200 (Nat.le_refl 200)
              [(LOW, 2000); (LOW, 7000); (LOW, 9000)] Blackpill.power_on)
    as [(w0 & w' & H0 & Hrun & Htr & _) _].
  - unfold params_in_range. cbn. lia.
  - repeat constructor.
  - exists w0, w'. auto.
Defined.

(** ** Command lines as a sender writes them *)

Lemma commas_uint (d : Decimal.uint) : commas (NilEmpty.string_of_uint d) = O.
Proof. induction d; cbn [NilEmpty.string_of_uint commas]; try exact IHd; reflexivity. Qed.

Lemma commas_dec (z : Z) : commas (dec z) = O.
Proof.
  destruct z as [|p|p]; [reflexivity| |].
  - rewrite dec_pos. apply commas_uint.
  - rewrite dec_neg. cbn [commas]. apply commas_uint.
Qed.

Lemma find_char_first (a b : string) : forall i : Z,
  commas a = O ->
  find_char "," i (a ++ String "," b) = i + Z.of_nat (String.length a).
Proof.
  induction a as [|c a IH]; intros i Hc.
  - cbn [append find_char String.length]. change (Ascii.eqb "," ",") with true.
    cbv iota. lia.
  - cbn [commas] in Hc. cbn [append find_char String.length].
    destruct (Ascii.eqb c ","); [discriminate|].
    rewrite (IH (i + 1) Hc). lia.
Qed.

Lemma drop_app (a b : string) : drop (String.length a) (a ++ b) = b.
Proof. induction a as [|c a IH]; [reflexivity|exact IH]. Qed.

Lemma substring_head (b c : string) :
  String.substring 0 (String.length b) (b ++ c) = b.
Proof.
  induction b as [|x b IH]; cbn [append String.length String.substring].
  - destruct c; reflexivity.
  - now rewrite IH.
Qed.

Lemma substring_mid (a b c : string) :
  String.substring (String.length a) (String.length b) (a ++ b ++ c) = b.
Proof.
  induction a as [|x a IH]; cbn [append String.length String.substring].
  - apply substring_head.
  - exact IH.
Qed.

(** [indexOf] from the start of a field without comma finds the comma
    that ends it. *)
Lemma indexOf_field (pre a b : string) :
  (String.length (pre ++ a ++ String "," b) <= 220)%nat ->
  commas a = O ->
  indexOf "," (Z.of_nat (String.length pre)) (pre ++ a ++ String "," b)
  = Z.of_nat (String.length pre + String.length a).
Proof.
  intros Hlen Hc. unfold indexOf. cbv zeta.
  pose proof (length_append pre (a ++ String "," b)) as L1.
  pose proof (length_append a (String "," b)) as L2.
  cbn [String.length] in L2.
  rewrite u32_small by lia.
  rewrite (proj2 (Z.leb_gt _ _)) by lia.
  rewrite Nat2Z.id, drop_app, find_char_first by exact Hc. lia.
Qed.

Lemma substring_field (pre a b : string) :
  (String.length (pre ++ a ++ b) <= 220)%nat ->
  substring (Z.of_nat (String.length pre))
    (Z.of_nat (String.length pre + String.length a)) (pre ++ a ++ b) = a.
Proof.
  intros Hlen. unfold substring. cbv zeta.
  pose proof (length_append pre (a ++ b)) as L1.
  pose proof (length_append a b) as L2.
  rewrite !u32_small by lia.
  rewrite (proj2 (Z.ltb_ge _ _)) by lia.
  destruct (Z.leb_spec (Z.of_nat (String.length (pre ++ a ++ b)))
              (Z.of_nat (String.length pre))) as [Hle|Hgt].
  - destruct a; [reflexivity|]. cbn [String.length] in L2. lia.
  - rewrite (proj2 (Z.ltb_ge _ _)) by lia.
    rewrite Nat2Z.id.
    replace (Z.to_nat (Z.of_nat (String.length pre + String.length a)
                       - Z.of_nat (String.length pre)))
      with (String.length a) by lia.
    apply substring_mid.
Qed.

Section PreheatLine.

Variable ARM_TIMEOUT_MS : Z.
Variable w : World.

(** [handleCmd] cuts a [SET_PREHEAT] line at the first three commas after
    the prefix and converts each piece with [toInt]. *)
Lemma arduino_preheat_pieces (a b c d : string) :
  let cmd := ("SET_PREHEAT," ++ a ++ String "," (b ++ String "," (c ++ String "," d)))%string in
  (String.length cmd <= 220)%nat ->
  commas a = O -> commas b = O -> commas c = O ->
  WeldController.handleCmd ARM_TIMEOUT_MS cmd w
  = let p' := Blackpill.clamp_params
                (set_preheat (atoi a =? 1) (u16 (atoi b)) (u8 (atoi c))
                   (u16 (atoi d)) (params w)) in
    emit (Tx ("ACK,SET_PREHEAT,en=" ++ bool_digit (preheat_enabled p')))
      (set_params p' w).
Proof.
  intros cmd Hlen Ha Hb Hc.
  set (P := "SET_PREHEAT,") in *.
  set (P1 := (P ++ a ++ ",")%string).
  set (P2 := (P1 ++ b ++ ",")%string).
  set (P3 := (P2 ++ c ++ ",")%string).
  assert (E1 : cmd = (P ++ a ++ String "," (b ++ String "," (c ++ String "," d)))%string)
    by reflexivity.
  assert (E2 : cmd = (P1 ++ b ++ String "," (c ++ String "," d))%string).
  { unfold P1. rewrite !append_assoc. reflexivity. }
  assert (E3 : cmd = (P2 ++ c ++ String "," d)%string).
  { unfold P2, P1. rewrite !append_assoc. reflexivity. }
  assert (E4 : cmd = (P3 ++ d)%string).
  { unfold P3, P2, P1. rewrite !append_assoc. reflexivity. }
  assert (L1 : String.length P1 = (12 + String.length a + 1)%nat).
  { unfold P1. rewrite !length_append. reflexivity. }
  assert (L2 : String.length P2 = (String.length P1 + String.length b + 1)%nat).
  { unfold P2. rewrite !length_append. cbn [String.length]. lia. }
  assert (L3 : String.length P3 = (String.length P2 + String.length c + 1)%nat).
  { unfold P3. rewrite !length_append. cbn [String.length]. lia. }
  assert (C1 : indexOf "," 12 cmd = Z.of_nat (12 + String.length a)).
  { rewrite E1 in Hlen |- *. apply (indexOf_field P a _ Hlen Ha). }
  assert (C2 : indexOf "," (Z.of_nat (12 + String.length a) + 1) cmd
               = Z.of_nat (String.length P1 + String.length b)).
  { replace (Z.of_nat (12 + String.length a) + 1) with (Z.of_nat (String.length P1)) by lia.
    rewrite E2 in Hlen |- *. apply (indexOf_field P1 b _ Hlen Hb). }
  assert (C3 : indexOf "," (Z.of_nat (String.length P1 + String.length b) + 1) cmd
               = Z.of_nat (String.length P2 + String.length c)).
  { replace (Z.of_nat (String.length P1 + String.length b) + 1)
      with (Z.of_nat (String.length P2)) by lia.
    rewrite E3 in Hlen |- *. apply (indexOf_field P2 c _ Hlen Hc). }
  assert (S1 : substring 12 (Z.of_nat (12 + String.length a)) cmd = a).
  { rewrite E1 in Hlen |- *. apply (substring_field P a _ Hlen). }
  assert (S2 : substring (Z.of_nat (12 + String.length a) + 1)
                 (Z.of_nat (String.length P1 + String.length b)) cmd = b).
  { replace (Z.of_nat (12 + String.length a) + 1) with (Z.of_nat (String.length P1)) by lia.
    rewrite E2 in Hlen |- *. apply (substring_field P1 b _ Hlen). }
  assert (S3 : substring (Z.of_nat (String.length P1 + String.length b) + 1)
                 (Z.of_nat (String.length P2 + String.length c)) cmd = c).
  { replace (Z.of_nat (String.length P1 + String.length b) + 1)
      with (Z.of_nat (String.length P2)) by lia.
    rewrite E3 in Hlen |- *. apply (substring_field P2 c _ Hlen). }
  assert (S4 : drop (Z.to_nat (Z.of_nat (String.length P2 + String.length c) + 1)) cmd = d).
  { replace (Z.to_nat (Z.of_nat (String.length P2 + String.length c) + 1))
      with (String.length P3) by lia.
    rewrite E4. apply drop_app. }
  unfold WeldController.handleCmd.
  change (starts_with "ARM," cmd) with false.
  change (starts_with "SET_PULSE," cmd) with false.
  change (starts_with "SET_POWER," cmd) with false.
  change (starts_with "SET_PREHEAT," cmd) with true.
  cbv iota zeta. rewrite C1, C2, C3, S1, S2, S3, S4.
  rewrite !(proj2 (Z.ltb_ge _ _)) by lia. cbn [orb].
  unfold WeldController.uartSend, WeldController.clampParams.
  rewrite clamp_params_same, bool_digit_dec. reflexivity.
Qed.

End PreheatLine.

Section SenderLines.

Variable ARM_TIMEOUT_MS : Z.
Variable fuel : nat.
Variable w : World.

Lemma fits_small (z : Z) : 0 <= z < 65536 -> fits_int z.
Proof. unfold fits_int, INT_MIN, INT_MAX. lia. Qed.

(** [SET_POWER,<pct>] for a number [pct] that fits [int]: what is stored
    is the clamp to [50, 100] of [pct] modulo 256, in both variants, and
    the acknowledgement prints it.  For 0 <= pct <= 255 this is the clamp
    of [pct] itself; above, the high bits are lost before the clamp. *)
Theorem set_power_stores_low_byte (pct : Z) :
  fits_int pct ->
  let stored := clamp_power (pct mod 256) in
  exists w',
    Blackpill.parseCommand ARM_TIMEOUT_MS fuel (set_power_line pct) w = Some w'
    /\ WeldController.handleCmd ARM_TIMEOUT_MS (set_power_line pct) w = w'
    /\ weld_power_pct (params w') = stored
    /\ new_events w w' = [Tx ("ACK,SET_POWER,pct=" ++ dec stored)]
    /\ 50 <= stored <= 100
    /\ (0 <= pct <= 255 -> stored = clamp_power pct).
Proof.
  intros Hz stored.
  destruct (set_power_stored ARM_TIMEOUT_MS fuel (dec pct) w) as (Hh & Ha & Hs).
  cbv zeta in Hh, Ha, Hs. rewrite (atoi_dec pct Hz) in Hh, Ha, Hs.
  eexists. split; [exact Hh|]. split; [exact Ha|]. split; [exact Hs|].
  split; [apply new_events_app; reflexivity|].
  split.
  - unfold stored, clamp_power.
    destruct (Z.ltb_spec (pct mod 256) 50); [lia|].
    destruct (Z.ltb_spec 100 (pct mod 256)); lia.
  - intros Hb. unfold stored. now rewrite Z.mod_small by lia.
Qed.

Lemma pulse_fields (m d1 g1 d2 g2 d3 : Z) :
  fits_int m -> fits_int d1 -> fits_int g1 -> fits_int d2 -> fits_int g2 ->
  fits_int d3 ->
  scan_fields 6
    (dec m ++ "," ++ dec d1 ++ "," ++ dec g1 ++ "," ++ dec d2 ++ "," ++ dec g2
     ++ "," ++ dec d3)
  = [m; d1; g1; d2; g2; d3].
Proof.
  intros. cbn [append].
  rewrite !scan_fields_more, scan_fields_last by assumption. reflexivity.
Qed.

Lemma pulse_fields_short (m d1 : Z) :
  fits_int m -> fits_int d1 ->
  scan_fields 6 (dec m ++ "," ++ dec d1) = [m; d1].
Proof.
  intros. cbn [append].
  rewrite !scan_fields_more, scan_fields_last by assumption. reflexivity.
Qed.

Lemma hal_set_pulse (rest : string) :
  Blackpill.parseCommand ARM_TIMEOUT_MS fuel ("SET_PULSE," ++ rest) w
  = Some (let fields := scan_fields 6 rest in
          if 2 <=? Z.of_nat (List.length fields) then
            let p' := Blackpill.clamp_params
                        (set_pulse (u8 (nth 0 fields 1)) (u16 (nth 1 fields 0))
                           (u16 (nth 2 fields 0)) (u16 (nth 3 fields 0))
                           (u16 (nth 4 fields 0)) (u16 (nth 5 fields 0)) (params w)) in
            emit (Tx ("ACK,SET_PULSE,mode=" ++ dec (weld_mode p'))) (set_params p' w)
          else emit (Tx "DENY,BAD_SET_PULSE") w).
Proof.
  unfold Blackpill.parseCommand.
  change (starts_with "ARM," ("SET_PULSE," ++ rest)) with false.
  change (starts_with "CMD,SET,PULSE," ("SET_PULSE," ++ rest)) with false.
  change (starts_with "SET_PULSE," ("SET_PULSE," ++ rest)) with true.
  change (drop 10 ("SET_PULSE," ++ rest)) with rest.
  cbv iota zeta.
  destruct (2 <=? Z.of_nat (List.length (scan_fields 6 rest))); reflexivity.
Qed.

(** A [SET_PULSE] line written with six numbers within the limits stores
    exactly those numbers as the recipe, in both variants, leaves the power
    and the preheat settings alone and acknowledges the mode.  Written
    with the mode and the first duration only, it stores these two and
    sets the other four values to 0: what is left out is not kept. *)
Theorem set_pulse_stores_what_was_sent (m d1 g1 d2 g2 d3 : Z) :
  within_limits (params w) ->
  1 <= m <= 3 -> 0 <= d1 <= 200 -> 0 <= d2 <= 200 -> 0 <= d3 <= 200 ->
  0 <= g1 < 65536 -> 0 <= g2 < 65536 ->
  let ack := Tx ("ACK,SET_PULSE,mode=" ++ dec m) in
  let w6 := emit ack (set_params (set_pulse m d1 g1 d2 g2 d3 (params w)) w) in
  let w2 := emit ack (set_params (set_pulse m d1 0 0 0 0 (params w)) w) in
  Blackpill.parseCommand ARM_TIMEOUT_MS fuel (set_pulse_line m d1 g1 d2 g2 d3) w
  = Some w6
  /\ WeldController.handleCmd ARM_TIMEOUT_MS (set_pulse_line m d1 g1 d2 g2 d3) w = w6
  /\ Blackpill.parseCommand ARM_TIMEOUT_MS fuel (set_pulse_short m d1) w = Some w2
  /\ WeldController.handleCmd ARM_TIMEOUT_MS (set_pulse_short m d1) w = w2.
Proof.
  intros Hl Hm Hd1 Hd2 Hd3 Hg1 Hg2 ack w6 w2.
  assert (F : forall z, 0 <= z < 65536 -> fits_int z) by apply fits_small.
  assert (H6 : Blackpill.parseCommand ARM_TIMEOUT_MS fuel
                 (set_pulse_line m d1 g1 d2 g2 d3) w = Some w6).
  { unfold set_pulse_line. rewrite hal_set_pulse. cbv zeta.
    rewrite pulse_fields by (apply F; lia).
    cbn [nth List.length]. change (2 <=? Z.of_nat 6) with true. cbv iota.
    rewrite u8_small, !u16_small by lia.
    rewrite clamp_params_fixes.
    - reflexivity.
    - unfold within_limits, MAX_WELD_MS in *. cbn. lia. }
  assert (H2 : Blackpill.parseCommand ARM_TIMEOUT_MS fuel (set_pulse_short m d1) w
               = Some w2).
  { unfold set_pulse_short. rewrite hal_set_pulse. cbv zeta.
    rewrite pulse_fields_short by (apply F; lia).
    cbn [nth List.length]. change (2 <=? Z.of_nat 2) with true. cbv iota.
    rewrite u8_small, !u16_small by lia.
    rewrite clamp_params_fixes.
    - reflexivity.
    - unfold within_limits, MAX_WELD_MS in *. cbn. lia. }
  split; [exact H6|]. split; [|split; [exact H2|]].
  - pose proof (shared_command_agrees ARM_TIMEOUT_MS fuel
                  (set_pulse_line m d1 g1 d2 g2 d3) w) as Hs.
    rewrite H6 in Hs. symmetry.
    assert (E : Some w6 = Some (WeldController.handleCmd ARM_TIMEOUT_MS
                                  (set_pulse_line m d1 g1 d2 g2 d3) w)).
    { apply Hs. reflexivity. }
    now inversion E.
  - pose proof (shared_command_agrees ARM_TIMEOUT_MS fuel (set_pulse_short m d1) w)
      as Hs.
    rewrite H2 in Hs. symmetry.
    assert (E : Some w2 = Some (WeldController.handleCmd ARM_TIMEOUT_MS
                                  (set_pulse_short m d1) w)).
    { apply Hs. reflexivity. }
    now inversion E.
Qed.

Lemma preheat_fields_four (en ms pct gap : Z) :
  fits_int en -> fits_int ms -> fits_int pct -> fits_int gap ->
  preheat_fields (dec en ++ "," ++ dec ms ++ "," ++ dec pct ++ "," ++ dec gap)
  = [en; ms; pct; gap].
Proof.
  intros. unfold preheat_fields. cbn [append].
  rewrite !scan_fields_more, scan_fields_last by assumption. reflexivity.
Qed.

(** On a [SET_PREHEAT] line written with four numbers the two variants,
    which read the line by different means ([sscanf] in one, [indexOf] and
    [toInt] in the other), come to the same result: the flag is whether
    the first number is 1, the duration, the percentage and the gap are
    the numbers cut to their types and then clamped.  With the numbers
    within the limits they are stored as sent. *)
Theorem set_preheat_four_numbers_agree (en ms pct gap : Z) :
  params_in_range (params w) ->
  fits_int en -> fits_int ms -> fits_int pct -> fits_int gap ->
  (String.length (set_preheat_line en ms pct gap) <= 220)%nat ->
  let p' := Blackpill.clamp_params
              (set_preheat (en =? 1) (u16 ms) (u8 pct) (u16 gap) (params w)) in
  let w' := emit (Tx ("ACK,SET_PREHEAT,en=" ++ bool_digit (en =? 1)))
              (set_params p' w) in
  Blackpill.parseCommand ARM_TIMEOUT_MS fuel (set_preheat_line en ms pct gap) w
  = Some w'
  /\ WeldController.handleCmd ARM_TIMEOUT_MS (set_preheat_line en ms pct gap) w = w'
  /\ (within_limits (params w) -> 0 <= ms <= 200 -> 0 <= pct <= 100 ->
      0 <= gap < 65536 ->
      p' = set_preheat (en =? 1) ms pct gap (params w)).
Proof.
  intros Hr Hen Hms Hpct Hgap Hlen p' w'.
  split; [|split].
  - unfold set_preheat_line.
    pose proof (hal_set_preheat ARM_TIMEOUT_MS fuel
                  (dec en ++ "," ++ dec ms ++ "," ++ dec pct ++ "," ++ dec gap) w) as H.
    unfold preheat_line in H. rewrite H. clear H.
    rewrite preheat_fields_four by assumption.
    cbn [nth List.length]. change (3 <=? Z.of_nat 4) with true.
    change (4 <=? Z.of_nat 4) with true. cbv iota zeta. reflexivity.
  - unfold set_preheat_line in *. cbn [append] in Hlen |- *.
    pose proof (arduino_preheat_pieces ARM_TIMEOUT_MS w (dec en) (dec ms) (dec pct)
                  (dec gap)) as H.
    cbv zeta in H. cbn [append] in H.
    rewrite H by (try apply commas_dec; exact Hlen). clear H.
    rewrite !atoi_dec by assumption. reflexivity.
  - intros Hl Hm Hp Hg. unfold p'.
    rewrite u8_small, !u16_small by lia.
    apply clamp_params_fixes.
    unfold within_limits, MAX_WELD_MS in *. cbn. lia.
Qed.

End SenderLines.

Lemma set_power_stores_low_byte_witness :
  exists w',
    Blackpill.parseCommand 0 200 "SET_POWER,75" idle_armed = Some w'
    /\ weld_power_pct (params w') = 75.
Proof.
  destruct (set_power_stores_low_byte 0 200 idle_armed 75) as (w' & Hh & _ & Hs & _).
  - unfold fits_int, INT_MIN, INT_MAX. lia.
  - exists w'. split; [exact Hh|exact Hs].
Defined.

Lemma set_pulse_stores_what_was_sent_witness :
  Blackpill.parseCommand 0 200 "SET_PULSE,2,20,5,30,0,0" idle_armed
  = Some (emit (Tx "ACK,SET_PULSE,mode=2")
            (set_params (set_pulse 2 20 5 30 0 0 default_params) idle_armed)).
Proof.
  apply (set_pulse_stores_what_was_sent 0 200 idle_armed 2 20 5 30 0 0);
    try lia.
  unfold within_limits, MAX_WELD_MS. cbn. lia.
Defined.

Lemma set_preheat_four_numbers_agree_witness :
  WeldController.handleCmd 0 "SET_PREHEAT,1,20,50,3" idle_armed
  = emit (Tx "ACK,SET_PREHEAT,en=1")
      (set_params (set_preheat true 20 50 3 default_params) idle_armed).
Proof.
  destruct (set_preheat_four_numbers_agree 0 200 idle_armed 1 20 50 3)
    as (_ & Ha & _);
    try (unfold fits_int, INT_MIN, INT_MAX; lia).
  - unfold params_in_range. cbn. lia.
  - vm_compute. lia.
  - exact Ha.
Defined.

Section PulseRequest.

Variable ARM_TIMEOUT_MS : Z.
Variable fuel : nat.
Variable w : World.

(** What [SET_PULSE] stores for six numbers that fit [int], in both
    variants: the mode cut to 8 bits and the durations and gaps cut to 16
    bits, and only then the clamp.  So the mode stored and acknowledged is
    within 1 to 3, a duration that fits 16 bits is stored as itself or as
    200 if it is more, and a gap that fits 16 bits is stored as it is. *)
Theorem set_pulse_stores_cut_then_clamped (m d1 g1 d2 g2 d3 : Z) :
  fits_int m -> fits_int d1 -> fits_int g1 -> fits_int d2 -> fits_int g2 ->
  fits_int d3 ->
  let p' := Blackpill.clamp_params
              (set_pulse (u8 m) (u16 d1) (u16 g1) (u16 d2) (u16 g2) (u16 d3)
                 (params w)) in
  let w' := emit (Tx ("ACK,SET_PULSE,mode=" ++ dec (weld_mode p'))) (set_params p' w) in
  Blackpill.parseCommand ARM_TIMEOUT_MS fuel (set_pulse_line m d1 g1 d2 g2 d3) w
  = Some w'
  /\ WeldController.handleCmd ARM_TIMEOUT_MS (set_pulse_line m d1 g1 d2 g2 d3) w = w'
  /\ 1 <= weld_mode p' <= 3
  /\ (0 <= d1 < 65536 -> weld_d1_ms p' = Z.min d1 200)
  /\ (0 <= d2 < 65536 -> weld_d2_ms p' = Z.min d2 200)
  /\ (0 <= d3 < 65536 -> weld_d3_ms p' = Z.min d3 200)
  /\ (0 <= g1 < 65536 -> weld_gap1_ms p' = g1)
  /\ (0 <= g2 < 65536 -> weld_gap2_ms p' = g2).
Proof.
  intros Hm Hd1 Hg1 Hd2 Hg2 Hd3 p' w'.
  assert (H6 : Blackpill.parseCommand ARM_TIMEOUT_MS fuel
                 (set_pulse_line m d1 g1 d2 g2 d3) w = Some w').
  { unfold set_pulse_line. rewrite hal_set_pulse. cbv zeta.
    rewrite pulse_fields by assumption.
    cbn [nth List.length]. change (2 <=? Z.of_nat 6) with true. reflexivity. }
  split; [exact H6|]. split.
  { pose proof (shared_command_agrees ARM_TIMEOUT_MS fuel
                  (set_pulse_line m d1 g1 d2 g2 d3) w) as Hs.
    rewrite H6 in Hs. symmetry.
    assert (E : Some w' = Some (WeldController.handleCmd ARM_TIMEOUT_MS
                                  (set_pulse_line m d1 g1 d2 g2 d3) w)).
    { apply Hs. reflexivity. }
    now inversion E. }
  split; [apply clamp_params_mode|].
  unfold p'. cbn [Blackpill.clamp_params set_pulse weld_d1_ms weld_d2_ms weld_d3_ms
                  weld_gap1_ms weld_gap2_ms].
  repeat split; intros H; rewrite u16_small by exact H;
    try reflexivity; apply clamp_min.
Qed.

End PulseRequest.

Lemma set_pulse_stores_cut_then_clamped_witness :
  exists w' : World,
    Blackpill.parseCommand 0 200 "SET_PULSE,2,500,5,65546,0,0" idle_armed = Some w'
    /\ weld_d1_ms (params w') = 200 /\ weld_d2_ms (params w') = 10.
Proof.
  destruct (set_pulse_stores_cut_then_clamped 0 200 idle_armed 2 500 5 65546 0 0)
    as (Hp & _ & _ & H1 & _); try (unfold fits_int, INT_MIN, INT_MAX; lia).
  eexists. split; [exact Hp|]. split; [|reflexivity].
  cbn [params emit set_params]. apply H1. lia.
Defined.

(** ** One weld per turn *)

Lemma tx_lines_app (a b : list Event) : tx_lines (a ++ b) = tx_lines a ++ tx_lines b.
Proof.
  induction a as [|e a IH]; [reflexivity|].
  destruct e; cbn [app tx_lines]; rewrite IH; reflexivity.
Qed.

Lemma weld_starts_app (a b : list Event) :
  weld_starts (a ++ b) = (weld_starts a + weld_starts b)%nat.
Proof. unfold weld_starts. now rewrite tx_lines_app, filter_app, length_app. Qed.

Lemma since_cycle (dead : Z) (done : Z -> Z -> Params -> string) (w : World) :
  since_last_weld (cycle dead done w) = 0.
Proof.
  unfold since_last_weld, cycle. cbn [clock safety last_weld_ms].
  now rewrite Z.sub_diag.
Qed.

Lemma quiet_no_start (w w' : World) :
  quiet_update w w' ->
  exists evs, trace w' = trace w ++ evs /\ weld_starts evs = O
              /\ since_last_weld w' = since_last_weld w
              /\ (params_in_range (params w) -> params_in_range (params w')).
Proof.
  intros ((resp & Ht & Hs) & Hc & _ & _ & Hl & _ & Hr & _).
  exists [Tx resp]. split; [exact Ht|]. split.
  - unfold weld_starts. cbn [tx_lines filter]. now rewrite Hs.
  - split; [|exact Hr]. unfold since_last_weld. now rewrite Hc, Hl.
Qed.

Section OneWeld.

Variable ARM_TIMEOUT_MS : Z.
Variable dead : Z.
Variable done : Z -> Z -> Params -> string.
Hypothesis done_no_start :
  forall t0 t1 p, String.eqb "EVENT,WELD_START" (done t0 t1 p) = false.

Lemma arm_check_no_start (w : World) :
  let w' := after_arm_check ARM_TIMEOUT_MS w in
  exists evs, trace w' = trace w ++ evs /\ weld_starts evs = O
              /\ since_last_weld w' = since_last_weld w
              /\ params w' = params w.
Proof.
  unfold after_arm_check. destruct (arm_expired ARM_TIMEOUT_MS w).
  - exists [Tx "EVENT,ARM_TIMEOUT"]. repeat split.
  - exists []. cbn. now rewrite app_nil_r.
Qed.

(** A fire request starts one cycle at most, none within the cooldown,
    and leaves the time since the last weld at 0 when it starts one. *)
Lemma fire_outcome_starts (w : World) :
  let w' := fire_outcome dead done ARM_TIMEOUT_MS w in
  exists evs,
    trace w' = trace w ++ evs /\
    (params_in_range (params w) -> params_in_range (params w')) /\
    (weld_starts evs = O /\ since_last_weld w' = since_last_weld w
     \/ weld_starts evs = 1%nat /\ since_last_weld w' = 0) /\
    (since_last_weld w < WELD_COOLDOWN_MS -> weld_starts evs = O).
Proof.
  cbv zeta. unfold fire_outcome.
  destruct (authorize_fire ARM_TIMEOUT_MS w) as [w1 [d|]] eqn:E.
  - assert (Hw1 : w1 = w \/ w1 = after_arm_check ARM_TIMEOUT_MS w).
    { revert E. unfold authorize_fire.
      destruct (boot_elapsed w <? BOOT_INHIBIT_MS); [intros E; inversion E; auto|].
      cbv zeta.
      repeat match goal with
             | |- context [if ?c then _ else _] => destruct c
             end; intros E; inversion E; auto. }
    assert (Hd : weld_starts [Tx (denial_line d)] = O).
    { unfold weld_starts. cbn [tx_lines filter]. destruct d; reflexivity. }
    destruct Hw1 as [->| ->].
    + exists [Tx (denial_line d)]. split; [reflexivity|]. split; [auto|].
      split; [left; split; [exact Hd|reflexivity]|]. intros _. exact Hd.
    + destruct (arm_check_no_start w) as (evs & Ht & Hs & Hsince & Hp).
      cbv zeta in Ht, Hs, Hsince, Hp.
      exists (evs ++ [Tx (denial_line d)]).
      split; [cbn [trace emit]; rewrite Ht; now rewrite app_assoc|].
      split; [cbn [params emit]; now rewrite Hp|].
      rewrite weld_starts_app, Hs, Hd.
      split; [left; split; [reflexivity|exact Hsince]|]. reflexivity.
  - apply authorize_fire_granted in E as (-> & _ & _ & _ & _ & Hc).
    exists (cycle_events dead done w). split; [reflexivity|].
    split; [apply clamp_params_range|].
    assert (Hs : weld_starts (cycle_events dead done w) = 1%nat).
    { pose proof (cycle_tx_lines dead done w) as Ht.
      rewrite (new_events_app w (cycle dead done w) (cycle_events dead done w) eq_refl)
        in Ht.
      unfold weld_starts. rewrite Ht. cbn [filter].
      change (String.eqb "EVENT,WELD_START" "EVENT,WELD_START") with true.
      cbv iota. rewrite done_no_start. reflexivity. }
    split; [right; split; [exact Hs|apply since_cycle]|]. lia.
Qed.

End OneWeld.

Lemma hal_done_no_start (t0 t1 : Z) (p : Params) :
  String.eqb "EVENT,WELD_START" (hal_done t0 t1 p) = false.
Proof. reflexivity. Qed.

Lemma arduino_done_no_start (t0 t1 : Z) (p : Params) :
  String.eqb "EVENT,WELD_START" (arduino_done t0 t1 p) = false.
Proof. reflexivity. Qed.

Section OneWeldPerTurn.

Variable ARM_TIMEOUT_MS : Z.
Variable fuel : nat.
Hypothesis enough : (200 <= fuel)%nat.

Lemma arduino_pollUart_no_start (lines : list string) : forall w : World,
  let w' := WeldController.pollUart ARM_TIMEOUT_MS lines w in
  exists evs, trace w' = trace w ++ evs /\ weld_starts evs = O
              /\ (params_in_range (params w) -> params_in_range (params w')).
Proof.
  unfold WeldController.pollUart.
  induction lines as [|l lines IH]; intros w; cbn [fold_left].
  - exists []. cbn. now rewrite app_nil_r.
  - destruct (IH (WeldController.handleCmd ARM_TIMEOUT_MS l w)) as (e2 & Ht2 & Hs2 & Hr2).
    cbv zeta in Ht2, Hs2, Hr2.
    destruct (arduino_handle_frame ARM_TIMEOUT_MS l w) as [E|Hq].
    + cbv zeta in E. rewrite E in *. exists e2. auto.
    + destruct (quiet_no_start _ _ Hq) as (e1 & Ht1 & Hs1 & _ & Hr1).
      exists (e1 ++ e2). split; [rewrite Ht2, Ht1; now rewrite app_assoc|].
      split; [rewrite weld_starts_app, Hs1, Hs2; reflexivity|auto].
Qed.

(** One turn of either loop starts one weld cycle at most.  In the HAL
    variant the pedal is polled before the line is parsed: when the press
    edge has fired, a [CMD,FIRE] in the same turn finds the cooldown
    running and is denied. *)
Theorem one_weld_per_turn (w : World) :
  params_in_range (params w) ->
  (forall (raw : Level) (rx : option string),
      exists w',
        Blackpill.main_loop ARM_TIMEOUT_MS fuel raw rx w = Some w' /\
        (weld_starts (new_events w w') <= 1)%nat)
  /\ (forall (lines : list string) (raw : Level),
         (weld_starts
            (new_events w (WeldController.loop ARM_TIMEOUT_MS lines raw w)) <= 1)%nat).
Proof.
  intros Hr. split.
  - intros raw rx. unfold Blackpill.main_loop.
    rewrite hal_pollPedal_sample. cbv zeta.
    set (p1 := fst (sample raw (u32 (clock w / 1000)) (pedal w))).
    assert (Hpoll : exists w1 e1,
               (if snd (sample raw (u32 (clock w / 1000)) (pedal w))
                then Blackpill.fireRecipe ARM_TIMEOUT_MS fuel
                       (emit (Tx "EVENT,PEDAL_PRESS") (set_pedal p1 w))
                else Some (set_pedal p1 w)) = Some w1
               /\ trace w1 = trace w ++ e1 /\ params_in_range (params w1)
               /\ (weld_starts e1 = O
                   \/ weld_starts e1 = 1%nat /\ since_last_weld w1 = 0)).
    { destruct (snd (sample raw (u32 (clock w / 1000)) (pedal w))).
      - rewrite hal_fire_outcome by assumption.
        destruct (fire_outcome_starts ARM_TIMEOUT_MS 3000 hal_done hal_done_no_start
                    (emit (Tx "EVENT,PEDAL_PRESS") (set_pedal p1 w)))
          as (evs & Ht & Hp & Hs & _).
        cbv zeta in Ht, Hp, Hs.
        eexists. exists (Tx "EVENT,PEDAL_PRESS" :: evs).
        split; [reflexivity|].
        split; [rewrite Ht; cbn [trace emit set_pedal]; now rewrite <- app_assoc|].
        split; [apply Hp, Hr|].
        change (Tx "EVENT,PEDAL_PRESS" :: evs) with ([Tx "EVENT,PEDAL_PRESS"] ++ evs).
        rewrite weld_starts_app.
        change (weld_starts [Tx "EVENT,PEDAL_PRESS"]) with O. cbn [Nat.add].
        destruct Hs as [[Hs _]|Hs]; auto.
      - exists (set_pedal p1 w), []. split; [reflexivity|].
        split; [cbn; now rewrite app_nil_r|]. split; [exact Hr|left; reflexivity]. }
    destruct Hpoll as (w1 & e1 & -> & Ht1 & Hr1 & Hs1). cbn [bind].
    rewrite hal_applyArmTimeout.
    destruct (arm_check_no_start ARM_TIMEOUT_MS w1) as (e2 & Ht2 & Hs2 & Hsince2 & Hp2).
    cbv zeta in Ht2, Hs2, Hsince2, Hp2.
    set (w2 := after_arm_check ARM_TIMEOUT_MS w1) in *.
    assert (Hr2 : params_in_range (params w2)) by (rewrite Hp2; exact Hr1).
    destruct rx as [line|].
    + destruct (hal_parse_frame ARM_TIMEOUT_MS fuel enough line w2 Hr2)
        as (w3 & Hp3 & [->|Hq]).
      * eexists. split; [exact Hp3|].
        destruct (fire_outcome_starts ARM_TIMEOUT_MS 3000 hal_done hal_done_no_start w2)
          as (e3 & Ht3 & _ & Hs3 & Hcool).
        cbv zeta in Ht3, Hs3, Hcool.
        rewrite (new_events_app w _ (e1 ++ e2 ++ e3))
          by (rewrite Ht3, Ht2, Ht1; now rewrite <- !app_assoc).
        rewrite !weld_starts_app, Hs2.
        destruct Hs1 as [->|[-> Hz]].
        -- destruct Hs3 as [[-> _]|[-> _]]; lia.
        -- rewrite Hcool; [lia|]. rewrite Hsince2, Hz. unfold WELD_COOLDOWN_MS. lia.
      * exists w3. split; [exact Hp3|].
        destruct (quiet_no_start _ _ Hq) as (e3 & Ht3 & Hs3 & _).
        rewrite (new_events_app w _ (e1 ++ e2 ++ e3))
          by (rewrite Ht3, Ht2, Ht1; now rewrite <- !app_assoc).
        rewrite !weld_starts_app, Hs2, Hs3.
        destruct Hs1 as [->|[-> _]]; lia.
    + eexists. split; [reflexivity|].
      rewrite (new_events_app w _ (e1 ++ e2))
        by (rewrite Ht2, Ht1; now rewrite <- !app_assoc).
      rewrite !weld_starts_app, Hs2.
      destruct Hs1 as [->|[-> _]]; lia.
  - intros lines raw. unfold WeldController.loop. cbv zeta.
    destruct (arduino_pollUart_no_start lines w) as (e1 & Ht1 & Hs1 & Hr1).
    cbv zeta in Ht1, Hs1, Hr1.
    set (w1 := WeldController.pollUart ARM_TIMEOUT_MS lines w) in *.
    rewrite arduino_pollPedal_sample. cbv zeta.
    set (p1 := fst (sample raw (u32 (clock w1 / 1000)) (pedal w1))).
    rewrite arduino_applyArmTimeout.
    assert (Hpoll : exists e2,
               trace (if snd (sample raw (u32 (clock w1 / 1000)) (pedal w1))
                      then WeldController.fireRecipe ARM_TIMEOUT_MS (set_pedal p1 w1)
                      else set_pedal p1 w1) = trace w1 ++ e2
               /\ (weld_starts e2 <= 1)%nat).
    { destruct (snd (sample raw (u32 (clock w1 / 1000)) (pedal w1))).
      - rewrite arduino_fire_outcome by (apply Hr1, Hr).
        destruct (fire_outcome_starts ARM_TIMEOUT_MS 2000 arduino_done
                    arduino_done_no_start (set_pedal p1 w1))
          as (evs & Ht & _ & Hs & _).
        cbv zeta in Ht, Hs. exists evs. split; [exact Ht|].
        destruct Hs as [[-> _]|[-> _]]; lia.
      - exists []. split; [cbn; now rewrite app_nil_r|]. cbn. lia. }
    destruct Hpoll as (e2 & Ht2 & Hs2).
    match goal with
    | |- context [after_arm_check _ ?x] =>
        destruct (arm_check_no_start ARM_TIMEOUT_MS x) as (e3 & Ht3 & Hs3 & _)
    end.
    cbv zeta in Ht3, Hs3.
    rewrite (new_events_app w _ (e1 ++ e2 ++ e3))
      by (rewrite Ht3, Ht2, Ht1; now rewrite <- !app_assoc).
    rewrite !weld_starts_app, Hs1, Hs3. lia.
Qed.

End OneWeldPerTurn.

Lemma one_weld_per_turn_witness :
  exists w',
    Blackpill.main_loop 0 200 LOW (Some "CMD,FIRE")
      (mkWorld default_params (mkSafety false 0 true 0 0) (mkPedal LOW HIGH 5900)
         6000000 []) = Some w' /\
    (weld_starts
       (new_events
          (mkWorld default_params (mkSafety false 0 true 0 0) (mkPedal LOW HIGH 5900)
             6000000 []) w') <= 1)%nat.
Proof.
  destruct (one_weld_per_turn 0 200 (Nat.le_refl 200)
              (mkWorld default_params (mkSafety false 0 true 0 0)
                 (mkPedal LOW HIGH 5900) 6000000 [])) as [H _].
  - unfold params_in_range. cbn. lia.
  - apply H.
Defined.

(** The turn of the witness: the press fires, the command is turned
    down. *)
Example press_and_command_in_one_turn :
  option_map (fun w => tx_lines (trace w))
    (Blackpill.main_loop 0 200 LOW (Some "CMD,FIRE")
       (mkWorld default_params (mkSafety false 0 true 0 0) (mkPedal LOW HIGH 5900)
          6000000 []))
  = Some ["EVENT,PEDAL_PRESS"; "EVENT,WELD_START";
          "EVENT,WELD_DONE,total_ms=10,mode=1,d1=10,gap1=0,d2=0,gap2=0,d3=0,power_pct=100,preheat_en=0,preheat_ms=20,preheat_pct=30,preheat_gap_ms=3";
          "DENY,COOLDOWN,ms=500"].
Proof. vm_compute. reflexivity. Qed.

(** ** The ADS1256 driver *)

Lemma lor_shiftl_add (hi lo n : Z) :
  0 <= n -> 0 <= lo < 2 ^ n -> Z.lor (Z.shiftl hi n) lo = hi * 2 ^ n + lo.
Proof.
  intros Hn Hlo. rewrite Z.shiftl_mul_pow2 by lia.
  assert (Hland : Z.land (hi * 2 ^ n) lo = 0).
  { apply Z.bits_inj'. intros k Hk. rewrite Z.land_spec, Z.bits_0.
    destruct (Z.lt_ge_cases k n) as [Hlt|Hge].
    - rewrite Z.mul_pow2_bits_low by lia. reflexivity.
    - destruct (Z.eq_dec lo 0) as [->|Hnz]; [now rewrite Z.bits_0, andb_false_r|].
      rewrite (Z.bits_above_log2 lo k), andb_false_r; [reflexivity|lia|].
      apply Z.log2_lt_pow2; [lia|].
      apply Z.lt_le_trans with (2 ^ n); [lia|].
      apply Z.pow_le_mono_r; lia. }
  rewrite <- Z.lxor_lor by exact Hland.
  symmetry. apply Z.add_nocarry_lxor. exact Hland.
Qed.

Lemma land_pow2 (a n : Z) :
  0 <= n -> Z.land a (2 ^ n) = if Z.testbit a n then 2 ^ n else 0.
Proof.
  intros Hn. apply Z.bits_inj'. intros k Hk.
  rewrite Z.land_spec, Z.pow2_bits_eqb by lia.
  destruct (Z.eqb_spec n k) as [->|Hne].
  - destruct (Z.testbit a k); [|now rewrite Z.bits_0].
    rewrite Z.pow2_bits_eqb, Z.eqb_refl by lia. reflexivity.
  - rewrite andb_false_r. destruct (Z.testbit a n); [|now rewrite Z.bits_0].
    rewrite Z.pow2_bits_eqb by lia. symmetry. now apply Z.eqb_neq.
Qed.

Lemma bit23 (raw : Z) :
  0 <= raw < 16777216 ->
  (Z.land raw 8388608 =? 0) = (raw <? 8388608).
Proof.
  intros Hr. change 8388608 with (2 ^ 23) at 1. rewrite land_pow2 by lia.
  pose proof (Z.testbit_spec' raw 23 ltac:(lia)) as Hb.
  change (2 ^ 23) with 8388608 in *.
  assert (Hq : 0 <= raw / 8388608 < 2).
  { split; [apply Z.div_pos; lia|apply Z.div_lt_upper_bound; lia]. }
  destruct (Z.ltb_spec raw 8388608) as [Hlt|Hge].
  - rewrite Z.div_small in Hb by lia. destruct (Z.testbit raw 23); [discriminate|].
    reflexivity.
  - assert (raw / 8388608 = 1).
    { assert (1 <= raw / 8388608) by (apply Z.div_le_lower_bound; lia). lia. }
    rewrite H in Hb. destruct (Z.testbit raw 23); [reflexivity|discriminate].
Qed.

Lemma sign_extend_value (b0 b1 b2 : Z) :
  0 <= b0 < 256 -> 0 <= b1 < 256 -> 0 <= b2 < 256 ->
  Ads1256.sign_extend b0 b1 b2 = Ads1256.signed24 (65536 * b0 + 256 * b1 + b2).
Proof.
  intros H0 H1 H2. unfold Ads1256.sign_extend, Ads1256.signed24. cbv zeta.
  assert (E1 : Z.lor (Z.shiftl b0 16) (Z.shiftl b1 8) = 65536 * b0 + 256 * b1).
  { rewrite (Z.shiftl_mul_pow2 b1 8) by lia.
    rewrite lor_shiftl_add by (change (2 ^ 8) with 256; change (2 ^ 16) with 65536; lia).
    change (2 ^ 8) with 256. change (2 ^ 16) with 65536. lia. }
  assert (E2 : Z.lor (65536 * b0 + 256 * b1) b2 = 65536 * b0 + 256 * b1 + b2).
  { replace (65536 * b0 + 256 * b1) with (Z.shiftl (256 * b0 + b1) 8)
      by (rewrite Z.shiftl_mul_pow2 by lia; change (2 ^ 8) with 256; lia).
    rewrite lor_shiftl_add by (change (2 ^ 8) with 256; lia).
    rewrite Z.shiftl_mul_pow2 by lia. change (2 ^ 8) with 256. lia. }
  rewrite E1, E2. set (raw := 65536 * b0 + 256 * b1 + b2).
  assert (Hr : 0 <= raw < 16777216) by (unfold raw; lia).
  rewrite (bit23 raw Hr).
  destruct (Z.ltb_spec raw 8388608) as [Hlt|Hge]; cbn [negb]; [reflexivity|].
  change 4278190080 with (Z.shiftl 255 24). rewrite Z.lor_comm.
  rewrite lor_shiftl_add by (change (2 ^ 24) with 16777216; lia).
  change (2 ^ 24) with 16777216. rewrite s32_high by lia. lia.
Qed.

(** [readData] returns the 24 bits the converter shifts out, first byte
    the most significant, as a two's-complement number: always between
    -2^23 and 2^23 - 1.  Every value in that range, sent as its three
    bytes, is read back as itself.  The read takes the three bytes off
    the bus in one chip-select frame. *)
Theorem readData_sign_extends (a : Ads1256.Adc) (b0 b1 b2 : Z) (rest : list Z) :
  Ads1256.attached a = true ->
  Ads1256.miso a = b0 :: b1 :: b2 :: rest ->
  0 <= b0 < 256 -> 0 <= b1 < 256 -> 0 <= b2 < 256 ->
  let r := Ads1256.readData a in
  fst r = Ads1256.signed24 (65536 * b0 + 256 * b1 + b2)
  /\ -8388608 <= fst r < 8388608
  /\ Ads1256.miso (snd r) = rest
  /\ Ads1256.bus (snd r)
     = Ads1256.bus a
       ++ [Ads1256.BeginTransaction; Ads1256.CsLow; Ads1256.Transfer 255;
           Ads1256.Transfer 255; Ads1256.Transfer 255; Ads1256.CsHigh;
           Ads1256.EndTransaction]
  /\ forall v : Z,
       -8388608 <= v < 8388608 ->
       b0 = (v / 65536) mod 256 -> b1 = (v / 256) mod 256 -> b2 = v mod 256 ->
       fst r = v.
Proof.
  intros Hat Hm H0 H1 H2 r.
  assert (Hv : fst r = Ads1256.signed24 (65536 * b0 + 256 * b1 + b2)).
  { unfold r, Ads1256.readData. rewrite Hat. cbn [negb].
    unfold Ads1256.transfer, Ads1256.csLow, Ads1256.csHigh, Ads1256.log.
    cbn [Ads1256.miso Ads1256.attached Ads1256.clock_us Ads1256.bus fst snd hd tl].
    rewrite Hm. cbn [hd tl fst].
    rewrite !u8_small by assumption. apply sign_extend_value; assumption. }
  split; [exact Hv|]. split.
  { rewrite Hv. unfold Ads1256.signed24.
    destruct (Z.ltb_spec (65536 * b0 + 256 * b1 + b2) 8388608); lia. }
  split.
  { unfold r, Ads1256.readData. rewrite Hat. cbn [negb].
    unfold Ads1256.transfer, Ads1256.csLow, Ads1256.csHigh, Ads1256.log.
    cbn [Ads1256.miso Ads1256.attached Ads1256.clock_us Ads1256.bus fst snd hd tl].
    rewrite Hm. reflexivity. }
  split.
  { unfold r, Ads1256.readData. rewrite Hat. cbn [negb].
    unfold Ads1256.transfer, Ads1256.csLow, Ads1256.csHigh, Ads1256.log.
    cbn [Ads1256.miso Ads1256.attached Ads1256.clock_us Ads1256.bus fst snd hd tl].
    rewrite <- !app_assoc. reflexivity. }
  intros v Hr E0 E1 E2. rewrite Hv. unfold Ads1256.signed24.
  assert (Hu : 65536 * b0 + 256 * b1 + b2 = v mod 16777216).
  { subst b0 b1 b2.
    pose proof (Z.div_mod v 256 ltac:(lia)) as D1.
    pose proof (Z.div_mod (v / 256) 256 ltac:(lia)) as D2.
    rewrite Z.div_div in D2 by lia. change (256 * 256) with 65536 in D2.
    pose proof (Z.div_mod (v / 65536) 256 ltac:(lia)) as D3.
    rewrite Z.div_div in D3 by lia. change (65536 * 256) with 16777216 in D3.
    pose proof (Z.div_mod v 16777216 ltac:(lia)) as D4.
    lia. }
  rewrite Hu.
  destruct (Z.lt_ge_cases v 0) as [Hneg|Hpos].
  - replace (v mod 16777216) with (v + 16777216)
      by (apply Z.mod_unique with (q := -1); lia).
    destruct (Z.ltb_spec (v + 16777216) 8388608); lia.
  - rewrite Z.mod_small by lia.
    destruct (Z.ltb_spec v 8388608); lia.
Qed.

Lemma readData_sign_extends_witness :
  fst (Ads1256.readData (Ads1256.mkAdc true [255; 255; 254] 0 [])) = -2.
Proof.
  destruct (readData_sign_extends (Ads1256.mkAdc true [255; 255; 254] 0 [])
              255 255 254 [] eq_refl eq_refl) as (_ & _ & _ & _ & H);
    [lia|lia|lia|].
  apply H; first [reflexivity | lia].
Defined.

Lemma framed_app (xs ys : list Ads1256.Bus) : forall sel : bool,
  Ads1256.framed sel xs = true ->
  Ads1256.framed sel (xs ++ ys) = Ads1256.framed false ys.
Proof.
  induction xs as [|e xs IH]; intros sel H.
  - cbn [Ads1256.framed] in H. destruct sel; [discriminate|reflexivity].
  - destruct e; cbn [app Ads1256.framed] in *;
      try (apply IH; exact H).
    + apply andb_prop in H as [H1 H2]. rewrite H1. cbn [andb]. apply IH, H2.
    + apply andb_prop in H as [H1 H2]. subst sel. cbn [andb]. apply IH, H2.
Qed.

Lemma transfers_app (xs ys : list Ads1256.Bus) :
  Ads1256.transfers (xs ++ ys) = Ads1256.transfers xs ++ Ads1256.transfers ys.
Proof.
  induction xs as [|e xs IH]; [reflexivity|].
  destruct e; cbn [app Ads1256.transfers]; rewrite IH; reflexivity.
Qed.

Lemma wreg_byte (base reg : Z) :
  base = 80 \/ base = 16 -> u8 (Z.lor base (Z.land reg 15)) = base + reg mod 16.
Proof.
  intros Hb. change 15 with (Z.ones 4). rewrite Z.land_ones by lia.
  change (2 ^ 4) with 16.
  pose proof (Z.mod_pos_bound reg 16 ltac:(lia)) as Hm.
  assert (E : Z.lor base (reg mod 16) = base + reg mod 16).
  { destruct Hb as [->| ->].
    - change 80 with (Z.shiftl 5 4).
      rewrite lor_shiftl_add by (change (2 ^ 4) with 16; lia). reflexivity.
    - change 16 with (Z.shiftl 1 4) at 1.
      rewrite lor_shiftl_add by (change (2 ^ 4) with 16; lia). reflexivity. }
  rewrite E. apply u8_small. destruct Hb as [->| ->]; lia.
Qed.

Ltac adc_unfold :=
  cbv beta iota zeta delta
    [Ads1256.call Ads1256.startContinuous Ads1256.stopContinuous
     Ads1256.switchToVoltageChannel Ads1256.switchToCurrentChannel
     Ads1256.readVoltageFast Ads1256.readCurrentFast Ads1256.sendCommand
     Ads1256.writeRegister Ads1256.readRegister Ads1256.readData
     Ads1256.transfer Ads1256.csLow Ads1256.csHigh Ads1256.log
     Ads1256.delayMicroseconds Ads1256.delay
     Ads1256.attached Ads1256.miso Ads1256.clock_us Ads1256.bus
     negb fst snd].

Section AdcCalls.

Variable drdyLow : Z -> bool.
Variable F : Type.
Variable volts_of_raw : Z -> F.
Variable amps_of_raw : Z -> F.

(** What one call adds to the trace is a whole number of frames. *)
Lemma call_frames (c : Ads1256.Call) (a : Ads1256.Adc) :
  exists evs,
    Ads1256.bus (Ads1256.call drdyLow F volts_of_raw amps_of_raw c a) = Ads1256.bus a ++ evs /\
    Ads1256.framed false evs = true /\
    Ads1256.attached (Ads1256.call drdyLow F volts_of_raw amps_of_raw c a) = Ads1256.attached a /\
    (Ads1256.attached a = false ->
     evs = [] /\ Ads1256.miso (Ads1256.call drdyLow F volts_of_raw amps_of_raw c a) = Ads1256.miso a).
Proof.
  destruct a as [at_ m t b]. destruct at_.
  - destruct c; adc_unfold;
      try destruct (drdyLow t); adc_unfold;
      (eexists; split;
       [rewrite <- ?app_assoc; cbn [app]; try reflexivity;
        rewrite <- (app_nil_r b) at 1; reflexivity
       |split; [reflexivity|split; [reflexivity|discriminate]]]).
  - destruct c; adc_unfold;
      (exists []; rewrite app_nil_r; auto).
Qed.

(** A driver that has not been given its bus by [begin] does nothing:
    no call reaches the bus or takes a byte from it, [readData] and
    [readRegister] return 0, and the two fast reads report that nothing
    was read. *)
Theorem detached_driver_is_inert (cs : list Ads1256.Call) (a : Ads1256.Adc) :
  Ads1256.attached a = false ->
  Ads1256.bus (Ads1256.calls drdyLow F volts_of_raw amps_of_raw cs a) = Ads1256.bus a
  /\ Ads1256.miso (Ads1256.calls drdyLow F volts_of_raw amps_of_raw cs a) = Ads1256.miso a
  /\ Ads1256.attached (Ads1256.calls drdyLow F volts_of_raw amps_of_raw cs a) = false
  /\ fst (Ads1256.readData a) = 0
  /\ (forall reg, fst (Ads1256.readRegister reg a) = 0)
  /\ fst (Ads1256.readVoltageFast drdyLow F volts_of_raw a) = None
  /\ fst (Ads1256.readCurrentFast drdyLow F amps_of_raw a) = None.
Proof.
  intros Hat.
  assert (H : Ads1256.bus (Ads1256.calls drdyLow F volts_of_raw amps_of_raw cs a) = Ads1256.bus a
              /\ Ads1256.miso (Ads1256.calls drdyLow F volts_of_raw amps_of_raw cs a) = Ads1256.miso a
              /\ Ads1256.attached (Ads1256.calls drdyLow F volts_of_raw amps_of_raw cs a) = false).
  { unfold Ads1256.calls. revert a Hat.
    induction cs as [|c cs IH]; intros a Hat; [auto|].
    cbn [fold_left].
    destruct (call_frames c a) as (evs & Hb & _ & Ha & Hd).
    destruct (Hd Hat) as [-> Hm]. rewrite app_nil_r in Hb.
    rewrite <- Hb, <- Hm. apply IH. rewrite Ha. exact Hat. }
  destruct H as (H1 & H2 & H3).
  split; [exact H1|]. split; [exact H2|]. split; [exact H3|].
  unfold Ads1256.readData, Ads1256.readRegister, Ads1256.readVoltageFast,
    Ads1256.readCurrentFast. rewrite Hat. cbn [negb fst]. auto.
Qed.

(** The chip select frames every transfer.  Through any sequence of
    calls, [csLow()] is called only while the chip is not selected, a byte
    is shifted only between a [csLow()] and the next [csHigh()], and every
    call returns with the chip not selected. *)
Theorem transfers_are_framed (cs : list Ads1256.Call) (a : Ads1256.Adc) :
  Ads1256.framed false (Ads1256.bus a) = true ->
  Ads1256.framed false (Ads1256.bus (Ads1256.calls drdyLow F volts_of_raw amps_of_raw cs a)) = true.
Proof.
  unfold Ads1256.calls. revert a.
  induction cs as [|c cs IH]; intros a Hf; [exact Hf|].
  cbn [fold_left]. apply IH.
  destruct (call_frames c a) as (evs & -> & He & _).
  rewrite (framed_app _ _ false Hf). exact He.
Qed.

(** The bytes of the channel operations.  Each one stops the continuous
    read ([SDATAC]) before it writes the multiplexer register and starts
    it again ([RDATAC]) afterwards.  [startContinuous] does not use its
    channel argument: whatever [ch], it selects AIN2-AIN3 as
    [switchToCurrentChannel] does and shifts out the same bytes. *)
Theorem channel_switch_bytes (a : Ads1256.Adc) (ch : Z) :
  Ads1256.attached a = true ->
  (exists evs,
      Ads1256.bus (Ads1256.switchToVoltageChannel a) = Ads1256.bus a ++ evs
      /\ Ads1256.transfers evs = [15; 81; 0; 1; 3])
  /\ (exists evs,
         Ads1256.bus (Ads1256.switchToCurrentChannel a) = Ads1256.bus a ++ evs
         /\ Ads1256.transfers evs = [15; 81; 0; 35; 3])
  /\ (exists evs,
         Ads1256.bus (Ads1256.startContinuous ch a) = Ads1256.bus a ++ evs
         /\ Ads1256.transfers evs = [15; 81; 0; 35; 3])
  /\ (exists evs,
         Ads1256.bus (Ads1256.stopContinuous a) = Ads1256.bus a ++ evs
         /\ Ads1256.transfers evs = [15]).
Proof.
  intros Hat. destruct a as [at_ m t b]. cbn in Hat. subst at_.
  repeat split; adc_unfold;
    (eexists; split; [rewrite <- ?app_assoc; cbn [app]; reflexivity|reflexivity]).
Qed.

(** A register is addressed by the low four bits of its number.
    [writeRegister] shifts out the write command to that register, a
    count byte of 0 (one register) and the value; [readRegister] shifts
    out the read command, the same count byte and a filler, and returns
    the byte that comes back with the filler.  Each is one frame. *)
Theorem register_access_bytes (a : Ads1256.Adc) (reg value : Z) :
  Ads1256.attached a = true ->
  Ads1256.bus (Ads1256.writeRegister reg value a)
  = Ads1256.bus a
    ++ [Ads1256.BeginTransaction; Ads1256.CsLow;
        Ads1256.Transfer (80 + reg mod 16); Ads1256.Transfer 0;
        Ads1256.Transfer (value mod 256); Ads1256.CsHigh;
        Ads1256.EndTransaction; Ads1256.Delay 5]
  /\ Ads1256.bus (snd (Ads1256.readRegister reg a))
     = Ads1256.bus a
       ++ [Ads1256.BeginTransaction; Ads1256.CsLow;
           Ads1256.Transfer (16 + reg mod 16); Ads1256.Transfer 0;
           Ads1256.Delay 5; Ads1256.Transfer 255; Ads1256.CsHigh;
           Ads1256.EndTransaction]
  /\ fst (Ads1256.readRegister reg a) = nth 2 (Ads1256.miso a) 0 mod 256
  /\ Ads1256.writeRegister (reg + 16) value a = Ads1256.writeRegister reg value a.
Proof.
  intros Hat. destruct a as [at_ m t b]. cbn in Hat. subst at_.
  assert (Hw : forall r, Ads1256.writeRegister r value (Ads1256.mkAdc true m t b)
                         = Ads1256.mkAdc true (tl (tl (tl m))) (t + 5)
                             (b ++ [Ads1256.BeginTransaction; Ads1256.CsLow;
                                    Ads1256.Transfer (80 + r mod 16); Ads1256.Transfer 0;
                                    Ads1256.Transfer (value mod 256); Ads1256.CsHigh;
                                    Ads1256.EndTransaction; Ads1256.Delay 5])).
  { intros r. adc_unfold. unfold Ads1256.CMD_WREG.
    rewrite (wreg_byte 80 r) by auto.
    rewrite <- !app_assoc. reflexivity. }
  split; [rewrite Hw; reflexivity|]. split; [|split].
  - adc_unfold. unfold Ads1256.CMD_RREG. rewrite (wreg_byte 16 reg) by auto.
    rewrite <- !app_assoc. reflexivity.
  - adc_unfold. destruct m as [|x [|y [|z m]]]; reflexivity.
  - rewrite !Hw. do 4 f_equal.
    replace (reg + 16) with (reg + 1 * 16) by lia. now rewrite Z.mod_add by lia.
Qed.

End AdcCalls.

Lemma detached_driver_is_inert_witness :
  Ads1256.bus
    (Ads1256.calls (fun _ => true) Z (fun raw => raw) (fun raw => raw)
       [Ads1256.CallStartContinuous 0; Ads1256.CallReadVoltageFast;
        Ads1256.CallWriteRegister 1 35]
       (Ads1256.constructed [1; 2; 3]))
  = [].
Proof.
  apply (detached_driver_is_inert (fun _ => true) Z (fun raw => raw) (fun raw => raw)
           [Ads1256.CallStartContinuous 0; Ads1256.CallReadVoltageFast;
            Ads1256.CallWriteRegister 1 35]
           (Ads1256.constructed [1; 2; 3])).
  reflexivity.
Defined.

Lemma transfers_are_framed_witness :
  Ads1256.framed false
    (Ads1256.bus
       (Ads1256.calls (fun _ => true) Z (fun raw => raw) (fun raw => raw)
          [Ads1256.CallSwitchToVoltageChannel; Ads1256.CallReadVoltageFast;
           Ads1256.CallSwitchToCurrentChannel; Ads1256.CallReadCurrentFast]
          (Ads1256.mkAdc true [0; 0; 0; 0; 0; 127; 255; 255] 0 [])))
  = true.
Proof.
  apply (transfers_are_framed (fun _ => true) Z (fun raw => raw) (fun raw => raw)).
  reflexivity.
Defined.

Lemma channel_switch_bytes_witness :
  exists evs,
    Ads1256.bus (Ads1256.startContinuous 7 (Ads1256.mkAdc true [] 0 [])) = [] ++ evs
    /\ Ads1256.transfers evs = [15; 81; 0; 35; 3].
Proof.
  destruct (channel_switch_bytes (Ads1256.mkAdc true [] 0 []) 7 eq_refl)
    as (_ & _ & H & _).
  exact H.
Defined.

Lemma register_access_bytes_witness :
  Ads1256.writeRegister 19 240 (Ads1256.mkAdc true [] 0 [])
  = Ads1256.writeRegister 3 240 (Ads1256.mkAdc true [] 0 []).
Proof.
  destruct (register_access_bytes (Ads1256.mkAdc true [] 0 []) 3 240 eq_refl)
    as (_ & _ & _ & H).
  exact H.
Defined.

Section AdcBegin.

Variable drdyLow : Z -> bool.

Lemma adc_millis_delay (a : Ads1256.Adc) :
  Ads1256.millis (Ads1256.delay 1 a) = u32 (Ads1256.millis a + 1).
Proof.
  unfold Ads1256.millis, Ads1256.delay, Ads1256.delayMicroseconds.
  cbn [Ads1256.clock_us]. change (1000 * 1) with (1 * 1000).
  rewrite Z.div_add by lia. now rewrite u32_add_l.
Qed.

Lemma wait_ready_ends (fuel : nat) : forall (k t0 : Z) (a : Ads1256.Adc),
  u32 (Ads1256.millis a - t0) = k -> 0 <= k <= 1000 ->
  (Z.to_nat (1000 - k) <= fuel)%nat ->
  exists n : Z,
    0 <= n <= 1000 - k /\
    Ads1256.wait_ready drdyLow fuel t0 a
    = Some (Ads1256.mkAdc (Ads1256.attached a) (Ads1256.miso a)
              (Ads1256.clock_us a + 1000 * n)
              (Ads1256.bus a ++ repeat (Ads1256.Delay 1000) (Z.to_nat n))) /\
    (n = 1000 - k \/ drdyLow (Ads1256.clock_us a + 1000 * n) = true).
Proof.
  assert (Hstay : forall a : Ads1256.Adc,
             Some a = Some (Ads1256.mkAdc (Ads1256.attached a) (Ads1256.miso a)
                              (Ads1256.clock_us a + 1000 * 0)
                              (Ads1256.bus a ++ repeat (Ads1256.Delay 1000) (Z.to_nat 0)))).
  { intros [at_ m t b]. cbn. now rewrite Z.add_0_r, app_nil_r. }
  induction fuel as [|fuel IH]; intros k t0 a Hk Hr Hf.
  - assert (Ek : k = 1000) by lia. exists 0.
    split; [lia|]. split; [|left; lia].
    cbn [Ads1256.wait_ready]. rewrite Hk, Ek. change (1000 <? 1000) with false.
    rewrite andb_false_r. apply Hstay.
  - cbn [Ads1256.wait_ready]. rewrite Hk.
    destruct (drdyLow (Ads1256.clock_us a)) eqn:Hd; cbn [negb andb].
    + exists 0. split; [lia|]. split; [apply Hstay|].
      right. now rewrite Z.mul_0_r, Z.add_0_r.
    + destruct (Z.ltb_spec k 1000) as [Hlt|Hge].
      * destruct (IH (k + 1) t0 (Ads1256.delay 1 a)) as (n & Hn & Hw & Hend).
        -- rewrite adc_millis_delay, u32_sub_l.
           replace (Ads1256.millis a + 1 - t0) with (Ads1256.millis a - t0 + 1) by lia.
           rewrite <- u32_add_l, Hk. apply u32_small. lia.
        -- lia.
        -- lia.
        -- exists (n + 1). split; [lia|]. split.
           ++ rewrite Hw. unfold Ads1256.delay, Ads1256.delayMicroseconds.
              cbn [Ads1256.attached Ads1256.miso Ads1256.clock_us Ads1256.bus].
              change (1000 * 1) with 1000.
              replace (Z.to_nat (n + 1)) with (S (Z.to_nat n)) by lia.
              cbn [repeat]. rewrite <- app_assoc. cbn [app].
              do 2 f_equal. lia.
           ++ destruct Hend as [->|Hend]; [left; lia|right].
              unfold Ads1256.delay, Ads1256.delayMicroseconds in Hend.
              cbn [Ads1256.clock_us] in Hend. change (1000 * 1) with 1000 in Hend.
              replace (Ads1256.clock_us a + 1000 * (n + 1))
                with (Ads1256.clock_us a + 1000 + 1000 * n) by lia.
              exact Hend.
      * exists 0. split; [lia|]. split; [apply Hstay|left; lia].
Qed.

Lemma transfers_delays (n : nat) :
  Ads1256.transfers (repeat (Ads1256.Delay 1000) n) = []
  /\ forall sel, Ads1256.framed sel (repeat (Ads1256.Delay 1000) n) = negb sel.
Proof. induction n as [|n [IH1 IH2]]; cbn; auto. Qed.

(** [begin] always comes back, and always with [true].  It resets and
    configures the converter, starts the self-calibration and then waits
    for the data-ready line for one second at most; when the line never
    goes low, as with no converter on the bus, the wait runs out and
    [begin] reports success all the same.  The bytes it shifts out are the
    same in either case. *)
Theorem begin_always_reports_success (fuel : nat) (a : Ads1256.Adc) :
  (1000 <= fuel)%nat ->
  exists (a' : Ads1256.Adc) (n : Z) (evs : list Ads1256.Bus),
    Ads1256.begin drdyLow fuel a = Some (true, a') /\
    Ads1256.attached a' = true /\
    0 <= n <= 1000 /\
    Ads1256.clock_us a' = Ads1256.clock_us a + 12015 + 1000 * n /\
    (n = 1000 \/ drdyLow (Ads1256.clock_us a') = true) /\
    Ads1256.bus a' = Ads1256.bus a ++ evs /\
    Ads1256.transfers evs = [15; 254; 15; 83; 0; 240; 82; 0; 0; 81; 0; 35; 240] /\
    Ads1256.framed false evs = true.
Proof.
  intros Hf. destruct a as [at_ m t b].
  unfold Ads1256.begin. cbv zeta.
  match goal with
  | |- context [Ads1256.wait_ready _ _ (Ads1256.millis ?x) _] => set (a1 := x)
  end.
  destruct (wait_ready_ends fuel 0 (Ads1256.millis a1) a1) as (n & Hn & -> & Hend).
  - rewrite Z.sub_diag. reflexivity.
  - lia.
  - lia.
  - assert (Hc : Ads1256.clock_us a1 = t + 12015).
    { unfold a1. adc_unfold. lia. }
    assert (Hb : exists e1, Ads1256.bus a1 = b ++ e1
                            /\ Ads1256.transfers e1
                               = [15; 254; 15; 83; 0; 240; 82; 0; 0; 81; 0; 35; 240]
                            /\ Ads1256.framed false e1 = true).
    { unfold a1. adc_unfold. eexists.
      split; [rewrite <- ?app_assoc; cbn [app]; reflexivity|].
      split; reflexivity. }
    destruct Hb as (e1 & Hb & Ht & Hfr).
    destruct (transfers_delays (Z.to_nat n)) as [Hd1 Hd2].
    eexists. exists n.
    exists (e1 ++ repeat (Ads1256.Delay 1000) (Z.to_nat n)
            ++ [Ads1256.Println "ADS1256: initialized at 30kSPS"]).
    split; [reflexivity|].
    split; [reflexivity|]. split; [lia|].
    split; [unfold Ads1256.log; cbn [Ads1256.clock_us]; rewrite Hc; lia|].
    split.
    { unfold Ads1256.log. cbn [Ads1256.clock_us].
      destruct Hend as [->|Hend]; [left; reflexivity|right; exact Hend]. }
    unfold Ads1256.log. cbn [Ads1256.bus Ads1256.attached Ads1256.miso Ads1256.clock_us].
    rewrite Hb, <- !app_assoc.
    split; [reflexivity|].
    split.
    + rewrite !transfers_app, Ht, Hd1. reflexivity.
    + rewrite (framed_app _ _ false Hfr), (framed_app _ _ false (Hd2 false)).
      reflexivity.
Qed.

End AdcBegin.

Lemma begin_always_reports_success_witness :
  exists a',
    Ads1256.begin (fun _ => false) 1000 (Ads1256.constructed []) = Some (true, a')
    /\ Ads1256.clock_us a' = 1012015.
Proof.
  destruct (begin_always_reports_success (fun _ => false) 1000 (Ads1256.constructed [])
              (Nat.le_refl 1000))
    as (a' & n & evs & Hb & _ & Hn & Hc & Hend & _).
  exists a'. split; [exact Hb|].
  destruct Hend as [->|Hend]; [exact Hc|discriminate].
Defined.
